(** * CRAS: software volume helpers of [cras_iodev.h] and the Bluetooth
    policy engine of [cras_bt_policy.c]

    A shallow embedding of the inline volume/gain helpers of the I/O device
    header and of the Bluetooth policy engine (profile switch, suspend and
    connection watch state machines), together with the properties of the
    specification that concern them. *)

From Stdlib Require Import ZArith NArith Lia String List.
From stdpp Require Import base option list gmap.

Open Scope Z_scope.
Set Warnings "-clear-no-such-hyp".

(** ** Machine integers *)

(** [unsigned int] is 32 bits wide; arithmetic on it wraps around. *)
Definition UINT_WIDTH : Z := 32.
Definition uint (z : Z) : Z := z mod 2 ^ UINT_WIDTH.

(** [long] is 64 bits wide, two's complement. *)
Definition LONG_WIDTH : Z := 64.
Definition long (z : Z) : Z :=
  (z + 2 ^ (LONG_WIDTH - 1)) mod 2 ^ LONG_WIDTH - 2 ^ (LONG_WIDTH - 1).

(** ** I/O nodes and I/O devices ([cras_iodev.h]) *)

(** The fields of [struct cras_ionode] the inline helpers read. *)
Record cras_ionode := {
  node_idx : Z;                  (* uint32_t idx *)
  plugged : Z;                   (* int plugged *)
  volume : Z;                    (* unsigned int volume *)
  capture_gain : Z;              (* long capture_gain *)
  node_software_volume_needed : Z; (* int software_volume_needed *)
  max_software_gain : Z;         (* long max_software_gain *)
  stable_id : Z                  (* unsigned int stable_id *)
}.

(** [struct cras_iodev_info]: only [idx] is used by the code below. *)
Record cras_iodev_info := { idx : Z }.

(** The scalar fields of [struct cras_iodev] the code below reads;
    [active_node] is a pointer that may be null. *)
Record cras_iodev := {
  info : cras_iodev_info;
  active_node : option cras_ionode;
  is_enabled : Z;
  software_volume_needed : Z
}.

(** Adjust the system volume based on the volume of the given node. *)
Definition cras_iodev_adjust_node_volume
  (node : cras_ionode) (system_volume : Z) : Z :=
  let node_vol_offset := uint (100 - volume node) in
  if system_volume >? node_vol_offset
  then uint (system_volume - node_vol_offset)
  else 0.

(** Get the volume scaler for the active node. *)
Definition cras_iodev_adjust_active_node_volume
  (iodev : cras_iodev) (system_volume : Z) : Z :=
  match active_node iodev with
  | None => system_volume
  | Some node => cras_iodev_adjust_node_volume node system_volume
  end.

(** Get the gain adjusted based on system for the active node. *)
Definition cras_iodev_adjust_active_node_gain
  (iodev : cras_iodev) (system_gain : Z) : Z :=
  match active_node iodev with
  | None => system_gain
  | Some node => long (capture_gain node + system_gain)
  end.

(** Returns true if the active node of the iodev needs software volume. *)
Definition cras_iodev_software_volume_needed (iodev : cras_iodev) : Z :=
  if negb (software_volume_needed iodev =? 0) then 1
  else match active_node iodev with
       | None => 0
       | Some node => node_software_volume_needed node
       end.

(** Returns maximum software gain for the iodev. *)
Definition cras_iodev_maximum_software_gain (iodev : cras_iodev) : Z :=
  if cras_iodev_software_volume_needed iodev =? 0 then 0
  else match active_node iodev with
       | None => 0
       | Some node => max_software_gain node
       end.

(** ** Pointers, memory faults and divergence *)

(** Addresses are natural numbers; the null pointer is address 0. *)
Abbreviation ptr := N (only parsing).
Definition NULL : ptr := 0%N.

(** Outcome of running a piece of C code: it returns, it dereferences an
    address that holds no object (undefined behaviour), or it loops forever. *)
Inductive res (A : Type) : Type :=
| Ok (a : A)
| Fault
| Hang.
Arguments Ok {A} a.
Arguments Fault {A}.
Arguments Hang {A}.

#[global] Instance res_ret : MRet res := λ A a, Ok a.
#[global] Instance res_bind : MBind res := λ A B f r,
  match r with
  | Ok a => f a
  | Fault => Fault
  | Hang => Hang
  end.

(** ** Intrusive doubly-linked lists ([utlist.h]) *)

(** The structs that are kept on a list carry [prev] and [next] fields. *)
Class DLNode (T : Type) := {
  prev : T → ptr;
  next : T → ptr;
  with_prev : ptr → T → T;
  with_next : ptr → T → T
}.

(** A list is its head pointer together with the memory holding its nodes. *)
Record dlist (T : Type) := { dl_head : ptr; dl_mem : gmap N T }.
Arguments dl_head {T} d.
Arguments dl_mem {T} d.

Section utlist.
Context {T : Type} `{DLNode T}.

Definition load (m : gmap N T) (p : ptr) : res T :=
  match m !! p with
  | Some n => Ok n
  | None => Fault
  end.

Definition store (m : gmap N T) (p : ptr) (f : T → T) : res (gmap N T) :=
  n ← load m p; Ok (<[p := f n]> m).

(** Modelled from the spec: the macro bodies of [utlist.h], which the policy
    source includes but which is not among the visible sources.  The spec
    describes the policy lists as intrusive doubly-linked lists searched
    linearly; the [prev]/[next] fields are those of the policy structs.  The
    list is not circular in [next]; the [prev] of the head points at the tail.
<<
    #define DL_APPEND(head, add)
      if (head) { (add)->prev = (head)->prev; (head)->prev->next = (add);
                  (head)->prev = (add); (add)->next = NULL; }
      else      { (head) = (add); (head)->prev = (head); (head)->next = NULL; }
>> *)
Definition DL_APPEND (d : dlist T) (add : ptr) : res (dlist T) :=
  let head := dl_head d in
  let m := dl_mem d in
  if decide (head = NULL) then
    m ← store m add (with_prev add);
    m ← store m add (with_next NULL);
    Ok {| dl_head := add; dl_mem := m |}
  else
    h ← load m head;
    m ← store m add (with_prev (prev h));
    h ← load m head;
    m ← store m (prev h) (with_next add);
    m ← store m head (with_prev add);
    m ← store m add (with_next NULL);
    Ok {| dl_head := head; dl_mem := m |}.

(** Modelled from the spec: see [DL_APPEND].
<<
    #define DL_DELETE(head, del)
      if ((del)->prev == (del)) { (head) = NULL; }
      else if ((del) == (head)) { (del)->next->prev = (del)->prev;
                                  (head) = (del)->next; }
      else { (del)->prev->next = (del)->next;
             if ((del)->next) { (del)->next->prev = (del)->prev; }
             else             { (head)->prev = (del)->prev; } }
>> *)
Definition DL_DELETE (d : dlist T) (del : ptr) : res (dlist T) :=
  let head := dl_head d in
  let m := dl_mem d in
  n ← load m del;
  if decide (prev n = del) then Ok {| dl_head := NULL; dl_mem := m |}
  else if decide (del = head) then
    m ← store m (next n) (with_prev (prev n));
    n ← load m del;
    Ok {| dl_head := next n; dl_mem := m |}
  else
    m ← store m (prev n) (with_next (next n));
    n ← load m del;
    if decide (next n = NULL) then
      m ← store m head (with_prev (prev n));
      Ok {| dl_head := head; dl_mem := m |}
    else
      m ← store m (next n) (with_prev (prev n));
      Ok {| dl_head := head; dl_mem := m |}.

(** [for (out = cur; out; out = out->next) if (out->field == val) break;]
    with a bound on the number of nodes visited. *)
Fixpoint dl_search_from {B : Type} `{EqDecision B} (fuel : nat)
  (m : gmap N T) (field : T → B) (val : B) (cur : ptr) : res ptr :=
  if decide (cur = NULL) then Ok NULL
  else match fuel with
       | O => Hang
       | S fuel =>
           n ← load m cur;
           if decide (field n = val) then Ok cur
           else dl_search_from fuel m field val (next n)
       end.

(** Modelled from the spec: see [DL_APPEND].  A walk that visits more nodes
    than the memory holds has met some node twice, so the [next] chain is
    cyclic and the loop of the macro does not terminate.
<<
    #define DL_SEARCH_SCALAR(head, out, field, val)
      DL_FOREACH(head, out) { if ((out)->field == (val)) break; }
>> *)
Definition DL_SEARCH_SCALAR {B : Type} `{EqDecision B}
  (d : dlist T) (field : T → B) (val : B) : res ptr :=
  dl_search_from (S (size (dl_mem d))) (dl_mem d) field val (dl_head d).

(** The nodes [DL_FOREACH] visits in its first [fuel] iterations. *)
Fixpoint dl_walk (fuel : nat) (m : gmap N T) (cur : ptr) : list ptr :=
  match fuel with
  | O => []
  | S fuel =>
      if decide (cur = NULL) then []
      else match m !! cur with
           | Some n => cur :: dl_walk fuel m (next n)
           | None => []
           end
  end.

End utlist.

(** *** Well-formed lists

    The laws of the [prev]/[next] fields, and what it means for a head
    pointer and a memory to hold the list of nodes [l]. *)

Class DLNodeLaws (T : Type) `{DLNode T} := {
  prev_with_prev v n : prev (with_prev v n) = v;
  next_with_prev v n : next (with_prev v n) = next n;
  prev_with_next v n : prev (with_next v n) = prev n;
  next_with_next v n : next (with_next v n) = v
}.

Section utlist_defs.
Context {T : Type} `{DLNode T}.

Fixpoint dl_seg (m : gmap N T) (pv : ptr) (l : list ptr) (nx : ptr) : Prop :=
  match l with
  | [] => True
  | p :: l' =>
      p ≠ NULL ∧
      ∃ n, m !! p = Some n ∧ prev n = pv ∧ next n = hd nx l' ∧ dl_seg m p l' nx
  end.

Definition dl_list (d : dlist T) (l : list ptr) : Prop :=
  NoDup l ∧ dl_head d = hd NULL l ∧ dl_seg (dl_mem d) (List.last l NULL) l NULL.

Fixpoint dl_find {B : Type} `{EqDecision B} (m : gmap N T) (field : T → B)
  (val : B) (l : list ptr) : ptr :=
  match l with
  | [] => NULL
  | p :: l =>
      match m !! p with
      | Some n => if decide (field n = val) then p else dl_find m field val l
      | None => NULL
      end
  end.

Inductive relinked : T → T → Prop :=
| relinked_refl n : relinked n n
| relinked_prev v n n' : relinked n n' → relinked n (with_prev v n')
| relinked_next v n n' : relinked n n' → relinked n (with_next v n').

Definition mem_relinked (m m' : gmap N T) : Prop :=
  ∀ p, match m !! p, m' !! p with
       | Some n, Some n' => relinked n n'
       | None, None => True
       | _, _ => False
       end.
End utlist_defs.

(** ** Bluetooth devices ([cras_bt_device.h]) *)

(** All the reasons for when CRAS schedule a suspend to BT device. *)
Inductive cras_bt_policy_suspend_reason :=
| A2DP_LONG_TX_FAILURE
| A2DP_TX_FATAL_ERROR
| CONN_WATCH_TIME_OUT
| HFP_SCO_SOCKET_ERROR
| HFP_AG_START_FAILURE
| UNEXPECTED_PROFILE_DROP.

#[global] Instance suspend_reason_eq_dec :
  EqDecision cras_bt_policy_suspend_reason.
Proof. solve_decision. Defined.

(** The numeric value of a reason, in declaration order. *)
Definition suspend_reason_code (r : cras_bt_policy_suspend_reason) : Z :=
  match r with
  | A2DP_LONG_TX_FAILURE => 0
  | A2DP_TX_FATAL_ERROR => 1
  | CONN_WATCH_TIME_OUT => 2
  | HFP_SCO_SOCKET_ERROR => 3
  | HFP_AG_START_FAILURE => 4
  | UNEXPECTED_PROFILE_DROP => 5
  end.

(** [enum cras_bt_device_profile]: one bit per profile. *)
Definition CRAS_BT_DEVICE_PROFILE_A2DP_SOURCE : Z := Z.shiftl 1 0.
Definition CRAS_BT_DEVICE_PROFILE_A2DP_SINK : Z := Z.shiftl 1 1.
Definition CRAS_BT_DEVICE_PROFILE_AVRCP_REMOTE : Z := Z.shiftl 1 2.
Definition CRAS_BT_DEVICE_PROFILE_AVRCP_TARGET : Z := Z.shiftl 1 3.
Definition CRAS_BT_DEVICE_PROFILE_HFP_HANDSFREE : Z := Z.shiftl 1 4.
Definition CRAS_BT_DEVICE_PROFILE_HFP_AUDIOGATEWAY : Z := Z.shiftl 1 5.
Definition CRAS_BT_DEVICE_PROFILE_HSP_HEADSET : Z := Z.shiftl 1 6.
Definition CRAS_BT_DEVICE_PROFILE_HSP_AUDIOGATEWAY : Z := Z.shiftl 1 7.

(** Modelled from the spec: [enum CRAS_STREAM_DIRECTION] of [cras_types.h],
    which is not among the visible sources.  The spec gives a BT device "up to
    two attached iodev slots indexed by direction"; the loop
    [for (dir = 0; dir < CRAS_NUM_DIRECTIONS; dir++)] visits the output slot,
    then the input slot. *)
Inductive CRAS_STREAM_DIRECTION := CRAS_STREAM_OUTPUT | CRAS_STREAM_INPUT.

#[global] Instance direction_eq_dec : EqDecision CRAS_STREAM_DIRECTION.
Proof. solve_decision. Defined.

Definition CRAS_NUM_DIRECTIONS : list CRAS_STREAM_DIRECTION :=
  [CRAS_STREAM_OUTPUT; CRAS_STREAM_INPUT].

(** Modelled from the spec: [struct cras_bt_device], defined in
    [cras_bt_device.c], which is not among the visible sources.  Of the
    attributes the spec lists, the policy code reads the bus connection, the
    bitmask of supported profiles, the bitmask of connected profiles and the
    iodev slots indexed by direction. *)
Record cras_bt_device := {
  conn : ptr;
  profiles : Z;
  connected_profiles : Z;
  bt_iodevs : CRAS_STREAM_DIRECTION → option cras_iodev
}.

(** Modelled from the spec: the registry's per-profile query predicate
    [supports_profile] over the bitmask of supported profiles. *)
Definition cras_bt_device_supports_profile
  (device : cras_bt_device) (profile : Z) : bool :=
  negb (Z.land (profiles device) profile =? 0).

(** Modelled from the spec: the registry's per-profile query predicate
    [is_profile_connected] over the bitmask of connected profiles. *)
Definition cras_bt_device_is_profile_connected
  (device : cras_bt_device) (profile : Z) : bool :=
  negb (Z.land (connected_profiles device) profile =? 0).

(** The profile UUIDs the policy passes to the registry
    ([cras_bt_constants.h]); only their identity matters here. *)
Inductive bt_uuid := A2DP_SINK_UUID | HFP_HF_UUID.

(** ** Calls into collaborators *)

Inductive bt_log_event := BT_DEV_SUSPEND_CB | BT_DEV_CONN_WATCH_CB.
Inductive syslog_priority := LOG_ERR | LOG_DEBUG.

(** What the policy engine does to the rest of the server: each constructor
    is one call, with its arguments.  The calls are recorded in the order in
    which they are made; they do not call back into the policy engine. *)
Inductive event :=
| E_cras_iodev_list_suspend_dev (dev_idx : Z)
| E_cras_iodev_list_resume_dev (dev_idx : Z)
| E_update_active_node (iodev : cras_iodev) (node_idx dev_enabled : Z)
| E_BTLOG (ev : bt_log_event) (data1 data2 : Z)
| E_syslog (priority : syslog_priority) (format : string) (args : list Z)
| E_cras_a2dp_suspend_connected_device (device : ptr)
| E_cras_hfp_ag_suspend_connected_device (device : ptr)
| E_cras_bt_device_disconnect (conn : ptr) (device : ptr)
| E_cras_bt_device_connect_profile (conn : ptr) (device : ptr) (uuid : bt_uuid)
| E_cras_bt_device_remove_conflict (device : ptr)
| E_cras_a2dp_start (device : ptr)
| E_cras_hfp_ag_start (device : ptr)
| E_cras_bt_device_set_nodes_plugged (device : ptr) (plugged : Z).

(** ** Timer manager ([cras_tm.h]) *)

(** The three callbacks the policy engine registers. *)
Inductive timer_cb :=
| profile_switch_delay_cb_fn
| suspend_cb_fn
| conn_watch_cb_fn.

#[global] Instance timer_cb_eq_dec : EqDecision timer_cb.
Proof. solve_decision. Defined.

(** Modelled from the spec: [struct cras_timer] and [struct cras_tm] of the
    timer manager, which is not among the visible sources: "one-shot entry
    scheduled in milliseconds, with a callback and an opaque argument.
    Cancellable by handle."  [ts] is the expiry time in milliseconds on the
    clock of the main loop; [timers] is kept in registration order. *)
Record cras_timer := {
  timer_id : ptr;
  ts : Z;
  cb : timer_cb;
  cb_data : ptr
}.

#[global] Instance cras_timer_eq_dec : EqDecision cras_timer.
Proof. solve_decision. Defined.

Record cras_tm := {
  tm_now : Z;
  tm_next_id : ptr;
  timers : list cras_timer
}.

(** Modelled from the spec: "[create_timer(tm, ms, cb, arg)] returns a
    handle". *)
Definition cras_tm_create_timer
  (tm : cras_tm) (ms : Z) (cb : timer_cb) (cb_data : ptr) : cras_tm * ptr :=
  let t := {| timer_id := tm_next_id tm; ts := tm_now tm + ms;
              cb := cb; cb_data := cb_data |} in
  ({| tm_now := tm_now tm; tm_next_id := N.succ (tm_next_id tm);
      timers := timers tm ++ [t] |}, tm_next_id tm).

(** Modelled from the spec: "[cancel_timer(tm, h)] is always safe, including
    after expiry has been dispatched (in which case it is a no-op).  Timers
    never fire after cancellation". *)
Definition cras_tm_cancel_timer (tm : cras_tm) (t : ptr) : cras_tm :=
  {| tm_now := tm_now tm; tm_next_id := tm_next_id tm;
     timers := filter (λ x, timer_id x ≠ t) (timers tm) |}.

(** Modelled from the spec: "Timer callbacks run in order of expiry deadline,
    ties broken by registration order."  The timer that expires next. *)
Fixpoint earliest (l : list cras_timer) : option cras_timer :=
  match l with
  | [] => None
  | t :: l =>
      match earliest l with
      | Some u => if ts u <? ts t then Some u else Some t
      | None => Some t
      end
  end.

Definition cras_tm_next (tm : cras_tm) : option cras_timer :=
  earliest (timers tm).

(** ** Policy records ([cras_bt_policy.c]) *)

(** Check profile connections every 2 seconds and retry 30 times maximum. *)
Definition CONN_WATCH_PERIOD_MS : Z := 2000.
Definition CONN_WATCH_MAX_RETRIES : Z := 30.
Definition PROFILE_SWITCH_DELAY_MS : Z := 500.

Inductive BT_POLICY_COMMAND :=
| BT_POLICY_SWITCH_PROFILE
| BT_POLICY_SCHEDULE_SUSPEND
| BT_POLICY_CANCEL_SUSPEND.

Record profile_switch_policy := {
  psp_device : ptr;
  psp_timer : ptr;
  psp_prev : ptr;
  psp_next : ptr
}.

Record suspend_policy := {
  sp_device : ptr;
  sp_suspend_reason : cras_bt_policy_suspend_reason;
  sp_timer : ptr;
  sp_prev : ptr;
  sp_next : ptr
}.

Record connection_watch := {
  cw_device : ptr;
  cw_retries_left : Z;
  cw_timer : ptr;
  cw_prev : ptr;
  cw_next : ptr
}.

#[global] Instance profile_switch_policy_node : DLNode profile_switch_policy := {
  prev := psp_prev;
  next := psp_next;
  with_prev v n := {| psp_device := psp_device n; psp_timer := psp_timer n;
                      psp_prev := v; psp_next := psp_next n |};
  with_next v n := {| psp_device := psp_device n; psp_timer := psp_timer n;
                      psp_prev := psp_prev n; psp_next := v |}
}.

#[global] Instance suspend_policy_node : DLNode suspend_policy := {
  prev := sp_prev;
  next := sp_next;
  with_prev v n := {| sp_device := sp_device n;
                      sp_suspend_reason := sp_suspend_reason n;
                      sp_timer := sp_timer n;
                      sp_prev := v; sp_next := sp_next n |};
  with_next v n := {| sp_device := sp_device n;
                      sp_suspend_reason := sp_suspend_reason n;
                      sp_timer := sp_timer n;
                      sp_prev := sp_prev n; sp_next := v |}
}.

#[global] Instance connection_watch_node : DLNode connection_watch := {
  prev := cw_prev;
  next := cw_next;
  with_prev v n := {| cw_device := cw_device n;
                      cw_retries_left := cw_retries_left n;
                      cw_timer := cw_timer n;
                      cw_prev := v; cw_next := cw_next n |};
  with_next v n := {| cw_device := cw_device n;
                      cw_retries_left := cw_retries_left n;
                      cw_timer := cw_timer n;
                      cw_prev := cw_prev n; cw_next := v |}
}.

(** Field assignments [policy->field = v]. *)
Definition psp_set_device (v : ptr) (n : profile_switch_policy) :=
  {| psp_device := v; psp_timer := psp_timer n;
     psp_prev := psp_prev n; psp_next := psp_next n |}.
Definition psp_set_timer (v : ptr) (n : profile_switch_policy) :=
  {| psp_device := psp_device n; psp_timer := v;
     psp_prev := psp_prev n; psp_next := psp_next n |}.

Definition sp_set_device (v : ptr) (n : suspend_policy) :=
  {| sp_device := v; sp_suspend_reason := sp_suspend_reason n;
     sp_timer := sp_timer n; sp_prev := sp_prev n; sp_next := sp_next n |}.
Definition sp_set_suspend_reason
  (v : cras_bt_policy_suspend_reason) (n : suspend_policy) :=
  {| sp_device := sp_device n; sp_suspend_reason := v;
     sp_timer := sp_timer n; sp_prev := sp_prev n; sp_next := sp_next n |}.
Definition sp_set_timer (v : ptr) (n : suspend_policy) :=
  {| sp_device := sp_device n; sp_suspend_reason := sp_suspend_reason n;
     sp_timer := v; sp_prev := sp_prev n; sp_next := sp_next n |}.

Definition cw_set_device (v : ptr) (n : connection_watch) :=
  {| cw_device := v; cw_retries_left := cw_retries_left n;
     cw_timer := cw_timer n; cw_prev := cw_prev n; cw_next := cw_next n |}.
Definition cw_set_retries_left (v : Z) (n : connection_watch) :=
  {| cw_device := cw_device n; cw_retries_left := v;
     cw_timer := cw_timer n; cw_prev := cw_prev n; cw_next := cw_next n |}.
Definition cw_set_timer (v : ptr) (n : connection_watch) :=
  {| cw_device := cw_device n; cw_retries_left := cw_retries_left n;
     cw_timer := v; cw_prev := cw_prev n; cw_next := cw_next n |}.

(** The fields of a record other than its links. *)
Definition psp_payload (n : profile_switch_policy) : ptr * ptr :=
  (psp_device n, psp_timer n).
Definition sp_payload (n : suspend_policy)
  : ptr * cras_bt_policy_suspend_reason * ptr :=
  (sp_device n, sp_suspend_reason n, sp_timer n).
Definition cw_payload (n : connection_watch) : ptr * Z * ptr :=
  (cw_device n, cw_retries_left n, cw_timer n).

(** What [calloc] returns for one policy record: all fields zero. *)
Definition psp_zero : profile_switch_policy :=
  {| psp_device := NULL; psp_timer := NULL; psp_prev := NULL; psp_next := NULL |}.
Definition sp_zero : suspend_policy :=
  {| sp_device := NULL; sp_suspend_reason := A2DP_LONG_TX_FAILURE;
     sp_timer := NULL; sp_prev := NULL; sp_next := NULL |}.
Definition cw_zero : connection_watch :=
  {| cw_device := NULL; cw_retries_left := 0;
     cw_timer := NULL; cw_prev := NULL; cw_next := NULL |}.

(** ** State of the policy engine *)

(** The globals of [cras_bt_policy.c] and the part of the rest of the server
    the policy code reads: the timer manager returned by
    [cras_system_state_get_tm], the three policy lists with the memory of
    their records, the next address [calloc] hands out, the memory of the
    BT device structs (owned by the registry), the value [cras_hfp_ag_start]
    returns for each device, and the calls made so far. *)
Record policy_state := {
  tm : cras_tm;
  brk : ptr;
  profile_switch_policies : dlist profile_switch_policy;
  suspend_policies : dlist suspend_policy;
  conn_watch_policies : dlist connection_watch;
  bt_devices : ptr → cras_bt_device;
  hfp_ag_start_rc : ptr → Z;
  trace : list event
}.

Definition set_tm (v : cras_tm) (s : policy_state) : policy_state :=
  {| tm := v; brk := brk s;
     profile_switch_policies := profile_switch_policies s;
     suspend_policies := suspend_policies s;
     conn_watch_policies := conn_watch_policies s;
     bt_devices := bt_devices s; hfp_ag_start_rc := hfp_ag_start_rc s;
     trace := trace s |}.

Definition set_brk (v : ptr) (s : policy_state) : policy_state :=
  {| tm := tm s; brk := v;
     profile_switch_policies := profile_switch_policies s;
     suspend_policies := suspend_policies s;
     conn_watch_policies := conn_watch_policies s;
     bt_devices := bt_devices s; hfp_ag_start_rc := hfp_ag_start_rc s;
     trace := trace s |}.

Definition set_profile_switch_policies
  (v : dlist profile_switch_policy) (s : policy_state) : policy_state :=
  {| tm := tm s; brk := brk s;
     profile_switch_policies := v;
     suspend_policies := suspend_policies s;
     conn_watch_policies := conn_watch_policies s;
     bt_devices := bt_devices s; hfp_ag_start_rc := hfp_ag_start_rc s;
     trace := trace s |}.

Definition set_suspend_policies
  (v : dlist suspend_policy) (s : policy_state) : policy_state :=
  {| tm := tm s; brk := brk s;
     profile_switch_policies := profile_switch_policies s;
     suspend_policies := v;
     conn_watch_policies := conn_watch_policies s;
     bt_devices := bt_devices s; hfp_ag_start_rc := hfp_ag_start_rc s;
     trace := trace s |}.

Definition set_conn_watch_policies
  (v : dlist connection_watch) (s : policy_state) : policy_state :=
  {| tm := tm s; brk := brk s;
     profile_switch_policies := profile_switch_policies s;
     suspend_policies := suspend_policies s;
     conn_watch_policies := v;
     bt_devices := bt_devices s; hfp_ag_start_rc := hfp_ag_start_rc s;
     trace := trace s |}.

Definition set_bt_devices
  (v : ptr → cras_bt_device) (s : policy_state) : policy_state :=
  {| tm := tm s; brk := brk s;
     profile_switch_policies := profile_switch_policies s;
     suspend_policies := suspend_policies s;
     conn_watch_policies := conn_watch_policies s;
     bt_devices := v; hfp_ag_start_rc := hfp_ag_start_rc s;
     trace := trace s |}.

Definition set_trace (v : list event) (s : policy_state) : policy_state :=
  {| tm := tm s; brk := brk s;
     profile_switch_policies := profile_switch_policies s;
     suspend_policies := suspend_policies s;
     conn_watch_policies := conn_watch_policies s;
     bt_devices := bt_devices s; hfp_ag_start_rc := hfp_ag_start_rc s;
     trace := v |}.

(** One of the three global lists, as a place in the state. *)
Record region (T : Type) := {
  rget : policy_state → dlist T;
  rset : dlist T → policy_state → policy_state
}.
Arguments rget {T} r s.
Arguments rset {T} r d s.

Definition PROFILE_SWITCH : region profile_switch_policy :=
  {| rget := profile_switch_policies; rset := set_profile_switch_policies |}.
Definition SUSPEND : region suspend_policy :=
  {| rget := suspend_policies; rset := set_suspend_policies |}.
Definition CONN_WATCH : region connection_watch :=
  {| rget := conn_watch_policies; rset := set_conn_watch_policies |}.

(** ** The monad of policy code: state, faults and divergence *)

Definition M (A : Type) : Type := policy_state → res (A * policy_state).

#[global] Instance M_ret : MRet M := λ A a s, Ok (a, s).
#[global] Instance M_bind : MBind M := λ A B f c s,
  match c s with
  | Ok (a, s') => f a s'
  | Fault => Fault
  | Hang => Hang
  end.

Definition gets {A : Type} (f : policy_state → A) : M A :=
  λ s, Ok (f s, s).
Definition modify (f : policy_state → policy_state) : M unit :=
  λ s, Ok (tt, f s).

(** A call into a collaborator. *)
Definition call (e : event) : M unit :=
  modify (λ s, set_trace (trace s ++ [e]) s).

Fixpoint for_each {A : Type} (l : list A) (body : A → M unit) : M unit :=
  match l with
  | [] => mret tt
  | x :: l => body x;; for_each l body
  end.

Section region_ops.
Context {T : Type} `{DLNode T} (R : region T).

(** [DL_SEARCH_SCALAR(list, out, field, val)] *)
Definition search {B : Type} `{EqDecision B} (field : T → B) (val : B)
  : M ptr :=
  λ s, out ← DL_SEARCH_SCALAR (rget R s) field val; Ok (out, s).

(** [*p] *)
Definition deref (p : ptr) : M T :=
  λ s, n ← load (dl_mem (rget R s)) p; Ok (n, s).

(** [p->field = v] *)
Definition assign (p : ptr) (f : T → T) : M unit :=
  λ s, m ← store (dl_mem (rget R s)) p f;
       Ok (tt, rset R {| dl_head := dl_head (rget R s); dl_mem := m |} s).

(** [calloc]: a fresh zeroed record; allocation is assumed to succeed. *)
Definition calloc (zero : T) : M ptr :=
  λ s, Ok (brk s,
           set_brk (N.succ (brk s))
             (rset R {| dl_head := dl_head (rget R s);
                        dl_mem := <[brk s := zero]> (dl_mem (rget R s)) |} s)).

(** [free(p)] *)
Definition free (p : ptr) : M unit :=
  λ s, _ ← load (dl_mem (rget R s)) p;
       Ok (tt, rset R {| dl_head := dl_head (rget R s);
                         dl_mem := delete p (dl_mem (rget R s)) |} s).

(** [DL_APPEND(list, p)] *)
Definition append (p : ptr) : M unit :=
  λ s, d ← DL_APPEND (rget R s) p; Ok (tt, rset R d s).

(** [DL_DELETE(list, p)] *)
Definition unlink (p : ptr) : M unit :=
  λ s, d ← DL_DELETE (rget R s) p; Ok (tt, rset R d s).

End region_ops.

(** [cras_tm_create_timer(tm, ms, cb, cb_data)] on the timer manager of the
    system state. *)
Definition create_timer (ms : Z) (cb : timer_cb) (cb_data : ptr) : M ptr :=
  λ s, let r := cras_tm_create_timer (tm s) ms cb cb_data in
       Ok (r.2, set_tm r.1 s).

(** [cras_tm_cancel_timer(tm, t)] *)
Definition cancel_timer (t : ptr) : M unit :=
  modify (λ s, set_tm (cras_tm_cancel_timer (tm s) t) s).

(** [*device] *)
Definition bt_device (device : ptr) : M cras_bt_device :=
  gets (λ s, bt_devices s device).

(** ** The policy engine ([cras_bt_policy.c]) *)

Definition profile_switch_delay_cb (timer : ptr) (arg : ptr) : M unit :=
  let policy := arg in
  p ← deref PROFILE_SWITCH policy;
  device ← bt_device (psp_device p);
  match bt_iodevs device CRAS_STREAM_OUTPUT with
  | Some iodev =>
      call (E_update_active_node iodev 0 1);;
      call (E_cras_iodev_list_resume_dev (idx (info iodev)))
  | None => mret tt
  end;;
  unlink PROFILE_SWITCH policy;;
  free PROFILE_SWITCH policy.

Definition switch_profile_with_delay (device : ptr) : M unit :=
  policy ← search PROFILE_SWITCH psp_device device;
  policy ← (if decide (policy = NULL) then
              calloc PROFILE_SWITCH psp_zero
            else
              p ← deref PROFILE_SWITCH policy;
              cancel_timer (psp_timer p);;
              assign PROFILE_SWITCH policy (psp_set_timer NULL);;
              mret policy);
  assign PROFILE_SWITCH policy (psp_set_device device);;
  t ← create_timer PROFILE_SWITCH_DELAY_MS profile_switch_delay_cb_fn policy;
  assign PROFILE_SWITCH policy (psp_set_timer t);;
  append PROFILE_SWITCH policy.

Definition switch_profile (device : ptr) (bt_iodev : option cras_iodev)
  : M unit :=
  for_each CRAS_NUM_DIRECTIONS (λ dir,
    d ← bt_device device;
    match bt_iodevs d dir with
    | None => mret tt
    | Some iodev => call (E_cras_iodev_list_suspend_dev (idx (info iodev)))
    end);;
  for_each CRAS_NUM_DIRECTIONS (λ dir,
    d ← bt_device device;
    match bt_iodevs d dir with
    | None => mret tt
    | Some iodev =>
        if decide (dir = CRAS_STREAM_INPUT) then
          call (E_update_active_node iodev 0 1);;
          call (E_cras_iodev_list_resume_dev (idx (info iodev)))
        else
          switch_profile_with_delay device
    end).

(** The message written to the system log for each suspend reason. *)
Definition suspend_reason_message (r : cras_bt_policy_suspend_reason)
  : string :=
  match r with
  | A2DP_LONG_TX_FAILURE => "Suspend dev: A2DP long Tx failure"
  | A2DP_TX_FATAL_ERROR => "Suspend dev: A2DP Tx fatal error"
  | CONN_WATCH_TIME_OUT => "Suspend dev: Conn watch times out"
  | HFP_SCO_SOCKET_ERROR => "Suspend dev: SCO socket error"
  | HFP_AG_START_FAILURE => "Suspend dev: HFP AG start failure"
  | UNEXPECTED_PROFILE_DROP => "Suspend dev: Unexpected profile drop"
  end%string.

Definition suspend_cb (timer : ptr) (arg : ptr) : M unit :=
  let policy := arg in
  p ← deref SUSPEND policy;
  device ← bt_device (sp_device p);
  call (E_BTLOG BT_DEV_SUSPEND_CB (profiles device)
          (suspend_reason_code (sp_suspend_reason p)));;
  call (E_syslog LOG_ERR (suspend_reason_message (sp_suspend_reason p)) []);;
  call (E_cras_a2dp_suspend_connected_device (sp_device p));;
  call (E_cras_hfp_ag_suspend_connected_device (sp_device p));;
  call (E_cras_bt_device_disconnect (conn device) (sp_device p));;
  unlink SUSPEND policy;;
  free SUSPEND policy.

Definition schedule_suspend (device : ptr) (msec : Z)
  (suspend_reason : cras_bt_policy_suspend_reason) : M unit :=
  policy ← search SUSPEND sp_device device;
  if decide (policy = NULL) then
    policy ← calloc SUSPEND sp_zero;
    assign SUSPEND policy (sp_set_device device);;
    assign SUSPEND policy (sp_set_suspend_reason suspend_reason);;
    t ← create_timer msec suspend_cb_fn policy;
    assign SUSPEND policy (sp_set_timer t);;
    append SUSPEND policy
  else mret tt.

Definition cancel_suspend (device : ptr) : M unit :=
  policy ← search SUSPEND sp_device device;
  if decide (policy = NULL) then mret tt
  else
    p ← deref SUSPEND policy;
    cancel_timer (sp_timer p);;
    unlink SUSPEND policy;;
    free SUSPEND policy.

(** [struct bt_policy_msg]; the header carries no information here. *)
Record bt_policy_msg := {
  cmd : BT_POLICY_COMMAND;
  msg_device : ptr;
  msg_dev : option cras_iodev;
  arg1 : Z;
  arg2 : cras_bt_policy_suspend_reason
}.

Definition process_bt_policy_msg (policy_msg : bt_policy_msg) : M unit :=
  match cmd policy_msg with
  | BT_POLICY_SWITCH_PROFILE =>
      switch_profile (msg_device policy_msg) (msg_dev policy_msg)
  | BT_POLICY_SCHEDULE_SUSPEND =>
      schedule_suspend (msg_device policy_msg) (arg1 policy_msg)
        (arg2 policy_msg)
  | BT_POLICY_CANCEL_SUSPEND => cancel_suspend (msg_device policy_msg)
  end.

(** The label [done_with_policy] of [conn_watch_cb]. *)
Definition done_with_policy (policy : ptr) : M unit :=
  unlink CONN_WATCH policy;;
  free CONN_WATCH policy.

(** [int] is 32 bits wide, two's complement. *)
Definition int (z : Z) : Z := (z + 2 ^ 31) mod 2 ^ 32 - 2 ^ 31.

(** Callback used to periodically check if supported profiles are
    connected. *)
Definition conn_watch_cb (timer : ptr) (arg : ptr) : M unit :=
  let policy := arg in
  p ← deref CONN_WATCH policy;
  let device := cw_device p in
  d ← bt_device device;
  call (E_BTLOG BT_DEV_CONN_WATCH_CB (cw_retries_left p) (profiles d));;
  assign CONN_WATCH policy (cw_set_timer NULL);;
  if decide (profiles d = 0) then done_with_policy policy
  else
    let a2dp_supported :=
      cras_bt_device_supports_profile d CRAS_BT_DEVICE_PROFILE_A2DP_SINK in
    let a2dp_connected :=
      cras_bt_device_is_profile_connected d CRAS_BT_DEVICE_PROFILE_A2DP_SINK in
    let hfp_supported :=
      cras_bt_device_supports_profile d CRAS_BT_DEVICE_PROFILE_HFP_HANDSFREE in
    let hfp_connected :=
      cras_bt_device_is_profile_connected d
        CRAS_BT_DEVICE_PROFILE_HFP_HANDSFREE in
    (if a2dp_supported && hfp_supported then
       (if negb a2dp_connected && hfp_connected then
          call (E_cras_bt_device_connect_profile (conn d) device
                  A2DP_SINK_UUID)
        else mret tt);;
       (if a2dp_connected && negb hfp_connected then
          call (E_cras_bt_device_connect_profile (conn d) device HFP_HF_UUID)
        else mret tt)
     else mret tt);;
    if negb (Bool.eqb a2dp_supported a2dp_connected)
       || negb (Bool.eqb hfp_supported hfp_connected) then
      p ← deref CONN_WATCH policy;
      call (E_syslog LOG_DEBUG "conn_watch_retries: %d" [cw_retries_left p]);;
      assign CONN_WATCH policy
        (cw_set_retries_left (int (cw_retries_left p - 1)));;
      p ← deref CONN_WATCH policy;
      if decide (cw_retries_left p = 0) then
        call (E_syslog LOG_ERR "Connection watch timeout." []);;
        schedule_suspend device 0 CONN_WATCH_TIME_OUT
      else
        t ← create_timer CONN_WATCH_PERIOD_MS conn_watch_cb_fn policy;
        assign CONN_WATCH policy (cw_set_timer t)
    else
      call (E_cras_bt_device_remove_conflict device);;
      d ← bt_device device;
      (if cras_bt_device_is_profile_connected d
            CRAS_BT_DEVICE_PROFILE_A2DP_SINK
       then call (E_cras_a2dp_start device)
       else mret tt);;
      d ← bt_device device;
      (if cras_bt_device_is_profile_connected d
            CRAS_BT_DEVICE_PROFILE_HFP_HANDSFREE
       then
         call (E_cras_hfp_ag_start device);;
         rc ← gets (λ s, hfp_ag_start_rc s device);
         if decide (rc = 0) then mret tt
         else
           call (E_syslog LOG_ERR "Start audio gateway failed, rc %d" [rc]);;
           schedule_suspend device 0 HFP_AG_START_FAILURE
       else mret tt);;
      call (E_cras_bt_device_set_nodes_plugged device 1);;
      done_with_policy policy.

Definition cras_bt_policy_start_connection_watch (device : ptr) : M Z :=
  policy ← search CONN_WATCH cw_device device;
  policy ← (if decide (policy = NULL) then
              policy ← calloc CONN_WATCH cw_zero;
              assign CONN_WATCH policy (cw_set_device device);;
              append CONN_WATCH policy;;
              mret policy
            else
              p ← deref CONN_WATCH policy;
              cancel_timer (cw_timer p);;
              mret policy);
  assign CONN_WATCH policy (cw_set_retries_left CONN_WATCH_MAX_RETRIES);;
  t ← create_timer CONN_WATCH_PERIOD_MS conn_watch_cb_fn policy;
  assign CONN_WATCH policy (cw_set_timer t);;
  mret 0.

Definition cras_bt_policy_stop_connection_watch (device : ptr) : M Z :=
  policy ← search CONN_WATCH cw_device device;
  (if decide (policy = NULL) then mret tt
   else
     p ← deref CONN_WATCH policy;
     cancel_timer (cw_timer p);;
     unlink CONN_WATCH policy;;
     free CONN_WATCH policy);;
  mret 0.

Definition cras_bt_policy_remove_device (device : ptr) : M unit :=
  policy ← search PROFILE_SWITCH psp_device device;
  (if decide (policy = NULL) then mret tt
   else
     unlink PROFILE_SWITCH policy;;
     p ← deref PROFILE_SWITCH policy;
     cancel_timer (psp_timer p);;
     free PROFILE_SWITCH policy);;
  cancel_suspend device;;
  _ ← cras_bt_policy_stop_connection_watch device;
  mret tt.

(** ** The main loop *)

(** The callback behind each function pointer. *)
Definition run_callback (t : cras_timer) : M unit :=
  match cb t with
  | profile_switch_delay_cb_fn => profile_switch_delay_cb (timer_id t) (cb_data t)
  | suspend_cb_fn => suspend_cb (timer_id t) (cb_data t)
  | conn_watch_cb_fn => conn_watch_cb (timer_id t) (cb_data t)
  end.

(** Modelled from the spec: the dispatch of one expired timer by the main
    loop.  The clock has reached the expiry time of [t]; [t] is one-shot, so
    it leaves the timer manager, and its callback runs. *)
Definition cras_tm_expire (t : cras_timer) (m : cras_tm) : cras_tm :=
  {| tm_now := Z.max (tm_now m) (ts t);
     tm_next_id := tm_next_id m;
     timers := filter (λ x, timer_id x ≠ timer_id t) (timers m) |}.

Definition cras_tm_fire (t : cras_timer) : M unit :=
  modify (λ s, set_tm (cras_tm_expire t (tm s)) s);;
  run_callback t.

(** One iteration of the main loop up to time [limit]: the next timer fires
    if it expires by [limit]; otherwise the loop sleeps until [limit]. *)
Definition main_loop_step (limit : Z) : M (option cras_timer) :=
  next_timer ← gets (λ s, cras_tm_next (tm s));
  match next_timer with
  | Some t =>
      if ts t <=? limit then cras_tm_fire t;; mret (Some t)
      else
        modify (λ s, set_tm {| tm_now := Z.max (tm_now (tm s)) limit;
                                tm_next_id := tm_next_id (tm s);
                                timers := timers (tm s) |} s);;
        mret None
  | None =>
      modify (λ s, set_tm {| tm_now := Z.max (tm_now (tm s)) limit;
                              tm_next_id := tm_next_id (tm s);
                              timers := timers (tm s) |} s);;
      mret None
  end.

(** ** Vocabulary of the properties *)

(** The records [DL_FOREACH] finds on a list. *)
Definition list_nodes {T : Type} `{DLNode T} (d : dlist T) : list ptr :=
  dl_walk (size (dl_mem d)) (dl_mem d) (dl_head d).

(** The records on a list that belong to [device]. *)
Definition records_of {T : Type} `{DLNode T} (device_of : T → ptr)
  (device : ptr) (d : dlist T) : list ptr :=
  filter (λ p, device_of <$> dl_mem d !! p = Some device) (list_nodes d).

(** The pending timers that will run callback [c] on record [policy]. *)
Definition timers_of (c : timer_cb) (policy : ptr) (t : cras_tm)
  : list cras_timer :=
  filter (λ x, cb x = c ∧ cb_data x = policy) (timers t).

(** The connect requests among a sequence of calls. *)
Definition connect_requests (calls : list event) : list (ptr * bt_uuid) :=
  omap (λ e, match e with
             | E_cras_bt_device_connect_profile _ device uuid =>
                 Some (device, uuid)
             | _ => None
             end) calls.

(** Timer handles are distinct and were handed out by the manager. *)
Record tm_wf (t : cras_tm) : Prop := {
  tm_ids_nodup : NoDup (timer_id <$> timers t);
  tm_ids_bound : ∀ x, x ∈ timers t → (timer_id x < tm_next_id t)%N;
  tm_ids_nonnull : ∀ x, x ∈ timers t → timer_id x ≠ NULL;
  tm_next_nonnull : tm_next_id t ≠ NULL
}.

(** The memory of a list holds exactly the records on the list, and all of
    them were handed out by [calloc]. *)
Definition region_wf {T : Type} `{DLNode T} (bound : ptr) (d : dlist T)
  (l : list ptr) : Prop :=
  bound ≠ NULL ∧
  dl_list d l ∧
  (∀ p, is_Some (dl_mem d !! p) → p ∈ l) ∧
  (∀ p, p ∈ l → (p < bound)%N).

Definition unique_device {T : Type} (device_of : T → ptr) (m : gmap N T)
  : Prop :=
  ∀ p q n n', m !! p = Some n → m !! q = Some n' →
    device_of n = device_of n' → p = q.

(** The suspend list [l] is well formed: one record per device, and every
    record has its pending timer. *)
Record suspend_inv (s : policy_state) (l : list ptr) : Prop := {
  si_wf : region_wf (brk s) (suspend_policies s) l;
  si_unique : unique_device sp_device (dl_mem (suspend_policies s));
  si_timer : ∀ p n, dl_mem (suspend_policies s) !! p = Some n →
    ∃ t, t ∈ timers (tm s) ∧ timer_id t = sp_timer n ∧
         cb t = suspend_cb_fn ∧ cb_data t = p;
  si_owner : ∀ t, t ∈ timers (tm s) → cb t = suspend_cb_fn →
    ∃ n, dl_mem (suspend_policies s) !! cb_data t = Some n ∧
         sp_timer n = timer_id t
}.

(** The connection watch list [l] is well formed: one record per device;
    every pending watch timer is the timer of its record; and the timer
    field of a record is null, or names a timer that has fired, or names
    the pending timer of the record. *)
Record conn_watch_inv (s : policy_state) (l : list ptr) : Prop := {
  ci_wf : region_wf (brk s) (conn_watch_policies s) l;
  ci_unique : unique_device cw_device (dl_mem (conn_watch_policies s));
  ci_owner : ∀ t, t ∈ timers (tm s) → cb t = conn_watch_cb_fn →
    ∃ n, dl_mem (conn_watch_policies s) !! cb_data t = Some n ∧
         cw_timer n = timer_id t;
  ci_field : ∀ p n t, dl_mem (conn_watch_policies s) !! p = Some n →
    t ∈ timers (tm s) → timer_id t = cw_timer n →
    cb t = conn_watch_cb_fn ∧ cb_data t = p;
  ci_bound : ∀ p n, dl_mem (conn_watch_policies s) !! p = Some n →
    (cw_timer n < tm_next_id (tm s))%N
}.

(** What [schedule_suspend] leaves alone: everything but the suspend list;
    it cancels no timer and creates at most timers of suspend records. *)
Record suspend_frame (s s' : policy_state) : Prop := {
  sf_ps : profile_switch_policies s' = profile_switch_policies s;
  sf_cw : conn_watch_policies s' = conn_watch_policies s;
  sf_devices : bt_devices s' = bt_devices s;
  sf_rc : hfp_ag_start_rc s' = hfp_ag_start_rc s;
  sf_trace : trace s' = trace s;
  sf_now : tm_now (tm s') = tm_now (tm s);
  sf_brk : (brk s ≤ brk s')%N;
  sf_next : (tm_next_id (tm s) ≤ tm_next_id (tm s'))%N;
  sf_old : ∀ x, x ∈ timers (tm s) → x ∈ timers (tm s');
  sf_new : ∀ x, x ∈ timers (tm s') →
    x ∈ timers (tm s) ∨
    (cb x = suspend_cb_fn ∧ (tm_next_id (tm s) ≤ timer_id x)%N)
}.

(** The invariant of the suspend and connection watch machines. *)
Definition policy_inv (s : policy_state) : Prop :=
  tm_wf (tm s) ∧ (∃ l, suspend_inv s l) ∧ (∃ l, conn_watch_inv s l).

(** A profile among A2DP sink and HFP hands-free is supported by the device
    and not connected. *)
Definition watch_pending (d : cras_bt_device) : bool :=
  (cras_bt_device_supports_profile d CRAS_BT_DEVICE_PROFILE_A2DP_SINK
   && negb (cras_bt_device_is_profile_connected d
              CRAS_BT_DEVICE_PROFILE_A2DP_SINK))
  || (cras_bt_device_supports_profile d CRAS_BT_DEVICE_PROFILE_HFP_HANDSFREE
      && negb (cras_bt_device_is_profile_connected d
                 CRAS_BT_DEVICE_PROFILE_HFP_HANDSFREE)).

(** The connect requests one tick of a connection watch makes for a device
    whose struct reads [d]. *)
Definition tick_connect_calls (device : ptr) (d : cras_bt_device)
  : list event :=
  let a2dp_supported :=
    cras_bt_device_supports_profile d CRAS_BT_DEVICE_PROFILE_A2DP_SINK in
  let a2dp_connected :=
    cras_bt_device_is_profile_connected d CRAS_BT_DEVICE_PROFILE_A2DP_SINK in
  let hfp_supported :=
    cras_bt_device_supports_profile d CRAS_BT_DEVICE_PROFILE_HFP_HANDSFREE in
  let hfp_connected :=
    cras_bt_device_is_profile_connected d
      CRAS_BT_DEVICE_PROFILE_HFP_HANDSFREE in
  if a2dp_supported && hfp_supported then
    (if negb a2dp_connected && hfp_connected then
       [E_cras_bt_device_connect_profile (conn d) device A2DP_SINK_UUID]
     else []) ++
    (if a2dp_connected && negb hfp_connected then
       [E_cras_bt_device_connect_profile (conn d) device HFP_HF_UUID]
     else [])
  else [].

(** Some watched profile is supported and connected differently: the
    condition under which a tick keeps the watch going. *)
Definition watch_mismatch (d : cras_bt_device) : bool :=
  negb (Bool.eqb
          (cras_bt_device_supports_profile d CRAS_BT_DEVICE_PROFILE_A2DP_SINK)
          (cras_bt_device_is_profile_connected d
             CRAS_BT_DEVICE_PROFILE_A2DP_SINK))
  || negb (Bool.eqb
             (cras_bt_device_supports_profile d
                CRAS_BT_DEVICE_PROFILE_HFP_HANDSFREE)
             (cras_bt_device_is_profile_connected d
                CRAS_BT_DEVICE_PROFILE_HFP_HANDSFREE)).

(** One tick of a connection watch: the registry has brought the device
    structs to [devices], and the armed timer of the watch record [policy]
    fires.  Nothing happens when the record has no armed timer. *)
Definition watch_tick (policy : ptr) (devices : ptr → cras_bt_device)
  : M bool :=
  modify (set_bt_devices devices);;
  t ← gets (λ s, head (timers_of conn_watch_cb_fn policy (tm s)));
  match t with
  | Some t => cras_tm_fire t;; mret true
  | None => mret false
  end.

Fixpoint watch_ticks (policy : ptr) (envs : list (ptr → cras_bt_device))
  : M unit :=
  match envs with
  | [] => mret tt
  | devices :: envs =>
      _ ← watch_tick policy devices; watch_ticks policy envs
  end.

(** ** Start-up state and sample devices *)

(** The policy at start-up ([cras_bt_policy_start]): the three lists are
    empty, no timer is pending and nothing has been allocated. *)
Definition policy_init (devices : ptr → cras_bt_device) (rc : ptr → Z)
  : policy_state :=
  {| tm := {| tm_now := 0; tm_next_id := 1%N; timers := [] |};
     brk := 1%N;
     profile_switch_policies := {| dl_head := NULL; dl_mem := ∅ |};
     suspend_policies := {| dl_head := NULL; dl_mem := ∅ |};
     conn_watch_policies := {| dl_head := NULL; dl_mem := ∅ |};
     bt_devices := devices;
     hfp_ag_start_rc := rc;
     trace := [] |}.

(** An iodev without nodes, told apart by its index. *)
Definition sample_iodev (i : Z) : cras_iodev :=
  {| info := {| idx := i |}; active_node := None; is_enabled := 1;
     software_volume_needed := 0 |}.

(** A device on bus connection 7 with the given profile masks and iodev
    slots. *)
Definition sample_device (supported connected : Z)
  (output input : option cras_iodev) : cras_bt_device :=
  {| conn := 7%N; profiles := supported; connected_profiles := connected;
     bt_iodevs := λ d, match d with
                       | CRAS_STREAM_OUTPUT => output
                       | CRAS_STREAM_INPUT => input
                       end |}.

(** The final state of a run, when it has one. *)
Definition final {A : Type} (r : res (A * policy_state)) : option policy_state :=
  match r with Ok (_, s) => Some s | _ => None end.

(** Devices that support A2DP sink and HFP hands-free, have nothing
    connected, and have an output iodev each, with the address of the device
    as its index. *)
Definition sample_devices : ptr → cras_bt_device :=
  λ p, sample_device
         (Z.lor CRAS_BT_DEVICE_PROFILE_A2DP_SINK
            CRAS_BT_DEVICE_PROFILE_HFP_HANDSFREE)
         0 (Some (sample_iodev (Z.of_N p))) None.

(** The start-up state with the sample devices; a state with a suspend
    pending for device 10; a state with a connection watch running for
    device 10. *)
Definition sample_init : policy_state := policy_init sample_devices (λ _, 0).

Definition sample_suspending : policy_state :=
  default sample_init
    (final (schedule_suspend 10%N 100 A2DP_LONG_TX_FAILURE sample_init)).

Definition sample_watching : policy_state :=
  default sample_init
    (final (cras_bt_policy_start_connection_watch 10%N sample_init)).

(** The pending timers that will run callback [c]. *)
Definition timers_for (c : timer_cb) (t : cras_tm) : list cras_timer :=
  filter (λ x, cb x = c) (timers t).

(** ** Bursts of profile switches *)

(** The main loop iterates once for each of [limits]; it returns the timers
    it has fired, each with the time at which its callback ran. *)
Fixpoint main_loop (limits : list Z) : M (list (Z * cras_timer)) :=
  match limits with
  | [] => mret []
  | limit :: limits =>
      fired ← main_loop_step limit;
      now ← gets (λ s, tm_now (tm s));
      rest ← main_loop limits;
      mret (match fired with
            | Some t => (now, t) :: rest
            | None => rest
            end)
  end.

(** [switch_profile] is invoked for [device], and once more after each of
    the [runs] of the main loop. *)
Fixpoint switch_profile_burst (device : ptr) (runs : list (list Z))
  : M (list (Z * cras_timer)) :=
  switch_profile device None;;
  match runs with
  | [] => mret []
  | limits :: runs =>
      fired ← main_loop limits;
      rest ← switch_profile_burst device runs;
      mret (fired ++ rest)
  end.

(** The delayed callbacks among the timers the main loop has fired. *)
Definition delayed_resumes (fired : list (Z * cras_timer))
  : list (Z * cras_timer) :=
  filter (λ e, cb e.2 = profile_switch_delay_cb_fn) fired.

(** No profile switch is pending. *)
Definition profile_switch_idle (s : policy_state) : Prop :=
  region_wf (brk s) (profile_switch_policies s) [] ∧
  timers_for profile_switch_delay_cb_fn (tm s) = [].

(** The only profile switch pending is that of [device]: its record [p] is
    the only one on the list, and [t] is the timer of the record and the
    only profile-switch timer. *)
Definition profile_switch_armed (s : policy_state) (device p : ptr)
  (t : cras_timer) : Prop :=
  region_wf (brk s) (profile_switch_policies s) [p] ∧
  (∃ n, dl_mem (profile_switch_policies s) !! p = Some n ∧
        psp_device n = device ∧ psp_timer n = timer_id t) ∧
  timers_for profile_switch_delay_cb_fn (tm s) = [t] ∧
  cb_data t = p.

(** ** The whole engine *)

(** The profile-switch list [l] is well formed: one record per device, and
    every record has its pending timer. *)
Record profile_switch_inv (s : policy_state) (l : list ptr) : Prop := {
  pi_wf : region_wf (brk s) (profile_switch_policies s) l;
  pi_unique : unique_device psp_device (dl_mem (profile_switch_policies s));
  pi_timer : ∀ p n, dl_mem (profile_switch_policies s) !! p = Some n →
    ∃ t, t ∈ timers (tm s) ∧ timer_id t = psp_timer n ∧
         cb t = profile_switch_delay_cb_fn ∧ cb_data t = p;
  pi_owner : ∀ t, t ∈ timers (tm s) → cb t = profile_switch_delay_cb_fn →
    ∃ n, dl_mem (profile_switch_policies s) !! cb_data t = Some n ∧
         psp_timer n = timer_id t
}.

(** The invariant of the three machines together. *)
Definition engine_inv (s : policy_state) : Prop :=
  policy_inv s ∧ ∃ l, profile_switch_inv s l.

(** The device on whose behalf a pending timer will act: the device of the
    record the timer carries as its callback argument. *)
Definition timer_device (s : policy_state) (t : cras_timer) : option ptr :=
  match cb t with
  | profile_switch_delay_cb_fn =>
      psp_device <$> dl_mem (profile_switch_policies s) !! cb_data t
  | suspend_cb_fn => sp_device <$> dl_mem (suspend_policies s) !! cb_data t
  | conn_watch_cb_fn =>
      cw_device <$> dl_mem (conn_watch_policies s) !! cb_data t
  end.

(** The devices that have a record on one of the three lists. *)
Definition device_pending (s : policy_state) (device : ptr) : Prop :=
  (∃ p n, dl_mem (profile_switch_policies s) !! p = Some n ∧
          psp_device n = device) ∨
  (∃ p n, dl_mem (suspend_policies s) !! p = Some n ∧ sp_device n = device) ∨
  (∃ p n, dl_mem (conn_watch_policies s) !! p = Some n ∧
          cw_device n = device).

(** A state in which the connection watch of device 10 is down to its last
    retry: 29 ticks after the start, the device still has nothing
    connected. *)
Definition sample_last_retry : policy_state :=
  default sample_init
    (final (watch_ticks 1%N (replicate 29 sample_devices) sample_watching)).

(** A state with several things pending: a connection watch, a suspend and
    a profile switch for device 10, and a suspend for device 11. *)
Definition sample_busy : policy_state :=
  default sample_init
    (final ((_ ← cras_bt_policy_start_connection_watch 10%N;
             schedule_suspend 10%N 100 A2DP_LONG_TX_FAILURE;;
             switch_profile 10%N None;;
             schedule_suspend 11%N 200 A2DP_TX_FATAL_ERROR) sample_init)).

(** * Properties *)

(** ** Intrusive lists *)

Section utlist_lemmas.
Context {T : Type} `{DLNodeLaws T}.
Implicit Types (m : gmap N T) (l : list ptr) (p : ptr).

Lemma hd_app_ne (l1 l2 : list ptr) d : hd d (l1 ++ l2) = hd (hd d l2) l1.
Proof. by destruct l1. Qed.

Lemma last_cons_ne (a : ptr) l d : List.last (a :: l) d = List.last l a.
Proof.
  revert a d. induction l as [|b l IH]; intros a d; [done|].
  change (List.last (a :: b :: l) d) with (List.last (b :: l) d).
  rewrite !IH. done.
Qed.

Lemma last_app_ne (l1 l2 : list ptr) d :
  List.last (l1 ++ l2) d = List.last l2 (List.last l1 d).
Proof.
  revert d. induction l1 as [|a l1 IH]; intros d; [done|].
  rewrite <- app_comm_cons, !last_cons_ne. apply IH.
Qed.

Lemma last_elem_of (a : ptr) l : List.last l a = a ∨ List.last l a ∈ l.
Proof.
  revert a. induction l as [|b l IH]; intros a; [by left|].
  right. rewrite last_cons_ne. destruct (IH b) as [->|?]; set_solver.
Qed.

Lemma dl_seg_app m pv l1 l2 nx :
  dl_seg m pv (l1 ++ l2) nx ↔
  dl_seg m pv l1 (hd nx l2) ∧ dl_seg m (List.last l1 pv) l2 nx.
Proof.
  revert pv. induction l1 as [|a l1 IH]; intros pv.
  - simpl. tauto.
  - rewrite last_cons_ne. change ((a :: l1) ++ l2) with (a :: (l1 ++ l2)).
    cbn [dl_seg]. rewrite hd_app_ne. split.
    + intros (Hn & n & Hm & Hp & Hx & Hs). apply IH in Hs as [? ?].
      split; [|done]. split; [done|]. by exists n.
    + intros [(Hn & n & Hm & Hp & Hx & Hs) ?].
      split; [done|]. exists n. repeat split; try done. apply IH. done.
Qed.

Lemma dl_seg_ext m m' pv l nx :
  (∀ p n, p ∈ l → m !! p = Some n →
     ∃ n', m' !! p = Some n' ∧ prev n' = prev n ∧ next n' = next n) →
  dl_seg m pv l nx → dl_seg m' pv l nx.
Proof.
  revert pv. induction l as [|a l IH]; intros pv Hext; simpl; [done|].
  intros (Hn & n & Hm & Hp & Hx & Hs).
  destruct (Hext a n) as (n' & Hm' & Hp' & Hx'); [set_solver|done|].
  split; [done|]. exists n'. repeat split; try congruence.
  apply IH; [|done]. intros p q Hin. apply Hext. set_solver.
Qed.

Lemma dl_seg_update_outside m pv l nx p x :
  p ∉ l → dl_seg m pv l nx → dl_seg (<[p := x]> m) pv l nx.
Proof.
  intros Hp. apply dl_seg_ext. intros q n Hq Hm. exists n.
  rewrite lookup_insert_ne; [done|]. intros ->. done.
Qed.

Lemma dl_seg_delete_outside m pv l nx p :
  p ∉ l → dl_seg m pv l nx → dl_seg (delete p m) pv l nx.
Proof.
  intros Hp. apply dl_seg_ext. intros q n Hq Hm. exists n.
  rewrite lookup_delete_ne; [done|]. intros ->. done.
Qed.

Lemma dl_seg_update_first m pv l nx p x :
  dl_seg m pv (p :: l) nx → p ∉ l → next x = hd nx l →
  dl_seg (<[p := x]> m) (prev x) (p :: l) nx.
Proof.
  simpl. intros (Hn & n & Hm & Hp & Hx & Hs) Hnot Hnx.
  split; [done|]. exists x. rewrite lookup_insert_eq.
  repeat split; try done. by apply dl_seg_update_outside.
Qed.

Lemma dl_seg_update_last m pv l nx p x :
  dl_seg m pv (l ++ [p]) nx → p ∉ l → prev x = List.last l pv →
  dl_seg (<[p := x]> m) pv (l ++ [p]) (next x).
Proof.
  intros Hs Hnot Hpx. apply dl_seg_app in Hs as [H1 H2]. apply dl_seg_app.
  simpl in *. split.
  - by apply dl_seg_update_outside.
  - destruct H2 as (Hn & n & Hm & Hp & Hx & _).
    split; [done|]. exists x. by rewrite lookup_insert_eq.
Qed.

Lemma dl_seg_lookup m pv l nx p :
  dl_seg m pv l nx → p ∈ l → p ≠ NULL ∧ is_Some (m !! p).
Proof.
  revert pv. induction l as [|a l IH]; intros pv; simpl; [set_solver|].
  intros (Hn & n & Hm & Hp & Hx & Hs) [->|Hin]%elem_of_cons; [eauto|].
  eapply IH; eauto.
Qed.


Lemma dl_seg_update_first' m pv l nx p n x :
  dl_seg m pv (p :: l) nx → p ∉ l → m !! p = Some n → next x = next n →
  dl_seg (<[p := x]> m) (prev x) (p :: l) nx.
Proof.
  intros Hs Hnot Hm Hx. eapply dl_seg_update_first; [done..|].
  destruct Hs as (_ & n' & Hm' & _ & Hx' & _). congruence.
Qed.

Lemma dl_seg_update_last' m pv l nx p n x :
  dl_seg m pv (l ++ [p]) nx → p ∉ l → m !! p = Some n → prev x = prev n →
  dl_seg (<[p := x]> m) pv (l ++ [p]) (next x).
Proof.
  intros Hs Hnot Hm Hx. eapply dl_seg_update_last; [done..|].
  apply dl_seg_app in Hs as [_ (_ & n' & Hm' & Hp' & _)]. congruence.
Qed.

Lemma load_Ok m p n : m !! p = Some n → load m p = Ok n.
Proof. unfold load. by intros ->. Qed.

Lemma store_Ok m p f n : m !! p = Some n → store m p f = Ok (<[p := f n]> m).
Proof. unfold store. intros Hm. by rewrite (load_Ok _ _ _ Hm). Qed.

Lemma dl_search_from_seg {B : Type} `{EqDecision B} fuel m (field : T → B) val pv l :
  dl_seg m pv l NULL → (length l ≤ fuel)%nat →
  dl_search_from fuel m field val (hd NULL l) = Ok (dl_find m field val l).
Proof.
  revert pv fuel. induction l as [|a l IH]; intros pv fuel Hs Hlen.
  - destruct fuel; reflexivity.
  - destruct fuel as [|fuel]; [simpl in Hlen; lia|].
    destruct Hs as (Hn & n & Hm & Hp & Hx & Hs). simpl.
    rewrite decide_False by done. rewrite (load_Ok _ _ _ Hm), Hm. simpl.
    destruct (decide (field n = val)); [done|].
    rewrite Hx. eapply IH; [done|]. simpl in Hlen. lia.
Qed.

Lemma dl_list_length (d : dlist T) l :
  dl_list d l → (length l ≤ size (dl_mem d))%nat.
Proof.
  intros (Hnd & _ & Hs).
  rewrite <- (size_dom (D := gset N)).
  change (size (dom (dl_mem d))) with (length (elements (dom (dl_mem d)))).
  apply submseteq_length, NoDup_submseteq; [done|].
  intros p Hp. apply elem_of_elements, elem_of_dom.
  by eapply dl_seg_lookup.
Qed.

Lemma DL_SEARCH_SCALAR_spec {B : Type} `{EqDecision B} (d : dlist T) l
  (field : T → B) val :
  dl_list d l →
  DL_SEARCH_SCALAR d field val = Ok (dl_find (dl_mem d) field val l).
Proof.
  intros Hl. pose proof (dl_list_length _ _ Hl) as Hlen.
  destruct Hl as (Hnd & Hh & Hs). unfold DL_SEARCH_SCALAR. rewrite Hh.
  eapply dl_search_from_seg; [done|]. lia.
Qed.

Lemma dl_find_NULL {B : Type} `{EqDecision B} m (field : T → B) val pv l nx :
  dl_seg m pv l nx →
  dl_find m field val l = NULL ↔
  ∀ p n, p ∈ l → m !! p = Some n → field n ≠ val.
Proof.
  revert pv. induction l as [|a l IH]; intros pv Hs; simpl.
  - split; [|done]. intros _ p n Hp. set_solver.
  - destruct Hs as (Hn & n & Hm & Hp & Hx & Hs). rewrite Hm.
    destruct (decide (field n = val)) as [Hf|Hf].
    + split; [done|]. intros Hall. destruct (Hall a n); [set_solver|done..].
    + rewrite (IH _ Hs). split.
      * intros Hall p n' [->|Hin]%elem_of_cons Hm'; [congruence|]. eauto.
      * intros Hall p n' Hin. apply Hall. set_solver.
Qed.

Lemma dl_find_found {B : Type} `{EqDecision B} m (field : T → B) val l p :
  dl_find m field val l = p → p ≠ NULL →
  p ∈ l ∧ ∃ n, m !! p = Some n ∧ field n = val.
Proof.
  induction l as [|a l IH]; simpl; [congruence|].
  destruct (m !! a) as [n|] eqn:Hm; [|congruence].
  destruct (decide (field n = val)).
  - intros <- _. split; [set_solver|eauto].
  - intros Hf Hn. destruct (IH Hf Hn). split; [set_solver|done].
Qed.

Lemma relinked_links_prev n n' v : relinked n n' → relinked n (with_prev v n').
Proof. apply relinked_prev. Qed.

Lemma mem_relinked_refl m : mem_relinked m m.
Proof. intros p. destruct (m !! p); [constructor|done]. Qed.

Lemma mem_relinked_insert m m' p n (x : T) :
  mem_relinked m m' → m !! p = Some n → relinked n x →
  mem_relinked m (<[p := x]> m').
Proof.
  intros Hr Hm Hx q. destruct (decide (p = q)) as [<-|Hne].
  - by rewrite Hm, lookup_insert_eq.
  - rewrite lookup_insert_ne by done. apply Hr.
Qed.

Lemma mem_relinked_lookup m m' p n' :
  mem_relinked m m' → m' !! p = Some n' → ∃ n, m !! p = Some n ∧ relinked n n'.
Proof.
  intros Hr Hm. specialize (Hr p). rewrite Hm in Hr.
  destruct (m !! p); [eauto|done].
Qed.

Lemma mem_relinked_lookup_l m m' p n :
  mem_relinked m m' → m !! p = Some n → ∃ n', m' !! p = Some n' ∧ relinked n n'.
Proof.
  intros Hr Hm. specialize (Hr p). rewrite Hm in Hr.
  destruct (m' !! p); [eauto|done].
Qed.

Lemma mem_relinked_store_prev m m' p v n' :
  mem_relinked m m' → m' !! p = Some n' →
  mem_relinked m (<[p := with_prev v n']> m').
Proof.
  intros Hr Hm. destruct (mem_relinked_lookup _ _ _ _ Hr Hm) as (n & Hn & Hrel).
  eapply mem_relinked_insert; [done..|]. by constructor.
Qed.

Lemma mem_relinked_store_next m m' p v n' :
  mem_relinked m m' → m' !! p = Some n' →
  mem_relinked m (<[p := with_next v n']> m').
Proof.
  intros Hr Hm. destruct (mem_relinked_lookup _ _ _ _ Hr Hm) as (n & Hn & Hrel).
  eapply mem_relinked_insert; [done..|]. by constructor.
Qed.


Lemma dl_list_split_last (l : list ptr) :
  l ≠ [] → NoDup l →
  ∃ l0, l = l0 ++ [List.last l NULL] ∧ List.last l NULL ∉ l0.
Proof.
  intros Hne Hnd. exists (removelast l).
  pose proof (app_removelast_last NULL Hne) as Heq. split; [done|].
  rewrite Heq in Hnd at 1. apply NoDup_app in Hnd as (_ & Hd & _).
  intros Hin. apply (Hd _ Hin). set_solver.
Qed.

Lemma DL_APPEND_fresh (d : dlist T) l p n :
  dl_list d l → p ∉ l → p ≠ NULL → dl_mem d !! p = Some n →
  ∃ d', DL_APPEND d p = Ok d' ∧ dl_list d' (l ++ [p]) ∧
        dl_head d' = hd p l ∧
        mem_relinked (dl_mem d) (dl_mem d').
Proof.
  intros (Hnd & Hh & Hs) Hnot Hnn Hm. unfold DL_APPEND. rewrite Hh.
  destruct l as [|p0 l'].
  - simpl. rewrite (store_Ok _ _ _ _ Hm). simpl.
    rewrite (store_Ok (<[p := with_prev p n]> (dl_mem d)) p _ (with_prev p n))
      by apply lookup_insert_eq. simpl.
    eexists; split; [done|]. split; [|split; [done|]].
    + split; [apply NoDup_singleton|]. split; [done|]. simpl. split; [done|].
      eexists. rewrite lookup_insert_eq. split; [done|].
      by rewrite prev_with_next, prev_with_prev, next_with_next.
    + simpl. apply mem_relinked_store_next; [|apply lookup_insert_eq].
      apply mem_relinked_store_prev; [|done]. apply mem_relinked_refl.
  - remember (p0 :: l') as l eqn:Hl. remember (List.last l NULL) as tl eqn:Htleq.
    assert (Hp0l : p0 ∈ l) by (subst l; set_solver).
    assert (Hp0 : p0 ≠ NULL ∧ is_Some (dl_mem d !! p0)).
    { eapply dl_seg_lookup; done. }
    destruct Hp0 as [Hp0n [n0 Hn0]].
    assert (Hprev0 : prev n0 = tl).
    { rewrite Hl in Hs. destruct Hs as (_ & n0' & Hm0 & Hpv & _). congruence. }
    destruct (dl_list_split_last l) as (l0 & Hl0 & Htl0); [by subst l|done|].
    rewrite <- Htleq in Hl0, Htl0.
    assert (Htl : tl ∈ l) by (rewrite Hl0; set_solver).
    destruct (dl_seg_lookup _ _ _ _ _ Hs Htl) as [Htln [ntl Hntl]].
    assert (Hptl : p ≠ tl) by (intros ->; done).
    assert (Hpp0 : p ≠ p0) by (intros ->; done).
    replace (hd NULL l) with p0 by (by subst l). rewrite decide_False by done.
    rewrite (load_Ok _ _ _ Hn0). simpl.
    rewrite (store_Ok _ _ _ _ Hm). simpl. rewrite Hprev0.
    set (m1 := <[p := with_prev tl n]> (dl_mem d)).
    assert (Hm1p0 : m1 !! p0 = Some n0) by (subst m1; by rewrite lookup_insert_ne).
    rewrite (load_Ok _ _ _ Hm1p0). simpl. rewrite Hprev0.
    assert (Hm1tl : m1 !! tl = Some ntl) by (subst m1; by rewrite lookup_insert_ne).
    rewrite (store_Ok _ _ _ _ Hm1tl). simpl.
    set (m2 := <[tl := with_next p ntl]> m1).
    assert (Hm2p0 : ∃ n0', m2 !! p0 = Some n0' ∧ next n0' = (if decide (tl = p0) then p else next n0)).
    { subst m2. destruct (decide (tl = p0)) as [->|Hne].
      - rewrite lookup_insert_eq. eexists; split; [done|].
        rewrite next_with_next. done.
      - rewrite lookup_insert_ne by done. eauto. }
    destruct Hm2p0 as (n0' & Hm2p0 & Hn0').
    rewrite (store_Ok _ _ _ _ Hm2p0). simpl.
    set (m3 := <[p0 := with_prev p n0']> m2).
    assert (Hm3p : m3 !! p = Some (with_prev tl n)).
    { subst m3 m2 m1. rewrite !lookup_insert_ne by done. apply lookup_insert_eq. }
    rewrite (store_Ok _ _ _ _ Hm3p). simpl.
    eexists; split; [done|]. split; [|split; [by subst l|]].
    + split; [|split; [by subst l|]].
      { apply NoDup_app. split; [done|]. split; [|apply NoDup_singleton].
        intros x Hx Hx'. apply list_elem_of_singleton in Hx' as ->. done. }
      simpl dl_mem. rewrite last_app_ne. simpl List.last.
      apply dl_seg_app. simpl hd. split.
      * apply dl_seg_update_outside; [done|].
        assert (Hs1 : dl_seg m1 tl l NULL) by (by apply dl_seg_update_outside).
        assert (Hs2 : dl_seg m2 tl l (next (with_next p ntl))).
        { rewrite Hl0 in Hs1 |- *. subst m2.
          eapply dl_seg_update_last'; [done..|]. apply prev_with_next. }
        rewrite next_with_next in Hs2.
        assert (Hs3 : dl_seg m3 (prev (with_prev p n0')) l p).
        { rewrite Hl in Hs2, Hnd |- *. subst m3.
          eapply dl_seg_update_first'; [done| |done|].
          { apply NoDup_cons in Hnd. tauto. }
          apply next_with_prev. }
        by rewrite prev_with_prev in Hs3.
      * simpl. split; [done|]. eexists. rewrite lookup_insert_eq.
        split; [done|].
        rewrite prev_with_next, prev_with_prev, next_with_next.
        split; [|done]. rewrite Htleq, Hl, !last_cons_ne. done.
    + simpl. subst m3 m2 m1.
      apply mem_relinked_store_next; [|done].
      apply mem_relinked_store_prev; [|done].
      apply mem_relinked_store_next; [|done].
      apply mem_relinked_store_prev; [|done].
      apply mem_relinked_refl.
Qed.


Lemma last_ne_elem_of (l : list ptr) d : l ≠ [] → List.last l d ∈ l.
Proof.
  destruct l as [|a l]; [done|]. intros _. rewrite last_cons_ne.
  destruct (last_elem_of a l) as [->|?]; set_solver.
Qed.

Lemma DL_DELETE_member (d : dlist T) l1 l2 p :
  dl_list d (l1 ++ p :: l2) →
  ∃ d', DL_DELETE d p = Ok d' ∧ dl_list d' (l1 ++ l2) ∧
        mem_relinked (dl_mem d) (dl_mem d').
Proof.
  intros (Hnd & Hh & Hs).
  apply NoDup_app in Hnd as (Hnd1 & Hdisj & Hnd2).
  apply NoDup_cons in Hnd2 as (Hp2 & Hnd2).
  assert (Hp1 : p ∉ l1) by (intros Hin; apply (Hdisj _ Hin); set_solver).
  assert (Hdisj' : ∀ x, x ∈ l1 → x ∉ l2).
  { intros x Hx Hx'. apply (Hdisj _ Hx). set_solver. }
  remember (List.last (l1 ++ p :: l2) NULL) as tl eqn:Htl.
  pose proof Hs as Hs0.
  apply dl_seg_app in Hs as [Hs1 Hs2]. simpl hd in Hs1.
  pose proof Hs2 as (Hpn & n & Hm & Hpv & Hnx & Hs3).
  unfold DL_DELETE. rewrite (load_Ok _ _ _ Hm). simpl.
  destruct (decide (prev n = p)) as [Hself|Hself].
  { (* the only node of the list *)
    assert (l1 = []) as ->.
    { destruct l1 as [|a l1]; [done|]. exfalso. apply Hp1.
      rewrite <- Hself, Hpv. by apply last_ne_elem_of. }
    assert (l2 = []) as ->.
    { destruct l2 as [|a l2]; [done|]. exfalso. apply Hp2.
      assert (Heq : p = List.last (a :: l2) p).
      { rewrite <- Hself at 1. rewrite Hpv, Htl. simpl app.
        change (List.last [] ?x) with x. apply last_cons_ne. }
      rewrite Heq. by apply last_ne_elem_of. }
    eexists; split; [done|]. split; [|apply mem_relinked_refl].
    split; [constructor|]. done. }
  destruct (decide (p = dl_head d)) as [Hhead|Hhead].
  { (* the head of a longer list *)
    assert (l1 = []) as ->.
    { destruct l1 as [|a l1]; [done|]. exfalso. apply Hp1.
      rewrite Hhead, Hh. simpl. set_solver. }
    simpl in *. destruct l2 as [|q l2].
    { exfalso. apply Hself. rewrite Hpv, Htl. done. }
    simpl in Hnx. destruct Hs3 as (Hqn & nq & Hmq & Hs3').
    assert (Hs3 : dl_seg (dl_mem d) p (q :: l2) NULL) by (split; eauto).
    assert (Hpq : p ≠ q) by (intros ->; apply Hp2; set_solver).
    rewrite Hnx, (store_Ok _ _ _ _ Hmq). simpl.
    rewrite (load_Ok _ _ n) by (by rewrite lookup_insert_ne). simpl.
    eexists; split; [done|]. split.
    - split; [done|]. split; [by rewrite Hnx|]. simpl dl_mem.
      assert (Hs4 : dl_seg (<[q := with_prev (prev n) nq]> (dl_mem d))
                      (prev (with_prev (prev n) nq)) (q :: l2) NULL).
      { eapply dl_seg_update_first'; [done| |done|].
        - apply NoDup_cons in Hnd2. tauto.
        - apply next_with_prev. }
      rewrite prev_with_prev in Hs4.
      replace (List.last (q :: l2) NULL) with (prev n); [done|].
      rewrite Hpv, Htl. by rewrite !last_cons_ne.
    - simpl. apply mem_relinked_store_prev; [apply mem_relinked_refl|done]. }
  (* neither *)
  destruct (decide (l1 = [])) as [->|Hl1].
  { exfalso. apply Hhead. by rewrite Hh. }
  destruct (dl_list_split_last l1) as (l0 & Hl0 & Hpv0); [done..|].
  assert (Hpveq : prev n = List.last l1 NULL).
  { rewrite Hpv. destruct l1; [done|]. by rewrite !last_cons_ne. }
  rewrite <- Hpveq in Hl0, Hpv0.
  assert (Hpvin : prev n ∈ l1) by (rewrite Hl0; set_solver).
  destruct (dl_seg_lookup _ _ _ _ _ Hs1 Hpvin) as [Hpvn [npv Hnpv]].
  rewrite (store_Ok _ _ _ _ Hnpv). simpl.
  set (m1 := <[prev n := with_next (next n) npv]> (dl_mem d)).
  assert (Hm1p : m1 !! p = Some n) by (subst m1; by rewrite lookup_insert_ne).
  rewrite (load_Ok _ _ _ Hm1p). simpl.
  assert (Hs1' : dl_seg m1 tl l1 (next (with_next (next n) npv))).
  { rewrite Hl0 in Hs1 |- *. subst m1.
    eapply dl_seg_update_last'; [done..|]. apply prev_with_next. }
  rewrite next_with_next in Hs1'.
  assert (Hh0 : dl_head d ∈ l1).
  { rewrite Hh. destruct l1; [done|]. simpl. set_solver. }
  destruct (decide (next n = NULL)) as [Hnull|Hnull].
  - assert (l2 = []) as ->.
    { destruct l2 as [|q l2]; [done|]. simpl in Hnx.
      destruct Hs3 as (Hqn & _). congruence. }
    assert (Hm1h : is_Some (m1 !! dl_head d)).
    { eapply dl_seg_lookup; done. }
    destruct Hm1h as [nh Hnh].
    rewrite (store_Ok _ _ _ _ Hnh). simpl.
    eexists; split; [done|]. rewrite app_nil_r. split.
    + split; [done|]. split.
      { simpl. rewrite Hh. by destruct l1. }
      simpl dl_mem. destruct l1 as [|h0 l1']; [done|].
      assert (dl_head d = h0) as Hh0eq by (by rewrite Hh).
      rewrite Hh0eq in *.
      assert (Hs4 : dl_seg (<[h0 := with_prev (prev n) nh]> m1)
                      (prev (with_prev (prev n) nh)) (h0 :: l1') (next n)).
      { eapply dl_seg_update_first'; [done| |done|].
        - apply NoDup_cons in Hnd1. tauto.
        - apply next_with_prev. }
      rewrite prev_with_prev in Hs4. rewrite <- Hpveq, <- Hnull. done.
    + simpl. subst m1. apply mem_relinked_store_prev; [|done].
      apply mem_relinked_store_next; [apply mem_relinked_refl|done].
  - destruct l2 as [|q l2]; [done|]. simpl in Hnx.
    pose proof Hs3 as (Hqn & nq & Hmq & _).
    assert (Hqpv : prev n ≠ q).
    { intros Heq. apply (Hdisj' _ Hpvin). rewrite Heq. set_solver. }
    assert (Hm1q : m1 !! q = Some nq) by (subst m1; by rewrite lookup_insert_ne).
    rewrite Hnx, (store_Ok _ _ _ _ Hm1q). simpl.
    eexists; split; [done|]. split.
    + split.
      { apply NoDup_app. split; [done|]. split; [|done].
        intros x Hx. apply Hdisj'. done. }
      split.
      { simpl. rewrite Hh. by destruct l1. }
      simpl dl_mem. apply dl_seg_app. simpl hd. split.
      * apply dl_seg_update_outside.
        { intros Hq. apply (Hdisj' _ Hq). set_solver. }
        rewrite Hnx in Hs1'.
        replace (List.last (l1 ++ q :: l2) NULL) with tl; [done|].
        rewrite Htl, !last_app_ne. by rewrite !last_cons_ne.
      * assert (Hs4 : dl_seg (<[q := with_prev (prev n) nq]> m1)
                        (prev (with_prev (prev n) nq)) (q :: l2) NULL).
        { eapply dl_seg_update_first'; [|apply NoDup_cons in Hnd2; tauto|done|].
          - subst m1. apply dl_seg_update_outside; [|done].
            intros Hin. by apply (Hdisj' _ Hpvin).
          - apply next_with_prev. }
        rewrite prev_with_prev in Hs4.
        replace (List.last l1 (List.last (l1 ++ q :: l2) NULL))
          with (prev n); [done|].
        rewrite Hpveq. destruct l1; [done|]. by rewrite !last_cons_ne.
    + simpl. subst m1. apply mem_relinked_store_prev; [|done].
      apply mem_relinked_store_next; [apply mem_relinked_refl|done].
Qed.

End utlist_lemmas.

Lemma filter_nil_all {A : Type} (P : A → Prop) `{∀ x, Decision (P x)}
  (l : list A) :
  (∀ x, x ∈ l → ¬ P x) → filter P l = [].
Proof.
  induction l as [|a l IH]; intros Hall; [done|].
  rewrite filter_cons_False by (apply Hall; set_solver).
  apply IH. intros x Hx. apply Hall. set_solver.
Qed.

Lemma filter_singleton_NoDup {A : Type} `{EqDecision A} (P : A → Prop)
  `{∀ x, Decision (P x)} (l : list A) (p : A) :
  NoDup l → p ∈ l → P p → (∀ q, q ∈ l → P q → q = p) → filter P l = [p].
Proof.
  induction l as [|a l IH]; intros Hnd Hin Hp Huniq; [set_solver|].
  apply NoDup_cons in Hnd as [Ha Hnd].
  destruct (decide (a = p)) as [->|Hne].
  - rewrite filter_cons_True by done. f_equal.
    apply filter_nil_all. intros q Hq HPq.
    assert (q = p) by (apply Huniq; set_solver). subst. done.
  - rewrite filter_cons_False.
    + apply IH; [done|set_solver|done|]. intros q Hq. apply Huniq. set_solver.
    + intros Hpa. apply Hne, Huniq; [set_solver|done].
Qed.

Section walk.
Context {T : Type} `{DLNodeLaws T}.
Implicit Types (m : gmap N T) (l : list ptr) (d : dlist T).

Lemma dl_walk_seg fuel m pv l :
  dl_seg m pv l NULL → (length l ≤ fuel)%nat →
  dl_walk fuel m (hd NULL l) = l.
Proof.
  revert pv fuel. induction l as [|a l IH]; intros pv fuel Hs Hlen.
  - by destruct fuel.
  - destruct fuel as [|fuel]; [simpl in Hlen; lia|].
    destruct Hs as (Hn & n & Hm & Hp & Hx & Hs). simpl.
    rewrite decide_False, Hm, Hx by done. f_equal.
    eapply IH; [done|]. simpl in Hlen. lia.
Qed.

Lemma list_nodes_wf d l : dl_list d l → list_nodes d = l.
Proof.
  intros Hl. pose proof (dl_list_length _ _ Hl).
  destruct Hl as (_ & Hh & Hs). unfold list_nodes. rewrite Hh.
  by eapply dl_walk_seg.
Qed.

Lemma records_of_nil (device_of : T → ptr) device d l :
  dl_list d l →
  (∀ p n, dl_mem d !! p = Some n → device_of n ≠ device) →
  records_of device_of device d = [].
Proof.
  intros Hl Hno. unfold records_of. rewrite (list_nodes_wf _ _ Hl).
  apply filter_nil_all. intros p _ Hp.
  destruct (dl_mem d !! p) as [n|] eqn:Hm; [|done].
  simpl in Hp. destruct (Hno _ _ Hm). congruence.
Qed.


Lemma records_of_one (device_of : T → ptr) device d l p n :
  dl_list d l → unique_device device_of (dl_mem d) →
  p ∈ l → dl_mem d !! p = Some n → device_of n = device →
  records_of device_of device d = [p].
Proof.
  intros Hl Hu Hin Hm Hd. unfold records_of. rewrite (list_nodes_wf _ _ Hl).
  destruct Hl as (Hnd & _). apply filter_singleton_NoDup; [done..| |].
  - by rewrite Hm; simpl; rewrite Hd.
  - intros q _ Hq. destruct (dl_mem d !! q) as [n'|] eqn:Hm'; [|done].
    simpl in Hq. eapply Hu; [done..|]. congruence.
Qed.

Lemma dl_find_NULL_mem {B : Type} `{EqDecision B} d l (field : T → B) val bound :
  region_wf bound d l →
  dl_find (dl_mem d) field val l = NULL ↔
  ∀ p n, dl_mem d !! p = Some n → field n ≠ val.
Proof.
  intros (_ & (Hnd & Hh & Hs) & Hdom & _). rewrite (dl_find_NULL _ _ _ _ _ _ Hs).
  split; intros Hall p n; [|by eauto]. intros Hm. eapply Hall; [|done].
  apply Hdom. eauto.
Qed.

Lemma region_wf_lookup bound d l p :
  region_wf bound d l → p ∈ l →
  p ≠ NULL ∧ (p < bound)%N ∧ is_Some (dl_mem d !! p).
Proof.
  intros (_ & (Hnd & Hh & Hs) & Hdom & Hb) Hin.
  destruct (dl_seg_lookup _ _ _ _ _ Hs Hin). auto.
Qed.

Lemma region_wf_fresh bound d l : region_wf bound d l → dl_mem d !! bound = None.
Proof.
  intros (_ & _ & Hdom & Hb). destruct (dl_mem d !! bound) eqn:Hm; [|done].
  assert (bound ∈ l) as Hin%Hb by eauto. lia.
Qed.

End walk.

(** ** Policy records *)

#[global] Instance profile_switch_policy_laws : DLNodeLaws profile_switch_policy.
Proof. by split. Qed.
#[global] Instance suspend_policy_laws : DLNodeLaws suspend_policy.
Proof. by split. Qed.
#[global] Instance connection_watch_laws : DLNodeLaws connection_watch.
Proof. by split. Qed.

Section payload.
Context {T P : Type} `{DLNodeLaws T} (pay : T → P).
Hypothesis pay_with_prev : ∀ v n, pay (with_prev v n) = pay n.
Hypothesis pay_with_next : ∀ v n, pay (with_next v n) = pay n.

Lemma relinked_payload n n' : relinked n n' → pay n' = pay n.
Proof. induction 1; [done|..]; by rewrite ?pay_with_prev, ?pay_with_next. Qed.

Lemma mem_relinked_payload (m m' : gmap N T) :
  mem_relinked m m' → pay <$> m' = pay <$> m.
Proof.
  intros Hr. apply map_eq. intros p. rewrite !lookup_fmap.
  specialize (Hr p). destruct (m !! p), (m' !! p); try done.
  simpl. f_equal. by apply relinked_payload.
Qed.
End payload.

Lemma sp_mem_relinked (m m' : gmap N suspend_policy) :
  mem_relinked m m' → sp_payload <$> m' = sp_payload <$> m.
Proof. by apply mem_relinked_payload. Qed.

Lemma cw_mem_relinked (m m' : gmap N connection_watch) :
  mem_relinked m m' → cw_payload <$> m' = cw_payload <$> m.
Proof. by apply mem_relinked_payload. Qed.

Lemma psp_mem_relinked (m m' : gmap N profile_switch_policy) :
  mem_relinked m m' → psp_payload <$> m' = psp_payload <$> m.
Proof. by apply mem_relinked_payload. Qed.

Lemma payload_lookup {T P : Type} (pay : T → P) (m m' : gmap N T) p n :
  pay <$> m' = pay <$> m → m !! p = Some n →
  ∃ n', m' !! p = Some n' ∧ pay n' = pay n.
Proof.
  intros Heq Hm. assert ((pay <$> m') !! p = Some (pay n)) as Hl.
  { by rewrite Heq, lookup_fmap, Hm. }
  rewrite lookup_fmap in Hl. destruct (m' !! p) as [n'|]; [|done].
  exists n'. split; [done|]. by injection Hl.
Qed.

Lemma payload_lookup_None {T P : Type} (pay : T → P) (m m' : gmap N T) p :
  pay <$> m' = pay <$> m → m !! p = None → m' !! p = None.
Proof.
  intros Heq Hm. assert ((pay <$> m') !! p = None) as Hl.
  { by rewrite Heq, lookup_fmap, Hm. }
  rewrite lookup_fmap in Hl. by destruct (m' !! p).
Qed.

(** ** Timer manager *)

Lemma timer_id_inj (t : cras_tm) x y :
  tm_wf t → x ∈ timers t → y ∈ timers t → timer_id x = timer_id y → x = y.
Proof.
  intros [Hnd _ _ _]. revert Hnd. generalize (timers t). intros l.
  induction l as [|a l IH]; [set_solver|]. rewrite fmap_cons.
  intros [Ha Hnd]%NoDup_cons Hx Hy Heq.
  apply elem_of_cons in Hx as [->|Hx], Hy as [->|Hy]; auto.
  - destruct Ha. rewrite Heq. apply list_elem_of_fmap. eauto.
  - destruct Ha. rewrite <- Heq. apply list_elem_of_fmap. eauto.
Qed.

Lemma elem_of_create_timer (t : cras_tm) ms c p x :
  x ∈ timers (cras_tm_create_timer t ms c p).1 ↔
  x ∈ timers t ∨
  x = {| timer_id := tm_next_id t; ts := tm_now t + ms; cb := c; cb_data := p |}.
Proof. simpl. rewrite elem_of_app, list_elem_of_singleton. done. Qed.

Lemma elem_of_cancel_timer (t : cras_tm) h x :
  x ∈ timers (cras_tm_cancel_timer t h) ↔ x ∈ timers t ∧ timer_id x ≠ h.
Proof. simpl. rewrite list_elem_of_filter. tauto. Qed.

Lemma elem_of_expire (t : cras_tm) y x :
  x ∈ timers (cras_tm_expire y t) ↔ x ∈ timers t ∧ timer_id x ≠ timer_id y.
Proof. simpl. rewrite list_elem_of_filter. tauto. Qed.

Lemma tm_wf_create (t : cras_tm) ms c p :
  tm_wf t → tm_wf (cras_tm_create_timer t ms c p).1.
Proof.
  intros [Hnd Hb Hn Hnext]. split; simpl.
  - rewrite fmap_app. apply NoDup_app. split; [done|]. split.
    + intros h [x [-> Hx]]%list_elem_of_fmap Hin. simpl in Hin.
      apply list_elem_of_singleton in Hin. apply Hb in Hx. lia.
    + apply NoDup_singleton.
  - intros x [Hx| ->%list_elem_of_singleton]%elem_of_app.
    + apply Hb in Hx. lia.
    + simpl. lia.
  - intros x [Hx| ->%list_elem_of_singleton]%elem_of_app; [by apply Hn|done].
  - unfold NULL in *. lia.
Qed.

Lemma NoDup_fmap_filter {A B : Type} (f : A → B) (P : A → Prop)
  `{∀ x, Decision (P x)} (l : list A) :
  NoDup (f <$> l) → NoDup (f <$> filter P l).
Proof.
  induction l as [|a l IH]; [done|]. rewrite fmap_cons.
  intros [Ha Hnd]%NoDup_cons. rewrite filter_cons.
  destruct (decide (P a)); [|by apply IH].
  rewrite fmap_cons. apply NoDup_cons. split; [|by apply IH].
  intros [x [Hfx Hx]]%list_elem_of_fmap. apply Ha.
  apply list_elem_of_fmap. exists x. apply list_elem_of_filter in Hx. tauto.
Qed.

Lemma tm_wf_cancel (t : cras_tm) h : tm_wf t → tm_wf (cras_tm_cancel_timer t h).
Proof.
  intros [Hnd Hb Hn Hnext]. split; simpl.
  - by apply NoDup_fmap_filter.
  - intros x [_ Hx]%list_elem_of_filter. by apply Hb.
  - intros x [_ Hx]%list_elem_of_filter. by apply Hn.
  - done.
Qed.

Lemma tm_wf_expire (t : cras_tm) y : tm_wf t → tm_wf (cras_tm_expire y t).
Proof.
  intros [Hnd Hb Hn Hnext]. split; simpl.
  - by apply NoDup_fmap_filter.
  - intros x [_ Hx]%list_elem_of_filter. by apply Hb.
  - intros x [_ Hx]%list_elem_of_filter. by apply Hn.
  - done.
Qed.

Lemma timers_of_one (t : cras_tm) c p x :
  tm_wf t → x ∈ timers t → cb x = c → cb_data x = p →
  (∀ y, y ∈ timers t → cb y = c → cb_data y = p → timer_id y = timer_id x) →
  timers_of c p t = [x].
Proof.
  intros Hwf Hx Hc Hp Hall. unfold timers_of.
  apply filter_singleton_NoDup; [|done..|].
  - destruct Hwf as [Hnd _ _ _]. by apply NoDup_fmap_1 in Hnd.
  - intros y Hy [? ?]. eapply timer_id_inj; eauto.
Qed.

(** The timers of one callback are not touched when a timer of another
    callback is created, cancelled or expires. *)
Lemma timers_for_elem c (m : cras_tm) x :
  x ∈ timers_for c m ↔ x ∈ timers m ∧ cb x = c.
Proof. unfold timers_for. by rewrite list_elem_of_filter, (comm and). Qed.

Lemma timers_for_create c (m : cras_tm) ms c' p :
  c' ≠ c → timers_for c (cras_tm_create_timer m ms c' p).1 = timers_for c m.
Proof.
  intros Hne. unfold timers_for. simpl. rewrite filter_app.
  rewrite (filter_cons_False _ _ []) by (simpl; congruence).
  by rewrite filter_nil, app_nil_r.
Qed.

Lemma timers_for_create_same c (m : cras_tm) ms p :
  timers_for c (cras_tm_create_timer m ms c p).1 =
  timers_for c m ++
  [{| timer_id := tm_next_id m; ts := tm_now m + ms; cb := c; cb_data := p |}].
Proof.
  unfold timers_for. simpl. rewrite filter_app.
  by rewrite (filter_cons_True _ _ []), filter_nil by done.
Qed.

Lemma filter_all {A : Type} (P : A → Prop) `{∀ x, Decision (P x)} (l : list A) :
  (∀ x, x ∈ l → P x) → filter P l = l.
Proof.
  induction l as [|a l IH]; intros Hall; [done|].
  rewrite filter_cons_True by (apply Hall; set_solver).
  f_equal. apply IH. intros x Hx. apply Hall. set_solver.
Qed.

Lemma timers_for_cancel_other c (m : cras_tm) h :
  (∀ x, x ∈ timers m → timer_id x = h → cb x ≠ c) →
  timers_for c (cras_tm_cancel_timer m h) = timers_for c m.
Proof.
  intros Hh. unfold timers_for. simpl.
  induction (timers m) as [|a l IH]; [done|].
  assert (IH' : filter (λ x, cb x = c) (filter (λ x, timer_id x ≠ h) l)
                = filter (λ x, cb x = c) l).
  { apply IH. intros x Hx. apply Hh. set_solver. }
  destruct (decide (timer_id a = h)) as [Hid|Hid].
  - rewrite (filter_cons_False (λ x, timer_id x ≠ h)) by tauto.
    rewrite (filter_cons_False (λ x, cb x = c)); [done|].
    apply (Hh a); [set_solver|done].
  - rewrite (filter_cons_True (λ x, timer_id x ≠ h)) by done.
    destruct (decide (cb a = c)).
    + rewrite !(filter_cons_True (λ x, cb x = c)) by done. by f_equal.
    + by rewrite !(filter_cons_False (λ x, cb x = c)) by done.
Qed.

Lemma timers_for_expire_other c (m : cras_tm) t :
  tm_wf m → t ∈ timers m → cb t ≠ c →
  timers_for c (cras_tm_expire t m) = timers_for c m.
Proof.
  intros Htm Hin Hc.
  change (cras_tm_expire t m) with
    {| tm_now := Z.max (tm_now m) (ts t); tm_next_id := tm_next_id m;
       timers := timers (cras_tm_cancel_timer m (timer_id t)) |}.
  change (timers_for c (cras_tm_cancel_timer m (timer_id t)) = timers_for c m).
  apply timers_for_cancel_other. intros x Hx Hid.
  assert (x = t) as -> by (by eapply timer_id_inj). done.
Qed.

(** Cancelling or expiring the only timer of a callback leaves none. *)
Lemma timers_for_cancel_only c (m : cras_tm) t :
  timers_for c m = [t] → timers_for c (cras_tm_cancel_timer m (timer_id t)) = [].
Proof.
  unfold timers_for. simpl. generalize (timers m). intros l.
  induction l as [|a l IH]; [done|].
  destruct (decide (cb a = c)) as [Hc|Hc].
  - rewrite (filter_cons_True (λ x, cb x = c)) by done. intros [= -> Hl].
    rewrite (filter_cons_False (λ x, timer_id x ≠ timer_id t)) by tauto.
    clear IH. induction l as [|b l IH]; [done|].
    destruct (decide (cb b = c)) as [Hb|Hb].
    + by rewrite (filter_cons_True (λ x, cb x = c)) in Hl by done.
    + rewrite (filter_cons_False (λ x, cb x = c)) in Hl by done.
      destruct (decide (timer_id b = timer_id t)).
      * rewrite (filter_cons_False (λ x, timer_id x ≠ timer_id t)) by tauto.
        by apply IH.
      * rewrite (filter_cons_True (λ x, timer_id x ≠ timer_id t)) by done.
        rewrite (filter_cons_False (λ x, cb x = c)) by done. by apply IH.
  - rewrite (filter_cons_False (λ x, cb x = c)) by done. intros Hl.
    destruct (decide (timer_id a = timer_id t)).
    + rewrite (filter_cons_False (λ x, timer_id x ≠ timer_id t)) by tauto.
      by apply IH.
    + rewrite (filter_cons_True (λ x, timer_id x ≠ timer_id t)) by done.
      rewrite (filter_cons_False (λ x, cb x = c)) by done. by apply IH.
Qed.

(** ** Regions *)

Section region_lemmas.
Context {T : Type} `{DLNodeLaws T}.
Implicit Types (d : dlist T) (l : list ptr).

Lemma region_wf_dl_list bound d l : region_wf bound d l → dl_list d l.
Proof. by intros (_ & ? & _). Qed.

Lemma region_wf_mono bound bound' d l :
  (bound ≤ bound')%N → region_wf bound d l → region_wf bound' d l.
Proof.
  intros Hle (Hn & Hl & Hdom & Hb). split; [|split; [done|split; [done|]]].
  - unfold NULL in *. lia.
  - intros p Hp. apply Hb in Hp. lia.
Qed.

Lemma region_wf_update bound d l p n x :
  region_wf bound d l → dl_mem d !! p = Some n →
  prev x = prev n → next x = next n →
  region_wf bound {| dl_head := dl_head d; dl_mem := <[p := x]> (dl_mem d) |} l.
Proof.
  intros (Hn & (Hnd & Hh & Hs) & Hdom & Hb) Hm Hp Hx.
  split; [done|]. split; [split; [done|split; [done|]]|split; [|done]].
  - simpl. eapply dl_seg_ext; [|done]. intros q nq Hq Hmq.
    destruct (decide (p = q)) as [<-|Hne].
    + rewrite lookup_insert_eq. exists x. split; [done|]. split; congruence.
    + rewrite lookup_insert_ne by done. eauto.
  - simpl. intros q [nq Hq]. apply Hdom.
    destruct (decide (p = q)) as [<-|Hne]; [eauto|].
    rewrite lookup_insert_ne in Hq by done. eauto.
Qed.

Lemma mem_relinked_dom (m m' : gmap N T) p :
  mem_relinked m m' → is_Some (m' !! p) ↔ is_Some (m !! p).
Proof.
  intros Hr. specialize (Hr p).
  destruct (m !! p), (m' !! p); try done; split; intros [? ?]; done.
Qed.

(** A fresh record is put on the list. *)
Lemma region_new bound d l n :
  region_wf bound d l →
  ∃ d', DL_APPEND {| dl_head := dl_head d;
                     dl_mem := <[bound := n]> (dl_mem d) |} bound = Ok d' ∧
        region_wf (N.succ bound) d' (l ++ [bound]) ∧
        mem_relinked (<[bound := n]> (dl_mem d)) (dl_mem d').
Proof.
  intros Hwf. pose proof (region_wf_fresh _ _ _ Hwf) as Hfresh.
  destruct Hwf as (Hn & (Hnd & Hh & Hs) & Hdom & Hb).
  assert (Hnot : bound ∉ l) by (intros Hin%Hb; lia).
  destruct (DL_APPEND_fresh
              {| dl_head := dl_head d; dl_mem := <[bound := n]> (dl_mem d) |}
              l bound n) as (d' & Hrun & Hl' & _ & Hrel); [|done|done| |].
  - split; [done|]. split; [done|]. simpl. by apply dl_seg_update_outside.
  - simpl. apply lookup_insert_eq.
  - exists d'. split; [done|]. split; [|done].
    split; [unfold NULL; lia|]. split; [done|]. split.
    + intros p Hp. apply (mem_relinked_dom _ _ _ Hrel) in Hp as [x Hx].
      simpl in Hx. destruct (decide (bound = p)) as [<-|Hne]; [set_solver|].
      rewrite lookup_insert_ne in Hx by done.
      apply elem_of_app. left. apply Hdom. eauto.
    + intros p [Hp| ->%list_elem_of_singleton]%elem_of_app; [|lia].
      apply Hb in Hp. lia.
Qed.

(** A record is taken off the list and freed. *)
Lemma region_remove bound d l p :
  region_wf bound d l → p ∈ l →
  ∃ d' l' n, DL_DELETE d p = Ok d' ∧ dl_mem d' !! p = Some n ∧
    region_wf bound {| dl_head := dl_head d';
                       dl_mem := delete p (dl_mem d') |} l' ∧
    (∀ q, q ∈ l' ↔ q ∈ l ∧ q ≠ p) ∧
    mem_relinked (dl_mem d) (dl_mem d').
Proof.
  intros (Hn & Hl & Hdom & Hb) Hin.
  apply list_elem_of_split in Hin as (l1 & l2 & ->).
  destruct (DL_DELETE_member d l1 l2 p Hl) as (d' & Hrun & Hl' & Hrel).
  destruct Hl as (Hnd & _ & Hs).
  assert (Hmem : ∀ q, q ∈ l1 ++ l2 ↔ q ∈ l1 ++ p :: l2 ∧ q ≠ p).
  { intros q. apply NoDup_app in Hnd as (_ & Hd & [Hp2 _]%NoDup_cons).
    rewrite !elem_of_app, elem_of_cons. split.
    - intros [Hq|Hq]; (split; [tauto|]); intros ->; [|done].
      apply (Hd _ Hq). set_solver.
    - tauto. }
  assert (Hp : is_Some (dl_mem d' !! p)).
  { apply (mem_relinked_dom _ _ _ Hrel).
    eapply dl_seg_lookup; [done|]. set_solver. }
  destruct Hp as [n Hp].
  exists d', (l1 ++ l2), n. split; [done|]. split; [done|].
  split; [|done]. split; [done|]. split; [|split].
  - destruct Hl' as (Hnd' & Hh' & Hs'). split; [done|]. split; [done|].
    simpl. apply dl_seg_delete_outside; [|done]. intros Hq%Hmem. tauto.
  - simpl. intros q [x Hx]. apply Hmem.
    destruct (decide (p = q)) as [<-|Hne].
    { by rewrite lookup_delete_eq in Hx. }
    rewrite lookup_delete_ne in Hx by done. split; [|done].
    apply Hdom, (mem_relinked_dom _ _ _ Hrel). eauto.
  - intros q Hq%Hmem. apply Hb. tauto.
Qed.

End region_lemmas.

(** ** Appending a node that may already be on the list *)

Section append_any.
Context {T : Type} `{DLNodeLaws T}.
Implicit Types (m : gmap N T) (d : dlist T).

Lemma store_prev_allocated m0 m p v :
  mem_relinked m0 m → is_Some (m0 !! p) →
  ∃ m', store m p (with_prev v) = Ok m' ∧ mem_relinked m0 m' ∧
        ∀ q n, q ≠ p → m !! q = Some n → m' !! q = Some n.
Proof.
  intros Hr Hp. apply (mem_relinked_dom _ _ _ Hr) in Hp as [n Hn].
  exists (<[p := with_prev v n]> m). split; [by apply store_Ok|].
  split; [by apply mem_relinked_store_prev|].
  intros q nq Hne Hq. by rewrite lookup_insert_ne.
Qed.

Lemma store_next_allocated m0 m p v :
  mem_relinked m0 m → is_Some (m0 !! p) →
  ∃ m', store m p (with_next v) = Ok m' ∧ mem_relinked m0 m'.
Proof.
  intros Hr Hp. apply (mem_relinked_dom _ _ _ Hr) in Hp as [n Hn].
  exists (<[p := with_next v n]> m). split; [by apply store_Ok|].
  by apply mem_relinked_store_next.
Qed.

(** [DL_APPEND] dereferences only the node, the head and the tail, so on a
    well-formed list it returns for every allocated node, on the list or
    not; it allocates and frees nothing and writes link fields only. *)
Lemma DL_APPEND_allocated d l p :
  dl_list d l → is_Some (dl_mem d !! p) →
  ∃ d', DL_APPEND d p = Ok d' ∧ mem_relinked (dl_mem d) (dl_mem d').
Proof.
  intros (Hnd & Hh & Hs) Hp. unfold DL_APPEND. cbv zeta.
  pose proof (mem_relinked_refl (dl_mem d)) as Hr0.
  destruct (decide (dl_head d = NULL)) as [Hnull|Hnn].
  - destruct (store_prev_allocated _ _ p p Hr0 Hp) as (m1 & -> & Hr1 & _).
    simpl.
    destruct (store_next_allocated _ _ p NULL Hr1 Hp) as (m2 & -> & Hr2).
    simpl. by eexists.
  - destruct l as [|h l']; [done|]. simpl in Hh.
    pose proof Hs as (_ & nh & Hmh & Hpv & _).
    assert (Htl : is_Some (dl_mem d !! prev nh)).
    { rewrite Hpv. eapply dl_seg_lookup; [done|].
      by apply last_ne_elem_of. }
    rewrite Hh. rewrite (load_Ok _ _ _ Hmh). simpl.
    destruct (store_prev_allocated _ _ p (prev nh) Hr0 Hp)
      as (m1 & Hst1 & Hr1 & Hkeep). rewrite Hst1. simpl.
    assert (∃ nh1, m1 !! h = Some nh1 ∧ prev nh1 = prev nh)
      as (nh1 & Hmh1 & Hpv1).
    { destruct (decide (h = p)) as [->|Hne]; [|by eauto].
      destruct Hp as [n Hn]. rewrite (store_Ok _ _ _ _ Hn) in Hst1.
      injection Hst1 as <-. rewrite lookup_insert_eq. eexists.
      split; [done|]. apply prev_with_prev. }
    rewrite (load_Ok _ _ _ Hmh1). simpl. rewrite Hpv1.
    destruct (store_next_allocated _ _ (prev nh) p Hr1 Htl)
      as (m2 & -> & Hr2). simpl.
    destruct (store_prev_allocated _ _ h p Hr2) as (m3 & -> & Hr3 & _);
      [by eauto|]. simpl.
    destruct (store_next_allocated _ _ p NULL Hr3 Hp) as (m4 & -> & Hr4).
    simpl. by eexists.
Qed.

(** Appending the only node of a list again leaves the list as it is. *)
Lemma DL_APPEND_single d p :
  dl_list d [p] →
  ∃ d', DL_APPEND d p = Ok d' ∧ dl_list d' [p] ∧
        mem_relinked (dl_mem d) (dl_mem d').
Proof.
  intros (Hnd & Hh & Hs). simpl in Hh, Hs.
  destruct Hs as (Hnn & n & Hm & Hpv & Hnx & _).
  unfold DL_APPEND. cbv zeta. rewrite Hh, decide_False by done.
  rewrite (load_Ok _ _ _ Hm). simpl. rewrite (store_Ok _ _ _ _ Hm). simpl.
  rewrite (load_Ok _ _ (with_prev (prev n) n)) by apply lookup_insert_eq.
  simpl. rewrite prev_with_prev, Hpv.
  erewrite store_Ok by apply lookup_insert_eq. simpl.
  erewrite store_Ok by apply lookup_insert_eq. simpl.
  erewrite store_Ok by apply lookup_insert_eq. simpl.
  eexists. split; [done|]. rewrite !insert_insert_eq. split.
  - split; [done|]. split; [done|]. simpl. split; [done|].
    eexists. rewrite lookup_insert_eq. split; [done|].
    by rewrite prev_with_next, prev_with_prev, next_with_next.
  - simpl. intros q. destruct (decide (p = q)) as [<-|Hne].
    + rewrite lookup_insert_eq, Hm. repeat constructor.
    + rewrite lookup_insert_ne by done. destruct (dl_mem d !! q); [|done].
      constructor.
Qed.

End append_any.

(** ** Running policy code *)

Lemma bind_Ok {A B : Type} (c : M A) (k : A → M B) s a s1 :
  c s = Ok (a, s1) → (c ≫= k) s = k a s1.
Proof. unfold mbind, M_bind. by intros ->. Qed.

Lemma search_run {T : Type} `{DLNodeLaws T} {B : Type} `{EqDecision B}
  (R : region T) (field : T → B) val s l :
  dl_list (rget R s) l →
  search R field val s = Ok (dl_find (dl_mem (rget R s)) field val l, s).
Proof.
  intros Hl. unfold search. by rewrite (DL_SEARCH_SCALAR_spec _ _ _ _ Hl).
Qed.

Lemma assign_run {T : Type} `{DLNode T} (R : region T) p f s n :
  dl_mem (rget R s) !! p = Some n →
  assign R p f s =
  Ok (tt, rset R {| dl_head := dl_head (rget R s);
                    dl_mem := <[p := f n]> (dl_mem (rget R s)) |} s).
Proof. intros Hm. unfold assign. by rewrite (store_Ok _ _ _ _ Hm). Qed.

Lemma deref_run {T : Type} `{DLNode T} (R : region T) p s n :
  dl_mem (rget R s) !! p = Some n → deref R p s = Ok (n, s).
Proof. intros Hm. unfold deref. by rewrite (load_Ok _ _ _ Hm). Qed.

Lemma free_run {T : Type} `{DLNode T} (R : region T) p s n :
  dl_mem (rget R s) !! p = Some n →
  free R p s =
  Ok (tt, rset R {| dl_head := dl_head (rget R s);
                    dl_mem := delete p (dl_mem (rget R s)) |} s).
Proof. intros Hm. unfold free. by rewrite (load_Ok _ _ _ Hm). Qed.

Lemma unlink_run {T : Type} `{DLNode T} (R : region T) p s d :
  DL_DELETE (rget R s) p = Ok d → unlink R p s = Ok (tt, rset R d s).
Proof. intros Hd. unfold unlink. by rewrite Hd. Qed.

Lemma append_run {T : Type} `{DLNode T} (R : region T) p s d :
  DL_APPEND (rget R s) p = Ok d → append R p s = Ok (tt, rset R d s).
Proof. intros Hd. unfold append. by rewrite Hd. Qed.

(** Steps of symbolic execution: [mrun] when the next statement computes,
    [mstep by tac] when its side condition is solved by [tac]. *)
Ltac mrun := erewrite bind_Ok; [|reflexivity].
Tactic Notation "mstep" "by" tactic(tac) := erewrite bind_Ok; [|tac].

(** ** Payloads after an insertion or a removal *)

Section payload_maps.
Context {T P : Type} (pay : T → P).
Implicit Types (m : gmap N T).

Lemma payload_insert_inv m m' b x p n' :
  pay <$> m' = <[b := x]> (pay <$> m) → m' !! p = Some n' →
  (p = b ∧ pay n' = x) ∨
  (p ≠ b ∧ ∃ n, m !! p = Some n ∧ pay n = pay n').
Proof.
  intros Heq Hm. assert ((pay <$> m') !! p = Some (pay n')) as Hl.
  { by rewrite lookup_fmap, Hm. }
  rewrite Heq in Hl. destruct (decide (b = p)) as [<-|Hne].
  - rewrite lookup_insert_eq in Hl. left. split; [done|]. by injection Hl.
  - rewrite lookup_insert_ne, lookup_fmap in Hl by done. right.
    split; [done|]. destruct (m !! p) as [n|]; [|done].
    exists n. split; [done|]. by injection Hl.
Qed.

Lemma payload_insert_new m m' b x :
  pay <$> m' = <[b := x]> (pay <$> m) → ∃ n', m' !! b = Some n' ∧ pay n' = x.
Proof.
  intros Heq. assert ((pay <$> m') !! b = Some x) as Hl.
  { by rewrite Heq, lookup_insert_eq. }
  rewrite lookup_fmap in Hl. destruct (m' !! b) as [n'|]; [|done].
  exists n'. split; [done|]. by injection Hl.
Qed.

Lemma payload_insert_old m m' b x p n :
  pay <$> m' = <[b := x]> (pay <$> m) → m !! p = Some n → p ≠ b →
  ∃ n', m' !! p = Some n' ∧ pay n' = pay n.
Proof.
  intros Heq Hm Hne. assert ((pay <$> m') !! p = Some (pay n)) as Hl.
  { by rewrite Heq, lookup_insert_ne, lookup_fmap, Hm. }
  rewrite lookup_fmap in Hl. destruct (m' !! p) as [n'|]; [|done].
  exists n'. split; [done|]. by injection Hl.
Qed.

Lemma payload_delete_inv m m' b p n' :
  pay <$> m' = delete b (pay <$> m) → m' !! p = Some n' →
  p ≠ b ∧ ∃ n, m !! p = Some n ∧ pay n = pay n'.
Proof.
  intros Heq Hm. assert ((pay <$> m') !! p = Some (pay n')) as Hl.
  { by rewrite lookup_fmap, Hm. }
  rewrite Heq in Hl. destruct (decide (b = p)) as [<-|Hne].
  - by rewrite lookup_delete_eq in Hl.
  - rewrite lookup_delete_ne, lookup_fmap in Hl by done.
    split; [done|]. destruct (m !! p) as [n|]; [|done].
    exists n. split; [done|]. by injection Hl.
Qed.

Lemma payload_delete_old m m' b p n :
  pay <$> m' = delete b (pay <$> m) → m !! p = Some n → p ≠ b →
  ∃ n', m' !! p = Some n' ∧ pay n' = pay n.
Proof.
  intros Heq Hm Hne. assert ((pay <$> m') !! p = Some (pay n)) as Hl.
  { by rewrite Heq, lookup_delete_ne, lookup_fmap, Hm. }
  rewrite lookup_fmap in Hl. destruct (m' !! p) as [n'|]; [|done].
  exists n'. split; [done|]. by injection Hl.
Qed.

Lemma payload_delete_gone m m' b :
  pay <$> m' = delete b (pay <$> m) → m' !! b = None.
Proof.
  intros Heq. assert ((pay <$> m') !! b = None) as Hl.
  { by rewrite Heq, lookup_delete_eq. }
  rewrite lookup_fmap in Hl. by destruct (m' !! b).
Qed.

End payload_maps.

Lemma sp_payload_inv n n' :
  sp_payload n = sp_payload n' →
  sp_device n = sp_device n' ∧ sp_suspend_reason n = sp_suspend_reason n' ∧
  sp_timer n = sp_timer n'.
Proof. unfold sp_payload. intros [=]. auto. Qed.

Lemma cw_payload_inv n n' :
  cw_payload n = cw_payload n' →
  cw_device n = cw_device n' ∧ cw_retries_left n = cw_retries_left n' ∧
  cw_timer n = cw_timer n'.
Proof. unfold cw_payload. intros [=]. auto. Qed.

Lemma psp_payload_inv n n' :
  psp_payload n = psp_payload n' →
  psp_device n = psp_device n' ∧ psp_timer n = psp_timer n'.
Proof. unfold psp_payload. intros [=]. auto. Qed.

(** ** The volume helpers *)

Lemma uint_small z : 0 ≤ z < 2 ^ 32 → uint z = z.
Proof. intros Hz. unfold uint, UINT_WIDTH. by rewrite Z.mod_small. Qed.

(** Claim C1.  For a system volume [V] and a node volume [N], both between 0
    and 100, [cras_iodev_adjust_node_volume] returns [max 0 (V - (100 - N))];
    with [N = 100] that is [V], and with [V = 0] it is 0. *)
Theorem cras_iodev_adjust_node_volume_max node V :
  0 ≤ V ≤ 100 → 0 ≤ volume node ≤ 100 →
  cras_iodev_adjust_node_volume node V = Z.max 0 (V - (100 - volume node)) ∧
  (volume node = 100 → cras_iodev_adjust_node_volume node V = V) ∧
  (V = 0 → cras_iodev_adjust_node_volume node V = 0).
Proof.
  intros HV HN.
  assert (Hmax : cras_iodev_adjust_node_volume node V
                 = Z.max 0 (V - (100 - volume node))).
  { unfold cras_iodev_adjust_node_volume. cbv zeta.
    rewrite (uint_small (100 - volume node)) by lia.
    destruct (Z.gtb_spec V (100 - volume node)).
    - rewrite uint_small by lia. lia.
    - lia. }
  rewrite Hmax. split; [done|]. split; intros; lia.
Qed.

Lemma cras_iodev_adjust_node_volume_max_witness :
  let node := {| node_idx := 0; plugged := 1; volume := 50;
                 capture_gain := 0; node_software_volume_needed := 0;
                 max_software_gain := 0; stable_id := 0 |} in
  (0 ≤ 70 ≤ 100 ∧ 0 ≤ volume node ≤ 100) ∧
  cras_iodev_adjust_node_volume node 70 = Z.max 0 (70 - (100 - volume node)) ∧
  (volume node = 100 → cras_iodev_adjust_node_volume node 70 = 70) ∧
  (70 = 0 → cras_iodev_adjust_node_volume node 70 = 0).
Proof.
  intros node. split; [simpl; lia|].
  apply (cras_iodev_adjust_node_volume_max node 70); simpl; lia.
Defined.

(** Claim C10.  For an iodev whose [active_node] is null,
    [cras_iodev_adjust_active_node_volume] returns the system volume it was
    given and [cras_iodev_adjust_active_node_gain] returns the system gain it
    was given. *)
Theorem cras_iodev_adjust_no_active_node iodev system_volume system_gain :
  active_node iodev = None →
  cras_iodev_adjust_active_node_volume iodev system_volume = system_volume ∧
  cras_iodev_adjust_active_node_gain iodev system_gain = system_gain.
Proof.
  intros Hnull.
  unfold cras_iodev_adjust_active_node_volume,
    cras_iodev_adjust_active_node_gain.
  by rewrite Hnull.
Qed.

Lemma cras_iodev_adjust_no_active_node_witness :
  active_node (sample_iodev 3) = None ∧
  cras_iodev_adjust_active_node_volume (sample_iodev 3) 70 = 70 ∧
  cras_iodev_adjust_active_node_gain (sample_iodev 3) (-1200) = -1200.
Proof.
  split; [reflexivity|].
  apply (cras_iodev_adjust_no_active_node (sample_iodev 3) 70 (-1200)).
  reflexivity.
Defined.

(** ** The suspend machine *)

(** Searching the suspend list. *)
Lemma suspend_search_none s l device :
  suspend_inv s l →
  (∀ p n, dl_mem (suspend_policies s) !! p = Some n → sp_device n ≠ device) →
  search SUSPEND sp_device device s = Ok (NULL, s).
Proof.
  intros [Hwf _ _ _] Hno.
  rewrite (search_run SUSPEND _ _ _ l) by (by eapply region_wf_dl_list).
  do 2 f_equal. by apply (dl_find_NULL_mem _ _ _ _ _ Hwf).
Qed.

Lemma suspend_search_some s l device p n :
  suspend_inv s l →
  dl_mem (suspend_policies s) !! p = Some n → sp_device n = device →
  search SUSPEND sp_device device s = Ok (p, s) ∧ p ≠ NULL ∧ p ∈ l.
Proof.
  intros [Hwf Hu _ _] Hm Hd.
  rewrite (search_run SUSPEND _ _ _ l) by (by eapply region_wf_dl_list).
  cbn [rget SUSPEND].
  destruct (decide (dl_find (dl_mem (suspend_policies s)) sp_device device l
                    = NULL)) as [Hnull|Hnn].
  - pose proof (proj1 (dl_find_NULL_mem _ _ sp_device device _ Hwf) Hnull) as Hall.
    by destruct (Hall p n).
  - destruct (dl_find_found _ _ _ _ _ eq_refl Hnn) as (Hin & n' & Hm' & Hd').
    assert (dl_find (dl_mem (suspend_policies s)) sp_device device l = p)
      as Heq.
    { eapply Hu; [done..|]. congruence. }
    rewrite Heq in *. auto.
Qed.

Lemma suspend_inv_frame s s' l :
  suspend_policies s' = suspend_policies s →
  (brk s ≤ brk s')%N →
  (∀ t, cb t = suspend_cb_fn → t ∈ timers (tm s') ↔ t ∈ timers (tm s)) →
  suspend_inv s l → suspend_inv s' l.
Proof.
  intros Hsp Hbrk Htm [Hwf Hu Ht Ho]. split; rewrite ?Hsp.
  - by eapply region_wf_mono.
  - done.
  - intros p n Hm. destruct (Ht p n Hm) as (t & Hin & ? & Hc & ?).
    exists t. split; [by apply Htm|done].
  - intros t Hin Hc. apply Ho; [by apply Htm|done].
Qed.

Lemma schedule_suspend_new s l device msec r :
  tm_wf (tm s) → suspend_inv s l →
  (∀ p n, dl_mem (suspend_policies s) !! p = Some n → sp_device n ≠ device) →
  ∃ d',
    schedule_suspend device msec r s =
    Ok (tt, {| tm := (cras_tm_create_timer (tm s) msec suspend_cb_fn (brk s)).1;
               brk := N.succ (brk s);
               profile_switch_policies := profile_switch_policies s;
               suspend_policies := d';
               conn_watch_policies := conn_watch_policies s;
               bt_devices := bt_devices s;
               hfp_ag_start_rc := hfp_ag_start_rc s;
               trace := trace s |}) ∧
    sp_payload <$> dl_mem d' =
      <[brk s := (device, r, tm_next_id (tm s))]>
        (sp_payload <$> dl_mem (suspend_policies s)) ∧
    suspend_inv
      {| tm := (cras_tm_create_timer (tm s) msec suspend_cb_fn (brk s)).1;
         brk := N.succ (brk s);
         profile_switch_policies := profile_switch_policies s;
         suspend_policies := d';
         conn_watch_policies := conn_watch_policies s;
         bt_devices := bt_devices s;
         hfp_ag_start_rc := hfp_ag_start_rc s;
         trace := trace s |} (l ++ [brk s]).
Proof.
  intros Htm Hinv Hno. pose proof Hinv as [Hwf Hu Ht Ho].
  set (rec := {| sp_device := device; sp_suspend_reason := r;
                 sp_timer := tm_next_id (tm s);
                 sp_prev := NULL; sp_next := NULL |}).
  destruct (region_new _ _ _ rec Hwf) as (d' & Hrun & Hwf' & Hrel).
  assert (Hpay : sp_payload <$> dl_mem d' =
            <[brk s := (device, r, tm_next_id (tm s))]>
              (sp_payload <$> dl_mem (suspend_policies s))).
  { rewrite (sp_mem_relinked _ _ Hrel). by rewrite fmap_insert. }
  exists d'. split; [|split; [done|]].
  - unfold schedule_suspend.
    mstep by (by eapply suspend_search_none).
    rewrite decide_True by done. mrun.
    mstep by (apply assign_run; cbn; apply lookup_insert_eq).
    mstep by (apply assign_run; cbn; apply lookup_insert_eq).
    mrun.
    mstep by (apply assign_run; cbn; apply lookup_insert_eq).
    unfold append. cbn -[DL_APPEND]. rewrite !insert_insert_eq.
    change (sp_set_timer _ (sp_set_suspend_reason _ (sp_set_device _ sp_zero)))
      with rec.
    by rewrite Hrun.
  - split; cbn [tm brk suspend_policies].
    + done.
    + intros p q n n' Hp Hq Hd.
      destruct (payload_insert_inv _ _ _ _ _ _ _ Hpay Hp)
        as [[-> Hx]|[Hne (m & Hm & Hx)]],
        (payload_insert_inv _ _ _ _ _ _ _ Hpay Hq)
        as [[-> Hy]|[Hne' (m' & Hm' & Hy)]]; try done.
      * unfold sp_payload in Hx, Hy. destruct (Hno _ _ Hm'). congruence.
      * unfold sp_payload in Hx, Hy. destruct (Hno _ _ Hm). congruence.
      * eapply Hu; [done..|]. unfold sp_payload in Hx, Hy. congruence.
    + intros p n Hp.
      destruct (payload_insert_inv _ _ _ _ _ _ _ Hpay Hp)
        as [[-> Hx]|[Hne (m & Hm & Hx)]].
      * eexists. split; [apply elem_of_create_timer; by right|].
        unfold sp_payload in Hx. simpl. split; [congruence|done].
      * destruct (Ht _ _ Hm) as (t & Hin & Hid & Hc & Hdata).
        exists t. split; [apply elem_of_create_timer; by left|].
        unfold sp_payload in Hx. split; [congruence|done].
    + intros t [Hin| ->]%elem_of_create_timer Hc.
      * destruct (Ho _ Hin Hc) as (n & Hm & Hid).
        assert (cb_data t ≠ brk s) as Hne.
        { intros Heq. rewrite Heq, (region_wf_fresh _ _ _ Hwf) in Hm. done. }
        destruct (payload_insert_old _ _ _ _ _ _ _ Hpay Hm Hne) as (n' & Hm' & Hx).
        exists n'. split; [done|]. unfold sp_payload in Hx. congruence.
      * simpl. destruct (payload_insert_new _ _ _ _ _ Hpay) as (n' & Hm' & Hx).
        exists n'. split; [done|]. unfold sp_payload in Hx. congruence.
Qed.

Lemma schedule_suspend_dup s l device msec r p n :
  suspend_inv s l →
  dl_mem (suspend_policies s) !! p = Some n → sp_device n = device →
  schedule_suspend device msec r s = Ok (tt, s).
Proof.
  intros Hinv Hm Hd. unfold schedule_suspend.
  destruct (suspend_search_some _ _ _ _ _ Hinv Hm Hd) as (Hrun & Hnn & _).
  mstep by exact Hrun. by rewrite decide_False.
Qed.

Lemma cancel_suspend_none s l device :
  suspend_inv s l →
  (∀ p n, dl_mem (suspend_policies s) !! p = Some n → sp_device n ≠ device) →
  cancel_suspend device s = Ok (tt, s).
Proof.
  intros Hinv Hno. unfold cancel_suspend.
  mstep by (by eapply suspend_search_none). by rewrite decide_True.
Qed.

Lemma suspend_inv_remove s s' l l' p n :
  tm_wf (tm s) → suspend_inv s l →
  dl_mem (suspend_policies s) !! p = Some n →
  brk s' = brk s →
  region_wf (brk s) (suspend_policies s') l' →
  sp_payload <$> dl_mem (suspend_policies s') =
    delete p (sp_payload <$> dl_mem (suspend_policies s)) →
  (∀ x, x ∈ timers (tm s') ↔ x ∈ timers (tm s) ∧ timer_id x ≠ sp_timer n) →
  suspend_inv s' l'.
Proof.
  intros Htm [Hwf Hu Ht Ho] Hm Hbrk Hwf' Hpay Htimers.
  destruct (Ht _ _ Hm) as (tp & Htp & Hidp & Hcp & Hdp).
  split.
  - by rewrite Hbrk.
  - intros q q' x x' Hq Hq' Hd.
    destruct (payload_delete_inv _ _ _ _ _ _ Hpay Hq) as (_ & y & Hy & Hxy).
    destruct (payload_delete_inv _ _ _ _ _ _ Hpay Hq') as (_ & y' & Hy' & Hxy').
    apply sp_payload_inv in Hxy as (? & _), Hxy' as (? & _).
    eapply Hu; [done..|]. congruence.
  - intros q x Hq.
    destruct (payload_delete_inv _ _ _ _ _ _ Hpay Hq) as (Hne & y & Hy & Hxy).
    apply sp_payload_inv in Hxy as (_ & _ & Hxy).
    destruct (Ht _ _ Hy) as (t & Hin & Hid & Hc & Hdata).
    exists t. split; [|split; [congruence|done]].
    apply Htimers. split; [done|]. intros Heq.
    assert (t = tp) by (eapply timer_id_inj; [done..|congruence]).
    congruence.
  - intros t [Hin Hid]%Htimers Hc.
    destruct (Ho _ Hin Hc) as (y & Hy & Hty).
    assert (cb_data t ≠ p) as Hne by (intros Heq; congruence).
    destruct (payload_delete_old _ _ _ _ _ _ Hpay Hy Hne) as (x & Hx & Hxy).
    apply sp_payload_inv in Hxy as (_ & _ & Hxy).
    exists x. split; [done|congruence].
Qed.

Lemma cancel_suspend_some s l device p n :
  tm_wf (tm s) → suspend_inv s l →
  dl_mem (suspend_policies s) !! p = Some n → sp_device n = device →
  ∃ d' l',
    cancel_suspend device s =
    Ok (tt, {| tm := cras_tm_cancel_timer (tm s) (sp_timer n);
               brk := brk s;
               profile_switch_policies := profile_switch_policies s;
               suspend_policies := d';
               conn_watch_policies := conn_watch_policies s;
               bt_devices := bt_devices s;
               hfp_ag_start_rc := hfp_ag_start_rc s;
               trace := trace s |}) ∧
    sp_payload <$> dl_mem d' =
      delete p (sp_payload <$> dl_mem (suspend_policies s)) ∧
    suspend_inv
      {| tm := cras_tm_cancel_timer (tm s) (sp_timer n);
         brk := brk s;
         profile_switch_policies := profile_switch_policies s;
         suspend_policies := d';
         conn_watch_policies := conn_watch_policies s;
         bt_devices := bt_devices s;
         hfp_ag_start_rc := hfp_ag_start_rc s;
         trace := trace s |} l'.
Proof.
  intros Htm Hinv Hm Hd. pose proof Hinv as [Hwf Hu Ht Ho].
  destruct (suspend_search_some _ _ _ _ _ Hinv Hm Hd) as (Hrun & Hnn & Hin).
  destruct (region_remove _ _ _ _ Hwf Hin)
    as (d1 & l' & n1 & Hdel & Hm1 & Hwf' & Hl' & Hrel).
  assert (Hpay : sp_payload <$> delete p (dl_mem d1) =
            delete p (sp_payload <$> dl_mem (suspend_policies s))).
  { by rewrite fmap_delete, (sp_mem_relinked _ _ Hrel). }
  eexists {| dl_head := dl_head d1; dl_mem := delete p (dl_mem d1) |}, l'.
  split; [|split; [done|]].
  - unfold cancel_suspend. mstep by exact Hrun.
    rewrite decide_False by done.
    mstep by (by apply deref_run). mrun.
    mstep by (by apply unlink_run).
    rewrite (free_run SUSPEND _ _ n1) by done. reflexivity.
  - eapply (suspend_inv_remove s); try done.
    intros x. apply elem_of_cancel_timer.
Qed.

Lemma suspend_fire s l t :
  tm_wf (tm s) → suspend_inv s l →
  t ∈ timers (tm s) → cb t = suspend_cb_fn →
  ∃ n d' l',
    dl_mem (suspend_policies s) !! cb_data t = Some n ∧
    sp_timer n = timer_id t ∧
    cras_tm_fire t s =
    Ok (tt, {| tm := cras_tm_expire t (tm s);
               brk := brk s;
               profile_switch_policies := profile_switch_policies s;
               suspend_policies := d';
               conn_watch_policies := conn_watch_policies s;
               bt_devices := bt_devices s;
               hfp_ag_start_rc := hfp_ag_start_rc s;
               trace := trace s ++
                 [E_BTLOG BT_DEV_SUSPEND_CB
                    (profiles (bt_devices s (sp_device n)))
                    (suspend_reason_code (sp_suspend_reason n));
                  E_syslog LOG_ERR
                    (suspend_reason_message (sp_suspend_reason n)) [];
                  E_cras_a2dp_suspend_connected_device (sp_device n);
                  E_cras_hfp_ag_suspend_connected_device (sp_device n);
                  E_cras_bt_device_disconnect
                    (conn (bt_devices s (sp_device n))) (sp_device n)] |}) ∧
    sp_payload <$> dl_mem d' =
      delete (cb_data t) (sp_payload <$> dl_mem (suspend_policies s)) ∧
    suspend_inv
      {| tm := cras_tm_expire t (tm s);
         brk := brk s;
         profile_switch_policies := profile_switch_policies s;
         suspend_policies := d';
         conn_watch_policies := conn_watch_policies s;
         bt_devices := bt_devices s;
         hfp_ag_start_rc := hfp_ag_start_rc s;
         trace := trace s ++
           [E_BTLOG BT_DEV_SUSPEND_CB
              (profiles (bt_devices s (sp_device n)))
              (suspend_reason_code (sp_suspend_reason n));
            E_syslog LOG_ERR
              (suspend_reason_message (sp_suspend_reason n)) [];
            E_cras_a2dp_suspend_connected_device (sp_device n);
            E_cras_hfp_ag_suspend_connected_device (sp_device n);
            E_cras_bt_device_disconnect
              (conn (bt_devices s (sp_device n))) (sp_device n)] |} l'.
Proof.
  intros Htm Hinv Hin Hc. pose proof Hinv as [Hwf Hu Ht Ho].
  destruct (Ho _ Hin Hc) as (n & Hm & Hid).
  assert (Hpl : cb_data t ∈ l).
  { destruct Hwf as (_ & _ & Hdom & _). apply Hdom. eauto. }
  destruct (region_remove _ _ _ _ Hwf Hpl)
    as (d1 & l' & n1 & Hdel & Hm1 & Hwf' & Hl' & Hrel).
  assert (Hpay : sp_payload <$> delete (cb_data t) (dl_mem d1) =
            delete (cb_data t) (sp_payload <$> dl_mem (suspend_policies s))).
  { by rewrite fmap_delete, (sp_mem_relinked _ _ Hrel). }
  eexists n, {| dl_head := dl_head d1; dl_mem := delete (cb_data t) (dl_mem d1) |}, l'.
  split; [done|]. split; [done|]. split; [|split; [done|]].
  - unfold cras_tm_fire. mrun. unfold run_callback. rewrite Hc.
    unfold suspend_cb.
    mstep by (by apply deref_run). do 6 mrun.
    mstep by (by apply unlink_run).
    rewrite (free_run SUSPEND _ _ n1) by done. cbn.
    by rewrite <- !app_assoc.
  - eapply (suspend_inv_remove s); try done.
    intros x. rewrite Hid. apply elem_of_expire.
Qed.

(** Either some record of the suspend list belongs to [device], or none. *)
Lemma suspend_lookup_device s l device :
  suspend_inv s l →
  (∃ p n, dl_mem (suspend_policies s) !! p = Some n ∧ sp_device n = device) ∨
  (∀ p n, dl_mem (suspend_policies s) !! p = Some n → sp_device n ≠ device).
Proof.
  intros [Hwf _ _ _].
  destruct (decide (dl_find (dl_mem (suspend_policies s)) sp_device device l
                    = NULL)) as [Hnull|Hnn].
  - right. by apply (dl_find_NULL_mem _ _ sp_device device _ Hwf).
  - left. destruct (dl_find_found _ _ _ _ _ eq_refl Hnn) as (_ & n & Hm & Hd).
    eauto.
Qed.

(** A record of a well-formed suspend list is the only one of its device, and
    exactly one timer is pending for it. *)
Lemma suspend_record_facts s l p n :
  tm_wf (tm s) → suspend_inv s l →
  dl_mem (suspend_policies s) !! p = Some n →
  records_of sp_device (sp_device n) (suspend_policies s) = [p] ∧
  ∃ t, timers_of suspend_cb_fn p (tm s) = [t] ∧ timer_id t = sp_timer n.
Proof.
  intros Htm [Hwf Hu Ht Ho] Hm. split.
  - eapply records_of_one; [by eapply region_wf_dl_list|done| |done..].
    destruct Hwf as (_ & _ & Hdom & _). apply Hdom. eauto.
  - destruct (Ht _ _ Hm) as (t & Hin & Hid & Hc & Hd). exists t.
    split; [|done]. apply timers_of_one; [done..|].
    intros y Hy Hcy Hdy. destruct (Ho _ Hy Hcy) as (n' & Hm' & Hid').
    rewrite Hdy, Hm in Hm'. congruence.
Qed.

Lemma suspend_no_record s l device :
  suspend_inv s l →
  records_of sp_device device (suspend_policies s) = [] →
  ∀ p n, dl_mem (suspend_policies s) !! p = Some n → sp_device n ≠ device.
Proof.
  intros Hinv Hnil p n Hm Hd. pose proof Hinv as [Hwf Hu _ _].
  assert (Hin : p ∈ l).
  { destruct Hwf as (_ & _ & Hdom & _). apply Hdom. eauto. }
  erewrite records_of_one in Hnil; [done| |done..].
  by eapply region_wf_dl_list.
Qed.

(** What one [schedule_suspend] leaves behind. *)
Lemma schedule_suspend_spec s l device msec r :
  tm_wf (tm s) → suspend_inv s l →
  ∃ s1 l1 p n t,
    schedule_suspend device msec r s = Ok (tt, s1) ∧
    tm_wf (tm s1) ∧ suspend_inv s1 l1 ∧
    dl_mem (suspend_policies s1) !! p = Some n ∧ sp_device n = device ∧
    records_of sp_device device (suspend_policies s1) = [p] ∧
    timers_of suspend_cb_fn p (tm s1) = [t] ∧ timer_id t = sp_timer n ∧
    (records_of sp_device device (suspend_policies s) = [] →
       sp_suspend_reason n = r ∧ ts t = tm_now (tm s) + msec).
Proof.
  intros Htm Hinv.
  destruct (suspend_lookup_device _ _ device Hinv) as [(p & n & Hm & Hd)|Hno].
  - exists s, l, p, n.
    destruct (suspend_record_facts _ _ _ _ Htm Hinv Hm) as (Hrec & t & Ht & Hid).
    exists t. split; [by eapply schedule_suspend_dup|]. rewrite Hd in Hrec.
    do 7 (split; [done|]). intros Hnil. by rewrite Hnil in Hrec.
  - destruct (schedule_suspend_new _ _ _ msec r Htm Hinv Hno)
      as (d' & Hrun & Hpay & Hinv').
    destruct (payload_insert_new _ _ _ _ _ Hpay) as (n & Hm & Hn).
    match type of Hinv' with suspend_inv ?st _ => set (s1 := st) in * end.
    assert (Htm' : tm_wf (tm s1)) by (by apply tm_wf_create).
    destruct (suspend_record_facts s1 _ _ _ Htm' Hinv' Hm) as (Hrec & t & Ht & Hid).
    assert (sp_device n = device ∧ sp_suspend_reason n = r ∧
            sp_timer n = tm_next_id (tm s)) as (Hdev & Hr & Htimer).
    { unfold sp_payload in Hn. injection Hn. auto. }
    exists s1, (l ++ [brk s]), (brk s), n, t. split; [exact Hrun|].
    rewrite Hdev in Hrec.
    do 7 (split; [done|]). intros _. split; [done|].
    assert (Hin : t ∈ timers_of suspend_cb_fn (brk s) (tm s1)).
    { rewrite Ht. set_solver. }
    apply list_elem_of_filter in Hin as [_ [Hold| ->]%elem_of_create_timer];
      [|done].
    destruct Hinv as [Hwf _ _ Ho]. apply (tm_ids_bound _ Htm) in Hold.
    rewrite Htimer in Hid. lia.
Qed.


(** Claim C8.  When a pending suspend fires, the callback logs the reason,
    suspends A2DP, suspends HFP-AG and force-disconnects the device, each
    once and in that order; it then takes the record off the list and frees
    it, so no suspend remains pending for the device. *)
Theorem suspend_cb_fires s l t :
  tm_wf (tm s) → suspend_inv s l →
  t ∈ timers (tm s) → cb t = suspend_cb_fn →
  ∃ n s',
    dl_mem (suspend_policies s) !! cb_data t = Some n ∧
    cras_tm_fire t s = Ok (tt, s') ∧
    trace s' = trace s ++
      [E_BTLOG BT_DEV_SUSPEND_CB (profiles (bt_devices s (sp_device n)))
         (suspend_reason_code (sp_suspend_reason n));
       E_syslog LOG_ERR (suspend_reason_message (sp_suspend_reason n)) [];
       E_cras_a2dp_suspend_connected_device (sp_device n);
       E_cras_hfp_ag_suspend_connected_device (sp_device n);
       E_cras_bt_device_disconnect (conn (bt_devices s (sp_device n)))
         (sp_device n)] ∧
    dl_mem (suspend_policies s') !! cb_data t = None ∧
    records_of sp_device (sp_device n) (suspend_policies s') = [] ∧
    timers_of suspend_cb_fn (cb_data t) (tm s') = [].
Proof.
  intros Htm Hinv Hin Hc.
  destruct (suspend_fire _ _ _ Htm Hinv Hin Hc)
    as (n & d' & l' & Hm & Hid & Hrun & Hpay & Hinv').
  eexists n, _. split; [done|]. split; [exact Hrun|]. split; [done|].
  cbn [suspend_policies tm]. split; [by eapply payload_delete_gone|]. split.
  - eapply records_of_nil.
    + destruct Hinv' as [Hwf _ _ _]. by eapply region_wf_dl_list.
    + intros q x Hq Hd.
      destruct (payload_delete_inv _ _ _ _ _ _ Hpay Hq) as (Hne & y & Hy & Hxy).
      apply sp_payload_inv in Hxy as (Hxy & _).
      destruct Hinv as [_ Hu _ _]. apply Hne. eapply Hu; [done..|]. congruence.
  - apply filter_nil_all. intros x [Hx Hidx]%elem_of_expire [Hcx Hdx].
    destruct Hinv as [_ _ _ Ho]. destruct (Ho _ Hx Hcx) as (n' & Hm' & Hid').
    rewrite Hdx, Hm in Hm'. congruence.
Qed.

(** ** Searching a list by device *)

Section region_search.
Context {T : Type} `{DLNodeLaws T} (R : region T) (device_of : T → ptr).

Lemma region_search_none s l bound device :
  region_wf bound (rget R s) l →
  (∀ p n, dl_mem (rget R s) !! p = Some n → device_of n ≠ device) →
  search R device_of device s = Ok (NULL, s).
Proof.
  intros Hwf Hno.
  rewrite (search_run R _ _ _ l) by (by eapply region_wf_dl_list).
  do 2 f_equal. by apply (dl_find_NULL_mem _ _ _ _ _ Hwf).
Qed.

Lemma region_search_some s l bound device p n :
  region_wf bound (rget R s) l → unique_device device_of (dl_mem (rget R s)) →
  dl_mem (rget R s) !! p = Some n → device_of n = device →
  search R device_of device s = Ok (p, s) ∧ p ≠ NULL ∧ p ∈ l.
Proof.
  intros Hwf Hu Hm Hd.
  rewrite (search_run R _ _ _ l) by (by eapply region_wf_dl_list).
  destruct (decide (dl_find (dl_mem (rget R s)) device_of device l = NULL))
    as [Hnull|Hnn].
  - pose proof (proj1 (dl_find_NULL_mem _ _ device_of device _ Hwf) Hnull)
      as Hall.
    by destruct (Hall p n).
  - destruct (dl_find_found _ _ _ _ _ eq_refl Hnn) as (Hin & n' & Hm' & Hd').
    assert (dl_find (dl_mem (rget R s)) device_of device l = p) as Heq.
    { eapply Hu; [done..|]. congruence. }
    rewrite Heq in *. auto.
Qed.

Lemma region_lookup_device (d : dlist T) l bound device :
  region_wf bound d l →
  (∃ p n, dl_mem d !! p = Some n ∧ device_of n = device) ∨
  (∀ p n, dl_mem d !! p = Some n → device_of n ≠ device).
Proof.
  intros Hwf.
  destruct (decide (dl_find (dl_mem d) device_of device l = NULL))
    as [Hnull|Hnn].
  - right. by apply (dl_find_NULL_mem _ _ device_of device _ Hwf).
  - left. destruct (dl_find_found _ _ _ _ _ eq_refl Hnn) as (_ & n & Hm & Hd).
    eauto.
Qed.

Lemma region_wf_elem_of (d : dlist T) l bound p n :
  region_wf bound d l → dl_mem d !! p = Some n → p ∈ l.
Proof. intros (_ & _ & Hdom & _) Hm. apply Hdom. eauto. Qed.

End region_search.

(** ** The connection watch machine *)

Lemma int_small z : -2 ^ 31 ≤ z < 2 ^ 31 → int z = z.
Proof. intros Hz. unfold int. rewrite Z.mod_small; lia. Qed.

(** A watch timer that has expired leaves no timer behind for its record. *)
Lemma conn_watch_expired s l t x :
  tm_wf (tm s) → conn_watch_inv s l →
  t ∈ timers (tm s) → cb t = conn_watch_cb_fn →
  x ∈ timers (cras_tm_expire t (tm s)) → cb x = conn_watch_cb_fn →
  cb_data x ≠ cb_data t ∧ x ∈ timers (tm s).
Proof.
  intros Htm [_ _ Ho _ _] Hin Hc [Hx Hid]%elem_of_expire Hcx. split; [|done].
  intros Heq. destruct (Ho _ Hin Hc) as (n & Hm & Hn).
  destruct (Ho _ Hx Hcx) as (n' & Hm' & Hn'). rewrite Heq, Hm in Hm'.
  congruence.
Qed.

Lemma conn_watch_owner s l t :
  conn_watch_inv s l → t ∈ timers (tm s) → cb t = conn_watch_cb_fn →
  ∃ n, dl_mem (conn_watch_policies s) !! cb_data t = Some n ∧
       cw_timer n = timer_id t ∧ cb_data t ∈ l.
Proof.
  intros [Hwf _ Ho _ _] Hin Hc. destruct (Ho _ Hin Hc) as (n & Hm & Hid).
  exists n. split; [done|]. split; [done|]. by eapply region_wf_elem_of.
Qed.

(** The calls of the first half of [conn_watch_cb]. *)
Lemma tick_connect_calls_run device d (s : policy_state) :
  ((if cras_bt_device_supports_profile d CRAS_BT_DEVICE_PROFILE_A2DP_SINK
       && cras_bt_device_supports_profile d
            CRAS_BT_DEVICE_PROFILE_HFP_HANDSFREE then
      (if negb (cras_bt_device_is_profile_connected d
                  CRAS_BT_DEVICE_PROFILE_A2DP_SINK)
          && cras_bt_device_is_profile_connected d
               CRAS_BT_DEVICE_PROFILE_HFP_HANDSFREE then
         call (E_cras_bt_device_connect_profile (conn d) device
                 A2DP_SINK_UUID)
       else mret tt);;
      (if cras_bt_device_is_profile_connected d
            CRAS_BT_DEVICE_PROFILE_A2DP_SINK
          && negb (cras_bt_device_is_profile_connected d
                     CRAS_BT_DEVICE_PROFILE_HFP_HANDSFREE) then
         call (E_cras_bt_device_connect_profile (conn d) device HFP_HF_UUID)
       else mret tt)
    else mret tt) : M unit) s =
  Ok (tt, set_trace (trace s ++ tick_connect_calls device d) s).
Proof.
  unfold tick_connect_calls.
  assert (Hid : set_trace (trace s ++ []) s = s).
  { rewrite app_nil_r. by destruct s. }
  destruct (cras_bt_device_supports_profile d CRAS_BT_DEVICE_PROFILE_A2DP_SINK),
    (cras_bt_device_supports_profile d CRAS_BT_DEVICE_PROFILE_HFP_HANDSFREE),
    (cras_bt_device_is_profile_connected d CRAS_BT_DEVICE_PROFILE_A2DP_SINK),
    (cras_bt_device_is_profile_connected d CRAS_BT_DEVICE_PROFILE_HFP_HANDSFREE);
    cbn; rewrite ?Hid; try reflexivity.
Qed.

Lemma watch_fire_rearm s t n :
  cb t = conn_watch_cb_fn →
  dl_mem (conn_watch_policies s) !! cb_data t = Some n →
  profiles (bt_devices s (cw_device n)) ≠ 0 →
  watch_mismatch (bt_devices s (cw_device n)) = true →
  int (cw_retries_left n - 1) ≠ 0 →
  cras_tm_fire t s =
  Ok (tt,
      set_conn_watch_policies
        {| dl_head := dl_head (conn_watch_policies s);
           dl_mem := <[cb_data t :=
                         {| cw_device := cw_device n;
                            cw_retries_left := int (cw_retries_left n - 1);
                            cw_timer := tm_next_id (tm s);
                            cw_prev := cw_prev n; cw_next := cw_next n |}]>
                       (dl_mem (conn_watch_policies s)) |}
        (set_tm (cras_tm_create_timer (cras_tm_expire t (tm s))
                   CONN_WATCH_PERIOD_MS conn_watch_cb_fn (cb_data t)).1
           (set_trace
              (trace s ++
               [E_BTLOG BT_DEV_CONN_WATCH_CB (cw_retries_left n)
                  (profiles (bt_devices s (cw_device n)))] ++
               tick_connect_calls (cw_device n) (bt_devices s (cw_device n)) ++
               [E_syslog LOG_DEBUG "conn_watch_retries: %d"
                  [cw_retries_left n]]) s))).
Proof.
  intros Hc Hm Hprof Hmis Hret.
  unfold cras_tm_fire. mrun. unfold run_callback. rewrite Hc.
  unfold conn_watch_cb.
  mstep by (apply deref_run; exact Hm). mrun. mrun.
  mstep by (apply assign_run; exact Hm).
  change (bt_devices (set_tm _ s) _) with (bt_devices s (cw_device n)).
  rewrite decide_False by done.
  mstep by apply tick_connect_calls_run.
  change (negb (Bool.eqb _ _) || negb (Bool.eqb _ _))
    with (watch_mismatch (bt_devices s (cw_device n))).
  rewrite Hmis.
  mstep by (apply deref_run; cbn; apply lookup_insert_eq). mrun.
  mstep by (apply assign_run; cbn; apply lookup_insert_eq).
  mstep by (apply deref_run; cbn; apply lookup_insert_eq).
  rewrite decide_False by done. mrun.
  rewrite (assign_run CONN_WATCH _ _ _
             (cw_set_retries_left (int (cw_retries_left n - 1))
                (cw_set_timer NULL n)))
    by (cbn; apply lookup_insert_eq).
  cbn. rewrite !insert_insert_eq, <- !app_assoc. reflexivity.
Qed.

Lemma watch_fire_timeout s t n :
  cb t = conn_watch_cb_fn →
  dl_mem (conn_watch_policies s) !! cb_data t = Some n →
  profiles (bt_devices s (cw_device n)) ≠ 0 →
  watch_mismatch (bt_devices s (cw_device n)) = true →
  int (cw_retries_left n - 1) = 0 →
  cras_tm_fire t s =
  schedule_suspend (cw_device n) 0 CONN_WATCH_TIME_OUT
    (set_conn_watch_policies
       {| dl_head := dl_head (conn_watch_policies s);
          dl_mem := <[cb_data t :=
                        {| cw_device := cw_device n;
                           cw_retries_left := 0;
                           cw_timer := NULL;
                           cw_prev := cw_prev n; cw_next := cw_next n |}]>
                      (dl_mem (conn_watch_policies s)) |}
       (set_tm (cras_tm_expire t (tm s))
          (set_trace
             (trace s ++
              [E_BTLOG BT_DEV_CONN_WATCH_CB (cw_retries_left n)
                 (profiles (bt_devices s (cw_device n)))] ++
              tick_connect_calls (cw_device n) (bt_devices s (cw_device n)) ++
              [E_syslog LOG_DEBUG "conn_watch_retries: %d"
                 [cw_retries_left n];
               E_syslog LOG_ERR "Connection watch timeout." []]) s))).
Proof.
  intros Hc Hm Hprof Hmis Hret.
  unfold cras_tm_fire. mrun. unfold run_callback. rewrite Hc.
  unfold conn_watch_cb.
  mstep by (apply deref_run; exact Hm). mrun. mrun.
  mstep by (apply assign_run; exact Hm).
  change (bt_devices (set_tm _ s) _) with (bt_devices s (cw_device n)).
  rewrite decide_False by done.
  mstep by apply tick_connect_calls_run.
  change (negb (Bool.eqb _ _) || negb (Bool.eqb _ _))
    with (watch_mismatch (bt_devices s (cw_device n))).
  rewrite Hmis.
  mstep by (apply deref_run; cbn; apply lookup_insert_eq). mrun.
  mstep by (apply assign_run; cbn; apply lookup_insert_eq).
  mstep by (apply deref_run; cbn; apply lookup_insert_eq).
  rewrite decide_True by done. mrun.
  f_equal. cbn. rewrite !insert_insert_eq, <- !app_assoc, Hret. reflexivity.
Qed.

Lemma watch_fire_idle s l t n :
  conn_watch_inv s l →
  cb t = conn_watch_cb_fn →
  dl_mem (conn_watch_policies s) !! cb_data t = Some n →
  profiles (bt_devices s (cw_device n)) = 0 →
  ∃ d' l',
    cras_tm_fire t s =
    Ok (tt,
        set_conn_watch_policies d'
          (set_tm (cras_tm_expire t (tm s))
             (set_trace
                (trace s ++
                 [E_BTLOG BT_DEV_CONN_WATCH_CB (cw_retries_left n)
                    (profiles (bt_devices s (cw_device n)))]) s))) ∧
    region_wf (brk s) d' l' ∧
    (∀ q, q ∈ l' ↔ q ∈ l ∧ q ≠ cb_data t) ∧
    cw_payload <$> dl_mem d' =
      delete (cb_data t) (cw_payload <$> dl_mem (conn_watch_policies s)).
Proof.
  intros [Hwf _ _ _ _] Hc Hm Hprof.
  assert (Hwf1 : region_wf (brk s)
            {| dl_head := dl_head (conn_watch_policies s);
               dl_mem := <[cb_data t := cw_set_timer NULL n]>
                           (dl_mem (conn_watch_policies s)) |} l).
  { by apply (region_wf_update _ _ _ _ n). }
  assert (Hin : cb_data t ∈ l) by exact (region_wf_elem_of _ _ _ _ _ Hwf Hm).
  destruct (region_remove _ _ _ _ Hwf1 Hin)
    as (d1 & l' & n1 & Hdel & Hm1 & Hwf' & Hl' & Hrel).
  eexists {| dl_head := dl_head d1; dl_mem := delete (cb_data t) (dl_mem d1) |}, l'.
  split; [|split; [done|split; [done|]]].
  - unfold cras_tm_fire. mrun. unfold run_callback. rewrite Hc.
    unfold conn_watch_cb.
    mstep by (apply deref_run; exact Hm). mrun. mrun.
    mstep by (apply assign_run; exact Hm).
    change (bt_devices (set_tm _ s) _) with (bt_devices s (cw_device n)).
    rewrite decide_True by done. unfold done_with_policy.
    mstep by (apply unlink_run; exact Hdel).
    rewrite (free_run CONN_WATCH _ _ n1) by done. reflexivity.
  - simpl. rewrite fmap_delete, (cw_mem_relinked _ _ Hrel). simpl.
    by rewrite fmap_insert, delete_insert_eq.
Qed.

(** *** How the invariant of the watch list is kept *)

(** Other machines run: timers go away, and timers of other callbacks are
    created. *)
Lemma conn_watch_inv_frame s s' l :
  conn_watch_policies s' = conn_watch_policies s →
  (brk s ≤ brk s')%N →
  (tm_next_id (tm s) ≤ tm_next_id (tm s'))%N →
  (∀ t, t ∈ timers (tm s') →
        t ∈ timers (tm s) ∨
        (cb t ≠ conn_watch_cb_fn ∧ (tm_next_id (tm s) ≤ timer_id t)%N)) →
  conn_watch_inv s l → conn_watch_inv s' l.
Proof.
  intros Hcw Hbrk Hnext Htm [Hwf Hu Ho Hf Hb]. split; rewrite ?Hcw.
  - by eapply region_wf_mono.
  - done.
  - intros t Ht Hc. destruct (Htm _ Ht) as [Hold|[Hne _]]; [|done]. by apply Ho.
  - intros p n t Hm Ht Hid. destruct (Htm _ Ht) as [Hold|[_ Hfresh]].
    + by eapply Hf.
    + apply Hb in Hm. lia.
  - intros p n Hm. apply Hb in Hm. lia.
Qed.

(** The record [p] gets a new counter and a new timer field, which is null
    or the handle of a timer created for it just now. *)
Lemma conn_watch_inv_set s s' l p n r tmr :
  tm_wf (tm s) → conn_watch_inv s l →
  dl_mem (conn_watch_policies s) !! p = Some n →
  region_wf (brk s') (conn_watch_policies s') l →
  cw_payload <$> dl_mem (conn_watch_policies s') =
    <[p := (cw_device n, r, tmr)]>
      (cw_payload <$> dl_mem (conn_watch_policies s)) →
  (tm_next_id (tm s) ≤ tm_next_id (tm s'))%N →
  (tmr < tm_next_id (tm s'))%N →
  (∀ t, t ∈ timers (tm s') →
        (cb t = conn_watch_cb_fn ∧ cb_data t = p ∧ timer_id t = tmr ∧
         tmr = tm_next_id (tm s)) ∨
        (t ∈ timers (tm s) ∧ timer_id t ≠ tmr ∧
         (cb t = conn_watch_cb_fn → cb_data t ≠ p)) ∨
        (cb t ≠ conn_watch_cb_fn ∧ (tm_next_id (tm s) ≤ timer_id t)%N ∧
         timer_id t ≠ tmr)) →
  conn_watch_inv s' l.
Proof.
  intros Htm [Hwf Hu Ho Hf Hb] Hm Hwf' Hpay Hnext Htmr Htimers. split.
  - done.
  - intros q q' y y' Hq Hq' Hd.
    assert (∀ q y, dl_mem (conn_watch_policies s') !! q = Some y →
              ∃ y0, dl_mem (conn_watch_policies s) !! q = Some y0 ∧
                    cw_device y0 = cw_device y) as Hold.
    { intros q0 y0 Hq0.
      destruct (payload_insert_inv _ _ _ _ _ _ _ Hpay Hq0)
        as [[-> Hx]|[Hne (m & Hm' & Hx)]].
      - exists n. split; [done|]. unfold cw_payload in Hx. congruence.
      - exists m. split; [done|]. unfold cw_payload in Hx. congruence. }
    destruct (Hold _ _ Hq) as (y0 & Hy0 & Hd0).
    destruct (Hold _ _ Hq') as (y0' & Hy0' & Hd0').
    eapply Hu; [done..|]. congruence.
  - intros t Ht Hc.
    destruct (Htimers _ Ht)
      as [(_ & Hdata & Hid & _)|[(Hold & _ & Hdata)|(Hne & _)]]; [| |done].
    + destruct (payload_insert_new _ _ _ _ _ Hpay) as (x & Hx & Hpx).
      exists x. rewrite Hdata. split; [done|]. unfold cw_payload in Hpx.
      congruence.
    + destruct (Ho _ Hold Hc) as (y & Hy & Hid).
      destruct (payload_insert_old _ _ _ _ _ _ _ Hpay Hy (Hdata Hc))
        as (y' & Hy' & Hpy).
      exists y'. split; [done|]. unfold cw_payload in Hpy. congruence.
  - intros q y t Hq Ht Hid.
    destruct (payload_insert_inv _ _ _ _ _ _ _ Hpay Hq)
      as [[-> Hx]|[Hne (m & Hm' & Hx)]].
    + assert (cw_timer y = tmr) as Heq by (unfold cw_payload in Hx; congruence).
      destruct (Htimers _ Ht) as [(? & ? & ? & ?)|[(_ & Hno & _)|(_ & _ & Hno)]];
        [done|congruence..].
    + assert (cw_timer y = cw_timer m) as Heq
        by (unfold cw_payload in Hx; congruence).
      pose proof (Hb _ _ Hm') as Hbm.
      destruct (Htimers _ Ht)
        as [(_ & _ & Hid' & Hnew)|[(Hold & _)|(_ & Hfresh & _)]].
      * rewrite Hid, Heq, Hnew in Hid'. lia.
      * eapply Hf; [done..|]. congruence.
      * rewrite Hid, Heq in Hfresh. lia.
  - intros q y Hq.
    destruct (payload_insert_inv _ _ _ _ _ _ _ Hpay Hq)
      as [[-> Hx]|[Hne (m & Hm' & Hx)]].
    + unfold cw_payload in Hx. replace (cw_timer y) with tmr by congruence. done.
    + apply Hb in Hm'. unfold cw_payload in Hx.
      replace (cw_timer y) with (cw_timer m) by congruence. lia.
Qed.

(** A record is added for a device that had none; its timer field is null. *)
Lemma conn_watch_inv_new s s' l l' p device r :
  tm_wf (tm s) → conn_watch_inv s l →
  dl_mem (conn_watch_policies s) !! p = None →
  (∀ q n, dl_mem (conn_watch_policies s) !! q = Some n →
          cw_device n ≠ device) →
  region_wf (brk s') (conn_watch_policies s') l' →
  cw_payload <$> dl_mem (conn_watch_policies s') =
    <[p := (device, r, NULL)]>
      (cw_payload <$> dl_mem (conn_watch_policies s)) →
  tm s' = tm s →
  conn_watch_inv s' l'.
Proof.
  intros Htm [Hwf Hu Ho Hf Hb] Hnone Hno Hwf' Hpay Htms. split; rewrite ?Htms.
  - done.
  - intros q q' y y' Hq Hq' Hd.
    destruct (payload_insert_inv _ _ _ _ _ _ _ Hpay Hq)
      as [[-> Hx]|[Hne (m & Hm & Hx)]],
      (payload_insert_inv _ _ _ _ _ _ _ Hpay Hq')
      as [[-> Hy]|[Hne' (m' & Hm' & Hy)]]; try done.
    + unfold cw_payload in Hx, Hy. destruct (Hno _ _ Hm'). congruence.
    + unfold cw_payload in Hx, Hy. destruct (Hno _ _ Hm). congruence.
    + eapply Hu; [done..|]. unfold cw_payload in Hx, Hy. congruence.
  - intros t Ht Hc. destruct (Ho _ Ht Hc) as (y & Hy & Hid).
    assert (cb_data t ≠ p) as Hne by (intros Heq; congruence).
    destruct (payload_insert_old _ _ _ _ _ _ _ Hpay Hy Hne) as (y' & Hy' & Hpy).
    exists y'. split; [done|]. unfold cw_payload in Hpy. congruence.
  - intros q y t Hq Ht Hid.
    destruct (payload_insert_inv _ _ _ _ _ _ _ Hpay Hq)
      as [[-> Hx]|[Hne (m & Hm & Hx)]].
    + apply (tm_ids_nonnull _ Htm) in Ht. unfold cw_payload in Hx. congruence.
    + eapply Hf; [done..|]. unfold cw_payload in Hx. congruence.
  - intros q y Hq.
    destruct (payload_insert_inv _ _ _ _ _ _ _ Hpay Hq)
      as [[-> Hx]|[Hne (m & Hm & Hx)]].
    + unfold cw_payload in Hx. replace (cw_timer y) with NULL by congruence.
      pose proof (tm_next_nonnull _ Htm). unfold NULL in *. lia.
    + apply Hb in Hm. unfold cw_payload in Hx.
      replace (cw_timer y) with (cw_timer m) by congruence. lia.
Qed.

(** The record [p] is removed. *)
Lemma conn_watch_inv_remove s s' l l' p :
  conn_watch_inv s l →
  region_wf (brk s') (conn_watch_policies s') l' →
  cw_payload <$> dl_mem (conn_watch_policies s') =
    delete p (cw_payload <$> dl_mem (conn_watch_policies s)) →
  (tm_next_id (tm s) ≤ tm_next_id (tm s'))%N →
  (∀ t, t ∈ timers (tm s') →
        (t ∈ timers (tm s) ∧ (cb t = conn_watch_cb_fn → cb_data t ≠ p)) ∨
        (cb t ≠ conn_watch_cb_fn ∧ (tm_next_id (tm s) ≤ timer_id t)%N)) →
  conn_watch_inv s' l'.
Proof.
  intros [Hwf Hu Ho Hf Hb] Hwf' Hpay Hnext Htimers. split.
  - done.
  - intros q q' x x' Hq Hq' Hd.
    destruct (payload_delete_inv _ _ _ _ _ _ Hpay Hq) as (_ & y & Hy & Hxy).
    destruct (payload_delete_inv _ _ _ _ _ _ Hpay Hq') as (_ & y' & Hy' & Hxy').
    apply cw_payload_inv in Hxy as (? & _), Hxy' as (? & _).
    eapply Hu; [done..|]. congruence.
  - intros t Ht Hc. destruct (Htimers _ Ht) as [(Hold & Hdata)|(Hne & _)]; [|done].
    destruct (Ho _ Hold Hc) as (y & Hy & Hid).
    destruct (payload_delete_old _ _ _ _ _ _ Hpay Hy (Hdata Hc)) as (x & Hx & Hxy).
    apply cw_payload_inv in Hxy as (_ & _ & Hxy). exists x. split; [done|congruence].
  - intros q x t Hq Ht Hid.
    destruct (payload_delete_inv _ _ _ _ _ _ Hpay Hq) as (Hne & y & Hy & Hxy).
    apply cw_payload_inv in Hxy as (_ & _ & Hxy).
    destruct (Htimers _ Ht) as [(Hold & _)|(_ & Hfresh)].
    + eapply Hf; [done..|]. congruence.
    + apply Hb in Hy. lia.
  - intros q x Hq.
    destruct (payload_delete_inv _ _ _ _ _ _ Hpay Hq) as (Hne & y & Hy & Hxy).
    apply cw_payload_inv in Hxy as (_ & _ & Hxy). apply Hb in Hy. lia.
Qed.

(** The only pending timer of a watch record is the one its [timer] field
    names. *)
Lemma watch_timers_of s l p n t :
  tm_wf (tm s) → conn_watch_inv s l →
  dl_mem (conn_watch_policies s) !! p = Some n →
  t ∈ timers (tm s) → timer_id t = cw_timer n →
  cb t = conn_watch_cb_fn → cb_data t = p →
  timers_of conn_watch_cb_fn p (tm s) = [t].
Proof.
  intros Htm [_ _ Ho _ _] Hm Hin Hid Hc Hd. apply timers_of_one; [done..|].
  intros y Hy Hcy Hdy. destruct (Ho _ Hy Hcy) as (n' & Hm' & Hid').
  rewrite Hdy, Hm in Hm'. congruence.
Qed.

Lemma watch_no_timers s l p n :
  conn_watch_inv s l →
  dl_mem (conn_watch_policies s) !! p = Some n →
  (∀ t, t ∈ timers (tm s) → timer_id t ≠ cw_timer n) →
  timers_of conn_watch_cb_fn p (tm s) = [].
Proof.
  intros [_ _ Ho _ _] Hm Hno. apply filter_nil_all. intros x Hx [Hc Hd].
  destruct (Ho _ Hx Hc) as (n' & Hm' & Hid'). rewrite Hd, Hm in Hm'.
  apply (Hno _ Hx). congruence.
Qed.

(** What starting a connection watch leaves behind: the record of the device
    with a full retry counter and a timer that expires one period from now;
    nothing else moves. *)
Lemma start_connection_watch_spec s l device :
  tm_wf (tm s) → conn_watch_inv s l →
  ∃ s1 l1 p n,
    cras_bt_policy_start_connection_watch device s = Ok (0, s1) ∧
    tm_wf (tm s1) ∧ conn_watch_inv s1 l1 ∧
    dl_mem (conn_watch_policies s1) !! p = Some n ∧
    cw_device n = device ∧
    cw_retries_left n = CONN_WATCH_MAX_RETRIES ∧
    timers_of conn_watch_cb_fn p (tm s1) =
      [{| timer_id := cw_timer n;
          ts := tm_now (tm s) + CONN_WATCH_PERIOD_MS;
          cb := conn_watch_cb_fn; cb_data := p |}] ∧
    tm_now (tm s1) = tm_now (tm s) ∧
    profile_switch_policies s1 = profile_switch_policies s ∧
    suspend_policies s1 = suspend_policies s ∧
    bt_devices s1 = bt_devices s ∧
    hfp_ag_start_rc s1 = hfp_ag_start_rc s ∧
    trace s1 = trace s ∧
    (brk s ≤ brk s1)%N ∧
    (∀ x, cb x ≠ conn_watch_cb_fn →
          x ∈ timers (tm s1) ↔ x ∈ timers (tm s)) ∧
    cw_payload <$> dl_mem (conn_watch_policies s1) =
      <[p := (device, CONN_WATCH_MAX_RETRIES, cw_timer n)]>
        (cw_payload <$> dl_mem (conn_watch_policies s)) ∧
    (∀ x, x ∈ timers (tm s) →
          (cb x = conn_watch_cb_fn → cb_data x ≠ p) → x ∈ timers (tm s1)) ∧
    (∀ m, dl_mem (conn_watch_policies s) !! p = Some m → cw_device m = device).
Proof.
  intros Htm Hinv. pose proof Hinv as [Hwf Hu Ho Hf Hb].
  destruct (region_lookup_device cw_device _ _ _ device Hwf)
    as [(p & n & Hm & Hd)|Hno].
  - (* the device already has a record *)
    destruct (region_search_some CONN_WATCH cw_device s l (brk s) device p n)
      as (Hrun & Hnn & Hin); [done..|].
    set (x := {| cw_device := cw_device n;
                 cw_retries_left := CONN_WATCH_MAX_RETRIES;
                 cw_timer := tm_next_id (tm s);
                 cw_prev := cw_prev n; cw_next := cw_next n |}).
    set (tm1 := (cras_tm_create_timer (cras_tm_cancel_timer (tm s) (cw_timer n))
                   CONN_WATCH_PERIOD_MS conn_watch_cb_fn p).1).
    set (s1 := set_conn_watch_policies
                 {| dl_head := dl_head (conn_watch_policies s);
                    dl_mem := <[p := x]> (dl_mem (conn_watch_policies s)) |}
                 (set_tm tm1 s)).
    assert (Htm1 : tm_wf (tm s1)) by (by apply tm_wf_create, tm_wf_cancel).
    assert (Hinv1 : conn_watch_inv s1 l).
    { apply (conn_watch_inv_set s s1 l p n CONN_WATCH_MAX_RETRIES
               (tm_next_id (tm s))); try done.
      - by apply (region_wf_update _ _ _ _ n).
      - simpl. by rewrite fmap_insert.
      - simpl. lia.
      - simpl. lia.
      - intros t [[Hold Hid]%elem_of_cancel_timer| ->]%elem_of_create_timer.
        + right. left. split; [done|]. split.
          * apply (tm_ids_bound _ Htm) in Hold. lia.
          * intros Hc Heq. destruct (Ho _ Hold Hc) as (n' & Hm' & Hid').
            rewrite Heq, Hm in Hm'. congruence.
        + left. done. }
    exists s1, l, p, x. split; [|split; [done|split; [done|]]].
    { unfold cras_bt_policy_start_connection_watch.
      mstep by exact Hrun. rewrite decide_False by done.
      mstep by ((mstep by (by apply deref_run)); mrun; reflexivity).
      mstep by (by apply assign_run). mrun.
      mstep by (apply assign_run; cbn; apply lookup_insert_eq).
      cbn. rewrite !insert_insert_eq. reflexivity. }
    split; [apply lookup_insert_eq|]. split; [done|]. split; [done|].
    split.
    { eapply (watch_timers_of s1 _ _ x);
        [done|done|apply lookup_insert_eq| |done|done|done].
      apply elem_of_create_timer. by right. }
    do 6 (split; [done|]). split; [done|]. split; [|split; [|split]].
    4:{ intros m Hm'. rewrite Hm in Hm'. by injection Hm' as <-. }
    + intros y Hy. subst s1 tm1. cbn [tm set_tm set_conn_watch_policies].
      rewrite elem_of_create_timer, elem_of_cancel_timer. split.
      * intros [[? _]| ->]; [done|]. by destruct Hy.
      * intros Hin'. left. split; [done|]. intros Heq.
        destruct (Hf _ _ _ Hm Hin' Heq). done.
    + simpl. rewrite fmap_insert. unfold cw_payload at 1. simpl.
      by rewrite Hd.
    + intros y Hy Hny. subst s1 tm1. cbn [tm set_tm set_conn_watch_policies].
      apply elem_of_create_timer. left. apply elem_of_cancel_timer.
      split; [done|]. intros Heq. destruct (Hf _ _ _ Hm Hy Heq) as [Hc Hcd].
      by apply Hny.
  - (* a new record *)
    set (rec := {| cw_device := device; cw_retries_left := 0;
                   cw_timer := NULL; cw_prev := NULL; cw_next := NULL |}).
    destruct (region_new _ _ _ rec Hwf) as (da & Hrun & Hwfa & Hrel).
    pose proof (region_wf_fresh _ _ _ Hwf) as Hfresh.
    assert (Hpaya : cw_payload <$> dl_mem da =
              <[brk s := (device, 0, NULL)]>
                (cw_payload <$> dl_mem (conn_watch_policies s))).
    { rewrite (cw_mem_relinked _ _ Hrel). by rewrite fmap_insert. }
    destruct (payload_insert_new _ _ _ _ _ Hpaya) as (na & Hna & Hpna).
    assert (cw_device na = device) as Hdna
      by (unfold cw_payload in Hpna; congruence).
    set (sa := set_brk (N.succ (brk s)) (set_conn_watch_policies da s)).
    assert (Hinva : conn_watch_inv sa (l ++ [brk s])).
    { by apply (conn_watch_inv_new s sa l _ (brk s) device 0). }
    set (x := cw_set_timer (tm_next_id (tm s))
                (cw_set_retries_left CONN_WATCH_MAX_RETRIES na)).
    set (s1 := set_conn_watch_policies
                 {| dl_head := dl_head da; dl_mem := <[brk s := x]> (dl_mem da) |}
                 (set_tm (cras_tm_create_timer (tm s) CONN_WATCH_PERIOD_MS
                            conn_watch_cb_fn (brk s)).1 sa)).
    assert (Htm1 : tm_wf (tm s1)) by (by apply tm_wf_create).
    assert (Hinv1 : conn_watch_inv s1 (l ++ [brk s])).
    { apply (conn_watch_inv_set sa s1 _ (brk s) na CONN_WATCH_MAX_RETRIES
               (tm_next_id (tm s))); try done.
      - by apply (region_wf_update _ _ _ _ na).
      - simpl. by rewrite fmap_insert.
      - simpl. lia.
      - simpl. lia.
      - intros t [Hold| ->]%elem_of_create_timer.
        + right. left. split; [done|]. split.
          * apply (tm_ids_bound _ Htm) in Hold. lia.
          * intros Hc Heq. destruct (Ho _ Hold Hc) as (n' & Hm' & Hid').
            rewrite Heq, Hfresh in Hm'. done.
        + left. done. }
    exists s1, (l ++ [brk s]), (brk s), x.
    split; [|split; [done|split; [done|]]].
    { unfold cras_bt_policy_start_connection_watch.
      mstep by (by eapply region_search_none). rewrite decide_True by done.
      mstep by (mrun;
                (mstep by (apply assign_run; cbn; apply lookup_insert_eq));
                (mstep by (apply append_run; cbn -[DL_APPEND];
                           rewrite insert_insert_eq; exact Hrun));
                reflexivity).
      mstep by (apply assign_run; exact Hna). mrun.
      mstep by (apply assign_run; cbn; apply lookup_insert_eq).
      cbn. rewrite !insert_insert_eq. reflexivity. }
    split; [apply lookup_insert_eq|]. split; [done|]. split; [done|].
    split.
    { eapply (watch_timers_of s1 _ _ x);
        [done|done|apply lookup_insert_eq| |done|done|done].
      apply elem_of_create_timer. by right. }
    do 6 (split; [done|]). split; [subst s1 sa; simpl; lia|].
    split; [|split; [|split]].
    4:{ intros m Hm'. by rewrite Hfresh in Hm'. }
    + intros y Hy. subst s1 sa.
      cbn [tm set_tm set_conn_watch_policies set_brk].
      rewrite elem_of_create_timer. split; [|auto].
      intros [?| ->]; [done|]. by destruct Hy.
    + simpl. rewrite fmap_insert, Hpaya, insert_insert_eq.
      unfold cw_payload at 1. simpl. by rewrite Hdna.
    + intros y Hy _. subst s1 sa.
      cbn [tm set_tm set_conn_watch_policies set_brk].
      apply elem_of_create_timer. by left.
Qed.

Lemma schedule_suspend_frame s l device msec r s1 :
  tm_wf (tm s) → suspend_inv s l →
  schedule_suspend device msec r s = Ok (tt, s1) →
  suspend_frame s s1.
Proof.
  intros Htm Hinv Hrun.
  destruct (suspend_lookup_device _ _ device Hinv) as [(p & n & Hm & Hd)|Hno].
  - rewrite (schedule_suspend_dup _ _ _ msec r _ _ Hinv Hm Hd) in Hrun.
    injection Hrun as <-. split; try done; try lia. auto.
  - destruct (schedule_suspend_new _ _ _ msec r Htm Hinv Hno)
      as (d' & Hrun' & _ & _).
    rewrite Hrun' in Hrun. injection Hrun as <-.
    split; cbn [profile_switch_policies conn_watch_policies bt_devices
                hfp_ag_start_rc trace tm brk]; try done.
    + lia.
    + simpl. lia.
    + intros x Hx. apply elem_of_create_timer. by left.
    + intros x [Hx| ->]%elem_of_create_timer; [by left|].
      right. simpl. split; [done|lia].
Qed.

(** [schedule_suspend] creates timers for [suspend_cb] only. *)
Lemma schedule_suspend_timers_for s l device msec r s1 c :
  tm_wf (tm s) → suspend_inv s l →
  schedule_suspend device msec r s = Ok (tt, s1) →
  c ≠ suspend_cb_fn →
  timers_for c (tm s1) = timers_for c (tm s).
Proof.
  intros Htm Hinv Hrun Hc.
  destruct (suspend_lookup_device _ _ device Hinv) as [(p & n & Hm & Hd)|Hno].
  - rewrite (schedule_suspend_dup _ _ _ msec r _ _ Hinv Hm Hd) in Hrun.
    by injection Hrun as <-.
  - destruct (schedule_suspend_new _ _ _ msec r Htm Hinv Hno)
      as (d' & Hrun' & _ & _).
    rewrite Hrun' in Hrun. injection Hrun as <-. cbn [tm].
    by apply timers_for_create.
Qed.

(** A tick finds a watched profile that is supported and unconnected. *)
Lemma watch_pending_profiles d : watch_pending d = true → profiles d ≠ 0.
Proof.
  unfold watch_pending, cras_bt_device_supports_profile. intros Hp Hz.
  rewrite Hz in Hp. by rewrite !Z.land_0_l in Hp.
Qed.

Lemma watch_pending_mismatch d : watch_pending d = true → watch_mismatch d = true.
Proof.
  unfold watch_pending, watch_mismatch.
  destruct (cras_bt_device_supports_profile d CRAS_BT_DEVICE_PROFILE_A2DP_SINK),
    (cras_bt_device_is_profile_connected d CRAS_BT_DEVICE_PROFILE_A2DP_SINK),
    (cras_bt_device_supports_profile d CRAS_BT_DEVICE_PROFILE_HFP_HANDSFREE),
    (cras_bt_device_is_profile_connected d CRAS_BT_DEVICE_PROFILE_HFP_HANDSFREE);
    done.
Qed.

(** Timers of other callbacks survive the expiry of a timer. *)
Lemma elem_of_expire_other (m : cras_tm) t x :
  tm_wf m → t ∈ timers m → cb x ≠ cb t →
  x ∈ timers (cras_tm_expire t m) ↔ x ∈ timers m.
Proof.
  intros Htm Ht Hc. rewrite elem_of_expire. split; [tauto|].
  intros Hx. split; [done|]. intros Hid.
  assert (x = t) by (by eapply timer_id_inj). congruence.
Qed.

(** The environment rewrites the device structs. *)
Lemma suspend_inv_devices s l devices :
  suspend_inv s l → suspend_inv (set_bt_devices devices s) l.
Proof. by intros [? ? ? ?]. Qed.

Lemma conn_watch_inv_devices s l devices :
  conn_watch_inv s l → conn_watch_inv (set_bt_devices devices s) l.
Proof. by intros [? ? ? ? ?]. Qed.

(** A tick that re-arms the watch. *)
Lemma watch_fire_rearm_spec s ls l t n :
  tm_wf (tm s) → suspend_inv s ls → conn_watch_inv s l →
  t ∈ timers (tm s) → cb t = conn_watch_cb_fn →
  dl_mem (conn_watch_policies s) !! cb_data t = Some n →
  profiles (bt_devices s (cw_device n)) ≠ 0 →
  watch_mismatch (bt_devices s (cw_device n)) = true →
  int (cw_retries_left n - 1) ≠ 0 →
  ∃ s' n' t',
    cras_tm_fire t s = Ok (tt, s') ∧
    tm_wf (tm s') ∧ suspend_inv s' ls ∧ conn_watch_inv s' l ∧
    dl_mem (conn_watch_policies s') !! cb_data t = Some n' ∧
    cw_device n' = cw_device n ∧
    cw_retries_left n' = int (cw_retries_left n - 1) ∧
    timers_of conn_watch_cb_fn (cb_data t) (tm s') = [t'] ∧
    timer_id t' = cw_timer n' ∧
    ts t' = tm_now (tm s') + CONN_WATCH_PERIOD_MS ∧
    tm_now (tm s') = Z.max (tm_now (tm s)) (ts t) ∧
    suspend_policies s' = suspend_policies s ∧
    profile_switch_policies s' = profile_switch_policies s ∧
    bt_devices s' = bt_devices s ∧
    trace s' = trace s ++
      [E_BTLOG BT_DEV_CONN_WATCH_CB (cw_retries_left n)
         (profiles (bt_devices s (cw_device n)))] ++
      tick_connect_calls (cw_device n) (bt_devices s (cw_device n)) ++
      [E_syslog LOG_DEBUG "conn_watch_retries: %d" [cw_retries_left n]] ∧
    brk s' = brk s ∧
    timers_for profile_switch_delay_cb_fn (tm s') =
      timers_for profile_switch_delay_cb_fn (tm s).
Proof.
  intros Htm Hsp Hinv Hin Hc Hm Hprof Hmis Hret.
  pose proof (watch_fire_rearm s t n Hc Hm Hprof Hmis Hret) as Hrun.
  match type of Hrun with _ = Ok (_, ?st) => set (s' := st) in * end.
  set (n' := {| cw_device := cw_device n;
                cw_retries_left := int (cw_retries_left n - 1);
                cw_timer := tm_next_id (tm s);
                cw_prev := cw_prev n; cw_next := cw_next n |}) in *.
  set (t' := {| timer_id := tm_next_id (tm s);
                ts := Z.max (tm_now (tm s)) (ts t) + CONN_WATCH_PERIOD_MS;
                cb := conn_watch_cb_fn; cb_data := cb_data t |}).
  assert (Htm' : tm_wf (tm s')) by (by apply tm_wf_create, tm_wf_expire).
  assert (Hsp' : suspend_inv s' ls).
  { apply (suspend_inv_frame s); [done|simpl; lia| |done].
    intros x Hx. subst s'. cbn [tm set_tm set_conn_watch_policies set_trace].
    rewrite elem_of_create_timer, elem_of_expire_other by (done || congruence).
    split; [|auto]. intros [?| ->]; [done|]. done. }
  assert (Hinv' : conn_watch_inv s' l).
  { apply (conn_watch_inv_set s s' l (cb_data t) n
             (int (cw_retries_left n - 1)) (tm_next_id (tm s))); try done.
    - destruct Hinv as [Hwf _ _ _ _]. by apply (region_wf_update _ _ _ _ n).
    - simpl. by rewrite fmap_insert.
    - simpl. lia.
    - simpl. lia.
    - intros x [Hx| ->]%elem_of_create_timer; [|by left].
      right. left. pose proof Hx as [Hx' _]%elem_of_expire.
      split; [done|]. split.
      + apply (tm_ids_bound _ Htm) in Hx'. lia.
      + intros Hcx.
        exact (proj1 (conn_watch_expired s l t x Htm Hinv Hin Hc Hx Hcx)). }
  exists s', n', t'. split; [done|]. do 3 (split; [done|]).
  split; [apply lookup_insert_eq|]. do 2 (split; [done|]). split.
  { eapply (watch_timers_of s' _ _ n');
      [done|done|apply lookup_insert_eq| |done|done|done].
    apply elem_of_create_timer. by right. }
  do 8 (split; [done|]). subst s'.
  cbn [tm set_tm set_conn_watch_policies set_trace].
  rewrite timers_for_create by done.
  apply timers_for_expire_other; [done..|congruence].
Qed.

(** The tick that exhausts the retries. *)
Lemma watch_fire_timeout_spec s ls l t n :
  tm_wf (tm s) → suspend_inv s ls → conn_watch_inv s l →
  t ∈ timers (tm s) → cb t = conn_watch_cb_fn →
  dl_mem (conn_watch_policies s) !! cb_data t = Some n →
  profiles (bt_devices s (cw_device n)) ≠ 0 →
  watch_mismatch (bt_devices s (cw_device n)) = true →
  int (cw_retries_left n - 1) = 0 →
  ∃ sb s' ls' n' q m u,
    cras_tm_fire t s = Ok (tt, s') ∧
    schedule_suspend (cw_device n) 0 CONN_WATCH_TIME_OUT sb = Ok (tt, s') ∧
    suspend_policies sb = suspend_policies s ∧
    tm_wf (tm s') ∧ suspend_inv s' ls' ∧ conn_watch_inv s' l ∧
    dl_mem (conn_watch_policies s') !! cb_data t = Some n' ∧
    cw_device n' = cw_device n ∧ cw_retries_left n' = 0 ∧
    timers_of conn_watch_cb_fn (cb_data t) (tm s') = [] ∧
    tm_now (tm s') = Z.max (tm_now (tm s)) (ts t) ∧
    dl_mem (suspend_policies s') !! q = Some m ∧
    records_of sp_device (cw_device n) (suspend_policies s') = [q] ∧
    timers_of suspend_cb_fn q (tm s') = [u] ∧ timer_id u = sp_timer m ∧
    (records_of sp_device (cw_device n) (suspend_policies s) = [] →
       sp_suspend_reason m = CONN_WATCH_TIME_OUT ∧ ts u = tm_now (tm s')) ∧
    profile_switch_policies s' = profile_switch_policies s ∧
    bt_devices s' = bt_devices s ∧
    trace s' = trace s ++
      [E_BTLOG BT_DEV_CONN_WATCH_CB (cw_retries_left n)
         (profiles (bt_devices s (cw_device n)))] ++
      tick_connect_calls (cw_device n) (bt_devices s (cw_device n)) ++
      [E_syslog LOG_DEBUG "conn_watch_retries: %d" [cw_retries_left n];
       E_syslog LOG_ERR "Connection watch timeout." []] ∧
    (brk s ≤ brk s')%N ∧
    timers_for profile_switch_delay_cb_fn (tm s') =
      timers_for profile_switch_delay_cb_fn (tm s).
Proof.
  intros Htm Hsp Hinv Hin Hc Hm Hprof Hmis Hret.
  pose proof (watch_fire_timeout s t n Hc Hm Hprof Hmis Hret) as Hrun.
  match type of Hrun with _ = schedule_suspend _ _ _ ?st => set (sb := st) in * end.
  set (n' := {| cw_device := cw_device n; cw_retries_left := 0;
                cw_timer := NULL;
                cw_prev := cw_prev n; cw_next := cw_next n |}) in *.
  assert (Htmb : tm_wf (tm sb)) by (by apply tm_wf_expire).
  assert (Hspb : suspend_inv sb ls).
  { apply (suspend_inv_frame s); [done|simpl; lia| |done].
    intros x Hx. subst sb. cbn [tm set_tm set_conn_watch_policies set_trace].
    by rewrite elem_of_expire_other by (done || congruence). }
  assert (Hinvb : conn_watch_inv sb l).
  { apply (conn_watch_inv_set s sb l (cb_data t) n 0 NULL); try done.
    - destruct Hinv as [Hwf _ _ _ _]. by apply (region_wf_update _ _ _ _ n).
    - simpl. by rewrite fmap_insert.
    - subst sb. simpl. pose proof (tm_next_nonnull _ Htm). unfold NULL in *. lia.
    - intros x Hx. right. left. pose proof Hx as [Hx' _]%elem_of_expire.
      split; [done|]. split.
      + by apply (tm_ids_nonnull _ Htm).
      + intros Hcx.
        exact (proj1 (conn_watch_expired s l t x Htm Hinv Hin Hc Hx Hcx)). }
  destruct (schedule_suspend_spec sb ls (cw_device n) 0 CONN_WATCH_TIME_OUT
              Htmb Hspb)
    as (s' & ls' & q & m & u & Hrun' & Htm' & Hsp' & Hq & Hdq & Hrec & Hu & Hid & Hnew).
  pose proof (schedule_suspend_frame _ _ _ _ _ _ Htmb Hspb Hrun')
    as [Hfps Hfcw Hfdev Hfrc Hftr Hfnow Hfbrk Hfnext Hfold Hfnew].
  assert (Hinv' : conn_watch_inv s' l).
  { apply (conn_watch_inv_frame sb); try done.
    intros x Hx. destruct (Hfnew _ Hx) as [?|[Hcx ?]]; [by left|right].
    split; [congruence|done]. }
  exists sb, s', ls', n', q, m, u.
  split; [by rewrite Hrun|]. split; [done|]. split; [done|].
  do 3 (split; [done|]).
  split; [rewrite Hfcw; apply lookup_insert_eq|]. do 2 (split; [done|]).
  split.
  { eapply (watch_no_timers s' l _ n'); [done| |].
    - rewrite Hfcw. apply lookup_insert_eq.
    - intros x Hx. by apply (tm_ids_nonnull _ Htm'). }
  split; [by rewrite Hfnow|]. do 4 (split; [done|]).
  split.
  { intros Hnil. rewrite Hfnow. replace (tm_now (tm sb)) with (tm_now (tm sb) + 0) by lia.
    by apply Hnew. }
  split; [by rewrite Hfps|]. split; [by rewrite Hfdev|].
  split; [by rewrite Hftr|]. split; [exact Hfbrk|].
  transitivity (timers_for profile_switch_delay_cb_fn (tm sb)).
  - by apply (schedule_suspend_timers_for sb ls _ _ _ _ _ Htmb Hspb Hrun').
  - subst sb. cbn [tm set_tm set_conn_watch_policies set_trace].
    apply timers_for_expire_other; [done..|congruence].
Qed.

(** The tick of a watch whose device advertises no profile. *)
Lemma watch_fire_idle_spec s ls l t n :
  tm_wf (tm s) → suspend_inv s ls → conn_watch_inv s l →
  t ∈ timers (tm s) → cb t = conn_watch_cb_fn →
  dl_mem (conn_watch_policies s) !! cb_data t = Some n →
  profiles (bt_devices s (cw_device n)) = 0 →
  ∃ s' l',
    cras_tm_fire t s = Ok (tt, s') ∧
    tm_wf (tm s') ∧ suspend_inv s' ls ∧ conn_watch_inv s' l' ∧
    dl_mem (conn_watch_policies s') !! cb_data t = None ∧
    records_of cw_device (cw_device n) (conn_watch_policies s') = [] ∧
    timers_of conn_watch_cb_fn (cb_data t) (tm s') = [] ∧
    tm s' = cras_tm_expire t (tm s) ∧
    suspend_policies s' = suspend_policies s ∧
    profile_switch_policies s' = profile_switch_policies s ∧
    bt_devices s' = bt_devices s ∧
    trace s' = trace s ++
      [E_BTLOG BT_DEV_CONN_WATCH_CB (cw_retries_left n)
         (profiles (bt_devices s (cw_device n)))] ∧
    brk s' = brk s.
Proof.
  intros Htm Hsp Hinv Hin Hc Hm Hprof.
  destruct (watch_fire_idle s l t n Hinv Hc Hm Hprof)
    as (d' & l' & Hrun & Hwf' & Hl' & Hpay).
  match type of Hrun with _ = Ok (_, ?st) => set (s' := st) in * end.
  assert (Htm' : tm_wf (tm s')) by (by apply tm_wf_expire).
  assert (Hsp' : suspend_inv s' ls).
  { apply (suspend_inv_frame s); [done|simpl; lia| |done].
    intros x Hx. subst s'. cbn [tm set_tm set_conn_watch_policies set_trace].
    by rewrite elem_of_expire_other by (done || congruence). }
  assert (Hinv' : conn_watch_inv s' l').
  { apply (conn_watch_inv_remove s s' l l' (cb_data t)); try done.
    intros x Hx. left. pose proof Hx as [Hx' _]%elem_of_expire.
      split; [done|]. intros Hcx.
      exact (proj1 (conn_watch_expired s l t x Htm Hinv Hin Hc Hx Hcx)). }
  exists s', l'. split; [done|]. do 3 (split; [done|]).
  split; [by eapply payload_delete_gone|]. split.
  { eapply records_of_nil; [by eapply region_wf_dl_list|].
    intros q x Hq Hd. simpl in Hq.
    destruct (payload_delete_inv _ _ _ _ _ _ Hpay Hq) as (Hne & y & Hy & Hxy).
    apply cw_payload_inv in Hxy as (Hxy & _).
    destruct Hinv as [_ Hu _ _ _]. apply Hne. eapply Hu; [done..|]. congruence. }
  split; [|done].
  apply filter_nil_all. intros x Hx [Hcx Hdx].
  by destruct (conn_watch_expired s l t x Htm Hinv Hin Hc Hx Hcx).
Qed.

(** *** The tick that ends a satisfied watch *)

Lemma suspend_inv_trace s l v : suspend_inv s l → suspend_inv (set_trace v s) l.
Proof. by intros [? ? ? ?]. Qed.

Lemma conn_watch_inv_trace s l v :
  conn_watch_inv s l → conn_watch_inv (set_trace v s) l.
Proof. by intros [? ? ? ? ?]. Qed.

(** The state in which [conn_watch_cb] runs once it has logged and cleared
    the timer field of its record. *)
Lemma watch_disarmed_inv s ls l t n v :
  tm_wf (tm s) → suspend_inv s ls → conn_watch_inv s l →
  t ∈ timers (tm s) → cb t = conn_watch_cb_fn →
  dl_mem (conn_watch_policies s) !! cb_data t = Some n →
  let sb := set_conn_watch_policies
              {| dl_head := dl_head (conn_watch_policies s);
                 dl_mem := <[cb_data t := cw_set_timer NULL n]>
                             (dl_mem (conn_watch_policies s)) |}
              (set_tm (cras_tm_expire t (tm s)) (set_trace v s)) in
  tm_wf (tm sb) ∧ suspend_inv sb ls ∧ conn_watch_inv sb l ∧
  (∀ x, x ∈ timers (tm sb) → cb x = conn_watch_cb_fn →
        cb_data x ≠ cb_data t).
Proof.
  intros Htm Hsp Hinv Hin Hc Hm sb.
  split; [by apply tm_wf_expire|]. split; [|split].
  - apply (suspend_inv_frame s); [done|simpl; lia| |done].
    intros x Hx. subst sb. cbn [tm set_tm set_conn_watch_policies set_trace].
    by rewrite elem_of_expire_other by (done || congruence).
  - apply (conn_watch_inv_set s sb l (cb_data t) n (cw_retries_left n) NULL);
      try done.
    + destruct Hinv as [Hwf _ _ _ _]. by apply (region_wf_update _ _ _ _ n).
    + simpl. by rewrite fmap_insert.
    + subst sb. simpl. pose proof (tm_next_nonnull _ Htm). unfold NULL in *.
      lia.
    + intros x Hx. right. left. pose proof Hx as [Hx' _]%elem_of_expire.
      split; [done|]. split.
      * by apply (tm_ids_nonnull _ Htm).
      * intros Hcx.
        exact (proj1 (conn_watch_expired s l t x Htm Hinv Hin Hc Hx Hcx)).
  - intros x Hx Hcx.
    exact (proj1 (conn_watch_expired s l t x Htm Hinv Hin Hc Hx Hcx)).
Qed.

(** [done_with_policy] on a record without a pending timer. *)
Lemma done_with_policy_spec s ls l p n :
  suspend_inv s ls → conn_watch_inv s l →
  dl_mem (conn_watch_policies s) !! p = Some n →
  (∀ x, x ∈ timers (tm s) → cb x = conn_watch_cb_fn → cb_data x ≠ p) →
  ∃ s' l',
    done_with_policy p s = Ok (tt, s') ∧
    suspend_inv s' ls ∧ conn_watch_inv s' l' ∧
    dl_mem (conn_watch_policies s') !! p = None ∧
    tm s' = tm s ∧ brk s' = brk s ∧
    profile_switch_policies s' = profile_switch_policies s ∧
    suspend_policies s' = suspend_policies s ∧
    bt_devices s' = bt_devices s ∧ trace s' = trace s.
Proof.
  intros Hsp Hinv Hm Hno. pose proof Hinv as [Hwf _ _ _ _].
  assert (Hin : p ∈ l) by exact (region_wf_elem_of _ _ _ _ _ Hwf Hm).
  destruct (region_remove _ _ _ _ Hwf Hin)
    as (d1 & l' & n1 & Hdel & Hm1 & Hwf' & Hl' & Hrel).
  set (s' := set_conn_watch_policies
               {| dl_head := dl_head d1; dl_mem := delete p (dl_mem d1) |} s).
  assert (Hpay : cw_payload <$> dl_mem (conn_watch_policies s') =
            delete p (cw_payload <$> dl_mem (conn_watch_policies s))).
  { simpl. by rewrite fmap_delete, (cw_mem_relinked _ _ Hrel). }
  exists s', l'. split.
  { unfold done_with_policy. mstep by (apply unlink_run; exact Hdel).
    by rewrite (free_run CONN_WATCH _ _ n1). }
  split; [by destruct Hsp|]. split.
  { apply (conn_watch_inv_remove s s' l l' p); try done.
    intros x Hx. left. split; [done|]. by apply Hno. }
  split; [by eapply payload_delete_gone|]. done.
Qed.

Lemma call_if_run (b : bool) e (s : policy_state) :
  ((if b then call e else mret tt) : M unit) s =
  Ok (tt, set_trace (trace s ++ if b then [e] else []) s).
Proof. destruct b; [done|]. destruct s. cbn. by rewrite app_nil_r. Qed.

(** The tick of a watch whose profiles are all connected as supported: the
    watch ends; a suspend is scheduled if the audio gateway fails to
    start. *)
Lemma watch_fire_done_spec s ls l t n :
  tm_wf (tm s) → suspend_inv s ls → conn_watch_inv s l →
  t ∈ timers (tm s) → cb t = conn_watch_cb_fn →
  dl_mem (conn_watch_policies s) !! cb_data t = Some n →
  profiles (bt_devices s (cw_device n)) ≠ 0 →
  watch_mismatch (bt_devices s (cw_device n)) = false →
  ∃ s' ls' l',
    cras_tm_fire t s = Ok (tt, s') ∧
    tm_wf (tm s') ∧ suspend_inv s' ls' ∧ conn_watch_inv s' l' ∧
    dl_mem (conn_watch_policies s') !! cb_data t = None ∧
    tm_now (tm s') = Z.max (tm_now (tm s)) (ts t) ∧
    profile_switch_policies s' = profile_switch_policies s ∧
    bt_devices s' = bt_devices s ∧
    (brk s ≤ brk s')%N ∧
    timers_for profile_switch_delay_cb_fn (tm s') =
      timers_for profile_switch_delay_cb_fn (tm s) ∧
    trace s' = trace s ++
      [E_BTLOG BT_DEV_CONN_WATCH_CB (cw_retries_left n)
         (profiles (bt_devices s (cw_device n)))] ++
      tick_connect_calls (cw_device n) (bt_devices s (cw_device n)) ++
      [E_cras_bt_device_remove_conflict (cw_device n)] ++
      (if cras_bt_device_is_profile_connected (bt_devices s (cw_device n))
            CRAS_BT_DEVICE_PROFILE_A2DP_SINK
       then [E_cras_a2dp_start (cw_device n)] else []) ++
      (if cras_bt_device_is_profile_connected (bt_devices s (cw_device n))
            CRAS_BT_DEVICE_PROFILE_HFP_HANDSFREE
       then E_cras_hfp_ag_start (cw_device n) ::
            (if decide (hfp_ag_start_rc s (cw_device n) = 0) then []
             else [E_syslog LOG_ERR "Start audio gateway failed, rc %d"
                     [hfp_ag_start_rc s (cw_device n)]])
       else []) ++
      [E_cras_bt_device_set_nodes_plugged (cw_device n) 1] ∧
    (cras_bt_device_is_profile_connected (bt_devices s (cw_device n))
       CRAS_BT_DEVICE_PROFILE_HFP_HANDSFREE = false ∨
     hfp_ag_start_rc s (cw_device n) = 0 →
     suspend_policies s' = suspend_policies s ∧
     tm s' = cras_tm_expire t (tm s)) ∧
    (cras_bt_device_is_profile_connected (bt_devices s (cw_device n))
       CRAS_BT_DEVICE_PROFILE_HFP_HANDSFREE = true →
     hfp_ag_start_rc s (cw_device n) ≠ 0 →
     ∃ q m u,
       records_of sp_device (cw_device n) (suspend_policies s') = [q] ∧
       dl_mem (suspend_policies s') !! q = Some m ∧
       timers_of suspend_cb_fn q (tm s') = [u] ∧
       timer_id u = sp_timer m ∧
       (records_of sp_device (cw_device n) (suspend_policies s) = [] →
        sp_suspend_reason m = HFP_AG_START_FAILURE ∧
        ts u = tm_now (tm s'))).
Proof.
  intros Htm Hsp Hinv Hin Hc Hm Hprof Hmis.
  set (d := bt_devices s (cw_device n)) in *.
  set (device := cw_device n) in *.
  (* up to the start of the audio gateway *)
  set (v := ((((trace s ++
                [E_BTLOG BT_DEV_CONN_WATCH_CB (cw_retries_left n) (profiles d)])
               ++ tick_connect_calls device d)
              ++ [E_cras_bt_device_remove_conflict device])
             ++ (if cras_bt_device_is_profile_connected d
                      CRAS_BT_DEVICE_PROFILE_A2DP_SINK
                 then [E_cras_a2dp_start device] else []))).
  assert (Hmem : ∀ w,
    dl_mem (conn_watch_policies
      (set_conn_watch_policies
         {| dl_head := dl_head (conn_watch_policies s);
            dl_mem := <[cb_data t := cw_set_timer NULL n]>
                        (dl_mem (conn_watch_policies s)) |}
         (set_tm (cras_tm_expire t (tm s)) (set_trace w s)))) !! cb_data t
    = Some (cw_set_timer NULL n)) by (intros w; apply lookup_insert_eq).
  assert (Hexp : timers_for profile_switch_delay_cb_fn (cras_tm_expire t (tm s))
                 = timers_for profile_switch_delay_cb_fn (tm s)).
  { apply timers_for_expire_other; [done..|congruence]. }
  destruct (cras_bt_device_is_profile_connected d
              CRAS_BT_DEVICE_PROFILE_HFP_HANDSFREE) eqn:Hhfp;
    [destruct (decide (hfp_ag_start_rc s device = 0)) as [Hrc|Hrc]|].
  - (* the audio gateway starts *)
    destruct (watch_disarmed_inv s ls l t n
                ((v ++ [E_cras_hfp_ag_start device]) ++
                 [E_cras_bt_device_set_nodes_plugged device 1])
                Htm Hsp Hinv Hin Hc Hm) as (Htmb & Hspb & Hinvb & Hnob).
    destruct (done_with_policy_spec _ ls l (cb_data t) _ Hspb Hinvb
                (Hmem _) Hnob)
      as (s' & l' & Hrun' & Hsp' & Hinv' & Hgone & Htm' & Hbrk' & Hps' & Hsps'
          & Hdev' & Htr').
    exists s', ls, l'. split.
    { unfold cras_tm_fire. mrun. unfold run_callback. rewrite Hc.
      unfold conn_watch_cb.
      mstep by (apply deref_run; exact Hm). mrun. mrun.
      mstep by (apply assign_run; exact Hm).
      change (bt_devices (set_tm _ s) _) with d.
      rewrite decide_False by done.
      mstep by apply tick_connect_calls_run.
      change (negb (Bool.eqb _ _) || negb (Bool.eqb _ _))
        with (watch_mismatch d). rewrite Hmis.
      mrun. mrun. mstep by apply call_if_run. mrun.
      cbn [bt_devices set_trace set_conn_watch_policies set_tm rset CONN_WATCH].
      change (bt_devices s (cw_device n)) with d. rewrite Hhfp.
      mstep by (mrun; mrun;
                cbn [hfp_ag_start_rc set_trace set_conn_watch_policies set_tm rset
                     CONN_WATCH];
                fold device; rewrite decide_True by done; reflexivity).
      mrun. exact Hrun'. }
    rewrite Htm', Hbrk', Hps', Hdev', Htr', Hsps'.
    split; [done|]. do 3 (split; [done|]). split; [done|].
    do 2 (split; [done|]). split; [done|]. split; [exact Hexp|].
    split.
    { subst v. cbn [trace set_trace set_tm set_conn_watch_policies].
      by rewrite <- !app_assoc. }
    split; [done|]. by intros _ ?.
  - (* the audio gateway fails to start *)
    destruct (watch_disarmed_inv s ls l t n
                ((v ++ [E_cras_hfp_ag_start device]) ++
                 [E_syslog LOG_ERR "Start audio gateway failed, rc %d"
                    [hfp_ag_start_rc s device]])
                Htm Hsp Hinv Hin Hc Hm) as (Htmb & Hspb & Hinvb & Hnob).
    match type of Hspb with suspend_inv ?st _ => set (sb := st) in * end.
    destruct (schedule_suspend_spec sb ls device 0 HFP_AG_START_FAILURE
                Htmb Hspb)
      as (sc & ls' & q & m & u & Hrunc & Htmc & Hspc & Hq & Hdq & Hrecq & Hu
          & Hidu & Hnew).
    pose proof (schedule_suspend_frame _ _ _ _ _ _ Htmb Hspb Hrunc)
      as [Hfps Hfcw Hfdev Hfrc Hftr Hfnow Hfbrk Hfnext Hfold Hfnew].
    assert (Hinvc : conn_watch_inv sc l).
    { apply (conn_watch_inv_frame sb); try done.
      intros x Hx. destruct (Hfnew _ Hx) as [?|[Hcx ?]]; [by left|right].
      split; [congruence|done]. }
    destruct (done_with_policy_spec
                (set_trace (trace sc ++
                            [E_cras_bt_device_set_nodes_plugged device 1]) sc)
                ls' l (cb_data t) (cw_set_timer NULL n))
      as (s' & l' & Hrun' & Hsp' & Hinv' & Hgone & Htm' & Hbrk' & Hps' & Hsps'
          & Hdev' & Htr').
    { by apply suspend_inv_trace. }
    { by apply conn_watch_inv_trace. }
    { cbn [conn_watch_policies set_trace]. rewrite Hfcw. apply Hmem. }
    { cbn [tm set_trace]. intros x Hx Hcx.
      destruct (Hfnew _ Hx) as [Hold|[Hcs _]]; [by apply Hnob|congruence]. }
    exists s', ls', l'. split.
    { unfold cras_tm_fire. mrun. unfold run_callback. rewrite Hc.
      unfold conn_watch_cb.
      mstep by (apply deref_run; exact Hm). mrun. mrun.
      mstep by (apply assign_run; exact Hm).
      change (bt_devices (set_tm _ s) _) with d.
      rewrite decide_False by done.
      mstep by apply tick_connect_calls_run.
      change (negb (Bool.eqb _ _) || negb (Bool.eqb _ _))
        with (watch_mismatch d). rewrite Hmis.
      mrun. mrun. mstep by apply call_if_run. mrun.
      cbn [bt_devices set_trace set_conn_watch_policies set_tm rset CONN_WATCH].
      change (bt_devices s (cw_device n)) with d. rewrite Hhfp.
      mstep by (mrun; mrun;
                cbn [hfp_ag_start_rc set_trace set_conn_watch_policies set_tm rset
                     CONN_WATCH];
                fold device; rewrite decide_False by done; mrun;
                exact Hrunc).
      mrun. exact Hrun'. }
    rewrite Htm', Hbrk', Hps', Hdev', Htr', Hsps'. cbn [tm brk set_trace
      profile_switch_policies bt_devices trace suspend_policies].
    split; [done|]. do 3 (split; [done|]).
    split; [by rewrite Hfnow|]. split; [by rewrite Hfps|].
    split; [by rewrite Hfdev|]. split; [exact Hfbrk|]. split.
    { rewrite (schedule_suspend_timers_for sb ls _ _ _ _ _ Htmb Hspb Hrunc)
        by done.
      exact Hexp. }
    split.
    { rewrite Hftr. subst sb v.
      cbn [trace set_trace set_tm set_conn_watch_policies].
      by rewrite <- !app_assoc. }
    split; [by intros [?|?]|]. intros _ _. exists q, m, u.
    do 4 (split; [done|]). intros Hnil. rewrite Hfnow.
    replace (tm_now (tm sb)) with (tm_now (tm sb) + 0) by lia.
    by apply Hnew.
  - (* no audio gateway *)
    destruct (watch_disarmed_inv s ls l t n
                (v ++ [E_cras_bt_device_set_nodes_plugged device 1])
                Htm Hsp Hinv Hin Hc Hm) as (Htmb & Hspb & Hinvb & Hnob).
    destruct (done_with_policy_spec _ ls l (cb_data t) _ Hspb Hinvb
                (Hmem _) Hnob)
      as (s' & l' & Hrun' & Hsp' & Hinv' & Hgone & Htm' & Hbrk' & Hps' & Hsps'
          & Hdev' & Htr').
    exists s', ls, l'. split.
    { unfold cras_tm_fire. mrun. unfold run_callback. rewrite Hc.
      unfold conn_watch_cb.
      mstep by (apply deref_run; exact Hm). mrun. mrun.
      mstep by (apply assign_run; exact Hm).
      change (bt_devices (set_tm _ s) _) with d.
      rewrite decide_False by done.
      mstep by apply tick_connect_calls_run.
      change (negb (Bool.eqb _ _) || negb (Bool.eqb _ _))
        with (watch_mismatch d). rewrite Hmis.
      mrun. mrun. mstep by apply call_if_run. mrun.
      cbn [bt_devices set_trace set_conn_watch_policies set_tm rset CONN_WATCH].
      change (bt_devices s (cw_device n)) with d. rewrite Hhfp. mrun.
      mrun. exact Hrun'. }
    rewrite Htm', Hbrk', Hps', Hdev', Htr', Hsps'.
    split; [done|]. do 3 (split; [done|]). split; [done|].
    do 2 (split; [done|]). split; [done|]. split; [exact Hexp|].
    split.
    { subst v. cbn [trace set_trace set_tm set_conn_watch_policies].
      by rewrite <- !app_assoc. }
    split; [done|]. by intros ?.
Qed.

(** *** Ticks *)

Lemma timers_of_elem c p (m : cras_tm) t :
  t ∈ timers_of c p m ↔ t ∈ timers m ∧ cb t = c ∧ cb_data t = p.
Proof. unfold timers_of. rewrite list_elem_of_filter. tauto. Qed.

Lemma watch_tick_run p devices s t :
  timers_of conn_watch_cb_fn p (tm s) = [t] →
  watch_tick p devices s =
  match cras_tm_fire t (set_bt_devices devices s) with
  | Ok (_, s') => Ok (true, s')
  | Fault => Fault
  | Hang => Hang
  end.
Proof.
  intros Ht. unfold watch_tick. mrun. mrun.
  cbn [tm set_bt_devices]. rewrite Ht. cbn [head].
  unfold mbind at 1, M_bind.
  by destruct (cras_tm_fire t (set_bt_devices devices s)) as [[[] ?]| |].
Qed.

Lemma watch_tick_none p devices s :
  timers_of conn_watch_cb_fn p (tm s) = [] →
  watch_tick p devices s = Ok (false, set_bt_devices devices s).
Proof.
  intros Ht. unfold watch_tick. mrun. mrun.
  cbn [tm set_bt_devices]. by rewrite Ht.
Qed.

Lemma watch_ticks_app p envs1 envs2 s :
  watch_ticks p (envs1 ++ envs2) s =
  (watch_ticks p envs1;; watch_ticks p envs2) s.
Proof.
  revert s. induction envs1 as [|e envs1 IH]; intros s; [done|].
  cbn [watch_ticks app]. unfold mbind, M_bind.
  destruct (watch_tick p e s) as [[b s1]| |]; [|done..]. apply IH.
Qed.

(** While retries remain and some watched profile stays unconnected, every
    tick decrements the counter and re-arms the timer one period later. *)
Lemma watch_ticks_rearm p envs :
  ∀ s ls l n t,
    tm_wf (tm s) → suspend_inv s ls → conn_watch_inv s l →
    dl_mem (conn_watch_policies s) !! p = Some n →
    timers_of conn_watch_cb_fn p (tm s) = [t] →
    ts t = tm_now (tm s) + CONN_WATCH_PERIOD_MS →
    Z.of_nat (length envs) < cw_retries_left n ≤ CONN_WATCH_MAX_RETRIES →
    (∀ e, e ∈ envs → watch_pending (e (cw_device n)) = true) →
    ∃ s' n' t',
      watch_ticks p envs s = Ok (tt, s') ∧
      tm_wf (tm s') ∧ suspend_inv s' ls ∧ conn_watch_inv s' l ∧
      dl_mem (conn_watch_policies s') !! p = Some n' ∧
      cw_device n' = cw_device n ∧
      cw_retries_left n' = cw_retries_left n - Z.of_nat (length envs) ∧
      timers_of conn_watch_cb_fn p (tm s') = [t'] ∧
      timer_id t' = cw_timer n' ∧
      ts t' = tm_now (tm s') + CONN_WATCH_PERIOD_MS ∧
      tm_now (tm s') =
        tm_now (tm s) + CONN_WATCH_PERIOD_MS * Z.of_nat (length envs) ∧
      suspend_policies s' = suspend_policies s ∧
      profile_switch_policies s' = profile_switch_policies s.
Proof.
  induction envs as [|e envs IH];
    intros s ls l n t Htm Hsp Hinv Hm Ht Hts Hr Hpend.
  - exists s, n, t. simpl. split; [done|]. do 5 (split; [done|]).
    split; [lia|]. split; [done|]. split.
    { destruct Hinv as [_ _ Ho _ _].
      assert (Hin : t ∈ timers_of conn_watch_cb_fn p (tm s))
        by (rewrite Ht; set_solver).
      apply timers_of_elem in Hin as (Hin & Hc & Hd).
      destruct (Ho _ Hin Hc) as (n0 & Hm0 & Hid0). rewrite Hd, Hm in Hm0.
      congruence. }
    split; [done|]. split; [lia|done].
  - assert (Hin : t ∈ timers_of conn_watch_cb_fn p (tm s))
      by (rewrite Ht; set_solver).
    apply timers_of_elem in Hin as (Hin & Hc & Hd).
    cbn [length] in Hr.
    destruct (watch_fire_rearm_spec (set_bt_devices e s) ls l t n)
      as (s1 & n1 & t1 & Hrun & Htm1 & Hsp1 & Hinv1 & Hm1 & Hd1 & Hr1 & Ht1
          & Hid1 & Hts1 & Hnow1 & Hsps1 & Hps1 & _);
      try done.
    { by apply suspend_inv_devices. }
    { by apply conn_watch_inv_devices. }
    { by rewrite Hd. }
    { apply watch_pending_profiles, Hpend. set_solver. }
    { apply watch_pending_mismatch, Hpend. set_solver. }
    { rewrite int_small; unfold CONN_WATCH_MAX_RETRIES in *; lia. }
    rewrite Hd in *.
    rewrite int_small in Hr1 by (unfold CONN_WATCH_MAX_RETRIES in *; lia).
    destruct (IH s1 ls l n1 t1) as (s' & n' & t' & Hrun' & Hrest); try done.
    { unfold CONN_WATCH_MAX_RETRIES in *. lia. }
    { intros e' He'. rewrite Hd1. apply Hpend. set_solver. }
    exists s', n', t'. split.
    { cbn [watch_ticks]. unfold mbind at 1, M_bind.
      rewrite (watch_tick_run _ _ _ _ Ht), Hrun. exact Hrun'. }
    destruct Hrest as (? & ? & ? & ? & Hd' & Hr' & ? & ? & ? & Hnow' & Hsps' & Hps').
    do 4 (split; [done|]). split; [congruence|].
    split; [cbn [length]; lia|].
    do 3 (split; [done|]). split.
    { rewrite Hnow', Hnow1. cbn [tm set_bt_devices length].
      unfold CONN_WATCH_PERIOD_MS in *. lia. }
    split; [by rewrite Hsps', Hsps1|]. by rewrite Hps', Hps1.
Qed.

(** ** The start-up state *)

Lemma policy_init_tm_wf devices rc : tm_wf (tm (policy_init devices rc)).
Proof. split; simpl; [constructor|set_solver..|done]. Qed.

Lemma region_wf_empty {T : Type} `{DLNode T} :
  region_wf 1%N {| dl_head := NULL; dl_mem := (∅ : gmap N T) |} [].
Proof.
  split; [done|]. split.
  - split; [constructor|]. split; [done|]. simpl. done.
  - split; [|set_solver]. intros p [x Hx]. simpl in Hx.
    by rewrite lookup_empty in Hx.
Qed.

Lemma policy_init_suspend_inv devices rc :
  suspend_inv (policy_init devices rc) [].
Proof.
  split; simpl.
  - apply region_wf_empty.
  - intros p q n n' Hp. by rewrite lookup_empty in Hp.
  - intros p n Hp. by rewrite lookup_empty in Hp.
  - set_solver.
Qed.

Lemma policy_init_conn_watch_inv devices rc :
  conn_watch_inv (policy_init devices rc) [].
Proof.
  split; simpl.
  - apply region_wf_empty.
  - intros p q n n' Hp. by rewrite lookup_empty in Hp.
  - set_solver.
  - intros p n t Hp. by rewrite lookup_empty in Hp.
  - intros p n Hp. by rewrite lookup_empty in Hp.
Qed.

(** ** Claims on the connection watch *)

(** What [cras_bt_policy_start_connection_watch] leaves behind, in the
    vocabulary of the claims. *)
Lemma start_connection_watch_armed s l device :
  tm_wf (tm s) → conn_watch_inv s l →
  ∃ s1 l1 p n t,
    cras_bt_policy_start_connection_watch device s = Ok (0, s1) ∧
    tm_wf (tm s1) ∧ conn_watch_inv s1 l1 ∧
    records_of cw_device device (conn_watch_policies s1) = [p] ∧
    dl_mem (conn_watch_policies s1) !! p = Some n ∧
    cw_device n = device ∧
    cw_retries_left n = CONN_WATCH_MAX_RETRIES ∧
    timers_of conn_watch_cb_fn p (tm s1) = [t] ∧
    t ∈ timers (tm s1) ∧ cb t = conn_watch_cb_fn ∧ cb_data t = p ∧
    ts t = tm_now (tm s) + CONN_WATCH_PERIOD_MS ∧
    tm_now (tm s1) = tm_now (tm s) ∧
    suspend_policies s1 = suspend_policies s ∧
    profile_switch_policies s1 = profile_switch_policies s ∧
    bt_devices s1 = bt_devices s ∧
    trace s1 = trace s ∧
    (brk s ≤ brk s1)%N ∧
    (∀ x, cb x ≠ conn_watch_cb_fn →
          x ∈ timers (tm s1) ↔ x ∈ timers (tm s)).
Proof.
  intros Htm Hinv.
  destruct (start_connection_watch_spec s l device Htm Hinv)
    as (s1 & l1 & p & n & Hrun & Htm1 & Hinv1 & Hm & Hd & Hr & Ht & Hnow
        & Hps & Hsp & Hdev & _ & Htr & Hbrk & Hother & _).
  eexists s1, l1, p, n, _. split; [done|]. do 2 (split; [done|]).
  split.
  { destruct Hinv1 as [Hwf Hu _ _ _].
    eapply records_of_one; [by eapply region_wf_dl_list|done| |done..].
    by eapply region_wf_elem_of. }
  do 3 (split; [done|]). split; [exact Ht|].
  split.
  { eapply (proj1 (timers_of_elem conn_watch_cb_fn p _ _)).
    rewrite Ht. set_solver. }
  simpl. do 3 (split; [done|]). by do 6 (split; [done|]).
Qed.

(** Claim C7.  Start a connection watch for a device, and let the registry
    report an empty profile bitmask for it when the watch timer expires.
    Then the first tick takes the watch record off the list and frees it;
    no timer of the record remains; the suspend list and the pending
    suspend timers are what they were before the watch was started; and
    the tick makes no call but the log entry, so no profile connect request
    is issued. *)
Theorem conn_watch_no_profile_removed s ls l device devices :
  tm_wf (tm s) → suspend_inv s ls → conn_watch_inv s l →
  profiles (devices device) = 0 →
  ∃ s1 p s2 calls,
    cras_bt_policy_start_connection_watch device s = Ok (0, s1) ∧
    records_of cw_device device (conn_watch_policies s1) = [p] ∧
    watch_tick p devices s1 = Ok (true, s2) ∧
    records_of cw_device device (conn_watch_policies s2) = [] ∧
    dl_mem (conn_watch_policies s2) !! p = None ∧
    timers_of conn_watch_cb_fn p (tm s2) = [] ∧
    suspend_policies s2 = suspend_policies s ∧
    (∀ x, cb x = suspend_cb_fn →
          x ∈ timers (tm s2) ↔ x ∈ timers (tm s)) ∧
    trace s2 = trace s ++ calls ∧
    calls = [E_BTLOG BT_DEV_CONN_WATCH_CB CONN_WATCH_MAX_RETRIES 0] ∧
    connect_requests calls = [].
Proof.
  intros Htm Hsp Hinv Hprof.
  destruct (start_connection_watch_armed s l device Htm Hinv)
    as (s1 & l1 & p & n & t & Hrun & Htm1 & Hinv1 & Hrec & Hm & Hd & Hr & Ht
        & Hin & Hc & Hcd & Hts & Hnow & Hsps & Hps & Hdev & Htr & Hbrk
        & Hother).
  assert (Hsp1 : suspend_inv s1 ls).
  { apply (suspend_inv_frame s); [done..| |done].
    intros x Hx. apply Hother. congruence. }
  destruct (watch_fire_idle_spec (set_bt_devices devices s1) ls l1 t n)
    as (s2 & l2 & Hfire & Htm2 & Hsp2 & Hinv2 & Hgone & Hrec2 & Ht2 & Htm2'
        & Hsps2 & Hps2 & Hdev2 & Htr2 & _); try done.
  { by apply suspend_inv_devices. }
  { by apply conn_watch_inv_devices. }
  { by rewrite Hcd. }
  { simpl. by rewrite Hd. }
  rewrite Hcd, Hd in *. cbn [bt_devices set_bt_devices trace] in Htr2.
  rewrite Hprof, Hr, Htr in Htr2.
  eexists s1, p, s2, _. split; [done|]. split; [done|].
  split; [by rewrite (watch_tick_run _ _ _ _ Ht), Hfire|].
  do 3 (split; [done|]). split; [by rewrite Hsps2|]. split.
  { intros x Hx. rewrite Htm2'. cbn [tm set_bt_devices].
    rewrite elem_of_expire_other by congruence.
    apply Hother. congruence. }
  by split; [exact Htr2|].
Qed.

(** Claim C5.  Start a connection watch for a device and let thirty ticks
    follow, at each of which the registry reports a supported profile among
    A2DP sink and HFP hands-free that is not connected.  After [k < 30]
    ticks the record holds [30 - k] retries and its timer is armed one
    period (2000 ms) after the time of the last tick, so the ticks are 2000
    ms apart; the suspend list is untouched.  The thirtieth tick brings the
    retries to zero, leaves the record without a timer, and is the call
    [schedule_suspend device 0 CONN_WATCH_TIME_OUT]: the device has exactly
    one suspend record with one timer, and when no suspend was pending for
    the device before, that record carries the reason [CONN_WATCH_TIME_OUT]
    and its timer is due at the time of the tick. *)
Theorem conn_watch_times_out s ls l device envs :
  tm_wf (tm s) → suspend_inv s ls → conn_watch_inv s l →
  length envs = 30%nat →
  (∀ e, e ∈ envs → watch_pending (e device) = true) →
  ∃ s0 p,
    cras_bt_policy_start_connection_watch device s = Ok (0, s0) ∧
    records_of cw_device device (conn_watch_policies s0) = [p] ∧
    (∀ k, (k < 30)%nat →
       ∃ sk n t,
         watch_ticks p (take k envs) s0 = Ok (tt, sk) ∧
         dl_mem (conn_watch_policies sk) !! p = Some n ∧
         cw_device n = device ∧
         cw_retries_left n = CONN_WATCH_MAX_RETRIES - Z.of_nat k ∧
         timers_of conn_watch_cb_fn p (tm sk) = [t] ∧
         timer_id t = cw_timer n ∧
         tm_now (tm sk) = tm_now (tm s) + CONN_WATCH_PERIOD_MS * Z.of_nat k ∧
         ts t = tm_now (tm sk) + CONN_WATCH_PERIOD_MS ∧
         suspend_policies sk = suspend_policies s) ∧
    ∃ sb s' n q m u,
      watch_ticks p envs s0 = Ok (tt, s') ∧
      schedule_suspend device 0 CONN_WATCH_TIME_OUT sb = Ok (tt, s') ∧
      suspend_policies sb = suspend_policies s ∧
      dl_mem (conn_watch_policies s') !! p = Some n ∧
      cw_retries_left n = 0 ∧
      timers_of conn_watch_cb_fn p (tm s') = [] ∧
      tm_now (tm s') = tm_now (tm s) + CONN_WATCH_PERIOD_MS * 30 ∧
      records_of sp_device device (suspend_policies s') = [q] ∧
      dl_mem (suspend_policies s') !! q = Some m ∧
      timers_of suspend_cb_fn q (tm s') = [u] ∧
      timer_id u = sp_timer m ∧
      (records_of sp_device device (suspend_policies s) = [] →
         sp_suspend_reason m = CONN_WATCH_TIME_OUT ∧
         ts u = tm_now (tm s')).
Proof.
  intros Htm Hsp Hinv Hlen Hpend.
  destruct (start_connection_watch_armed s l device Htm Hinv)
    as (s0 & l0 & p & n & t & Hrun & Htm0 & Hinv0 & Hrec & Hm & Hd & Hr & Ht
        & Hin & Hc & Hcd & Hts & Hnow & Hsps & Hps & Hdev & Htr & Hbrk
        & Hother).
  assert (Hsp0 : suspend_inv s0 ls).
  { apply (suspend_inv_frame s); [done..| |done].
    intros x Hx. apply Hother. congruence. }
  assert (Hrearm : ∀ k, (k < 30)%nat →
    ∃ sk nk tk,
      watch_ticks p (take k envs) s0 = Ok (tt, sk) ∧
      tm_wf (tm sk) ∧ suspend_inv sk ls ∧ conn_watch_inv sk l0 ∧
      dl_mem (conn_watch_policies sk) !! p = Some nk ∧
      cw_device nk = device ∧
      cw_retries_left nk = CONN_WATCH_MAX_RETRIES - Z.of_nat k ∧
      timers_of conn_watch_cb_fn p (tm sk) = [tk] ∧
      timer_id tk = cw_timer nk ∧
      tm_now (tm sk) = tm_now (tm s) + CONN_WATCH_PERIOD_MS * Z.of_nat k ∧
      ts tk = tm_now (tm sk) + CONN_WATCH_PERIOD_MS ∧
      suspend_policies sk = suspend_policies s).
  { intros k Hk.
    assert (Hlk : length (take k envs) = k) by (rewrite length_take; lia).
    destruct (watch_ticks_rearm p (take k envs) s0 ls l0 n t)
      as (sk & nk & tk & Hrunk & ? & ? & ? & ? & Hdk & Hrk & ? & ? & ? & Hnowk
          & Hspk & _); try done.
    { by rewrite Hts, Hnow. }
    { rewrite Hlk, Hr. unfold CONN_WATCH_MAX_RETRIES. lia. }
    { intros e He. rewrite Hd. apply Hpend.
      apply elem_of_take in He as (i & Hi & _). by eapply list_elem_of_lookup_2. }
    rewrite Hlk in *. exists sk, nk, tk.
    split; [done|]. do 4 (split; [done|]). split; [congruence|].
    split; [by rewrite Hrk, Hr|]. do 2 (split; [done|]).
    split; [by rewrite Hnowk, Hnow|]. split; [done|]. by rewrite Hspk. }
  exists s0, p. do 2 (split; [done|]). split.
  { intros k Hk.
    destruct (Hrearm k Hk) as (sk & nk & tk & ? & _ & _ & _ & ? & ? & ? & ?
                               & ? & ? & ? & ?).
    exists sk, nk, tk. by do 8 (split; [done|]). }
  destruct (Hrearm 29%nat) as (sk & nk & tk & Hrunk & Htmk & Hspk & Hinvk & Hmk
                               & Hdk & Hrk & Htk & Hidk & Hnowk & Htsk & Hspsk);
    [lia|].
  assert (Hsplit : envs = take 29 envs ++ drop 29 envs)
    by (by rewrite take_drop).
  destruct (drop 29 envs) as [|e [|? ?]] eqn:Hdrop;
    [apply (f_equal length) in Hdrop; rewrite length_drop in Hdrop;
     simpl in Hdrop; lia| |
     apply (f_equal length) in Hdrop; rewrite length_drop in Hdrop;
     simpl in Hdrop; lia].
  assert (Hink : tk ∈ timers_of conn_watch_cb_fn p (tm sk))
    by (rewrite Htk; set_solver).
  apply timers_of_elem in Hink as (Hink & Hck & Hcdk).
  destruct (watch_fire_timeout_spec (set_bt_devices e sk) ls l0 tk nk)
    as (sb & s' & ls' & n' & q & m & u & Hfire & Hsched & Hsb & Htm' & Hsp'
        & Hinv' & Hm' & Hd' & Hr' & Ht' & Hnow' & Hq & Hrecq & Hu & Hidu
        & Hreason & _); try done.
  { by apply suspend_inv_devices. }
  { by apply conn_watch_inv_devices. }
  { by rewrite Hcdk. }
  { cbn [bt_devices set_bt_devices]. rewrite Hdk.
    apply watch_pending_profiles, Hpend. rewrite Hsplit. set_solver. }
  { cbn [bt_devices set_bt_devices]. rewrite Hdk.
    apply watch_pending_mismatch, Hpend. rewrite Hsplit. set_solver. }
  { rewrite Hrk. by vm_compute. }
  rewrite Hcdk, Hdk in *. cbn [tm set_bt_devices suspend_policies] in *.
  exists sb, s', n', q, m, u. split.
  { rewrite Hsplit, watch_ticks_app. unfold mbind at 1, M_bind.
    rewrite Hrunk. cbn [watch_ticks]. unfold mbind at 1, M_bind.
    by rewrite (watch_tick_run _ _ _ _ Htk), Hfire. }
  split; [done|]. split; [by rewrite Hsb|]. do 3 (split; [done|]).
  split.
  { rewrite Hnow', Htsk, Hnowk. unfold CONN_WATCH_PERIOD_MS. lia. }
  do 4 (split; [done|]). intros Hnone. apply Hreason. by rewrite Hspsk.
Qed.

(** The profile among A2DP sink and HFP hands-free that is not connected,
    named by the UUID the registry is asked to connect. *)
Lemma watch_pending_one_connected d :
  cras_bt_device_supports_profile d CRAS_BT_DEVICE_PROFILE_A2DP_SINK = true →
  cras_bt_device_supports_profile d CRAS_BT_DEVICE_PROFILE_HFP_HANDSFREE
    = true →
  cras_bt_device_is_profile_connected d CRAS_BT_DEVICE_PROFILE_A2DP_SINK
    ≠ cras_bt_device_is_profile_connected d
        CRAS_BT_DEVICE_PROFILE_HFP_HANDSFREE →
  watch_pending d = true.
Proof.
  intros Ha Hh Hx. unfold watch_pending. rewrite Ha, Hh.
  by destruct (cras_bt_device_is_profile_connected d _),
       (cras_bt_device_is_profile_connected d _).
Qed.

(** Claim C6, for a device that supports both A2DP sink and HFP hands-free.
    On a tick of its connection watch, when exactly one of the two profiles
    is connected, the calls of the tick contain exactly one
    [cras_bt_device_connect_profile] request: for this device, on its bus
    connection, with the UUID of the profile that is not connected. *)
Theorem conn_watch_connects_missing s ls l p n t devices :
  tm_wf (tm s) → suspend_inv s ls → conn_watch_inv s l →
  dl_mem (conn_watch_policies s) !! p = Some n →
  timers_of conn_watch_cb_fn p (tm s) = [t] →
  cras_bt_device_supports_profile (devices (cw_device n))
    CRAS_BT_DEVICE_PROFILE_A2DP_SINK = true →
  cras_bt_device_supports_profile (devices (cw_device n))
    CRAS_BT_DEVICE_PROFILE_HFP_HANDSFREE = true →
  cras_bt_device_is_profile_connected (devices (cw_device n))
    CRAS_BT_DEVICE_PROFILE_A2DP_SINK
  ≠ cras_bt_device_is_profile_connected (devices (cw_device n))
      CRAS_BT_DEVICE_PROFILE_HFP_HANDSFREE →
  ∃ s' calls missing,
    watch_tick p devices s = Ok (true, s') ∧
    trace s' = trace s ++ calls ∧
    missing =
      (if cras_bt_device_is_profile_connected (devices (cw_device n))
            CRAS_BT_DEVICE_PROFILE_A2DP_SINK
       then HFP_HF_UUID else A2DP_SINK_UUID) ∧
    connect_requests calls = [(cw_device n, missing)] ∧
    E_cras_bt_device_connect_profile (conn (devices (cw_device n)))
      (cw_device n) missing ∈ calls.
Proof.
  intros Htm Hsp Hinv Hm Ht Ha Hh Hx.
  pose proof (watch_pending_one_connected _ Ha Hh Hx) as Hpend.
  assert (Hin : t ∈ timers_of conn_watch_cb_fn p (tm s))
    by (rewrite Ht; set_solver).
  apply timers_of_elem in Hin as (Hin & Hc & Hcd).
  assert (Hcalls : ∀ rest,
    let calls :=
      [E_BTLOG BT_DEV_CONN_WATCH_CB (cw_retries_left n)
         (profiles (devices (cw_device n)))] ++
      tick_connect_calls (cw_device n) (devices (cw_device n)) ++ rest in
    (∀ e, e ∈ rest → ∃ pr msg args, e = E_syslog pr msg args) →
    ∃ missing,
    missing =
      (if cras_bt_device_is_profile_connected (devices (cw_device n))
            CRAS_BT_DEVICE_PROFILE_A2DP_SINK
       then HFP_HF_UUID else A2DP_SINK_UUID) ∧
    connect_requests calls = [(cw_device n, missing)] ∧
    E_cras_bt_device_connect_profile (conn (devices (cw_device n)))
      (cw_device n) missing ∈ calls).
  { intros rest calls Hrest. eexists. split; [reflexivity|].
    assert (Hnone : connect_requests rest = []).
    { clear calls. induction rest as [|e rest IH]; [done|].
      destruct (Hrest e) as (pr & msg & args & ->); [set_solver|].
      simpl. apply IH. intros e' He'. apply Hrest. set_solver. }
    subst calls. unfold tick_connect_calls. rewrite Ha, Hh.
    unfold connect_requests in *. rewrite !omap_app, Hnone.
    destruct (cras_bt_device_is_profile_connected (devices (cw_device n))
                CRAS_BT_DEVICE_PROFILE_A2DP_SINK),
      (cras_bt_device_is_profile_connected (devices (cw_device n))
         CRAS_BT_DEVICE_PROFILE_HFP_HANDSFREE); try done;
      (split; [done|set_solver]). }
  destruct (decide (int (cw_retries_left n - 1) = 0)) as [Hz|Hnz].
  - destruct (watch_fire_timeout_spec (set_bt_devices devices s) ls l t n)
      as (sb & s' & ls' & n' & q & m & u & Hfire & _ & _ & _ & _ & _ & _ & _
          & _ & _ & _ & _ & _ & _ & _ & _ & _ & _ & Htr & _); try done.
    { by apply suspend_inv_devices. }
    { by apply conn_watch_inv_devices. }
    { by rewrite Hcd. }
    { by apply watch_pending_profiles. }
    { by apply watch_pending_mismatch. }
    cbn [bt_devices set_bt_devices trace] in Htr.
    destruct (Hcalls [E_syslog LOG_DEBUG "conn_watch_retries: %d"
                        [cw_retries_left n];
                      E_syslog LOG_ERR "Connection watch timeout." []])
      as (missing & ? & ? & ?).
    { intros e He. set_solver. }
    eexists s', _, missing. split.
    { by rewrite (watch_tick_run _ _ _ _ Ht), Hfire. }
    split; [exact Htr|]. done.
  - destruct (watch_fire_rearm_spec (set_bt_devices devices s) ls l t n)
      as (s' & n' & t' & Hfire & _ & _ & _ & _ & _ & _ & _ & _ & _ & _ & _
          & _ & _ & Htr & _); try done.
    { by apply suspend_inv_devices. }
    { by apply conn_watch_inv_devices. }
    { by rewrite Hcd. }
    { by apply watch_pending_profiles. }
    { by apply watch_pending_mismatch. }
    cbn [bt_devices set_bt_devices trace] in Htr.
    destruct (Hcalls [E_syslog LOG_DEBUG "conn_watch_retries: %d"
                        [cw_retries_left n]])
      as (missing & ? & ? & ?).
    { intros e He. set_solver. }
    eexists s', _, missing. split.
    { by rewrite (watch_tick_run _ _ _ _ Ht), Hfire. }
    split; [exact Htr|]. done.
Qed.

(** ** The profile switch machine *)

(** No record of the device is on the list: a record is allocated, armed
    and appended. *)
Lemma switch_profile_with_delay_new s l device :
  region_wf (brk s) (profile_switch_policies s) l →
  dl_find (dl_mem (profile_switch_policies s)) psp_device device l = NULL →
  ∃ s',
    switch_profile_with_delay device s = Ok (tt, s') ∧
    region_wf (brk s') (profile_switch_policies s') (l ++ [brk s]) ∧
    psp_payload <$> dl_mem (profile_switch_policies s') =
      <[brk s := (device, tm_next_id (tm s))]>
        (psp_payload <$> dl_mem (profile_switch_policies s)) ∧
    tm s' = (cras_tm_create_timer (tm s) PROFILE_SWITCH_DELAY_MS
               profile_switch_delay_cb_fn (brk s)).1 ∧
    brk s' = N.succ (brk s) ∧
    suspend_policies s' = suspend_policies s ∧
    conn_watch_policies s' = conn_watch_policies s ∧
    bt_devices s' = bt_devices s ∧
    hfp_ag_start_rc s' = hfp_ag_start_rc s ∧
    trace s' = trace s.
Proof.
  intros Hwf Hnull.
  set (rec := psp_set_timer (tm_next_id (tm s))
                (psp_set_device device psp_zero)).
  destruct (region_new _ _ _ rec Hwf) as (d' & Hrun & Hwf' & Hrel).
  eexists. split.
  { unfold switch_profile_with_delay.
    mstep by (rewrite (search_run PROFILE_SWITCH _ _ _ l)
                by (by eapply region_wf_dl_list);
              cbn [rget PROFILE_SWITCH]; rewrite Hnull; reflexivity).
    rewrite decide_True by done. mrun.
    mstep by (apply assign_run; cbn; apply lookup_insert_eq). mrun.
    mstep by (apply assign_run; cbn; apply lookup_insert_eq).
    apply append_run. cbn -[DL_APPEND]. rewrite !insert_insert_eq.
    exact Hrun. }
  cbn. split; [done|]. split; [|done].
  rewrite (psp_mem_relinked _ _ Hrel). by rewrite fmap_insert.
Qed.

(** A record of the device is on the list: its timer is cancelled, a new
    one is armed, and the record is appended once more. *)
Lemma switch_profile_with_delay_again s l device p :
  region_wf (brk s) (profile_switch_policies s) l →
  dl_find (dl_mem (profile_switch_policies s)) psp_device device l = p →
  p ≠ NULL →
  ∃ s' n,
    switch_profile_with_delay device s = Ok (tt, s') ∧
    dl_mem (profile_switch_policies s) !! p = Some n ∧
    psp_device n = device ∧
    psp_payload <$> dl_mem (profile_switch_policies s') =
      <[p := (device, tm_next_id (tm s))]>
        (psp_payload <$> dl_mem (profile_switch_policies s)) ∧
    (l = [p] → region_wf (brk s') (profile_switch_policies s') [p]) ∧
    tm s' = (cras_tm_create_timer (cras_tm_cancel_timer (tm s) (psp_timer n))
               PROFILE_SWITCH_DELAY_MS profile_switch_delay_cb_fn p).1 ∧
    brk s' = brk s ∧
    suspend_policies s' = suspend_policies s ∧
    conn_watch_policies s' = conn_watch_policies s ∧
    bt_devices s' = bt_devices s ∧
    hfp_ag_start_rc s' = hfp_ag_start_rc s ∧
    trace s' = trace s.
Proof.
  intros Hwf Hfind Hnn.
  destruct (dl_find_found _ _ _ _ _ Hfind Hnn) as (Hin & n & Hm & Hd).
  set (x := psp_set_timer (tm_next_id (tm s))
              (psp_set_device device (psp_set_timer NULL n))).
  set (d1 := {| dl_head := dl_head (profile_switch_policies s);
                dl_mem := <[p := x]> (dl_mem (profile_switch_policies s)) |}).
  assert (Hwf1 : region_wf (brk s) d1 l) by (by apply (region_wf_update _ _ _ _ n)).
  destruct (DL_APPEND_allocated d1 l p) as (d' & Hrun & Hrel).
  { by eapply region_wf_dl_list. }
  { simpl. rewrite lookup_insert_eq. eauto. }
  assert (Hpay : psp_payload <$> dl_mem d' =
            <[p := (device, tm_next_id (tm s))]>
              (psp_payload <$> dl_mem (profile_switch_policies s))).
  { rewrite (psp_mem_relinked _ _ Hrel). subst d1. simpl.
    by rewrite fmap_insert. }
  eexists _, n. split.
  { unfold switch_profile_with_delay.
    mstep by (rewrite (search_run PROFILE_SWITCH _ _ _ l)
                by (by eapply region_wf_dl_list);
              cbn [rget PROFILE_SWITCH]; rewrite Hfind; reflexivity).
    rewrite decide_False by done.
    mstep by ((mstep by (by apply deref_run)); mrun;
              (mstep by (by apply assign_run)); reflexivity).
    mstep by (apply assign_run; cbn; apply lookup_insert_eq). mrun.
    mstep by (apply assign_run; cbn; apply lookup_insert_eq).
    apply append_run. cbn -[DL_APPEND]. rewrite !insert_insert_eq.
    exact Hrun. }
  cbn. do 3 (split; [done|]). split; [|done].
  intros ->. destruct (DL_APPEND_single d1 p) as (d'' & Hrun' & Hl'' & _).
  { by eapply region_wf_dl_list. }
  rewrite Hrun in Hrun'. injection Hrun' as <-.
  destruct Hwf1 as (Hb & _ & Hdom & Hbound).
  split; [done|]. split; [done|]. split; [|done].
  intros q Hq. apply Hdom. by apply (mem_relinked_dom _ _ _ Hrel).
Qed.

(** The delayed callback of a record on a well-formed list: it resumes the
    output iodev of the device if the device has one, takes the record off
    the list and frees it. *)
Lemma profile_switch_fire s l t n :
  region_wf (brk s) (profile_switch_policies s) l →
  cb t = profile_switch_delay_cb_fn →
  dl_mem (profile_switch_policies s) !! cb_data t = Some n →
  ∃ s' l',
    cras_tm_fire t s = Ok (tt, s') ∧
    trace s' = trace s ++
      match bt_iodevs (bt_devices s (psp_device n)) CRAS_STREAM_OUTPUT with
      | Some iodev => [E_update_active_node iodev 0 1;
                       E_cras_iodev_list_resume_dev (idx (info iodev))]
      | None => []
      end ∧
    region_wf (brk s') (profile_switch_policies s') l' ∧
    (∀ q, q ∈ l' ↔ q ∈ l ∧ q ≠ cb_data t) ∧
    psp_payload <$> dl_mem (profile_switch_policies s') =
      delete (cb_data t) (psp_payload <$> dl_mem (profile_switch_policies s)) ∧
    tm s' = cras_tm_expire t (tm s) ∧
    brk s' = brk s ∧
    suspend_policies s' = suspend_policies s ∧
    conn_watch_policies s' = conn_watch_policies s ∧
    bt_devices s' = bt_devices s ∧
    hfp_ag_start_rc s' = hfp_ag_start_rc s.
Proof.
  intros Hwf Hc Hm.
  assert (Hpl : cb_data t ∈ l).
  { pose proof Hwf as (_ & _ & Hdom & _). apply Hdom. eauto. }
  destruct (region_remove _ _ _ _ Hwf Hpl)
    as (d1 & l' & n1 & Hdel & Hm1 & Hwf' & Hl' & Hrel).
  assert (Hpay : psp_payload <$> delete (cb_data t) (dl_mem d1) =
            delete (cb_data t)
              (psp_payload <$> dl_mem (profile_switch_policies s))).
  { by rewrite fmap_delete, (psp_mem_relinked _ _ Hrel). }
  destruct (bt_iodevs (bt_devices s (psp_device n)) CRAS_STREAM_OUTPUT)
    as [iodev|] eqn:Hout.
  - eexists _, l'. split.
    { unfold cras_tm_fire. mrun. unfold run_callback. rewrite Hc.
      unfold profile_switch_delay_cb.
      mstep by (by apply deref_run). mrun.
      change (bt_devices (set_tm _ s) _) with (bt_devices s (psp_device n)).
      rewrite Hout. mrun.
      mstep by (by apply unlink_run).
      rewrite (free_run PROFILE_SWITCH _ _ n1) by done. reflexivity. }
    cbn. rewrite <- app_assoc. done.
  - eexists _, l'. split.
    { unfold cras_tm_fire. mrun. unfold run_callback. rewrite Hc.
      unfold profile_switch_delay_cb.
      mstep by (by apply deref_run). mrun.
      change (bt_devices (set_tm _ s) _) with (bt_devices s (psp_device n)).
      rewrite Hout. mrun.
      mstep by (by apply unlink_run).
      rewrite (free_run PROFILE_SWITCH _ _ n1) by done. reflexivity. }
    cbn. rewrite app_nil_r. done.
Qed.



(** ** One record per device *)

(** Claim C9 fails for the profile-switch list.  [switch_profile_with_delay]
    appends the record of a device to the list also when the record is on
    the list already.  From start-up, with devices 10 and 11 that have an
    output iodev each, the calls [switch_profile] for 10, for 11, for 10 and
    for 11 return, and then: the second append of record 1 has cut record 2,
    the record of device 11, out of the chain from the head, so the search
    of the fourth call has not found it and has allocated record 3; records
    2 and 3 are both allocated, both belong to device 11, and each has its
    own pending timer.  When the three pending timers then fire, the third
    callback writes through the freed record 1. *)
Theorem profile_switch_duplicate_records :
  ∃ s n2 n3 t2 t3,
    (switch_profile 10%N None;; switch_profile 11%N None;;
     switch_profile 10%N None;; switch_profile 11%N None)
      (policy_init sample_devices (λ _, 0)) = Ok (tt, s) ∧
    dl_mem (profile_switch_policies s) !! 2%N = Some n2 ∧
    dl_mem (profile_switch_policies s) !! 3%N = Some n3 ∧
    psp_device n2 = 11%N ∧ psp_device n3 = 11%N ∧
    timers_of profile_switch_delay_cb_fn 2%N (tm s) = [t2] ∧
    timers_of profile_switch_delay_cb_fn 3%N (tm s) = [t3] ∧
    timer_id t2 = psp_timer n2 ∧ timer_id t3 = psp_timer n3 ∧
    list_nodes (profile_switch_policies s) = [1%N; 3%N] ∧
    ¬ unique_device psp_device (dl_mem (profile_switch_policies s)) ∧
    (main_loop_step 500;; main_loop_step 500;; main_loop_step 500) s = Fault.
Proof.
  do 5 eexists. split; [vm_compute; reflexivity|].
  do 9 (split; [vm_compute; reflexivity|]). split.
  - intros Hu.
    assert (2%N = 3%N) as [=].
    eapply Hu; [vm_compute; reflexivity..].
  - vm_compute. reflexivity.
Qed.

(** ** Timers of the suspend and connection watch machines *)

(** Whenever a suspend timer or a watch timer fires, its callback returns,
    the invariant of the two machines is kept, and the profile-switch list
    and its timers are left alone. *)
Lemma fire_other s t :
  policy_inv s → t ∈ timers (tm s) → cb t ≠ profile_switch_delay_cb_fn →
  ∃ s',
    cras_tm_fire t s = Ok (tt, s') ∧ policy_inv s' ∧
    tm_now (tm s') = Z.max (tm_now (tm s)) (ts t) ∧
    profile_switch_policies s' = profile_switch_policies s ∧
    bt_devices s' = bt_devices s ∧ (brk s ≤ brk s')%N ∧
    timers_for profile_switch_delay_cb_fn (tm s') =
      timers_for profile_switch_delay_cb_fn (tm s).
Proof.
  intros (Htm & [ls Hsp] & [l Hinv]) Hin Hps.
  destruct (cb t) eqn:Hc; [done| |].
  - (* a suspend fires *)
    destruct (suspend_fire _ _ _ Htm Hsp Hin Hc)
      as (n & d' & l' & Hm & Hid & Hrun & Hpay & Hsp').
    match type of Hrun with _ = Ok (_, ?st) => set (s' := st) in * end.
    exists s'. split; [done|]. split; [|split; [done|]].
    + split; [by apply tm_wf_expire|]. split; [by eauto|]. exists l.
      apply (conn_watch_inv_frame s); try done; [simpl; lia..|].
      intros x [Hx _]%elem_of_expire. by left.
    + do 2 (split; [done|]). split; [simpl; lia|].
      apply timers_for_expire_other; [done..|congruence].
  - (* a watch timer fires *)
    destruct (conn_watch_owner _ _ _ Hinv Hin Hc) as (n & Hm & _ & _).
    destruct (decide (profiles (bt_devices s (cw_device n)) = 0))
      as [Hprof|Hprof].
    { destruct (watch_fire_idle_spec s ls l t n)
        as (s' & l' & Hrun & Htm' & Hsp' & Hinv' & _ & _ & _ & Htme & _ & Hps'
            & Hdev' & _ & Hbrk'); try done.
      exists s'. split; [done|]. split; [split; [done|split; eauto]|].
      rewrite Htme. split; [done|]. do 2 (split; [done|]).
      split; [lia|]. apply timers_for_expire_other; [done..|congruence]. }
    destruct (watch_mismatch (bt_devices s (cw_device n))) eqn:Hmis.
    + destruct (decide (int (cw_retries_left n - 1) = 0)) as [Hz|Hnz].
      * destruct (watch_fire_timeout_spec s ls l t n)
          as (sb & s' & ls' & n' & q & m & u & Hrun & _ & _ & Htm' & Hsp'
              & Hinv' & _ & _ & _ & _ & Hnow & _ & _ & _ & _ & _ & Hps'
              & Hdev' & _ & Hbrk' & Htf); try done.
        exists s'. split; [done|]. split; [split; [done|split; eauto]|].
        done.
      * destruct (watch_fire_rearm_spec s ls l t n)
          as (s' & n' & t' & Hrun & Htm' & Hsp' & Hinv' & _ & _ & _ & _ & _
              & _ & Hnow & _ & Hps' & Hdev' & _ & Hbrk' & Htf); try done.
        exists s'. split; [done|]. split; [split; [done|split; eauto]|].
        do 3 (split; [done|]). split; [lia|done].
    + destruct (watch_fire_done_spec s ls l t n)
        as (s' & ls' & l' & Hrun & Htm' & Hsp' & Hinv' & _ & Hnow & Hps'
            & Hdev' & Hbrk' & Htf & _); try done.
      exists s'. split; [done|]. split; [split; [done|split; eauto]|].
      done.
Qed.

(** ** Bursts of profile switches *)

Lemma policy_inv_trace s v : policy_inv s → policy_inv (set_trace v s).
Proof.
  intros (Htm & [ls Hsp] & [l Hinv]). split; [done|].
  split; [exists ls; by apply suspend_inv_trace|].
  exists l. by apply conn_watch_inv_trace.
Qed.

(** The other two machines do not notice a profile switch being armed. *)
Lemma policy_inv_switch s s' :
  policy_inv s → tm_wf (tm s') →
  suspend_policies s' = suspend_policies s →
  conn_watch_policies s' = conn_watch_policies s →
  (brk s ≤ brk s')%N →
  (tm_next_id (tm s) ≤ tm_next_id (tm s'))%N →
  (∀ x, cb x ≠ profile_switch_delay_cb_fn →
        x ∈ timers (tm s') ↔ x ∈ timers (tm s)) →
  (∀ x, x ∈ timers (tm s') → cb x = profile_switch_delay_cb_fn →
        x ∈ timers (tm s) ∨ (tm_next_id (tm s) ≤ timer_id x)%N) →
  policy_inv s'.
Proof.
  intros (Htm & [ls Hsp] & [l Hinv]) Htm' Hsps Hcw Hbrk Hnext Hother Hnew.
  split; [done|]. split.
  - exists ls. apply (suspend_inv_frame s); [done..| |done].
    intros x Hx. apply Hother. congruence.
  - exists l. apply (conn_watch_inv_frame s); [done..| |done].
    intros x Hx.
    destruct (decide (cb x = profile_switch_delay_cb_fn)) as [Hc|Hc].
    + destruct (Hnew _ Hx Hc) as [?|?]; [by left|right].
      split; [congruence|done].
    + left. by apply Hother.
Qed.

Lemma profile_switch_idle_empty s p n :
  profile_switch_idle s → dl_mem (profile_switch_policies s) !! p = Some n →
  False.
Proof.
  intros [(_ & _ & Hdom & _) _] Hm.
  assert (p ∈ []) by (apply Hdom; eauto). set_solver.
Qed.

(** [switch_profile_with_delay] when no profile switch is pending, or only
    that of the device: afterwards only that of the device is pending, with
    one timer, due after the delay. *)
Lemma switch_profile_with_delay_coalesces s device :
  policy_inv s →
  profile_switch_idle s ∨ (∃ p t, profile_switch_armed s device p t) →
  ∃ s' p t,
    switch_profile_with_delay device s = Ok (tt, s') ∧
    policy_inv s' ∧ profile_switch_armed s' device p t ∧
    ts t = tm_now (tm s) + PROFILE_SWITCH_DELAY_MS ∧
    cb t = profile_switch_delay_cb_fn ∧
    tm_now (tm s') = tm_now (tm s) ∧
    bt_devices s' = bt_devices s ∧ trace s' = trace s.
Proof.
  intros Hpol [Hidle|(p & t & Hwf & (n & Hm & Hd & Hid) & Htf & Hcd)].
  - pose proof Hidle as [Hwf Htf].
    assert (Hnull : dl_find (dl_mem (profile_switch_policies s)) psp_device
                      device [] = NULL) by done.
    destruct (switch_profile_with_delay_new s [] device Hwf Hnull)
      as (s' & Hrun & Hwf' & Hpay & Htm & Hbrk & Hsps & Hcw & Hdev & _ & Htr).
    destruct (payload_insert_new _ _ _ _ _ Hpay) as (n & Hn & Hpn).
    apply (psp_payload_inv n {| psp_device := device;
                                psp_timer := tm_next_id (tm s);
                                psp_prev := NULL; psp_next := NULL |})
      in Hpn as (Hd & Ht).
    pose proof Hpol as (Htmw & _).
    exists s', (brk s),
      {| timer_id := tm_next_id (tm s);
         ts := tm_now (tm s) + PROFILE_SWITCH_DELAY_MS;
         cb := profile_switch_delay_cb_fn; cb_data := brk s |}.
    split; [done|]. split.
    { apply (policy_inv_switch s); try done.
      - rewrite Htm. by apply tm_wf_create.
      - lia.
      - rewrite Htm. simpl. lia.
      - intros x Hx. rewrite Htm, elem_of_create_timer. split; [|auto].
        intros [?| ->]; [done|]. by destruct Hx.
      - intros x Hx _. rewrite Htm in Hx.
        apply elem_of_create_timer in Hx as [?| ->]; [by left|right].
        simpl. lia. }
    split.
    { split; [done|]. split; [by eauto|]. split; [|done].
      by rewrite Htm, timers_for_create_same, Htf. }
    rewrite Htm. done.
  - assert (Hfind : dl_find (dl_mem (profile_switch_policies s)) psp_device
                      device [p] = p).
    { simpl. rewrite Hm. by rewrite decide_True. }
    assert (Hnn : p ≠ NULL).
    { destruct (region_wf_lookup _ _ _ p Hwf); [set_solver|done]. }
    destruct (switch_profile_with_delay_again s [p] device p Hwf Hfind Hnn)
      as (s' & n0 & Hrun & Hm0 & _ & Hpay & Hwf' & Htm & Hbrk & Hsps & Hcw
          & Hdev & _ & Htr).
    rewrite Hm in Hm0. injection Hm0 as <-.
    destruct (payload_insert_new _ _ _ _ _ Hpay) as (n' & Hn' & Hpn).
    apply (psp_payload_inv n' {| psp_device := device;
                                 psp_timer := tm_next_id (tm s);
                                 psp_prev := NULL; psp_next := NULL |})
      in Hpn as (Hd' & Ht').
    pose proof Hpol as (Htmw & _).
    assert (Htin : t ∈ timers (tm s)).
    { apply (timers_for_elem profile_switch_delay_cb_fn). rewrite Htf.
      set_solver. }
    assert (Htc : cb t = profile_switch_delay_cb_fn).
    { apply (timers_for_elem profile_switch_delay_cb_fn (tm s)). rewrite Htf.
      set_solver. }
    exists s', p,
      {| timer_id := tm_next_id (tm s);
         ts := tm_now (tm s) + PROFILE_SWITCH_DELAY_MS;
         cb := profile_switch_delay_cb_fn; cb_data := p |}.
    split; [done|]. split.
    { apply (policy_inv_switch s); try done.
      - rewrite Htm. by apply tm_wf_create, tm_wf_cancel.
      - lia.
      - rewrite Htm. simpl. lia.
      - intros x Hx. rewrite Htm, elem_of_create_timer, elem_of_cancel_timer.
        split.
        + intros [[? _]| ->]; [done|]. by destruct Hx.
        + intros Hxin. left. split; [done|]. rewrite Hid. intros Heq.
          assert (x = t) as -> by (by eapply timer_id_inj). done.
      - intros x Hx _. rewrite Htm in Hx.
        apply elem_of_create_timer in Hx
          as [[? _]%elem_of_cancel_timer| ->]; [by left|right].
        simpl. lia. }
    split.
    { split; [by apply Hwf'|]. split; [by eauto|]. split; [|done].
      rewrite Htm, timers_for_create_same, Hid.
      by rewrite (timers_for_cancel_only _ _ _ Htf). }
    rewrite Htm. done.
Qed.

(** [switch_profile] for a device with an output iodev coalesces. *)
Lemma switch_profile_coalesces s device bt_iodev out :
  policy_inv s →
  profile_switch_idle s ∨ (∃ p t, profile_switch_armed s device p t) →
  bt_iodevs (bt_devices s device) CRAS_STREAM_OUTPUT = Some out →
  ∃ s' p t,
    switch_profile device bt_iodev s = Ok (tt, s') ∧
    policy_inv s' ∧ profile_switch_armed s' device p t ∧
    ts t = tm_now (tm s) + PROFILE_SWITCH_DELAY_MS ∧
    cb t = profile_switch_delay_cb_fn ∧
    tm_now (tm s') = tm_now (tm s) ∧
    bt_devices s' = bt_devices s.
Proof.
  intros Hpol Hps Hout.
  destruct (bt_iodevs (bt_devices s device) CRAS_STREAM_INPUT)
    as [inp|] eqn:Hinp.
  - set (s1 := set_trace
                 ((trace s ++
                   [E_cras_iodev_list_suspend_dev (idx (info out))]) ++
                  [E_cras_iodev_list_suspend_dev (idx (info inp))]) s).
    destruct (switch_profile_with_delay_coalesces s1 device)
      as (s2 & p & t & Hrun & Hpol2 & Harm & Hts & Hc & Hnow & Hdev & Htr).
    { by apply policy_inv_trace. }
    { exact Hps. }
    eexists _, p, t. split.
    { unfold switch_profile. cbn [for_each CRAS_NUM_DIRECTIONS].
      mstep by ((mstep by (mrun; rewrite Hout; reflexivity));
                (mstep by (mrun; cbn [bt_devices set_trace]; rewrite Hinp;
                           reflexivity));
                reflexivity).
      mstep by (mrun; cbn [bt_devices set_trace]; rewrite Hout; exact Hrun).
      mstep by (mrun; rewrite Hdev; cbn [bt_devices s1 set_trace];
                rewrite Hinp; reflexivity).
      reflexivity. }
    split; [by do 2 apply policy_inv_trace|]. done.
  - set (s1 := set_trace
                 (trace s ++
                   [E_cras_iodev_list_suspend_dev (idx (info out))]) s).
    destruct (switch_profile_with_delay_coalesces s1 device)
      as (s2 & p & t & Hrun & Hpol2 & Harm & Hts & Hc & Hnow & Hdev & Htr).
    { by apply policy_inv_trace. }
    { exact Hps. }
    eexists _, p, t. split.
    { unfold switch_profile. cbn [for_each CRAS_NUM_DIRECTIONS].
      mstep by ((mstep by (mrun; rewrite Hout; reflexivity));
                (mstep by (mrun; cbn [bt_devices set_trace]; rewrite Hinp;
                           reflexivity));
                reflexivity).
      mstep by (mrun; cbn [bt_devices set_trace]; rewrite Hout; exact Hrun).
      mstep by (mrun; rewrite Hdev; cbn [bt_devices s1 set_trace];
                rewrite Hinp; reflexivity).
      reflexivity. }
    done.
Qed.

(** The delayed callback of the only pending profile switch: afterwards no
    profile switch is pending. *)
Lemma profile_switch_fire_only s device p t :
  policy_inv s → profile_switch_armed s device p t →
  ∃ s',
    cras_tm_fire t s = Ok (tt, s') ∧
    policy_inv s' ∧ profile_switch_idle s' ∧
    tm_now (tm s') = Z.max (tm_now (tm s)) (ts t) ∧
    bt_devices s' = bt_devices s.
Proof.
  intros Hpol (Hwf & (n & Hm & Hd & Hid) & Htf & Hcd).
  pose proof Hpol as (Htmw & _).
  assert (Htin : t ∈ timers (tm s) ∧ cb t = profile_switch_delay_cb_fn).
  { apply (timers_for_elem profile_switch_delay_cb_fn). rewrite Htf.
    set_solver. }
  destruct Htin as [Htin Htc]. rewrite <- Hcd in Hm.
  destruct (profile_switch_fire s [p] t n Hwf Htc Hm)
    as (s' & l' & Hrun & _ & Hwf' & Hl' & _ & Htm & Hbrk & Hsps & Hcw & Hdev
        & _).
  assert (l' = []) as ->.
  { destruct l' as [|q l']; [done|].
    destruct (proj1 (Hl' q)) as [Hq Hne]; [set_solver|].
    rewrite Hcd in Hne. set_solver. }
  exists s'. split; [done|]. split.
  { apply (policy_inv_switch s); try done.
    - rewrite Htm. by apply tm_wf_expire.
    - lia.
    - rewrite Htm. simpl. lia.
    - intros x Hx. rewrite Htm. apply elem_of_expire_other; [done..|].
      congruence.
    - intros x Hx _. left. rewrite Htm in Hx.
      by apply elem_of_expire in Hx as [? _]. }
  split.
  { split; [done|]. rewrite Htm.
    exact (timers_for_cancel_only profile_switch_delay_cb_fn (tm s) t Htf). }
  by rewrite Htm.
Qed.

(** *** The main loop *)

Lemma earliest_None l : earliest l = None → l = [].
Proof.
  destruct l as [|t l]; [done|]. simpl.
  destruct (earliest l) as [u|]; [|done]. by destruct (ts u <? ts t).
Qed.

Lemma earliest_Some l x :
  earliest l = Some x → x ∈ l ∧ ∀ y, y ∈ l → ts x ≤ ts y.
Proof.
  revert x. induction l as [|t l IH]; intros x; [done|]. simpl.
  destruct (earliest l) as [u|] eqn:Hu.
  - destruct (IH u eq_refl) as [Hin Hmin].
    destruct (Z.ltb_spec (ts u) (ts t)); intros [= <-].
    + split; [set_solver|]. intros y [->|Hy]%elem_of_cons; [lia|by apply Hmin].
    + split; [set_solver|]. intros y [->|Hy]%elem_of_cons; [lia|].
      specialize (Hmin y Hy). lia.
  - apply earliest_None in Hu as ->. intros [= <-].
    split; [set_solver|]. intros y Hy. assert (y = t) as -> by set_solver.
    lia.
Qed.

(** The main loop sleeps: only the clock moves. *)
Lemma policy_inv_sleep s now :
  policy_inv s →
  policy_inv (set_tm {| tm_now := now; tm_next_id := tm_next_id (tm s);
                        timers := timers (tm s) |} s).
Proof.
  intros Hpol.
  apply (policy_inv_switch s);
    [done| |done|done|simpl; lia|simpl; lia|done|by intros x Hx _; left].
  destruct Hpol as ([? ? ? ?] & _). by split.
Qed.

Lemma profile_switch_armed_frame s s' device p t :
  profile_switch_armed s device p t →
  profile_switch_policies s' = profile_switch_policies s →
  (brk s ≤ brk s')%N →
  timers_for profile_switch_delay_cb_fn (tm s') =
    timers_for profile_switch_delay_cb_fn (tm s) →
  profile_switch_armed s' device p t.
Proof.
  intros (Hwf & Hn & Htf & Hcd) Hps Hbrk Htf'. rewrite <- Hps in Hwf, Hn.
  split; [by eapply region_wf_mono|]. split; [done|].
  split; [by rewrite Htf'|done].
Qed.

Lemma profile_switch_idle_frame s s' :
  profile_switch_idle s →
  profile_switch_policies s' = profile_switch_policies s →
  (brk s ≤ brk s')%N →
  timers_for profile_switch_delay_cb_fn (tm s') =
    timers_for profile_switch_delay_cb_fn (tm s) →
  profile_switch_idle s'.
Proof.
  intros (Hwf & Htf) Hps Hbrk Htf'. rewrite <- Hps in Hwf.
  split; [by eapply region_wf_mono|]. by rewrite Htf'.
Qed.

(** One iteration of the main loop while a profile switch is pending:
    either the pending switch stays as it is, and the timer that fired, if
    any, belongs to another machine; or the timer of the switch has
    expired by [limit] and its callback runs at that time. *)
Lemma main_loop_step_armed s device p t limit :
  policy_inv s → profile_switch_armed s device p t →
  tm_now (tm s) ≤ ts t →
  ∃ o s',
    main_loop_step limit s = Ok (o, s') ∧
    policy_inv s' ∧ bt_devices s' = bt_devices s ∧
    tm_now (tm s) ≤ tm_now (tm s') ∧
    ((profile_switch_armed s' device p t ∧ tm_now (tm s') ≤ ts t ∧
      ∀ x, o = Some x → cb x ≠ profile_switch_delay_cb_fn) ∨
     (o = Some t ∧ ts t ≤ limit ∧ tm_now (tm s') = ts t ∧
      profile_switch_idle s')).
Proof.
  intros Hpol Harm Hnow. pose proof Harm as (_ & _ & Htf & _).
  assert (Htin : t ∈ timers (tm s) ∧ cb t = profile_switch_delay_cb_fn).
  { apply (timers_for_elem profile_switch_delay_cb_fn). rewrite Htf.
    set_solver. }
  destruct Htin as [Htin Htc].
  unfold main_loop_step. mrun. unfold cras_tm_next.
  destruct (earliest (timers (tm s))) as [x|] eqn:Hx.
  - destruct (earliest_Some _ _ Hx) as [Hxin Hmin].
    destruct (Z.leb_spec (ts x) limit) as [Hle|Hgt].
    + destruct (decide (cb x = profile_switch_delay_cb_fn)) as [Hc|Hc].
      * assert (x = t) as ->.
        { assert (x ∈ timers_for profile_switch_delay_cb_fn (tm s))
            by (by apply timers_for_elem).
          rewrite Htf in *. set_solver. }
        destruct (profile_switch_fire_only s device p t Hpol Harm)
          as (s' & Hrun & Hpol' & Hidle & Hnow' & Hdev).
        exists (Some t), s'. split; [by mstep by exact Hrun|].
        do 2 (split; [done|]). split; [lia|]. right.
        split; [done|]. split; [done|]. split; [lia|done].
      * destruct (fire_other s x Hpol Hxin Hc)
          as (s' & Hrun & Hpol' & Hnow' & Hps & Hdev & Hbrk & Htf').
        exists (Some x), s'. split; [by mstep by exact Hrun|].
        do 2 (split; [done|]). split; [lia|]. left.
        split; [by eapply profile_switch_armed_frame|].
        split; [specialize (Hmin t Htin); lia|]. by intros ? [= <-].
    + eexists None, _. split; [by mrun|].
      split; [by apply policy_inv_sleep|]. split; [done|].
      split; [simpl; lia|]. left.
      split; [by eapply profile_switch_armed_frame|].
      split; [specialize (Hmin t Htin); simpl; lia|done].
  - apply earliest_None in Hx. rewrite Hx in Htin. set_solver.
Qed.

Lemma main_loop_step_idle s limit :
  policy_inv s → profile_switch_idle s →
  ∃ o s',
    main_loop_step limit s = Ok (o, s') ∧
    policy_inv s' ∧ profile_switch_idle s' ∧
    bt_devices s' = bt_devices s ∧
    tm_now (tm s) ≤ tm_now (tm s') ∧
    ∀ x, o = Some x → cb x ≠ profile_switch_delay_cb_fn.
Proof.
  intros Hpol Hidle. pose proof Hidle as (_ & Htf).
  unfold main_loop_step. mrun. unfold cras_tm_next.
  destruct (earliest (timers (tm s))) as [x|] eqn:Hx.
  - destruct (earliest_Some _ _ Hx) as [Hxin Hmin].
    assert (Hc : cb x ≠ profile_switch_delay_cb_fn).
    { intros Hc.
      assert (x ∈ timers_for profile_switch_delay_cb_fn (tm s))
        by (by apply timers_for_elem).
      rewrite Htf in *. set_solver. }
    destruct (Z.leb_spec (ts x) limit) as [Hle|Hgt].
    + destruct (fire_other s x Hpol Hxin Hc)
        as (s' & Hrun & Hpol' & Hnow' & Hps & Hdev & Hbrk & Htf').
      exists (Some x), s'. split; [by mstep by exact Hrun|].
      split; [done|]. split; [by eapply profile_switch_idle_frame|].
      split; [done|]. split; [lia|]. by intros ? [= <-].
    + eexists None, _. split; [by mrun|].
      split; [by apply policy_inv_sleep|].
      split; [by eapply profile_switch_idle_frame|].
      split; [done|]. split; [simpl; lia|done].
  - eexists None, _. split; [by mrun|].
    split; [by apply policy_inv_sleep|].
    split; [by eapply profile_switch_idle_frame|].
    split; [done|]. split; [simpl; lia|done].
Qed.

Lemma delayed_resumes_cons_other now x fired :
  cb x ≠ profile_switch_delay_cb_fn →
  delayed_resumes ((now, x) :: fired) = delayed_resumes fired.
Proof. intros Hc. unfold delayed_resumes. by rewrite filter_cons_False. Qed.

Lemma delayed_resumes_cons now x fired :
  cb x = profile_switch_delay_cb_fn →
  delayed_resumes ((now, x) :: fired) = (now, x) :: delayed_resumes fired.
Proof. intros Hc. unfold delayed_resumes. by rewrite filter_cons_True. Qed.

Lemma main_loop_cons limit limits s o s1 fired s2 :
  main_loop_step limit s = Ok (o, s1) →
  main_loop limits s1 = Ok (fired, s2) →
  main_loop (limit :: limits) s =
  Ok (match o with
      | Some t => (tm_now (tm s1), t) :: fired
      | None => fired
      end, s2).
Proof.
  intros Hstep Hrest. cbn [main_loop]. mstep by exact Hstep. mrun.
  by mstep by exact Hrest.
Qed.

(** The main loop while no profile switch is pending: no delayed callback
    runs. *)
Lemma main_loop_idle limits :
  ∀ s, policy_inv s → profile_switch_idle s →
  ∃ fired s',
    main_loop limits s = Ok (fired, s') ∧
    policy_inv s' ∧ profile_switch_idle s' ∧
    bt_devices s' = bt_devices s ∧
    tm_now (tm s) ≤ tm_now (tm s') ∧
    delayed_resumes fired = [].
Proof.
  induction limits as [|limit limits IH]; intros s Hpol Hidle.
  - exists [], s. do 4 (split; [done|]). split; [lia|done].
  - destruct (main_loop_step_idle s limit Hpol Hidle)
      as (o & s1 & Hstep & Hpol1 & Hidle1 & Hdev1 & Hnow1 & Ho).
    destruct (IH s1 Hpol1 Hidle1)
      as (fired & s2 & Hrun & Hpol2 & Hidle2 & Hdev2 & Hnow2 & Hnone).
    eexists _, s2. split; [by eapply main_loop_cons|].
    do 2 (split; [done|]). split; [congruence|]. split; [lia|].
    destruct o as [x|]; [|done].
    rewrite delayed_resumes_cons_other by (by apply Ho). done.
Qed.

(** The main loop while one profile switch is pending: the delayed callback
    has not run and the switch is still pending, or it has run once, at the
    expiry time of the timer. *)
Lemma main_loop_armed device p t limits :
  ∀ s, policy_inv s → profile_switch_armed s device p t →
  tm_now (tm s) ≤ ts t →
  ∃ fired s',
    main_loop limits s = Ok (fired, s') ∧
    policy_inv s' ∧ bt_devices s' = bt_devices s ∧
    tm_now (tm s) ≤ tm_now (tm s') ∧
    ((delayed_resumes fired = [] ∧ profile_switch_armed s' device p t ∧
      tm_now (tm s') ≤ ts t) ∨
     (delayed_resumes fired = [(ts t, t)] ∧ profile_switch_idle s' ∧
      ∃ limit, limit ∈ limits ∧ ts t ≤ limit)).
Proof.
  induction limits as [|limit limits IH]; intros s Hpol Harm Hnow.
  - exists [], s. do 3 (split; [done|]). split; [lia|]. by left.
  - destruct (main_loop_step_armed s device p t limit Hpol Harm Hnow)
      as (o & s1 & Hstep & Hpol1 & Hdev1 & Hnow1
          & [(Harm1 & Hle1 & Ho)|(-> & Hlim & Hat & Hidle1)]).
    + destruct (IH s1 Hpol1 Harm1 Hle1)
        as (fired & s2 & Hrun & Hpol2 & Hdev2 & Hnow2 & Hcases).
      eexists _, s2. split; [by eapply main_loop_cons|].
      split; [done|]. split; [congruence|]. split; [lia|].
      assert (Hsame : delayed_resumes
                        match o with
                        | Some x => (tm_now (tm s1), x) :: fired
                        | None => fired
                        end = delayed_resumes fired).
      { destruct o as [x|]; [|done].
        by rewrite delayed_resumes_cons_other by (by apply Ho). }
      rewrite Hsame.
      destruct Hcases as [?|(? & ? & limit' & ? & ?)]; [by left|right].
      do 2 (split; [done|]). exists limit'. split; [set_solver|done].
    + destruct (main_loop_idle limits s1 Hpol1 Hidle1)
        as (fired & s2 & Hrun & Hpol2 & Hidle2 & Hdev2 & Hnow2 & Hnone).
      eexists _, s2. split; [by eapply main_loop_cons|].
      split; [done|]. split; [congruence|]. split; [lia|]. right.
      pose proof Harm as (_ & _ & Htf & _).
      assert (Htc : cb t = profile_switch_delay_cb_fn).
      { apply (timers_for_elem profile_switch_delay_cb_fn (tm s)).
        rewrite Htf. set_solver. }
      rewrite delayed_resumes_cons, Hnone, Hat by done.
      do 2 (split; [done|]). exists limit. split; [set_solver|done].
Qed.

(** A burst of profile switches for one device: no delayed callback runs
    during the burst, and after it one profile switch is pending, whose
    timer is due after the delay. *)
Lemma switch_profile_burst_armed device out B runs :
  ∀ s, policy_inv s →
  profile_switch_idle s ∨ (∃ p t, profile_switch_armed s device p t) →
  bt_iodevs (bt_devices s device) CRAS_STREAM_OUTPUT = Some out →
  B ≤ tm_now (tm s) + PROFILE_SWITCH_DELAY_MS →
  (∀ limits limit, limits ∈ runs → limit ∈ limits → limit < B) →
  ∃ fired s1 p t,
    switch_profile_burst device runs s = Ok (fired, s1) ∧
    policy_inv s1 ∧ profile_switch_armed s1 device p t ∧
    cb t = profile_switch_delay_cb_fn ∧
    ts t = tm_now (tm s1) + PROFILE_SWITCH_DELAY_MS ∧
    delayed_resumes fired = [] ∧
    bt_devices s1 = bt_devices s.
Proof.
  induction runs as [|limits runs IH]; intros s Hpol Hps Hout HB Hlim.
  - destruct (switch_profile_coalesces s device None out Hpol Hps Hout)
      as (s1 & p & t & Hrun & Hpol1 & Harm1 & Hts & Hc & Hnow & Hdev).
    exists [], s1, p, t. split.
    { cbn [switch_profile_burst]. by mstep by exact Hrun. }
    do 3 (split; [done|]). split; [by rewrite Hnow|done].
  - destruct (switch_profile_coalesces s device None out Hpol Hps Hout)
      as (s1 & p & t & Hrun & Hpol1 & Harm1 & Hts & Hc & Hnow & Hdev).
    destruct (main_loop_armed device p t limits s1 Hpol1 Harm1)
      as (fired & s2 & Hloop & Hpol2 & Hdev2 & Hnow2 & Hcases);
      [unfold PROFILE_SWITCH_DELAY_MS in *; lia|].
    destruct Hcases as [(Hnone & Harm2 & Hle2)|(_ & _ & limit & Hin & Hle)].
    2:{ assert (limit < B) by (eapply Hlim; [|done]; set_solver).
        unfold PROFILE_SWITCH_DELAY_MS in *. lia. }
    destruct (IH s2) as (rest & s3 & p3 & t3 & Hrest & Hpol3 & Harm3 & Hc3
                         & Hts3 & Hnone3 & Hdev3); [done|by eauto| | | |].
    { by rewrite Hdev2, Hdev. }
    { unfold PROFILE_SWITCH_DELAY_MS in *. lia. }
    { intros ls lim Hls. apply Hlim. set_solver. }
    exists (fired ++ rest), s3, p3, t3. split.
    { cbn [switch_profile_burst]. mstep by exact Hrun.
      mstep by exact Hloop. by mstep by exact Hrest. }
    do 4 (split; [done|]). split.
    { unfold delayed_resumes in *. by rewrite filter_app, Hnone, Hnone3. }
    by rewrite Hdev3, Hdev2, Hdev.
Qed.

(** Claim C3, for a device that has an output iodev, when no profile switch
    of another device is pending.  [switch_profile] is invoked for the
    device, and again after each of the [runs] of the main loop, whose
    limits all lie less than 500 ms after the first invocation.  Then no
    delayed callback has run when the last invocation returns, and exactly
    one profile-switch timer is pending, due 500 ms after that time: the
    timers armed by the earlier invocations have been cancelled.  However
    the main loop goes on, the delayed callback runs at most once, at the
    expiry time of that timer; once the clock has passed that time it has
    run, and no profile switch is pending. *)
Theorem switch_profile_burst_one_resume s device out runs later :
  policy_inv s →
  profile_switch_idle s ∨ (∃ p t, profile_switch_armed s device p t) →
  bt_iodevs (bt_devices s device) CRAS_STREAM_OUTPUT = Some out →
  (∀ limits limit, limits ∈ runs → limit ∈ limits →
     limit < tm_now (tm s) + PROFILE_SWITCH_DELAY_MS) →
  ∃ fired s1 p t fired' s2,
    switch_profile_burst device runs s = Ok (fired, s1) ∧
    delayed_resumes fired = [] ∧
    profile_switch_armed s1 device p t ∧
    cb t = profile_switch_delay_cb_fn ∧
    ts t = tm_now (tm s1) + PROFILE_SWITCH_DELAY_MS ∧
    main_loop later s1 = Ok (fired', s2) ∧
    ((delayed_resumes fired' = [] ∧ profile_switch_armed s2 device p t ∧
      tm_now (tm s2) ≤ ts t) ∨
     (delayed_resumes fired' = [(ts t, t)] ∧ profile_switch_idle s2)) ∧
    (ts t < tm_now (tm s2) → delayed_resumes fired' = [(ts t, t)]).
Proof.
  intros Hpol Hps Hout Hlim.
  destruct (switch_profile_burst_armed device out
              (tm_now (tm s) + PROFILE_SWITCH_DELAY_MS) runs s)
    as (fired & s1 & p & t & Hrun & Hpol1 & Harm1 & Hc & Hts & Hnone & Hdev);
    [done|done|done|lia|done|].
  destruct (main_loop_armed device p t later s1 Hpol1 Harm1)
    as (fired' & s2 & Hloop & Hpol2 & Hdev2 & Hnow2 & Hcases);
    [unfold PROFILE_SWITCH_DELAY_MS in *; lia|].
  exists fired, s1, p, t, fired', s2. do 6 (split; [done|]).
  split.
  - destruct Hcases as [?|(? & ? & _)]; [by left|by right].
  - intros Hpast. destruct Hcases as [(_ & _ & ?)|(? & _)]; [lia|done].
Qed.

(** ** The sample states satisfy the invariants *)

Lemma sample_suspending_inv :
  tm_wf (tm sample_suspending) ∧ suspend_inv sample_suspending [1%N].
Proof.
  destruct (schedule_suspend_spec sample_init [] 10%N 100 A2DP_LONG_TX_FAILURE)
    as (s1 & l1 & p & n & t & Hrun & Htm1 & Hinv1 & _);
    [apply policy_init_tm_wf|apply policy_init_suspend_inv|].
  assert (s1 = sample_suspending) as ->
    by (unfold sample_suspending; by rewrite Hrun).
  split; [done|].
  assert (l1 = [1%N]) as ->; [|done].
  destruct Hinv1 as [Hwf _ _ _].
  rewrite <- (list_nodes_wf _ _ (region_wf_dl_list _ _ _ Hwf)).
  by vm_compute.
Qed.

Lemma sample_watching_inv :
  tm_wf (tm sample_watching) ∧ suspend_inv sample_watching [] ∧
  conn_watch_inv sample_watching [1%N].
Proof.
  destruct (start_connection_watch_armed sample_init [] 10%N)
    as (s1 & l1 & p & n & t & Hrun & Htm1 & Hinv1 & _ & _ & _ & _ & _ & _ & _
        & _ & _ & _ & Hsps & _ & _ & _ & Hbrk & Hother);
    [apply policy_init_tm_wf|apply policy_init_conn_watch_inv|].
  assert (Hsp1 : suspend_inv s1 []).
  { apply (suspend_inv_frame sample_init); [done..| |].
    - intros x Hx. apply Hother. congruence.
    - apply policy_init_suspend_inv. }
  assert (s1 = sample_watching) as ->
    by (unfold sample_watching; by rewrite Hrun).
  do 2 (split; [done|]).
  assert (l1 = [1%N]) as ->; [|done].
  destruct Hinv1 as [Hwf _ _ _ _].
  rewrite <- (list_nodes_wf _ _ (region_wf_dl_list _ _ _ Hwf)).
  by vm_compute.
Qed.

(** ** The claims at sample inputs *)


Lemma suspend_cb_fires_witness :
  let s := sample_suspending in
  let t := {| timer_id := 1%N; ts := 100; cb := suspend_cb_fn;
              cb_data := 1%N |} in
  (tm_wf (tm s) ∧ suspend_inv s [1%N] ∧
   t ∈ timers (tm s) ∧ cb t = suspend_cb_fn) ∧
  ∃ n s',
    dl_mem (suspend_policies s) !! cb_data t = Some n ∧
    cras_tm_fire t s = Ok (tt, s') ∧
    trace s' = trace s ++
      [E_BTLOG BT_DEV_SUSPEND_CB (profiles (bt_devices s (sp_device n)))
         (suspend_reason_code (sp_suspend_reason n));
       E_syslog LOG_ERR (suspend_reason_message (sp_suspend_reason n)) [];
       E_cras_a2dp_suspend_connected_device (sp_device n);
       E_cras_hfp_ag_suspend_connected_device (sp_device n);
       E_cras_bt_device_disconnect (conn (bt_devices s (sp_device n)))
         (sp_device n)] ∧
    dl_mem (suspend_policies s') !! cb_data t = None ∧
    records_of sp_device (sp_device n) (suspend_policies s') = [] ∧
    timers_of suspend_cb_fn (cb_data t) (tm s') = [].
Proof.
  intros s t.
  assert (Hin : t ∈ timers (tm s)) by (vm_compute; left).
  split.
  - split; [apply sample_suspending_inv|].
    split; [apply sample_suspending_inv|]. split; [exact Hin|reflexivity].
  - apply (suspend_cb_fires s [1%N] t).
    + apply sample_suspending_inv.
    + apply sample_suspending_inv.
    + exact Hin.
    + reflexivity.
Defined.

Lemma conn_watch_no_profile_removed_witness :
  let s := sample_init in
  let device := 10%N in
  let devices := λ _ : N, sample_device 0 0 None None in
  (tm_wf (tm s) ∧ suspend_inv s [] ∧ conn_watch_inv s [] ∧
   profiles (devices device) = 0) ∧
  ∃ s1 p s2 calls,
    cras_bt_policy_start_connection_watch device s = Ok (0, s1) ∧
    records_of cw_device device (conn_watch_policies s1) = [p] ∧
    watch_tick p devices s1 = Ok (true, s2) ∧
    records_of cw_device device (conn_watch_policies s2) = [] ∧
    dl_mem (conn_watch_policies s2) !! p = None ∧
    timers_of conn_watch_cb_fn p (tm s2) = [] ∧
    suspend_policies s2 = suspend_policies s ∧
    (∀ x, cb x = suspend_cb_fn →
          x ∈ timers (tm s2) ↔ x ∈ timers (tm s)) ∧
    trace s2 = trace s ++ calls ∧
    calls = [E_BTLOG BT_DEV_CONN_WATCH_CB CONN_WATCH_MAX_RETRIES 0] ∧
    connect_requests calls = [].
Proof.
  intros s device devices. split.
  - split; [apply policy_init_tm_wf|].
    split; [apply policy_init_suspend_inv|].
    split; [apply policy_init_conn_watch_inv|reflexivity].
  - apply (conn_watch_no_profile_removed s [] [] device devices).
    + apply policy_init_tm_wf.
    + apply policy_init_suspend_inv.
    + apply policy_init_conn_watch_inv.
    + reflexivity.
Defined.

Lemma conn_watch_times_out_witness :
  let s := sample_init in
  let device := 10%N in
  let envs := replicate 30 sample_devices in
  (tm_wf (tm s) ∧ suspend_inv s [] ∧ conn_watch_inv s [] ∧
   length envs = 30%nat ∧
   ∀ e, e ∈ envs → watch_pending (e device) = true) ∧
  ∃ s0 p,
    cras_bt_policy_start_connection_watch device s = Ok (0, s0) ∧
    records_of cw_device device (conn_watch_policies s0) = [p] ∧
    (∀ k, (k < 30)%nat →
       ∃ sk n t,
         watch_ticks p (take k envs) s0 = Ok (tt, sk) ∧
         dl_mem (conn_watch_policies sk) !! p = Some n ∧
         cw_device n = device ∧
         cw_retries_left n = CONN_WATCH_MAX_RETRIES - Z.of_nat k ∧
         timers_of conn_watch_cb_fn p (tm sk) = [t] ∧
         timer_id t = cw_timer n ∧
         tm_now (tm sk) = tm_now (tm s) + CONN_WATCH_PERIOD_MS * Z.of_nat k ∧
         ts t = tm_now (tm sk) + CONN_WATCH_PERIOD_MS ∧
         suspend_policies sk = suspend_policies s) ∧
    ∃ sb s' n q m u,
      watch_ticks p envs s0 = Ok (tt, s') ∧
      schedule_suspend device 0 CONN_WATCH_TIME_OUT sb = Ok (tt, s') ∧
      suspend_policies sb = suspend_policies s ∧
      dl_mem (conn_watch_policies s') !! p = Some n ∧
      cw_retries_left n = 0 ∧
      timers_of conn_watch_cb_fn p (tm s') = [] ∧
      tm_now (tm s') = tm_now (tm s) + CONN_WATCH_PERIOD_MS * 30 ∧
      records_of sp_device device (suspend_policies s') = [q] ∧
      dl_mem (suspend_policies s') !! q = Some m ∧
      timers_of suspend_cb_fn q (tm s') = [u] ∧
      timer_id u = sp_timer m ∧
      (records_of sp_device device (suspend_policies s) = [] →
         sp_suspend_reason m = CONN_WATCH_TIME_OUT ∧
         ts u = tm_now (tm s')).
Proof.
  intros s device envs.
  assert (Hpend : ∀ e, e ∈ envs → watch_pending (e device) = true).
  { intros e [-> _]%elem_of_replicate. reflexivity. }
  split.
  - split; [apply policy_init_tm_wf|].
    split; [apply policy_init_suspend_inv|].
    split; [apply policy_init_conn_watch_inv|]. split; [reflexivity|].
    exact Hpend.
  - apply (conn_watch_times_out s [] [] device envs).
    + apply policy_init_tm_wf.
    + apply policy_init_suspend_inv.
    + apply policy_init_conn_watch_inv.
    + reflexivity.
    + exact Hpend.
Defined.

Lemma conn_watch_connects_missing_witness :
  let s := sample_watching in
  let p := 1%N in
  let n := {| cw_device := 10%N; cw_retries_left := 30; cw_timer := 1%N;
              cw_prev := 1%N; cw_next := NULL |} in
  let t := {| timer_id := 1%N; ts := 2000; cb := conn_watch_cb_fn;
              cb_data := 1%N |} in
  let d := sample_device
             (Z.lor CRAS_BT_DEVICE_PROFILE_A2DP_SINK
                CRAS_BT_DEVICE_PROFILE_HFP_HANDSFREE)
             CRAS_BT_DEVICE_PROFILE_A2DP_SINK None None in
  let devices := λ _ : N, d in
  (tm_wf (tm s) ∧ suspend_inv s [] ∧ conn_watch_inv s [1%N] ∧
   dl_mem (conn_watch_policies s) !! p = Some n ∧
   timers_of conn_watch_cb_fn p (tm s) = [t] ∧
   cras_bt_device_supports_profile d CRAS_BT_DEVICE_PROFILE_A2DP_SINK
     = true ∧
   cras_bt_device_supports_profile d CRAS_BT_DEVICE_PROFILE_HFP_HANDSFREE
     = true ∧
   cras_bt_device_is_profile_connected d CRAS_BT_DEVICE_PROFILE_A2DP_SINK
   ≠ cras_bt_device_is_profile_connected d
       CRAS_BT_DEVICE_PROFILE_HFP_HANDSFREE) ∧
  ∃ s' calls missing,
    watch_tick p devices s = Ok (true, s') ∧
    trace s' = trace s ++ calls ∧
    missing = HFP_HF_UUID ∧
    connect_requests calls = [(10%N, missing)] ∧
    E_cras_bt_device_connect_profile (conn d) 10%N missing ∈ calls.
Proof.
  intros s p n t d devices.
  assert (Hm : dl_mem (conn_watch_policies s) !! p = Some n)
    by (vm_compute; reflexivity).
  assert (Ht : timers_of conn_watch_cb_fn p (tm s) = [t])
    by (vm_compute; reflexivity).
  assert (Hx : cras_bt_device_is_profile_connected d
                 CRAS_BT_DEVICE_PROFILE_A2DP_SINK
               ≠ cras_bt_device_is_profile_connected d
                   CRAS_BT_DEVICE_PROFILE_HFP_HANDSFREE)
    by (vm_compute; discriminate).
  split.
  - split; [apply sample_watching_inv|].
    split; [apply sample_watching_inv|].
    split; [apply sample_watching_inv|].
    split; [exact Hm|]. split; [exact Ht|].
    split; [reflexivity|]. split; [reflexivity|exact Hx].
  - apply (conn_watch_connects_missing s [] [1%N] p n t devices).
    + apply sample_watching_inv.
    + apply sample_watching_inv.
    + apply sample_watching_inv.
    + exact Hm.
    + exact Ht.
    + reflexivity.
    + reflexivity.
    + exact Hx.
Defined.

(** Claim C6 as stated fails for a device that supports A2DP sink only.
    With A2DP sink connected, exactly one of the two profiles is connected,
    and the tick of the connection watch makes no connect request. *)
Lemma conn_watch_single_profile_no_request :
  let d := sample_device CRAS_BT_DEVICE_PROFILE_A2DP_SINK
             CRAS_BT_DEVICE_PROFILE_A2DP_SINK None None in
  profiles d ≠ 0 ∧
  cras_bt_device_is_profile_connected d CRAS_BT_DEVICE_PROFILE_A2DP_SINK
    = true ∧
  cras_bt_device_is_profile_connected d CRAS_BT_DEVICE_PROFILE_HFP_HANDSFREE
    = false ∧
  ∃ s',
    timers_of conn_watch_cb_fn 1%N (tm sample_watching) ≠ [] ∧
    watch_tick 1%N (λ _, d) sample_watching = Ok (true, s') ∧
    connect_requests (trace s') = [] ∧
    trace s' =
      [E_BTLOG BT_DEV_CONN_WATCH_CB 30 (profiles d);
       E_cras_bt_device_remove_conflict 10%N;
       E_cras_a2dp_start 10%N;
       E_cras_bt_device_set_nodes_plugged 10%N 1].
Proof.
  intros d. split; [vm_compute; discriminate|].
  do 2 (split; [vm_compute; reflexivity|]).
  eexists. split; [vm_compute; discriminate|].
  split; [vm_compute; reflexivity|]. split; vm_compute; reflexivity.
Qed.


Lemma sample_init_policy_inv : policy_inv sample_init.
Proof.
  split; [apply policy_init_tm_wf|].
  split; [exists []; apply policy_init_suspend_inv|].
  exists []. apply policy_init_conn_watch_inv.
Qed.

Lemma sample_init_idle : profile_switch_idle sample_init.
Proof. split; [apply region_wf_empty|reflexivity]. Qed.

Lemma switch_profile_burst_one_resume_witness :
  let s := sample_init in
  let device := 10%N in
  let out := sample_iodev 10 in
  let runs := [[100]; [300]] in
  let later := [2000; 2000] in
  (policy_inv s ∧
   (profile_switch_idle s ∨ (∃ p t, profile_switch_armed s device p t)) ∧
   bt_iodevs (bt_devices s device) CRAS_STREAM_OUTPUT = Some out ∧
   ∀ limits limit, limits ∈ runs → limit ∈ limits →
     limit < tm_now (tm s) + PROFILE_SWITCH_DELAY_MS) ∧
  ∃ fired s1 p t fired' s2,
    switch_profile_burst device runs s = Ok (fired, s1) ∧
    delayed_resumes fired = [] ∧
    profile_switch_armed s1 device p t ∧
    cb t = profile_switch_delay_cb_fn ∧
    ts t = tm_now (tm s1) + PROFILE_SWITCH_DELAY_MS ∧
    main_loop later s1 = Ok (fired', s2) ∧
    ((delayed_resumes fired' = [] ∧ profile_switch_armed s2 device p t ∧
      tm_now (tm s2) ≤ ts t) ∨
     (delayed_resumes fired' = [(ts t, t)] ∧ profile_switch_idle s2)) ∧
    (ts t < tm_now (tm s2) → delayed_resumes fired' = [(ts t, t)]).
Proof.
  intros s device out runs later.
  assert (Hlim : ∀ limits limit, limits ∈ runs → limit ∈ limits →
                   limit < tm_now (tm s) + PROFILE_SWITCH_DELAY_MS).
  { intros limits limit Hl Hin. apply elem_of_cons in Hl as [->|Hl].
    - apply list_elem_of_singleton in Hin as ->. reflexivity.
    - apply list_elem_of_singleton in Hl as ->.
      apply list_elem_of_singleton in Hin as ->. reflexivity. }
  split.
  - split; [apply sample_init_policy_inv|].
    split; [left; apply sample_init_idle|]. split; [reflexivity|exact Hlim].
  - apply (switch_profile_burst_one_resume s device out runs later).
    + apply sample_init_policy_inv.
    + left. apply sample_init_idle.
    + reflexivity.
    + exact Hlim.
Defined.

(** Claim C3 as stated fails for a device without an output iodev:
    [switch_profile] arms no timer for it, and however long the main loop
    runs afterwards, no delayed callback fires. *)
Lemma switch_profile_no_output_no_resume :
  let d := sample_device 0 0 None (Some (sample_iodev 4)) in
  let s := policy_init (λ _, d) (λ _, 0) in
  bt_iodevs (bt_devices s 10%N) CRAS_STREAM_OUTPUT = None ∧
  ∃ s1 s2,
    switch_profile_burst 10%N [] s = Ok ([], s1) ∧
    timers (tm s1) = [] ∧
    trace s1 = [E_cras_iodev_list_suspend_dev 4;
                E_update_active_node (sample_iodev 4) 0 1;
                E_cras_iodev_list_resume_dev 4] ∧
    main_loop [1000; 1000] s1 = Ok ([], s2) ∧
    tm_now (tm s2) = 1000 ∧ trace s2 = trace s1.
Proof.
  intros d s. split; [reflexivity|].
  do 2 eexists. split; [vm_compute; reflexivity|].
  do 2 (split; [vm_compute; reflexivity|]).
  split; [vm_compute; reflexivity|]. split; vm_compute; reflexivity.
Qed.

(** * Further properties *)

(** ** The volume helpers, beyond the nominal range *)

Lemma adjust_node_volume_cases node V :
  0 ≤ volume node ≤ 100 → 0 ≤ V < 2 ^ 32 →
  cras_iodev_adjust_node_volume node V = Z.max 0 (V - (100 - volume node)).
Proof.
  intros HN HV. unfold cras_iodev_adjust_node_volume. cbv zeta.
  rewrite (uint_small (100 - volume node)) by lia.
  destruct (Z.gtb_spec V (100 - volume node)).
  - rewrite uint_small by lia. lia.
  - lia.
Qed.

(** The node volume only attenuates: whatever the system volume (any
    [unsigned int]), and whether the iodev has an active node or not, the
    adjusted volume never exceeds the system volume, provided the node
    volume is at most 100. *)
Theorem adjust_active_node_volume_attenuates iodev V :
  (∀ node, active_node iodev = Some node → 0 ≤ volume node ≤ 100) →
  0 ≤ V < 2 ^ 32 →
  0 ≤ cras_iodev_adjust_active_node_volume iodev V ≤ V.
Proof.
  intros HN HV. unfold cras_iodev_adjust_active_node_volume.
  destruct (active_node iodev) as [node|]; [|lia].
  rewrite adjust_node_volume_cases by auto. specialize (HN node eq_refl). lia.
Qed.

Lemma adjust_active_node_volume_attenuates_witness :
  let node := {| node_idx := 0; plugged := 1; volume := 50;
                 capture_gain := 0; node_software_volume_needed := 0;
                 max_software_gain := 0; stable_id := 0 |} in
  let iodev := {| info := {| idx := 1 |}; active_node := Some node;
                  is_enabled := 1; software_volume_needed := 0 |} in
  ((∀ n, active_node iodev = Some n → 0 ≤ volume n ≤ 100) ∧
   0 ≤ 4000000000 < 2 ^ 32) ∧
  0 ≤ cras_iodev_adjust_active_node_volume iodev 4000000000 ≤ 4000000000.
Proof.
  intros node iodev.
  assert (HN : ∀ n, active_node iodev = Some n → 0 ≤ volume n ≤ 100).
  { intros n [= <-]. simpl. lia. }
  split; [split; [exact HN|lia]|].
  apply (adjust_active_node_volume_attenuates iodev 4000000000); [exact HN|lia].
Defined.

(** The adjusted volume is monotone: raising the system volume or the node
    volume never lowers it. *)
Theorem adjust_node_volume_monotone node node' V V' :
  0 ≤ volume node ≤ volume node' → volume node' ≤ 100 →
  0 ≤ V ≤ V' → V' < 2 ^ 32 →
  cras_iodev_adjust_node_volume node V ≤
  cras_iodev_adjust_node_volume node' V'.
Proof.
  intros HN HN' HV HV'. rewrite !adjust_node_volume_cases by lia. lia.
Qed.

Lemma adjust_node_volume_monotone_witness :
  let node := {| node_idx := 0; plugged := 1; volume := 40;
                 capture_gain := 0; node_software_volume_needed := 0;
                 max_software_gain := 0; stable_id := 0 |} in
  let node' := {| node_idx := 0; plugged := 1; volume := 90;
                  capture_gain := 0; node_software_volume_needed := 0;
                  max_software_gain := 0; stable_id := 0 |} in
  (0 ≤ volume node ≤ volume node' ∧ volume node' ≤ 100 ∧
   0 ≤ 70 ≤ 80 ∧ 80 < 2 ^ 32) ∧
  cras_iodev_adjust_node_volume node 70 ≤
  cras_iodev_adjust_node_volume node' 80.
Proof.
  intros node node'. split; [simpl; lia|].
  apply (adjust_node_volume_monotone node node' 70 80); simpl; lia.
Defined.

(** A node volume above 100 does not amplify.  [100 - node->volume] is
    computed in [unsigned int] and wraps around to an offset above every
    system volume of the nominal range, so the adjusted volume is 0. *)
Theorem adjust_node_volume_above_100_mutes node V :
  100 < volume node < 2 ^ 32 → 0 ≤ V ≤ 100 →
  cras_iodev_adjust_node_volume node V = 0.
Proof.
  intros HN HV. unfold cras_iodev_adjust_node_volume. cbv zeta.
  assert (uint (100 - volume node) = 2 ^ 32 + 100 - volume node) as ->.
  { unfold uint, UINT_WIDTH.
    replace (100 - volume node) with (2 ^ 32 + 100 - volume node + -1 * 2 ^ 32)
      by lia.
    rewrite Z.mod_add by lia. apply Z.mod_small. lia. }
  destruct (Z.gtb_spec V (2 ^ 32 + 100 - volume node)); [lia|done].
Qed.

Lemma adjust_node_volume_above_100_mutes_witness :
  let node := {| node_idx := 0; plugged := 1; volume := 101;
                 capture_gain := 0; node_software_volume_needed := 0;
                 max_software_gain := 0; stable_id := 0 |} in
  (100 < volume node < 2 ^ 32 ∧ 0 ≤ 100 ≤ 100) ∧
  cras_iodev_adjust_node_volume node 100 = 0.
Proof.
  intros node. split; [simpl; lia|].
  apply (adjust_node_volume_above_100_mutes node 100); simpl; lia.
Defined.

(** The maximum software gain is that of the active node when the iodev or
    the node asks for software volume, and 0 in every other case: in
    particular 0 without an active node, even if the iodev asks for
    software volume. *)
Theorem maximum_software_gain_cases iodev :
  cras_iodev_maximum_software_gain iodev =
  match active_node iodev with
  | Some node =>
      if decide (software_volume_needed iodev = 0 ∧
                 node_software_volume_needed node = 0)
      then 0 else max_software_gain node
  | None => 0
  end.
Proof.
  unfold cras_iodev_maximum_software_gain, cras_iodev_software_volume_needed.
  destruct (Z.eqb_spec (software_volume_needed iodev) 0) as [Hi|Hi]; simpl.
  - destruct (active_node iodev) as [node|]; [|done].
    destruct (Z.eqb_spec (node_software_volume_needed node) 0) as [Hn|Hn].
    + by rewrite decide_True.
    + rewrite decide_False; [done|tauto].
  - destruct (active_node iodev) as [node|]; [|done].
    rewrite decide_False; [done|tauto].
Qed.

(** ** Cancelling and re-scheduling a suspend *)

Section payload_device.
Context {T P : Type} (pay : T → P) (dev : T → ptr).
Hypothesis pay_dev : ∀ n n', pay n = pay n' → dev n = dev n'.

Lemma payload_delete_device (m m' : gmap N T) p q :
  pay <$> m' = delete p (pay <$> m) → q ≠ p →
  dev <$> m' !! q = dev <$> m !! q.
Proof.
  intros Heq Hne.
  assert ((pay <$> m') !! q = (pay <$> m) !! q) as Hl
    by (by rewrite Heq, lookup_delete_ne).
  rewrite !lookup_fmap in Hl.
  destruct (m' !! q), (m !! q); simplify_eq/=; [|done].
  f_equal. by apply pay_dev.
Qed.

Lemma payload_insert_device (m m' : gmap N T) p x q :
  pay <$> m' = <[p := x]> (pay <$> m) → q ≠ p →
  dev <$> m' !! q = dev <$> m !! q.
Proof.
  intros Heq Hne.
  assert ((pay <$> m') !! q = (pay <$> m) !! q) as Hl
    by (by rewrite Heq, lookup_insert_ne).
  rewrite !lookup_fmap in Hl.
  destruct (m' !! q), (m !! q); simplify_eq/=; [|done].
  f_equal. by apply pay_dev.
Qed.

Lemma payload_delete_no_device (m m' : gmap N T) p n device :
  unique_device dev m → m !! p = Some n → dev n = device →
  pay <$> m' = delete p (pay <$> m) →
  ∀ q x, m' !! q = Some x → dev x ≠ device.
Proof.
  intros Hu Hm Hd Heq q x Hq Hdx.
  destruct (payload_delete_inv pay _ _ _ _ _ Heq Hq) as (Hne & y & Hy & Hxy).
  apply pay_dev in Hxy. apply Hne. eapply Hu; [done..|]. congruence.
Qed.

End payload_device.

Lemma sp_payload_device n n' : sp_payload n = sp_payload n' → sp_device n = sp_device n'.
Proof. by intros [? _]%sp_payload_inv. Qed.

Lemma cw_payload_device n n' : cw_payload n = cw_payload n' → cw_device n = cw_device n'.
Proof. by intros [? _]%cw_payload_inv. Qed.

Lemma psp_payload_device n n' :
  psp_payload n = psp_payload n' → psp_device n = psp_device n'.
Proof. by intros [? _]%psp_payload_inv. Qed.

(** [cancel_suspend] returns on every state that satisfies the invariant and
    keeps the invariant.  Afterwards the device has no suspend record, and no
    pending timer will run [suspend_cb] for it: a cancelled suspend never
    fires.  Every other pending timer stays pending and acts on the same
    device as before; the other two lists, the device structs and the clock
    are untouched, and no collaborator is called.  If no suspend was pending
    for the device, the state is unchanged. *)
Theorem cancel_suspend_clears s ls device :
  tm_wf (tm s) → suspend_inv s ls →
  ∃ s' ls',
    cancel_suspend device s = Ok (tt, s') ∧
    tm_wf (tm s') ∧ suspend_inv s' ls' ∧
    records_of sp_device device (suspend_policies s') = [] ∧
    (∀ x, x ∈ timers (tm s') → cb x = suspend_cb_fn →
          timer_device s' x ≠ Some device) ∧
    (∀ x, x ∈ timers (tm s') → x ∈ timers (tm s)) ∧
    (∀ x, x ∈ timers (tm s) → timer_device s x ≠ Some device →
          x ∈ timers (tm s') ∧ timer_device s' x = timer_device s x) ∧
    profile_switch_policies s' = profile_switch_policies s ∧
    conn_watch_policies s' = conn_watch_policies s ∧
    bt_devices s' = bt_devices s ∧ tm_now (tm s') = tm_now (tm s) ∧
    tm_next_id (tm s') = tm_next_id (tm s) ∧ brk s' = brk s ∧
    trace s' = trace s ∧
    (records_of sp_device device (suspend_policies s) = [] → s' = s).
Proof.
  intros Htm Hinv. pose proof Hinv as [Hwf Hu Ht Ho].
  destruct (suspend_lookup_device _ _ device Hinv) as [(p & n & Hm & Hd)|Hno].
  - destruct (cancel_suspend_some _ _ _ _ _ Htm Hinv Hm Hd)
      as (d' & l' & Hrun & Hpay & Hinv').
    match type of Hrun with _ = Ok (_, ?st) => set (s' := st) in * end.
    assert (Hnone : ∀ q x, dl_mem d' !! q = Some x → sp_device x ≠ device).
    { exact (payload_delete_no_device sp_payload sp_device sp_payload_device
               _ _ _ _ _ Hu Hm Hd Hpay). }
    destruct (Ht _ _ Hm) as (t0 & Hin0 & Hid0 & Hc0 & Hcd0).
    exists s', l'. split; [done|]. split; [by apply tm_wf_cancel|].
    split; [done|]. split.
    { eapply records_of_nil; [|exact Hnone].
      destruct Hinv' as [Hwf' _ _ _]. by eapply region_wf_dl_list. }
    split.
    { intros x Hx Hc. unfold timer_device. rewrite Hc. cbn [suspend_policies s'].
      destruct (dl_mem d' !! cb_data x) as [y|] eqn:Hy; [|done].
      simpl. intros [= Hdev]. by apply (Hnone _ _ Hy). }
    split; [by intros x [? _]%elem_of_cancel_timer|]. split.
    { intros x Hx Hdev.
      assert (Hne : x ≠ t0).
      { intros ->. apply Hdev. unfold timer_device.
        by rewrite Hc0, Hcd0, Hm; simpl; rewrite Hd. }
      split.
      - apply elem_of_cancel_timer. split; [done|]. rewrite <- Hid0.
        intros Hid. apply Hne. by eapply timer_id_inj.
      - unfold timer_device. destruct (cb x) eqn:Hc; [done| |done].
        cbn [suspend_policies s'].
        apply (payload_delete_device sp_payload sp_device sp_payload_device
                 _ _ _ _ Hpay).
        intros Hcd. destruct (Ho _ Hx Hc) as (n' & Hm' & Hid').
        rewrite Hcd, Hm in Hm'. injection Hm' as <-.
        apply Hne. eapply timer_id_inj; [done..|]. congruence. }
    do 7 (split; [done|]). intros Hnil.
    destruct (suspend_no_record _ _ _ Hinv Hnil _ _ Hm Hd).
  - exists s, ls. split; [by eapply cancel_suspend_none|].
    do 2 (split; [done|]). split.
    { eapply records_of_nil; [by eapply region_wf_dl_list|done]. }
    split.
    { intros x Hx Hc. unfold timer_device. rewrite Hc.
      destruct (dl_mem (suspend_policies s) !! cb_data x) as [y|] eqn:Hy;
        [|done].
      simpl. intros [= Hdev]. by apply (Hno _ _ Hy). }
    done.
Qed.

Lemma cancel_suspend_clears_witness :
  (tm_wf (tm sample_suspending) ∧ suspend_inv sample_suspending [1%N]) ∧
  ∃ s' ls',
    cancel_suspend 10%N sample_suspending = Ok (tt, s') ∧
    tm_wf (tm s') ∧ suspend_inv s' ls' ∧
    records_of sp_device 10%N (suspend_policies s') = [] ∧
    (∀ x, x ∈ timers (tm s') → cb x = suspend_cb_fn →
          timer_device s' x ≠ Some 10%N) ∧
    (∀ x, x ∈ timers (tm s') → x ∈ timers (tm sample_suspending)) ∧
    (∀ x, x ∈ timers (tm sample_suspending) →
          timer_device sample_suspending x ≠ Some 10%N →
          x ∈ timers (tm s') ∧
          timer_device s' x = timer_device sample_suspending x) ∧
    profile_switch_policies s' = profile_switch_policies sample_suspending ∧
    conn_watch_policies s' = conn_watch_policies sample_suspending ∧
    bt_devices s' = bt_devices sample_suspending ∧
    tm_now (tm s') = tm_now (tm sample_suspending) ∧
    tm_next_id (tm s') = tm_next_id (tm sample_suspending) ∧
    brk s' = brk sample_suspending ∧
    trace s' = trace sample_suspending ∧
    (records_of sp_device 10%N (suspend_policies sample_suspending) = [] →
     s' = sample_suspending).
Proof.
  split; [exact sample_suspending_inv|].
  apply (cancel_suspend_clears sample_suspending [1%N] 10%N);
    apply sample_suspending_inv.
Defined.

Lemma cancel_newest_timer (m : cras_tm) ms c p :
  tm_wf m →
  timers (cras_tm_cancel_timer (cras_tm_create_timer m ms c p).1
            (tm_next_id m)) = timers m.
Proof.
  intros [_ Hb _ _]. simpl. rewrite filter_app.
  rewrite (filter_cons_False _ _ []) by (simpl; tauto).
  rewrite filter_nil, app_nil_r. apply filter_all.
  intros x Hx. apply Hb in Hx. lia.
Qed.

(** Scheduling a suspend for a device that has none pending and cancelling
    it again is a round trip: the pending timers are the ones that were
    pending before, in the same order, the suspend records are the same
    with the same device, reason and timer, and nothing else has changed
    but the allocation counters. *)
Theorem schedule_cancel_round_trip s ls device msec r :
  tm_wf (tm s) → suspend_inv s ls →
  records_of sp_device device (suspend_policies s) = [] →
  ∃ s1 s2,
    schedule_suspend device msec r s = Ok (tt, s1) ∧
    cancel_suspend device s1 = Ok (tt, s2) ∧
    timers (tm s2) = timers (tm s) ∧
    tm_now (tm s2) = tm_now (tm s) ∧
    sp_payload <$> dl_mem (suspend_policies s2) =
      sp_payload <$> dl_mem (suspend_policies s) ∧
    profile_switch_policies s2 = profile_switch_policies s ∧
    conn_watch_policies s2 = conn_watch_policies s ∧
    bt_devices s2 = bt_devices s ∧ trace s2 = trace s.
Proof.
  intros Htm Hinv Hnil.
  pose proof (suspend_no_record _ _ _ Hinv Hnil) as Hno.
  destruct (schedule_suspend_new _ _ _ msec r Htm Hinv Hno)
    as (d1 & Hrun1 & Hpay1 & Hinv1).
  match type of Hrun1 with _ = Ok (_, ?st) => set (s1 := st) in * end.
  assert (Htm1 : tm_wf (tm s1)) by (by apply tm_wf_create).
  destruct (payload_insert_new _ _ _ _ _ Hpay1) as (n & Hn & Hpn).
  apply (sp_payload_inv n {| sp_device := device; sp_suspend_reason := r;
                             sp_timer := tm_next_id (tm s);
                             sp_prev := NULL; sp_next := NULL |})
    in Hpn as (Hd & Hr & Ht).
  destruct (cancel_suspend_some s1 _ device (brk s) n Htm1 Hinv1 Hn Hd)
    as (d2 & l2 & Hrun2 & Hpay2 & _).
  eexists s1, _. split; [done|]. split; [exact Hrun2|].
  cbn [tm suspend_policies profile_switch_policies conn_watch_policies
       bt_devices trace s1].
  split; [rewrite Ht; by apply cancel_newest_timer|]. split; [done|].
  split; [|done].
  rewrite Hpay2. change (suspend_policies s1) with d1.
  rewrite Hpay1, delete_insert_eq. apply delete_id.
  rewrite lookup_fmap.
  destruct Hinv as [Hwf _ _ _]. by rewrite (region_wf_fresh _ _ _ Hwf).
Qed.

Lemma schedule_cancel_round_trip_witness :
  (tm_wf (tm sample_suspending) ∧ suspend_inv sample_suspending [1%N] ∧
   records_of sp_device 11%N (suspend_policies sample_suspending) = []) ∧
  ∃ s1 s2,
    schedule_suspend 11%N 250 HFP_SCO_SOCKET_ERROR sample_suspending
      = Ok (tt, s1) ∧
    cancel_suspend 11%N s1 = Ok (tt, s2) ∧
    timers (tm s2) = timers (tm sample_suspending) ∧
    tm_now (tm s2) = tm_now (tm sample_suspending) ∧
    sp_payload <$> dl_mem (suspend_policies s2) =
      sp_payload <$> dl_mem (suspend_policies sample_suspending) ∧
    profile_switch_policies s2 = profile_switch_policies sample_suspending ∧
    conn_watch_policies s2 = conn_watch_policies sample_suspending ∧
    bt_devices s2 = bt_devices sample_suspending ∧
    trace s2 = trace sample_suspending.
Proof.
  assert (Hnil : records_of sp_device 11%N
                   (suspend_policies sample_suspending) = [])
    by (vm_compute; reflexivity).
  split.
  - split; [apply sample_suspending_inv|].
    split; [apply sample_suspending_inv|exact Hnil].
  - apply (schedule_cancel_round_trip sample_suspending [1%N] 11%N 250
             HFP_SCO_SOCKET_ERROR).
    + apply sample_suspending_inv.
    + apply sample_suspending_inv.
    + exact Hnil.
Defined.

(** [schedule_suspend] returns on every state that satisfies the invariant
    and keeps the invariant.  It cancels nothing: every timer that was
    pending stays pending and acts on the same device; every suspend record
    keeps its device, reason and timer.  The other two lists, the device
    structs and the clock are untouched, and no collaborator is called. *)
Theorem schedule_suspend_keeps_pending s ls device msec r :
  tm_wf (tm s) → suspend_inv s ls →
  ∃ s1 ls1,
    schedule_suspend device msec r s = Ok (tt, s1) ∧
    tm_wf (tm s1) ∧ suspend_inv s1 ls1 ∧
    (∀ x, x ∈ timers (tm s) →
          x ∈ timers (tm s1) ∧ timer_device s1 x = timer_device s x) ∧
    (∀ p n, dl_mem (suspend_policies s) !! p = Some n →
       ∃ n', dl_mem (suspend_policies s1) !! p = Some n' ∧
             sp_payload n' = sp_payload n) ∧
    profile_switch_policies s1 = profile_switch_policies s ∧
    conn_watch_policies s1 = conn_watch_policies s ∧
    bt_devices s1 = bt_devices s ∧ tm_now (tm s1) = tm_now (tm s) ∧
    trace s1 = trace s.
Proof.
  intros Htm Hinv. pose proof Hinv as [Hwf Hu Ht Ho].
  destruct (suspend_lookup_device _ _ device Hinv) as [(p & n & Hm & Hd)|Hno].
  - exists s, ls. split; [by eapply schedule_suspend_dup|].
    do 2 (split; [done|]). split; [done|]. split; [by eauto|done].
  - destruct (schedule_suspend_new _ _ _ msec r Htm Hinv Hno)
      as (d1 & Hrun1 & Hpay1 & Hinv1).
    match type of Hrun1 with _ = Ok (_, ?st) => set (s1 := st) in * end.
    pose proof (region_wf_fresh _ _ _ Hwf) as Hfresh.
    exists s1, (ls ++ [brk s]). split; [done|].
    split; [by apply tm_wf_create|]. split; [done|]. split.
    { intros x Hx. split; [apply elem_of_create_timer; by left|].
      unfold timer_device. destruct (cb x) eqn:Hc; [done| |done].
      cbn [suspend_policies s1].
      apply (payload_insert_device sp_payload sp_device sp_payload_device
               _ _ _ _ _ Hpay1).
      intros Hcd. destruct (Ho _ Hx Hc) as (n' & Hm' & _).
      by rewrite Hcd, Hfresh in Hm'. }
    split; [|done]. intros p n Hm.
    apply (payload_insert_old _ _ _ _ _ _ _ Hpay1 Hm).
    intros ->. by rewrite Hfresh in Hm.
Qed.

Lemma schedule_suspend_keeps_pending_witness :
  (tm_wf (tm sample_suspending) ∧ suspend_inv sample_suspending [1%N]) ∧
  ∃ s1 ls1,
    schedule_suspend 11%N 0 CONN_WATCH_TIME_OUT sample_suspending
      = Ok (tt, s1) ∧
    tm_wf (tm s1) ∧ suspend_inv s1 ls1 ∧
    (∀ x, x ∈ timers (tm sample_suspending) →
          x ∈ timers (tm s1) ∧
          timer_device s1 x = timer_device sample_suspending x) ∧
    (∀ p n, dl_mem (suspend_policies sample_suspending) !! p = Some n →
       ∃ n', dl_mem (suspend_policies s1) !! p = Some n' ∧
             sp_payload n' = sp_payload n) ∧
    profile_switch_policies s1 = profile_switch_policies sample_suspending ∧
    conn_watch_policies s1 = conn_watch_policies sample_suspending ∧
    bt_devices s1 = bt_devices sample_suspending ∧
    tm_now (tm s1) = tm_now (tm sample_suspending) ∧
    trace s1 = trace sample_suspending.
Proof.
  split; [exact sample_suspending_inv|].
  apply (schedule_suspend_keeps_pending sample_suspending [1%N] 11%N 0
           CONN_WATCH_TIME_OUT); apply sample_suspending_inv.
Defined.

(** The first reason wins only while the suspend is pending.  Once the
    suspend of a device has fired, a new [schedule_suspend] for the device
    is taken: one record, with the new reason, and one timer, due after the
    new delay. *)
Theorem suspend_fired_then_schedule s ls t device msec r :
  tm_wf (tm s) → suspend_inv s ls →
  t ∈ timers (tm s) → cb t = suspend_cb_fn →
  timer_device s t = Some device →
  ∃ s1 s2 p n u,
    cras_tm_fire t s = Ok (tt, s1) ∧
    schedule_suspend device msec r s1 = Ok (tt, s2) ∧
    records_of sp_device device (suspend_policies s2) = [p] ∧
    dl_mem (suspend_policies s2) !! p = Some n ∧
    sp_suspend_reason n = r ∧
    timers_of suspend_cb_fn p (tm s2) = [u] ∧ timer_id u = sp_timer n ∧
    ts u = tm_now (tm s1) + msec.
Proof.
  intros Htm Hinv Hin Hc Hdev. pose proof Hinv as [Hwf Hu _ _].
  destruct (suspend_fire _ _ _ Htm Hinv Hin Hc)
    as (n0 & d' & l' & Hm & Hid & Hrun & Hpay & Hinv').
  match type of Hrun with _ = Ok (_, ?st) => set (s1 := st) in * end.
  assert (Hd0 : sp_device n0 = device).
  { unfold timer_device in Hdev. rewrite Hc, Hm in Hdev. by injection Hdev. }
  assert (Htm1 : tm_wf (tm s1)) by (by apply tm_wf_expire).
  destruct (schedule_suspend_spec s1 l' device msec r Htm1 Hinv')
    as (s2 & l2 & p & n & u & Hrun2 & _ & _ & Hn & _ & Hrec & Hu2 & Hid2
        & Hnew).
  destruct Hnew as [Hr Hts].
  { eapply records_of_nil.
    - destruct Hinv' as [Hwf' _ _ _]. by eapply region_wf_dl_list.
    - exact (payload_delete_no_device sp_payload sp_device sp_payload_device
               _ _ _ _ _ Hu Hm Hd0 Hpay). }
  by exists s1, s2, p, n, u.
Qed.

Lemma suspend_fired_then_schedule_witness :
  let s := sample_suspending in
  let t := {| timer_id := 1%N; ts := 100; cb := suspend_cb_fn;
              cb_data := 1%N |} in
  (tm_wf (tm s) ∧ suspend_inv s [1%N] ∧ t ∈ timers (tm s) ∧
   cb t = suspend_cb_fn ∧ timer_device s t = Some 10%N) ∧
  ∃ s1 s2 p n u,
    cras_tm_fire t s = Ok (tt, s1) ∧
    schedule_suspend 10%N 700 UNEXPECTED_PROFILE_DROP s1 = Ok (tt, s2) ∧
    records_of sp_device 10%N (suspend_policies s2) = [p] ∧
    dl_mem (suspend_policies s2) !! p = Some n ∧
    sp_suspend_reason n = UNEXPECTED_PROFILE_DROP ∧
    timers_of suspend_cb_fn p (tm s2) = [u] ∧ timer_id u = sp_timer n ∧
    ts u = tm_now (tm s1) + 700.
Proof.
  intros s t.
  assert (Hin : t ∈ timers (tm s)) by (vm_compute; left).
  assert (Hdev : timer_device s t = Some 10%N) by (vm_compute; reflexivity).
  split.
  - split; [apply sample_suspending_inv|].
    split; [apply sample_suspending_inv|]. done.
  - apply (suspend_fired_then_schedule s [1%N] t 10%N 700
             UNEXPECTED_PROFILE_DROP).
    + apply sample_suspending_inv.
    + apply sample_suspending_inv.
    + exact Hin.
    + reflexivity.
    + exact Hdev.
Defined.

(** ** Starting and stopping a connection watch *)

(** [cras_bt_policy_start_connection_watch] returns 0 on every state that
    satisfies the invariant and keeps the invariant.  The device then has
    one watch record, with a full retry counter, and one watch timer, due
    one period from now, whether a watch was running for it or not.  Every
    pending timer that acts on another device stays pending and acts on the
    same device; the watch records of other devices keep their retries and
    timers.  The other two lists, the device structs and the clock are
    untouched, and no collaborator is called. *)
Theorem start_connection_watch_keeps_others s ls l device :
  tm_wf (tm s) → suspend_inv s ls → conn_watch_inv s l →
  ∃ s1 l1 p n t,
    cras_bt_policy_start_connection_watch device s = Ok (0, s1) ∧
    tm_wf (tm s1) ∧ suspend_inv s1 ls ∧ conn_watch_inv s1 l1 ∧
    records_of cw_device device (conn_watch_policies s1) = [p] ∧
    dl_mem (conn_watch_policies s1) !! p = Some n ∧
    cw_retries_left n = CONN_WATCH_MAX_RETRIES ∧
    timers_of conn_watch_cb_fn p (tm s1) = [t] ∧
    timer_id t = cw_timer n ∧
    ts t = tm_now (tm s) + CONN_WATCH_PERIOD_MS ∧
    (∀ x, x ∈ timers (tm s) → timer_device s x ≠ Some device →
          x ∈ timers (tm s1) ∧ timer_device s1 x = timer_device s x) ∧
    (∀ q m, dl_mem (conn_watch_policies s) !! q = Some m →
       cw_device m ≠ device →
       ∃ m', dl_mem (conn_watch_policies s1) !! q = Some m' ∧
             cw_payload m' = cw_payload m) ∧
    profile_switch_policies s1 = profile_switch_policies s ∧
    suspend_policies s1 = suspend_policies s ∧
    bt_devices s1 = bt_devices s ∧ tm_now (tm s1) = tm_now (tm s) ∧
    trace s1 = trace s.
Proof.
  intros Htm Hsp Hinv.
  destruct (start_connection_watch_spec s l device Htm Hinv)
    as (s1 & l1 & p & n & Hrun & Htm1 & Hinv1 & Hm & Hd & Hr & Ht & Hnow
        & Hps & Hsps & Hdev & _ & Htr & Hbrk & Hother & Hpay & Hkeep & Hown).
  assert (Hsp1 : suspend_inv s1 ls).
  { apply (suspend_inv_frame s); [done..| |done].
    intros x Hx. apply Hother. congruence. }
  eexists s1, l1, p, n, _. split; [done|]. do 3 (split; [done|]). split.
  { destruct Hinv1 as [Hwf1 Hu1 _ _ _].
    eapply records_of_one; [by eapply region_wf_dl_list|done| |done..].
    by eapply region_wf_elem_of. }
  do 2 (split; [done|]). split; [exact Ht|]. do 2 (split; [done|]). split.
  { intros x Hx Hdev'.
    assert (Hnp : cb x = conn_watch_cb_fn → cb_data x ≠ p).
    { intros Hc Hcd. apply Hdev'. unfold timer_device. rewrite Hc, Hcd.
      destruct Hinv as [_ _ Ho _ _]. destruct (Ho _ Hx Hc) as (m & Hm' & _).
      rewrite Hcd in Hm'. rewrite Hm'. simpl. by rewrite (Hown _ Hm'). }
    split; [by apply Hkeep|].
    unfold timer_device. destruct (cb x) eqn:Hc; [by rewrite Hps|
                                                   by rewrite Hsps|].
    apply (payload_insert_device cw_payload cw_device cw_payload_device
             _ _ _ _ _ Hpay). by apply Hnp. }
  split; [|done]. intros q m Hq Hne.
  apply (payload_insert_old _ _ _ _ _ _ _ Hpay Hq).
  intros ->. apply Hne. by apply Hown.
Qed.

Lemma start_connection_watch_keeps_others_witness :
  let s := sample_watching in
  (tm_wf (tm s) ∧ suspend_inv s [] ∧ conn_watch_inv s [1%N]) ∧
  ∃ s1 l1 p n t,
    cras_bt_policy_start_connection_watch 11%N s = Ok (0, s1) ∧
    tm_wf (tm s1) ∧ suspend_inv s1 [] ∧ conn_watch_inv s1 l1 ∧
    records_of cw_device 11%N (conn_watch_policies s1) = [p] ∧
    dl_mem (conn_watch_policies s1) !! p = Some n ∧
    cw_retries_left n = CONN_WATCH_MAX_RETRIES ∧
    timers_of conn_watch_cb_fn p (tm s1) = [t] ∧
    timer_id t = cw_timer n ∧
    ts t = tm_now (tm s) + CONN_WATCH_PERIOD_MS ∧
    (∀ x, x ∈ timers (tm s) → timer_device s x ≠ Some 11%N →
          x ∈ timers (tm s1) ∧ timer_device s1 x = timer_device s x) ∧
    (∀ q m, dl_mem (conn_watch_policies s) !! q = Some m →
       cw_device m ≠ 11%N →
       ∃ m', dl_mem (conn_watch_policies s1) !! q = Some m' ∧
             cw_payload m' = cw_payload m) ∧
    profile_switch_policies s1 = profile_switch_policies s ∧
    suspend_policies s1 = suspend_policies s ∧
    bt_devices s1 = bt_devices s ∧ tm_now (tm s1) = tm_now (tm s) ∧
    trace s1 = trace s.
Proof.
  intros s. split; [exact sample_watching_inv|].
  apply (start_connection_watch_keeps_others s [] [1%N] 11%N);
    apply sample_watching_inv.
Defined.

(** Running [cras_bt_policy_stop_connection_watch] on a watched device. *)
Lemma stop_connection_watch_some s ls l device p n :
  tm_wf (tm s) → suspend_inv s ls → conn_watch_inv s l →
  dl_mem (conn_watch_policies s) !! p = Some n → cw_device n = device →
  ∃ d' l',
    cras_bt_policy_stop_connection_watch device s =
    Ok (0, set_conn_watch_policies d'
             (set_tm (cras_tm_cancel_timer (tm s) (cw_timer n)) s)) ∧
    cw_payload <$> dl_mem d' =
      delete p (cw_payload <$> dl_mem (conn_watch_policies s)) ∧
    suspend_inv (set_conn_watch_policies d'
                   (set_tm (cras_tm_cancel_timer (tm s) (cw_timer n)) s)) ls ∧
    conn_watch_inv (set_conn_watch_policies d'
                   (set_tm (cras_tm_cancel_timer (tm s) (cw_timer n)) s)) l'.
Proof.
  intros Htm Hsp Hinv Hm Hd. pose proof Hinv as [Hwf Hu Ho Hf Hb].
  destruct (region_search_some CONN_WATCH cw_device s l (brk s) device p n)
    as (Hrun & Hnn & Hin); [done..|].
  destruct (region_remove _ _ _ _ Hwf Hin)
    as (d1 & l' & n1 & Hdel & Hm1 & Hwf' & Hl' & Hrel).
  assert (Hpay : cw_payload <$> delete p (dl_mem d1) =
            delete p (cw_payload <$> dl_mem (conn_watch_policies s))).
  { by rewrite fmap_delete, (cw_mem_relinked _ _ Hrel). }
  eexists {| dl_head := dl_head d1; dl_mem := delete p (dl_mem d1) |}, l'.
  split; [|split; [done|split]].
  - unfold cras_bt_policy_stop_connection_watch. mstep by exact Hrun.
    rewrite decide_False by done.
    mstep by ((mstep by (by apply deref_run)); mrun;
              (mstep by (by apply unlink_run));
              rewrite (free_run CONN_WATCH _ _ n1) by done; reflexivity).
    reflexivity.
  - apply (suspend_inv_frame s); [done|simpl; lia| |done].
    intros x Hx. cbn [tm set_tm set_conn_watch_policies].
    rewrite elem_of_cancel_timer. split; [tauto|]. intros Hxin.
    split; [done|]. intros Heq. destruct (Hf _ _ _ Hm Hxin Heq). congruence.
  - eapply (conn_watch_inv_remove s _ l l' p); [done|done|done|simpl; lia|].
    intros x [Hx Hid]%elem_of_cancel_timer. left. split; [done|].
    intros Hc Hcd. destruct (Ho _ Hx Hc) as (n' & Hm' & Hid').
    rewrite Hcd, Hm in Hm'. injection Hm' as <-. done.
Qed.

(** [cras_bt_policy_stop_connection_watch] returns 0 on every state that
    satisfies the invariant and keeps the invariant.  Afterwards the device
    has no watch record and no pending timer will run [conn_watch_cb] for
    it.  Every other pending timer stays pending and acts on the same
    device; the other two lists, the device structs and the clock are
    untouched, and no collaborator is called.  If no watch was running for
    the device, the state is unchanged. *)
Theorem stop_connection_watch_clears s ls l device :
  tm_wf (tm s) → suspend_inv s ls → conn_watch_inv s l →
  ∃ s' l',
    cras_bt_policy_stop_connection_watch device s = Ok (0, s') ∧
    tm_wf (tm s') ∧ suspend_inv s' ls ∧ conn_watch_inv s' l' ∧
    records_of cw_device device (conn_watch_policies s') = [] ∧
    (∀ x, x ∈ timers (tm s') → cb x = conn_watch_cb_fn →
          timer_device s' x ≠ Some device) ∧
    (∀ x, x ∈ timers (tm s') → x ∈ timers (tm s)) ∧
    (∀ x, x ∈ timers (tm s) → timer_device s x ≠ Some device →
          x ∈ timers (tm s') ∧ timer_device s' x = timer_device s x) ∧
    profile_switch_policies s' = profile_switch_policies s ∧
    suspend_policies s' = suspend_policies s ∧
    bt_devices s' = bt_devices s ∧ tm_now (tm s') = tm_now (tm s) ∧
    tm_next_id (tm s') = tm_next_id (tm s) ∧ brk s' = brk s ∧
    trace s' = trace s ∧
    (records_of cw_device device (conn_watch_policies s) = [] → s' = s).
Proof.
  intros Htm Hsp Hinv. pose proof Hinv as [Hwf Hu Ho Hf Hb].
  destruct (region_lookup_device cw_device _ _ _ device Hwf)
    as [(p & n & Hm & Hd)|Hno].
  - destruct (stop_connection_watch_some _ _ _ _ _ _ Htm Hsp Hinv Hm Hd)
      as (d' & l' & Hrun & Hpay & Hsp' & Hinv').
    match type of Hrun with _ = Ok (_, ?st) => set (s' := st) in * end.
    assert (Hnone : ∀ q x, dl_mem d' !! q = Some x → cw_device x ≠ device).
    { exact (payload_delete_no_device cw_payload cw_device cw_payload_device
               _ _ _ _ _ Hu Hm Hd Hpay). }
    exists s', l'. split; [done|]. split; [by apply tm_wf_cancel|].
    do 2 (split; [done|]). split.
    { eapply records_of_nil; [|exact Hnone].
      destruct Hinv' as [Hwf' _ _ _ _]. by eapply region_wf_dl_list. }
    split.
    { intros x Hx Hc. unfold timer_device. rewrite Hc.
      cbn [conn_watch_policies s' set_conn_watch_policies].
      destruct (dl_mem d' !! cb_data x) as [y|] eqn:Hy; [|done].
      simpl. intros [= Hdev]. by apply (Hnone _ _ Hy). }
    split; [by intros x [? _]%elem_of_cancel_timer|]. split.
    { intros x Hx Hdev.
      assert (Hnp : cb x = conn_watch_cb_fn → cb_data x ≠ p).
      { intros Hc Hcd. apply Hdev. unfold timer_device.
        by rewrite Hc, Hcd, Hm; simpl; rewrite Hd. }
      split.
      - apply elem_of_cancel_timer. split; [done|]. intros Hid.
        destruct (Hf _ _ _ Hm Hx Hid) as [Hc Hcd]. by apply Hnp.
      - unfold timer_device. destruct (cb x) eqn:Hc; [done|done|].
        cbn [conn_watch_policies s' set_conn_watch_policies].
        apply (payload_delete_device cw_payload cw_device cw_payload_device
                 _ _ _ _ Hpay). by apply Hnp. }
    do 7 (split; [done|]). intros Hnil. exfalso.
    erewrite records_of_one in Hnil; [done| |done| |done..].
    + by eapply region_wf_dl_list.
    + by eapply region_wf_elem_of.
  - exists s, l. split.
    { unfold cras_bt_policy_stop_connection_watch.
      mstep by (by eapply region_search_none). by rewrite decide_True. }
    do 3 (split; [done|]). split.
    { eapply records_of_nil; [by eapply region_wf_dl_list|done]. }
    split.
    { intros x Hx Hc. unfold timer_device. rewrite Hc.
      destruct (dl_mem (conn_watch_policies s) !! cb_data x) as [y|] eqn:Hy;
        [|done].
      simpl. intros [= Hdev]. by apply (Hno _ _ Hy). }
    done.
Qed.

Lemma stop_connection_watch_clears_witness :
  let s := sample_watching in
  (tm_wf (tm s) ∧ suspend_inv s [] ∧ conn_watch_inv s [1%N]) ∧
  ∃ s' l',
    cras_bt_policy_stop_connection_watch 10%N s = Ok (0, s') ∧
    tm_wf (tm s') ∧ suspend_inv s' [] ∧ conn_watch_inv s' l' ∧
    records_of cw_device 10%N (conn_watch_policies s') = [] ∧
    (∀ x, x ∈ timers (tm s') → cb x = conn_watch_cb_fn →
          timer_device s' x ≠ Some 10%N) ∧
    (∀ x, x ∈ timers (tm s') → x ∈ timers (tm s)) ∧
    (∀ x, x ∈ timers (tm s) → timer_device s x ≠ Some 10%N →
          x ∈ timers (tm s') ∧ timer_device s' x = timer_device s x) ∧
    profile_switch_policies s' = profile_switch_policies s ∧
    suspend_policies s' = suspend_policies s ∧
    bt_devices s' = bt_devices s ∧ tm_now (tm s') = tm_now (tm s) ∧
    tm_next_id (tm s') = tm_next_id (tm s) ∧ brk s' = brk s ∧
    trace s' = trace s ∧
    (records_of cw_device 10%N (conn_watch_policies s) = [] → s' = s).
Proof.
  intros s. split; [exact sample_watching_inv|].
  apply (stop_connection_watch_clears s [] [1%N] 10%N);
    apply sample_watching_inv.
Defined.

(** ** Single ticks of a connection watch *)

Lemma connect_requests_app a b :
  connect_requests (a ++ b) = connect_requests a ++ connect_requests b.
Proof. apply omap_app. Qed.

(** The connect requests of a tick, by the four profile bits. *)
Lemma tick_connect_requests device d :
  connect_requests (tick_connect_calls device d) =
  if cras_bt_device_supports_profile d CRAS_BT_DEVICE_PROFILE_A2DP_SINK
     && cras_bt_device_supports_profile d CRAS_BT_DEVICE_PROFILE_HFP_HANDSFREE
     && xorb (cras_bt_device_is_profile_connected d
                CRAS_BT_DEVICE_PROFILE_A2DP_SINK)
             (cras_bt_device_is_profile_connected d
                CRAS_BT_DEVICE_PROFILE_HFP_HANDSFREE)
  then [(device,
         if cras_bt_device_is_profile_connected d
              CRAS_BT_DEVICE_PROFILE_A2DP_SINK
         then HFP_HF_UUID else A2DP_SINK_UUID)]
  else [].
Proof.
  unfold tick_connect_calls.
  by destruct (cras_bt_device_supports_profile d
                 CRAS_BT_DEVICE_PROFILE_A2DP_SINK),
       (cras_bt_device_supports_profile d
          CRAS_BT_DEVICE_PROFILE_HFP_HANDSFREE),
       (cras_bt_device_is_profile_connected d
          CRAS_BT_DEVICE_PROFILE_A2DP_SINK),
       (cras_bt_device_is_profile_connected d
          CRAS_BT_DEVICE_PROFILE_HFP_HANDSFREE).
Qed.

Lemma watch_settled_no_calls device d :
  watch_mismatch d = false → tick_connect_calls device d = [].
Proof.
  unfold watch_mismatch, tick_connect_calls.
  by destruct (cras_bt_device_supports_profile d
                 CRAS_BT_DEVICE_PROFILE_A2DP_SINK),
       (cras_bt_device_supports_profile d
          CRAS_BT_DEVICE_PROFILE_HFP_HANDSFREE),
       (cras_bt_device_is_profile_connected d
          CRAS_BT_DEVICE_PROFILE_A2DP_SINK),
       (cras_bt_device_is_profile_connected d
          CRAS_BT_DEVICE_PROFILE_HFP_HANDSFREE).
Qed.

Lemma watch_settled d :
  cras_bt_device_supports_profile d CRAS_BT_DEVICE_PROFILE_A2DP_SINK =
    cras_bt_device_is_profile_connected d CRAS_BT_DEVICE_PROFILE_A2DP_SINK →
  cras_bt_device_supports_profile d CRAS_BT_DEVICE_PROFILE_HFP_HANDSFREE =
    cras_bt_device_is_profile_connected d
      CRAS_BT_DEVICE_PROFILE_HFP_HANDSFREE →
  watch_mismatch d = false.
Proof.
  intros Ha Hh. unfold watch_mismatch. rewrite Ha, Hh.
  by rewrite !Bool.eqb_reflx.
Qed.

Lemma supports_no_profiles d profile :
  profiles d = 0 → cras_bt_device_supports_profile d profile = false.
Proof. intros Hp. unfold cras_bt_device_supports_profile. by rewrite Hp. Qed.

(** The tick of [conn_watch_cb] on an audio device whose A2DP sink and HFP
    hands-free profiles are each connected exactly when supported ends the
    watch: the record is freed and no watch timer is left for it.  The tick
    makes no connect request; it calls [cras_bt_device_remove_conflict],
    then [cras_a2dp_start] when A2DP is connected, then [cras_hfp_ag_start]
    when HFP is connected, then [cras_bt_device_set_nodes_plugged] with 1,
    in this order.  When the audio gateway is not started or starts with
    return code 0, the suspend list is untouched and the fired timer is the
    only one to leave the timer manager.  When the audio gateway fails to
    start, the failure is logged before the nodes are plugged, and the
    device has one suspend record with one timer; when no suspend was
    pending for the device, its reason is [HFP_AG_START_FAILURE] and it is
    due at once. *)
Theorem conn_watch_settled_starts_audio s ls l t n :
  tm_wf (tm s) → suspend_inv s ls → conn_watch_inv s l →
  t ∈ timers (tm s) → cb t = conn_watch_cb_fn →
  dl_mem (conn_watch_policies s) !! cb_data t = Some n →
  profiles (bt_devices s (cw_device n)) ≠ 0 →
  cras_bt_device_supports_profile (bt_devices s (cw_device n))
    CRAS_BT_DEVICE_PROFILE_A2DP_SINK =
  cras_bt_device_is_profile_connected (bt_devices s (cw_device n))
    CRAS_BT_DEVICE_PROFILE_A2DP_SINK →
  cras_bt_device_supports_profile (bt_devices s (cw_device n))
    CRAS_BT_DEVICE_PROFILE_HFP_HANDSFREE =
  cras_bt_device_is_profile_connected (bt_devices s (cw_device n))
    CRAS_BT_DEVICE_PROFILE_HFP_HANDSFREE →
  ∃ s',
    cras_tm_fire t s = Ok (tt, s') ∧
    dl_mem (conn_watch_policies s') !! cb_data t = None ∧
    timers_of conn_watch_cb_fn (cb_data t) (tm s') = [] ∧
    trace s' = trace s ++
      [E_BTLOG BT_DEV_CONN_WATCH_CB (cw_retries_left n)
         (profiles (bt_devices s (cw_device n)));
       E_cras_bt_device_remove_conflict (cw_device n)] ++
      (if cras_bt_device_is_profile_connected (bt_devices s (cw_device n))
            CRAS_BT_DEVICE_PROFILE_A2DP_SINK
       then [E_cras_a2dp_start (cw_device n)] else []) ++
      (if cras_bt_device_is_profile_connected (bt_devices s (cw_device n))
            CRAS_BT_DEVICE_PROFILE_HFP_HANDSFREE
       then E_cras_hfp_ag_start (cw_device n) ::
            (if decide (hfp_ag_start_rc s (cw_device n) = 0) then []
             else [E_syslog LOG_ERR "Start audio gateway failed, rc %d"
                     [hfp_ag_start_rc s (cw_device n)]])
       else []) ++
      [E_cras_bt_device_set_nodes_plugged (cw_device n) 1] ∧
    (cras_bt_device_is_profile_connected (bt_devices s (cw_device n))
       CRAS_BT_DEVICE_PROFILE_HFP_HANDSFREE = false ∨
     hfp_ag_start_rc s (cw_device n) = 0 →
     suspend_policies s' = suspend_policies s ∧
     tm s' = cras_tm_expire t (tm s)) ∧
    (cras_bt_device_is_profile_connected (bt_devices s (cw_device n))
       CRAS_BT_DEVICE_PROFILE_HFP_HANDSFREE = true →
     hfp_ag_start_rc s (cw_device n) ≠ 0 →
     ∃ q m u,
       records_of sp_device (cw_device n) (suspend_policies s') = [q] ∧
       dl_mem (suspend_policies s') !! q = Some m ∧
       timers_of suspend_cb_fn q (tm s') = [u] ∧
       timer_id u = sp_timer m ∧
       (records_of sp_device (cw_device n) (suspend_policies s) = [] →
        sp_suspend_reason m = HFP_AG_START_FAILURE ∧
        ts u = tm_now (tm s'))).
Proof.
  intros Htm Hsp Hinv Hin Hc Hm Hprof Ha Hh.
  pose proof (watch_settled _ Ha Hh) as Hmis.
  destruct (watch_fire_done_spec s ls l t n Htm Hsp Hinv Hin Hc Hm Hprof Hmis)
    as (s' & ls' & l' & Hrun & Htm' & Hsp' & Hinv' & Hgone & _ & _ & _ & _
        & _ & Htr & Hok & Hfail).
  exists s'. split; [done|]. split; [done|]. split.
  { destruct (timers_of conn_watch_cb_fn (cb_data t) (tm s')) as [|x xs] eqn:Hx;
      [done|].
    assert (Hx' : x ∈ timers_of conn_watch_cb_fn (cb_data t) (tm s'))
      by (rewrite Hx; left).
    apply list_elem_of_filter in Hx' as [[Hcx Hdx] Hxin].
    destruct Hinv' as [_ _ Ho _ _]. destruct (Ho _ Hxin Hcx) as (m & Hm' & _).
    rewrite Hdx in Hm'. congruence. }
  split; [|done].
  rewrite Htr, (watch_settled_no_calls _ _ Hmis). reflexivity.
Qed.

(** Every tick of [conn_watch_cb] on a listed watch record runs to its end,
    whatever the registry reports for the device, and makes at most one
    connect request: one, for the profile that is not connected, when the
    device supports both A2DP sink and HFP hands-free and exactly one of
    them is connected; none in every other case (a device without audio
    profiles, a device that supports one profile only, both profiles
    connected, neither connected). *)
Theorem conn_watch_tick_requests s ls l t n :
  tm_wf (tm s) → suspend_inv s ls → conn_watch_inv s l →
  t ∈ timers (tm s) → cb t = conn_watch_cb_fn →
  dl_mem (conn_watch_policies s) !! cb_data t = Some n →
  ∃ s' calls,
    cras_tm_fire t s = Ok (tt, s') ∧
    trace s' = trace s ++ calls ∧
    connect_requests calls =
      if cras_bt_device_supports_profile (bt_devices s (cw_device n))
           CRAS_BT_DEVICE_PROFILE_A2DP_SINK
         && cras_bt_device_supports_profile (bt_devices s (cw_device n))
              CRAS_BT_DEVICE_PROFILE_HFP_HANDSFREE
         && xorb (cras_bt_device_is_profile_connected
                    (bt_devices s (cw_device n))
                    CRAS_BT_DEVICE_PROFILE_A2DP_SINK)
                 (cras_bt_device_is_profile_connected
                    (bt_devices s (cw_device n))
                    CRAS_BT_DEVICE_PROFILE_HFP_HANDSFREE)
      then [(cw_device n,
             if cras_bt_device_is_profile_connected
                  (bt_devices s (cw_device n))
                  CRAS_BT_DEVICE_PROFILE_A2DP_SINK
             then HFP_HF_UUID else A2DP_SINK_UUID)]
      else [].
Proof.
  intros Htm Hsp Hinv Hin Hc Hm.
  rewrite <- tick_connect_requests.
  destruct (decide (profiles (bt_devices s (cw_device n)) = 0)) as [Hz|Hnz].
  { destruct (watch_fire_idle_spec s ls l t n Htm Hsp Hinv Hin Hc Hm Hz)
      as (s' & l' & Hrun & _ & _ & _ & _ & _ & _ & _ & _ & _ & _ & Htr & _).
    eexists s', _. split; [done|]. split; [exact Htr|].
    unfold tick_connect_calls.
    by rewrite (supports_no_profiles _ _ Hz). }
  destruct (watch_mismatch (bt_devices s (cw_device n))) eqn:Hmis.
  - destruct (decide (int (cw_retries_left n - 1) = 0)) as [Hr|Hr].
    + destruct (watch_fire_timeout_spec s ls l t n Htm Hsp Hinv Hin Hc Hm Hnz
                  Hmis Hr)
        as (sb & s' & ls' & n' & q & m & u & Hrun & _ & _ & _ & _ & _ & _ & _
            & _ & _ & _ & _ & _ & _ & _ & _ & _ & _ & Htr & _).
      eexists s', _. split; [done|]. split; [exact Htr|].
      rewrite !connect_requests_app. cbn [connect_requests omap].
      by rewrite app_nil_r.
    + destruct (watch_fire_rearm_spec s ls l t n Htm Hsp Hinv Hin Hc Hm Hnz
                  Hmis Hr)
        as (s' & n' & t' & Hrun & _ & _ & _ & _ & _ & _ & _ & _ & _ & _ & _
            & _ & _ & Htr & _).
      eexists s', _. split; [done|]. split; [exact Htr|].
      rewrite !connect_requests_app. cbn [connect_requests omap].
      by rewrite app_nil_r.
  - destruct (watch_fire_done_spec s ls l t n Htm Hsp Hinv Hin Hc Hm Hnz Hmis)
      as (s' & ls' & l' & Hrun & _ & _ & _ & _ & _ & _ & _ & _ & _ & Htr & _).
    eexists s', _. split; [done|]. split; [exact Htr|].
    rewrite !connect_requests_app.
    destruct (cras_bt_device_is_profile_connected _
                CRAS_BT_DEVICE_PROFILE_A2DP_SINK),
      (cras_bt_device_is_profile_connected _
         CRAS_BT_DEVICE_PROFILE_HFP_HANDSFREE),
      (decide (hfp_ag_start_rc s (cw_device n) = 0));
      cbn [connect_requests omap app]; by rewrite app_nil_r.
Qed.

(** A tick of [conn_watch_cb] on an audio device for which, for A2DP sink
    or for HFP hands-free, supported and connected differ (a supported
    profile that is not connected, but also a connected profile that is not
    supported) keeps the watch going while retries are left after the
    decrement: the record stays on the list with one retry less, and its one
    timer is new and due one period after the tick.  The tick touches no
    suspend and no profile switch record and allocates nothing. *)
Theorem conn_watch_tick_rearms s ls l t n :
  tm_wf (tm s) → suspend_inv s ls → conn_watch_inv s l →
  t ∈ timers (tm s) → cb t = conn_watch_cb_fn →
  dl_mem (conn_watch_policies s) !! cb_data t = Some n →
  profiles (bt_devices s (cw_device n)) ≠ 0 →
  watch_mismatch (bt_devices s (cw_device n)) = true →
  2 ≤ cw_retries_left n ≤ CONN_WATCH_MAX_RETRIES →
  ∃ s' n' t',
    cras_tm_fire t s = Ok (tt, s') ∧
    tm_wf (tm s') ∧ suspend_inv s' ls ∧ conn_watch_inv s' l ∧
    dl_mem (conn_watch_policies s') !! cb_data t = Some n' ∧
    cw_device n' = cw_device n ∧
    cw_retries_left n' = cw_retries_left n - 1 ∧
    timers_of conn_watch_cb_fn (cb_data t) (tm s') = [t'] ∧
    timer_id t' = cw_timer n' ∧
    ts t' = Z.max (tm_now (tm s)) (ts t) + CONN_WATCH_PERIOD_MS ∧
    suspend_policies s' = suspend_policies s ∧
    profile_switch_policies s' = profile_switch_policies s ∧
    brk s' = brk s ∧
    trace s' = trace s ++
      [E_BTLOG BT_DEV_CONN_WATCH_CB (cw_retries_left n)
         (profiles (bt_devices s (cw_device n)))] ++
      tick_connect_calls (cw_device n) (bt_devices s (cw_device n)) ++
      [E_syslog LOG_DEBUG "conn_watch_retries: %d" [cw_retries_left n]].
Proof.
  intros Htm Hsp Hinv Hin Hc Hm Hnz Hmis Hr.
  unfold CONN_WATCH_MAX_RETRIES in Hr.
  assert (Hint : int (cw_retries_left n - 1) = cw_retries_left n - 1)
    by (apply int_small; lia).
  destruct (watch_fire_rearm_spec s ls l t n Htm Hsp Hinv Hin Hc Hm Hnz Hmis)
    as (s' & n' & t' & Hrun & Htm' & Hsp' & Hinv' & Hm' & Hd' & Hr' & Ht'
        & Hid' & Hts' & Hnow' & Hsps' & Hps' & _ & Htr & Hbrk & _);
    [lia|].
  exists s', n', t'. split; [done|]. do 3 (split; [done|]).
  do 2 (split; [done|]). split; [congruence|]. split; [done|].
  split; [done|]. split; [by rewrite Hts', Hnow'|]. done.
Qed.

(** The tick that uses up the last retry leaves the watch record on the
    list, without a timer: [conn_watch_cb] returns before the record is
    unlinked and freed.  A later [cras_bt_policy_start_connection_watch]
    for the device finds this record and arms it again with the full retry
    count, one period from then; the watch list holds the same records
    before the tick and after the restart, and the restart leaves the
    suspend scheduled by the timeout pending. *)
Theorem conn_watch_timeout_record_reused s ls l t n :
  tm_wf (tm s) → suspend_inv s ls → conn_watch_inv s l →
  t ∈ timers (tm s) → cb t = conn_watch_cb_fn →
  dl_mem (conn_watch_policies s) !! cb_data t = Some n →
  profiles (bt_devices s (cw_device n)) ≠ 0 →
  watch_mismatch (bt_devices s (cw_device n)) = true →
  cw_retries_left n = 1 →
  ∃ s1 n1 s2 n2 t2,
    cras_tm_fire t s = Ok (tt, s1) ∧
    records_of cw_device (cw_device n) (conn_watch_policies s1)
      = [cb_data t] ∧
    dl_mem (conn_watch_policies s1) !! cb_data t = Some n1 ∧
    cw_retries_left n1 = 0 ∧
    timers_of conn_watch_cb_fn (cb_data t) (tm s1) = [] ∧
    cras_bt_policy_start_connection_watch (cw_device n) s1 = Ok (0, s2) ∧
    records_of cw_device (cw_device n) (conn_watch_policies s2)
      = [cb_data t] ∧
    dl_mem (conn_watch_policies s2) !! cb_data t = Some n2 ∧
    cw_retries_left n2 = CONN_WATCH_MAX_RETRIES ∧
    timers_of conn_watch_cb_fn (cb_data t) (tm s2) = [t2] ∧
    timer_id t2 = cw_timer n2 ∧
    ts t2 = Z.max (tm_now (tm s)) (ts t) + CONN_WATCH_PERIOD_MS ∧
    dom (dl_mem (conn_watch_policies s2))
      = dom (dl_mem (conn_watch_policies s)) ∧
    suspend_policies s2 = suspend_policies s1 ∧
    records_of sp_device (cw_device n) (suspend_policies s2) ≠ [].
Proof.
  intros Htm Hsp Hinv Hin Hc Hm Hnz Hmis Hr.
  destruct (watch_fire_timeout_spec s ls l t n Htm Hsp Hinv Hin Hc Hm Hnz Hmis)
    as (sb & s1 & ls1 & n1 & q & m & u & Hrun & _ & _ & Htm1 & Hsp1 & Hinv1
        & Hm1 & Hd1 & Hr1 & Ht1 & Hnow1 & _ & Hrec1 & _);
    [by rewrite Hr|].
  destruct (start_connection_watch_spec s1 l (cw_device n) Htm1 Hinv1)
    as (s2 & l2 & p & n2 & Hrun2 & Htm2 & Hinv2 & Hm2 & Hd2 & Hr2 & Ht2 & Hnow2
        & _ & Hsps2 & _ & _ & _ & _ & _ & Hpay & _).
  assert (Hp : p = cb_data t).
  { destruct (decide (p = cb_data t)) as [|Hne]; [done|].
    destruct (payload_insert_old _ _ _ _ _ _ _ Hpay Hm1 (not_eq_sym Hne))
      as (m' & Hm' & Hpm).
    destruct Hinv2 as [_ Hu2 _ _ _].
    apply (Hu2 _ _ _ _ Hm2 Hm').
    rewrite Hd2, <- Hd1. symmetry. by apply cw_payload_device. }
  subst p.
  assert (Hdom1 : dom (dl_mem (conn_watch_policies s1))
                  = dom (dl_mem (conn_watch_policies s))).
  { destruct Hinv as [Hwf _ _ _ _], Hinv1 as [Hwf1 _ _ _ _].
    apply set_eq. intros x. rewrite !elem_of_dom. split; intros Hx.
    - destruct Hwf1 as (_ & _ & Hd & _). apply Hd in Hx.
      by destruct (region_wf_lookup _ _ _ x Hwf Hx) as (_ & _ & ?).
    - destruct Hwf as (_ & _ & Hd & _). apply Hd in Hx.
      by destruct (region_wf_lookup _ _ _ x Hwf1 Hx) as (_ & _ & ?). }
  eexists s1, n1, s2, n2, _. split; [done|]. split.
  { destruct Hinv1 as [Hwf1 Hu1 _ _ _].
    eapply records_of_one; [by eapply region_wf_dl_list|done| |done..].
    by eapply region_wf_elem_of. }
  do 3 (split; [done|]). split; [done|]. split.
  { destruct Hinv2 as [Hwf2 Hu2 _ _ _].
    eapply records_of_one; [by eapply region_wf_dl_list|done| |done..].
    by eapply region_wf_elem_of. }
  do 2 (split; [done|]). split; [exact Ht2|]. split; [done|].
  split; [simpl; by rewrite Hnow1|]. split.
  { rewrite <- Hdom1.
    rewrite <- (dom_fmap_L cw_payload (dl_mem (conn_watch_policies s2))), Hpay.
    rewrite dom_insert_L, dom_fmap_L.
    assert (cb_data t ∈ dom (dl_mem (conn_watch_policies s1)))
      by (apply elem_of_dom; eauto).
    set_solver. }
  split; [done|]. by rewrite Hsps2, Hrec1.
Qed.

(** The sample state of the last retry satisfies the invariants. *)
Lemma sample_last_retry_inv :
  tm_wf (tm sample_last_retry) ∧ suspend_inv sample_last_retry [] ∧
  conn_watch_inv sample_last_retry [1%N].
Proof.
  destruct sample_watching_inv as (Htm & Hsp & Hinv).
  destruct (watch_ticks_rearm 1%N (replicate 29 sample_devices)
              sample_watching [] [1%N]
              {| cw_device := 10%N; cw_retries_left := 30; cw_timer := 1%N;
                 cw_prev := 1%N; cw_next := NULL |}
              {| timer_id := 1%N; ts := 2000; cb := conn_watch_cb_fn;
                 cb_data := 1%N |} Htm Hsp Hinv)
    as (s' & n' & t' & Hrun & Htm' & Hsp' & Hinv' & _);
    [by vm_compute..| |].
  { intros e [-> _]%elem_of_replicate. reflexivity. }
  assert (s' = sample_last_retry) as ->
    by (unfold sample_last_retry; by rewrite Hrun).
  exact (conj Htm' (conj Hsp' Hinv')).
Qed.

Lemma conn_watch_settled_starts_audio_witness :
  let d := sample_device
             (Z.lor CRAS_BT_DEVICE_PROFILE_A2DP_SINK
                CRAS_BT_DEVICE_PROFILE_HFP_HANDSFREE)
             (Z.lor CRAS_BT_DEVICE_PROFILE_A2DP_SINK
                CRAS_BT_DEVICE_PROFILE_HFP_HANDSFREE) None None in
  let s := set_bt_devices (λ _, d) sample_watching in
  let n := {| cw_device := 10%N; cw_retries_left := 30; cw_timer := 1%N;
              cw_prev := 1%N; cw_next := NULL |} in
  let t := {| timer_id := 1%N; ts := 2000; cb := conn_watch_cb_fn;
              cb_data := 1%N |} in
  (tm_wf (tm s) ∧ suspend_inv s [] ∧ conn_watch_inv s [1%N] ∧
   t ∈ timers (tm s) ∧ cb t = conn_watch_cb_fn ∧
   dl_mem (conn_watch_policies s) !! cb_data t = Some n ∧
   profiles (bt_devices s (cw_device n)) ≠ 0 ∧
   cras_bt_device_supports_profile (bt_devices s (cw_device n))
     CRAS_BT_DEVICE_PROFILE_A2DP_SINK =
   cras_bt_device_is_profile_connected (bt_devices s (cw_device n))
     CRAS_BT_DEVICE_PROFILE_A2DP_SINK ∧
   cras_bt_device_supports_profile (bt_devices s (cw_device n))
     CRAS_BT_DEVICE_PROFILE_HFP_HANDSFREE =
   cras_bt_device_is_profile_connected (bt_devices s (cw_device n))
     CRAS_BT_DEVICE_PROFILE_HFP_HANDSFREE) ∧
  ∃ s',
    cras_tm_fire t s = Ok (tt, s') ∧
    dl_mem (conn_watch_policies s') !! cb_data t = None ∧
    timers_of conn_watch_cb_fn (cb_data t) (tm s') = [] ∧
    trace s' = trace s ++
      [E_BTLOG BT_DEV_CONN_WATCH_CB (cw_retries_left n)
         (profiles (bt_devices s (cw_device n)));
       E_cras_bt_device_remove_conflict (cw_device n)] ++
      (if cras_bt_device_is_profile_connected (bt_devices s (cw_device n))
            CRAS_BT_DEVICE_PROFILE_A2DP_SINK
       then [E_cras_a2dp_start (cw_device n)] else []) ++
      (if cras_bt_device_is_profile_connected (bt_devices s (cw_device n))
            CRAS_BT_DEVICE_PROFILE_HFP_HANDSFREE
       then E_cras_hfp_ag_start (cw_device n) ::
            (if decide (hfp_ag_start_rc s (cw_device n) = 0) then []
             else [E_syslog LOG_ERR "Start audio gateway failed, rc %d"
                     [hfp_ag_start_rc s (cw_device n)]])
       else []) ++
      [E_cras_bt_device_set_nodes_plugged (cw_device n) 1] ∧
    (cras_bt_device_is_profile_connected (bt_devices s (cw_device n))
       CRAS_BT_DEVICE_PROFILE_HFP_HANDSFREE = false ∨
     hfp_ag_start_rc s (cw_device n) = 0 →
     suspend_policies s' = suspend_policies s ∧
     tm s' = cras_tm_expire t (tm s)) ∧
    (cras_bt_device_is_profile_connected (bt_devices s (cw_device n))
       CRAS_BT_DEVICE_PROFILE_HFP_HANDSFREE = true →
     hfp_ag_start_rc s (cw_device n) ≠ 0 →
     ∃ q m u,
       records_of sp_device (cw_device n) (suspend_policies s') = [q] ∧
       dl_mem (suspend_policies s') !! q = Some m ∧
       timers_of suspend_cb_fn q (tm s') = [u] ∧
       timer_id u = sp_timer m ∧
       (records_of sp_device (cw_device n) (suspend_policies s) = [] →
        sp_suspend_reason m = HFP_AG_START_FAILURE ∧
        ts u = tm_now (tm s'))).
Proof.
  intros d s n t.
  destruct sample_watching_inv as (Htm & Hsp & Hinv).
  assert (Hin : t ∈ timers (tm s)) by (vm_compute; left).
  assert (Hm : dl_mem (conn_watch_policies s) !! cb_data t = Some n)
    by (vm_compute; reflexivity).
  assert (Hnz : profiles (bt_devices s (cw_device n)) ≠ 0)
    by (vm_compute; discriminate).
  split.
  - split; [exact Htm|].
    split; [by apply suspend_inv_devices|].
    split; [by apply conn_watch_inv_devices|].
    split; [exact Hin|]. split; [reflexivity|]. split; [exact Hm|].
    split; [exact Hnz|]. split; reflexivity.
  - apply (conn_watch_settled_starts_audio s [] [1%N] t n).
    + exact Htm.
    + by apply suspend_inv_devices.
    + by apply conn_watch_inv_devices.
    + exact Hin.
    + reflexivity.
    + exact Hm.
    + exact Hnz.
    + reflexivity.
    + reflexivity.
Defined.

Lemma conn_watch_tick_requests_witness :
  let d := sample_device
             (Z.lor CRAS_BT_DEVICE_PROFILE_A2DP_SINK
                CRAS_BT_DEVICE_PROFILE_HFP_HANDSFREE)
             CRAS_BT_DEVICE_PROFILE_HFP_HANDSFREE None None in
  let s := set_bt_devices (λ _, d) sample_watching in
  let n := {| cw_device := 10%N; cw_retries_left := 30; cw_timer := 1%N;
              cw_prev := 1%N; cw_next := NULL |} in
  let t := {| timer_id := 1%N; ts := 2000; cb := conn_watch_cb_fn;
              cb_data := 1%N |} in
  (tm_wf (tm s) ∧ suspend_inv s [] ∧ conn_watch_inv s [1%N] ∧
   t ∈ timers (tm s) ∧ cb t = conn_watch_cb_fn ∧
   dl_mem (conn_watch_policies s) !! cb_data t = Some n) ∧
  ∃ s' calls,
    cras_tm_fire t s = Ok (tt, s') ∧
    trace s' = trace s ++ calls ∧
    connect_requests calls =
      if cras_bt_device_supports_profile (bt_devices s (cw_device n))
           CRAS_BT_DEVICE_PROFILE_A2DP_SINK
         && cras_bt_device_supports_profile (bt_devices s (cw_device n))
              CRAS_BT_DEVICE_PROFILE_HFP_HANDSFREE
         && xorb (cras_bt_device_is_profile_connected
                    (bt_devices s (cw_device n))
                    CRAS_BT_DEVICE_PROFILE_A2DP_SINK)
                 (cras_bt_device_is_profile_connected
                    (bt_devices s (cw_device n))
                    CRAS_BT_DEVICE_PROFILE_HFP_HANDSFREE)
      then [(cw_device n,
             if cras_bt_device_is_profile_connected
                  (bt_devices s (cw_device n))
                  CRAS_BT_DEVICE_PROFILE_A2DP_SINK
             then HFP_HF_UUID else A2DP_SINK_UUID)]
      else [].
Proof.
  intros d s n t.
  destruct sample_watching_inv as (Htm & Hsp & Hinv).
  assert (Hin : t ∈ timers (tm s)) by (vm_compute; left).
  assert (Hm : dl_mem (conn_watch_policies s) !! cb_data t = Some n)
    by (vm_compute; reflexivity).
  split.
  - split; [exact Htm|].
    split; [by apply suspend_inv_devices|].
    split; [by apply conn_watch_inv_devices|].
    split; [exact Hin|]. split; [reflexivity|exact Hm].
  - apply (conn_watch_tick_requests s [] [1%N] t n).
    + exact Htm.
    + by apply suspend_inv_devices.
    + by apply conn_watch_inv_devices.
    + exact Hin.
    + reflexivity.
    + exact Hm.
Defined.

Lemma conn_watch_tick_rearms_witness :
  let d := sample_device CRAS_BT_DEVICE_PROFILE_A2DP_SINK
             (Z.lor CRAS_BT_DEVICE_PROFILE_A2DP_SINK
                CRAS_BT_DEVICE_PROFILE_HFP_HANDSFREE) None None in
  let s := set_bt_devices (λ _, d) sample_watching in
  let n := {| cw_device := 10%N; cw_retries_left := 30; cw_timer := 1%N;
              cw_prev := 1%N; cw_next := NULL |} in
  let t := {| timer_id := 1%N; ts := 2000; cb := conn_watch_cb_fn;
              cb_data := 1%N |} in
  (tm_wf (tm s) ∧ suspend_inv s [] ∧ conn_watch_inv s [1%N] ∧
   t ∈ timers (tm s) ∧ cb t = conn_watch_cb_fn ∧
   dl_mem (conn_watch_policies s) !! cb_data t = Some n ∧
   profiles (bt_devices s (cw_device n)) ≠ 0 ∧
   watch_mismatch (bt_devices s (cw_device n)) = true ∧
   2 ≤ cw_retries_left n ≤ CONN_WATCH_MAX_RETRIES) ∧
  ∃ s' n' t',
    cras_tm_fire t s = Ok (tt, s') ∧
    tm_wf (tm s') ∧ suspend_inv s' [] ∧ conn_watch_inv s' [1%N] ∧
    dl_mem (conn_watch_policies s') !! cb_data t = Some n' ∧
    cw_device n' = cw_device n ∧
    cw_retries_left n' = cw_retries_left n - 1 ∧
    timers_of conn_watch_cb_fn (cb_data t) (tm s') = [t'] ∧
    timer_id t' = cw_timer n' ∧
    ts t' = Z.max (tm_now (tm s)) (ts t) + CONN_WATCH_PERIOD_MS ∧
    suspend_policies s' = suspend_policies s ∧
    profile_switch_policies s' = profile_switch_policies s ∧
    brk s' = brk s ∧
    trace s' = trace s ++
      [E_BTLOG BT_DEV_CONN_WATCH_CB (cw_retries_left n)
         (profiles (bt_devices s (cw_device n)))] ++
      tick_connect_calls (cw_device n) (bt_devices s (cw_device n)) ++
      [E_syslog LOG_DEBUG "conn_watch_retries: %d" [cw_retries_left n]].
Proof.
  intros d s n t.
  destruct sample_watching_inv as (Htm & Hsp & Hinv).
  assert (Hin : t ∈ timers (tm s)) by (vm_compute; left).
  assert (Hm : dl_mem (conn_watch_policies s) !! cb_data t = Some n)
    by (vm_compute; reflexivity).
  assert (Hnz : profiles (bt_devices s (cw_device n)) ≠ 0)
    by (vm_compute; discriminate).
  assert (Hr : 2 ≤ cw_retries_left n ≤ CONN_WATCH_MAX_RETRIES)
    by (vm_compute; split; discriminate).
  split.
  - split; [exact Htm|].
    split; [by apply suspend_inv_devices|].
    split; [by apply conn_watch_inv_devices|].
    split; [exact Hin|]. split; [reflexivity|]. split; [exact Hm|].
    split; [exact Hnz|]. split; [reflexivity|exact Hr].
  - apply (conn_watch_tick_rearms s [] [1%N] t n).
    + exact Htm.
    + by apply suspend_inv_devices.
    + by apply conn_watch_inv_devices.
    + exact Hin.
    + reflexivity.
    + exact Hm.
    + exact Hnz.
    + reflexivity.
    + exact Hr.
Defined.

Lemma conn_watch_timeout_record_reused_witness :
  let s := sample_last_retry in
  let n := {| cw_device := 10%N; cw_retries_left := 1; cw_timer := 30%N;
              cw_prev := 1%N; cw_next := NULL |} in
  let t := {| timer_id := 30%N; ts := 60000; cb := conn_watch_cb_fn;
              cb_data := 1%N |} in
  (tm_wf (tm s) ∧ suspend_inv s [] ∧ conn_watch_inv s [1%N] ∧
   t ∈ timers (tm s) ∧ cb t = conn_watch_cb_fn ∧
   dl_mem (conn_watch_policies s) !! cb_data t = Some n ∧
   profiles (bt_devices s (cw_device n)) ≠ 0 ∧
   watch_mismatch (bt_devices s (cw_device n)) = true ∧
   cw_retries_left n = 1) ∧
  ∃ s1 n1 s2 n2 t2,
    cras_tm_fire t s = Ok (tt, s1) ∧
    records_of cw_device (cw_device n) (conn_watch_policies s1)
      = [cb_data t] ∧
    dl_mem (conn_watch_policies s1) !! cb_data t = Some n1 ∧
    cw_retries_left n1 = 0 ∧
    timers_of conn_watch_cb_fn (cb_data t) (tm s1) = [] ∧
    cras_bt_policy_start_connection_watch (cw_device n) s1 = Ok (0, s2) ∧
    records_of cw_device (cw_device n) (conn_watch_policies s2)
      = [cb_data t] ∧
    dl_mem (conn_watch_policies s2) !! cb_data t = Some n2 ∧
    cw_retries_left n2 = CONN_WATCH_MAX_RETRIES ∧
    timers_of conn_watch_cb_fn (cb_data t) (tm s2) = [t2] ∧
    timer_id t2 = cw_timer n2 ∧
    ts t2 = Z.max (tm_now (tm s)) (ts t) + CONN_WATCH_PERIOD_MS ∧
    dom (dl_mem (conn_watch_policies s2))
      = dom (dl_mem (conn_watch_policies s)) ∧
    suspend_policies s2 = suspend_policies s1 ∧
    records_of sp_device (cw_device n) (suspend_policies s2) ≠ [].
Proof.
  intros s n t.
  destruct sample_last_retry_inv as (Htm & Hsp & Hinv).
  assert (Hin : t ∈ timers (tm s)) by (vm_compute; left).
  assert (Hm : dl_mem (conn_watch_policies s) !! cb_data t = Some n)
    by (vm_compute; reflexivity).
  assert (Hnz : profiles (bt_devices s (cw_device n)) ≠ 0)
    by (vm_compute; discriminate).
  assert (Hmis : watch_mismatch (bt_devices s (cw_device n)) = true)
    by (vm_compute; reflexivity).
  split.
  - split; [exact Htm|]. split; [exact Hsp|]. split; [exact Hinv|].
    split; [exact Hin|]. split; [reflexivity|]. split; [exact Hm|].
    split; [exact Hnz|]. split; [exact Hmis|reflexivity].
  - apply (conn_watch_timeout_record_reused s [] [1%N] t n).
    + exact Htm.
    + exact Hsp.
    + exact Hinv.
    + exact Hin.
    + reflexivity.
    + exact Hm.
    + exact Hnz.
    + exact Hmis.
    + reflexivity.
Defined.

(** ** Removing a device *)

Section device_lookup.
Context {T P : Type} (pay : T → P) (dev : T → ptr).
Hypothesis pay_dev : ∀ n n', pay n = pay n' → dev n = dev n'.

(** The devices of the records, after the one record of [device] has been
    freed. *)
Lemma payload_delete_dev_lookup (m m' : gmap N T) p n device :
  unique_device dev m → m !! p = Some n → dev n = device →
  pay <$> m' = delete p (pay <$> m) →
  ∀ q, dev <$> m' !! q =
       if decide (dev <$> m !! q = Some device) then None else dev <$> m !! q.
Proof.
  intros Hu Hm Hd Heq q. destruct (decide (q = p)) as [->|Hne].
  - rewrite (payload_delete_gone pay _ _ _ Heq), Hm. simpl.
    case_decide; [done|congruence].
  - rewrite (payload_delete_device pay dev pay_dev _ _ _ _ Heq Hne).
    case_decide as Hq; [|done]. destruct (m !! q) as [x|] eqn:Hx; [|done].
    injection Hq as Hq. destruct Hne. eapply Hu; [done..|]. congruence.
Qed.

Lemma no_device_lookup (m : gmap N T) device :
  (∀ p n, m !! p = Some n → dev n ≠ device) →
  ∀ q, dev <$> m !! q =
       if decide (dev <$> m !! q = Some device) then None else dev <$> m !! q.
Proof.
  intros Hno q. case_decide as Hq; [|done].
  destruct (m !! q) as [x|] eqn:Hx; [|done].
  injection Hq as Hq. by destruct (Hno _ _ Hx).
Qed.

End device_lookup.

Lemma profile_switch_inv_frame s s' l :
  profile_switch_policies s' = profile_switch_policies s →
  (brk s ≤ brk s')%N →
  (∀ t, cb t = profile_switch_delay_cb_fn →
        t ∈ timers (tm s') ↔ t ∈ timers (tm s)) →
  profile_switch_inv s l → profile_switch_inv s' l.
Proof.
  intros Hps Hbrk Htm [Hwf Hu Ht Ho]. split; rewrite ?Hps.
  - by eapply region_wf_mono.
  - done.
  - intros p n Hm. destruct (Ht p n Hm) as (t & Hin & ? & Hc & ?).
    exists t. split; [by apply Htm|done].
  - intros t Hin Hc. apply Ho; [by apply Htm|done].
Qed.

Lemma profile_switch_inv_remove s s' l l' p n :
  tm_wf (tm s) → profile_switch_inv s l →
  dl_mem (profile_switch_policies s) !! p = Some n →
  brk s' = brk s →
  region_wf (brk s) (profile_switch_policies s') l' →
  psp_payload <$> dl_mem (profile_switch_policies s') =
    delete p (psp_payload <$> dl_mem (profile_switch_policies s)) →
  (∀ x, x ∈ timers (tm s') ↔ x ∈ timers (tm s) ∧ timer_id x ≠ psp_timer n) →
  profile_switch_inv s' l'.
Proof.
  intros Htm [Hwf Hu Ht Ho] Hm Hbrk Hwf' Hpay Htimers.
  destruct (Ht _ _ Hm) as (tp & Htp & Hidp & Hcp & Hdp).
  split.
  - by rewrite Hbrk.
  - intros q q' x x' Hq Hq' Hd.
    destruct (payload_delete_inv _ _ _ _ _ _ Hpay Hq) as (_ & y & Hy & Hxy).
    destruct (payload_delete_inv _ _ _ _ _ _ Hpay Hq') as (_ & y' & Hy' & Hxy').
    apply psp_payload_inv in Hxy as (? & _), Hxy' as (? & _).
    eapply Hu; [done..|]. congruence.
  - intros q x Hq.
    destruct (payload_delete_inv _ _ _ _ _ _ Hpay Hq) as (Hne & y & Hy & Hxy).
    apply psp_payload_inv in Hxy as (_ & Hxy).
    destruct (Ht _ _ Hy) as (t & Hin & Hid & Hc & Hdata).
    exists t. split; [|split; [congruence|done]].
    apply Htimers. split; [done|]. intros Heq.
    assert (t = tp) by (eapply timer_id_inj; [done..|congruence]).
    congruence.
  - intros t [Hin Hid]%Htimers Hc.
    destruct (Ho _ Hin Hc) as (y & Hy & Hty).
    assert (cb_data t ≠ p) as Hne by (intros Heq; congruence).
    destruct (payload_delete_old _ _ _ _ _ _ Hpay Hy Hne) as (x & Hx & Hxy).
    apply psp_payload_inv in Hxy as (_ & Hxy).
    exists x. split; [done|congruence].
Qed.

(** The timers cancelled with the record of a device on a list whose every
    record owns its pending timer. *)
Lemma cancelled_timers_owned {T : Type} (dev : T → ptr) (tmr : T → ptr)
    (m : gmap N T) (t : cras_tm) c p n device :
  tm_wf t → unique_device dev m →
  (∀ p n, m !! p = Some n →
     ∃ x, x ∈ timers t ∧ timer_id x = tmr n ∧ cb x = c ∧ cb_data x = p) →
  (∀ x, x ∈ timers t → cb x = c →
     ∃ n, m !! cb_data x = Some n ∧ tmr n = timer_id x) →
  m !! p = Some n → dev n = device →
  ∀ x, x ∈ timers (cras_tm_cancel_timer t (tmr n)) ↔
       x ∈ timers t ∧ ¬ (cb x = c ∧ dev <$> m !! cb_data x = Some device).
Proof.
  intros Htm Hu Ht Ho Hm Hd x. rewrite elem_of_cancel_timer.
  split; intros [Hx Hne]; (split; [done|]).
  - intros [Hc Hdev]. apply Hne.
    destruct (Ho _ Hx Hc) as (n' & Hm' & Hid'). rewrite Hm' in Hdev.
    injection Hdev as Hdev.
    assert (cb_data x = p) as Hp by (eapply Hu; [done..|congruence]).
    rewrite Hp, Hm in Hm'. by injection Hm' as <-.
  - intros Hid. apply Hne.
    destruct (Ht _ _ Hm) as (y & Hy & Hidy & Hcy & Hdy).
    assert (x = y) as -> by (eapply timer_id_inj; [done..|congruence]).
    split; [done|]. by rewrite Hdy, Hm; simpl; rewrite Hd.
Qed.

Lemma no_timer_of_device {T : Type} (dev : T → ptr) (m : gmap N T)
    (t : cras_tm) (c : timer_cb) device :
  (∀ p n, m !! p = Some n → dev n ≠ device) →
  ∀ x, x ∈ timers t ↔
       x ∈ timers t ∧ ¬ (cb x = c ∧ dev <$> m !! cb_data x = Some device).
Proof.
  intros Hno x. split; [|tauto]. intros Hx. split; [done|].
  intros [_ Hdev]. destruct (m !! cb_data x) as [n|] eqn:Hm; [|done].
  injection Hdev as Hdev. by apply (Hno _ _ Hm).
Qed.

(** The first part of [cras_bt_policy_remove_device]: the profile switch of
    the device, if one is pending, is dropped. *)
Lemma remove_profile_switch_stage s lp ls lw device :
  tm_wf (tm s) → profile_switch_inv s lp → suspend_inv s ls →
  conn_watch_inv s lw →
  ∃ policy s' lp',
    search PROFILE_SWITCH psp_device device s = Ok (policy, s) ∧
    (if decide (policy = NULL) then mret tt
     else
       unlink PROFILE_SWITCH policy;;
       p ← deref PROFILE_SWITCH policy;
       cancel_timer (psp_timer p);;
       free PROFILE_SWITCH policy) s = Ok (tt, s') ∧
    tm_wf (tm s') ∧ profile_switch_inv s' lp' ∧ suspend_inv s' ls ∧
    conn_watch_inv s' lw ∧
    (∀ x, x ∈ timers (tm s') ↔
          x ∈ timers (tm s) ∧
          ¬ (cb x = profile_switch_delay_cb_fn ∧
             psp_device <$> dl_mem (profile_switch_policies s) !! cb_data x
             = Some device)) ∧
    (∀ q, psp_device <$> dl_mem (profile_switch_policies s') !! q =
          if decide (psp_device <$> dl_mem (profile_switch_policies s) !! q
                     = Some device)
          then None
          else psp_device <$> dl_mem (profile_switch_policies s) !! q) ∧
    suspend_policies s' = suspend_policies s ∧
    conn_watch_policies s' = conn_watch_policies s ∧
    bt_devices s' = bt_devices s ∧
    hfp_ag_start_rc s' = hfp_ag_start_rc s ∧
    trace s' = trace s ∧ tm_now (tm s') = tm_now (tm s) ∧
    ((∀ p n, dl_mem (profile_switch_policies s) !! p = Some n →
             psp_device n ≠ device) → s' = s).
Proof.
  intros Htm Hps Hsp Hcw. pose proof Hps as [Hwf Hu Ht Ho].
  destruct (region_lookup_device psp_device _ _ _ device Hwf)
    as [(p & n & Hm & Hd)|Hno].
  - destruct (region_search_some PROFILE_SWITCH psp_device s lp (brk s)
                device p n) as (Hrun & Hnn & Hin); [done..|].
    destruct (region_remove _ _ _ _ Hwf Hin)
      as (d1 & l' & n1 & Hdel & Hm1 & Hwf' & Hl' & Hrel).
    assert (Hpay : psp_payload <$> delete p (dl_mem d1) =
              delete p (psp_payload <$> dl_mem (profile_switch_policies s))).
    { by rewrite fmap_delete, (psp_mem_relinked _ _ Hrel). }
    assert (Htmr : psp_timer n1 = psp_timer n).
    { destruct (payload_lookup psp_payload _ _ _ _
                  (psp_mem_relinked _ _ Hrel) Hm) as (n' & Hn' & Hpn).
      rewrite Hm1 in Hn'. injection Hn' as <-.
      by apply psp_payload_inv in Hpn as (_ & ?). }
    set (s' := set_profile_switch_policies
                 {| dl_head := dl_head d1; dl_mem := delete p (dl_mem d1) |}
                 (set_tm (cras_tm_cancel_timer (tm s) (psp_timer n)) s)).
    assert (HT : ∀ x, x ∈ timers (tm s') ↔
              x ∈ timers (tm s) ∧
              ¬ (cb x = profile_switch_delay_cb_fn ∧
                 psp_device <$> dl_mem (profile_switch_policies s) !! cb_data x
                 = Some device)).
    { exact (cancelled_timers_owned psp_device psp_timer _ _ _ p n device
               Htm Hu Ht Ho Hm Hd). }
    exists p, s', l'. split; [exact Hrun|]. split.
    { rewrite decide_False by done.
      mstep by (by apply unlink_run).
      mstep by (apply deref_run; exact Hm1). mrun.
      rewrite (free_run PROFILE_SWITCH _ _ n1) by done.
      by rewrite Htmr. }
    split; [by apply tm_wf_cancel|]. split.
    { eapply (profile_switch_inv_remove s); try done.
      intros x. apply elem_of_cancel_timer. }
    split.
    { apply (suspend_inv_frame s); [done|done| |done].
      intros x Hx. rewrite HT. split; [tauto|]. intros Hin'.
      split; [done|]. intros [Hc _]. congruence. }
    split.
    { apply (conn_watch_inv_frame s); [done|done|done| |done].
      intros x Hx. left. by apply HT. }
    split; [exact HT|]. split.
    { exact (payload_delete_dev_lookup psp_payload psp_device
               psp_payload_device _ _ _ _ _ Hu Hm Hd Hpay). }
    do 6 (split; [done|]). intros Hno. by destruct (Hno _ _ Hm).
  - exists NULL, s, lp. split; [by eapply region_search_none|].
    split; [by rewrite decide_True|].
    do 4 (split; [done|]). split; [by apply no_timer_of_device|].
    split; [by apply no_device_lookup|]. done.
Qed.

(** The second part: [cancel_suspend]. *)
Lemma cancel_suspend_stage s lp ls lw device :
  tm_wf (tm s) → profile_switch_inv s lp → suspend_inv s ls →
  conn_watch_inv s lw →
  ∃ s' ls',
    cancel_suspend device s = Ok (tt, s') ∧
    tm_wf (tm s') ∧ profile_switch_inv s' lp ∧ suspend_inv s' ls' ∧
    conn_watch_inv s' lw ∧
    (∀ x, x ∈ timers (tm s') ↔
          x ∈ timers (tm s) ∧
          ¬ (cb x = suspend_cb_fn ∧
             sp_device <$> dl_mem (suspend_policies s) !! cb_data x
             = Some device)) ∧
    (∀ q, sp_device <$> dl_mem (suspend_policies s') !! q =
          if decide (sp_device <$> dl_mem (suspend_policies s) !! q
                     = Some device)
          then None
          else sp_device <$> dl_mem (suspend_policies s) !! q) ∧
    profile_switch_policies s' = profile_switch_policies s ∧
    conn_watch_policies s' = conn_watch_policies s ∧
    bt_devices s' = bt_devices s ∧
    hfp_ag_start_rc s' = hfp_ag_start_rc s ∧
    trace s' = trace s ∧ tm_now (tm s') = tm_now (tm s) ∧
    ((∀ p n, dl_mem (suspend_policies s) !! p = Some n →
             sp_device n ≠ device) → s' = s).
Proof.
  intros Htm Hps Hsp Hcw. pose proof Hsp as [Hwf Hu Ht Ho].
  destruct (suspend_lookup_device _ _ device Hsp) as [(p & n & Hm & Hd)|Hno].
  - destruct (cancel_suspend_some _ _ _ _ _ Htm Hsp Hm Hd)
      as (d' & l' & Hrun & Hpay & Hsp').
    match type of Hrun with _ = Ok (_, ?st) => set (s' := st) in * end.
    assert (HT : ∀ x, x ∈ timers (tm s') ↔
              x ∈ timers (tm s) ∧
              ¬ (cb x = suspend_cb_fn ∧
                 sp_device <$> dl_mem (suspend_policies s) !! cb_data x
                 = Some device)).
    { exact (cancelled_timers_owned sp_device sp_timer _ _ _ p n device
               Htm Hu Ht Ho Hm Hd). }
    exists s', l'. split; [done|]. split; [by apply tm_wf_cancel|]. split.
    { apply (profile_switch_inv_frame s); [done|done| |done].
      intros x Hx. rewrite HT. split; [tauto|]. intros Hin'.
      split; [done|]. intros [Hc _]. congruence. }
    split; [done|]. split.
    { apply (conn_watch_inv_frame s); [done|done|done| |done].
      intros x Hx. left. by apply HT. }
    split; [exact HT|]. split.
    { exact (payload_delete_dev_lookup sp_payload sp_device
               sp_payload_device _ _ _ _ _ Hu Hm Hd Hpay). }
    do 6 (split; [done|]). intros Hno. by destruct (Hno _ _ Hm).
  - exists s, ls. split; [by eapply cancel_suspend_none|].
    do 4 (split; [done|]). split; [by apply no_timer_of_device|].
    split; [by apply no_device_lookup|]. done.
Qed.

(** The third part: [cras_bt_policy_stop_connection_watch]. *)
Lemma stop_connection_watch_stage s lp ls lw device :
  tm_wf (tm s) → profile_switch_inv s lp → suspend_inv s ls →
  conn_watch_inv s lw →
  ∃ s' lw',
    cras_bt_policy_stop_connection_watch device s = Ok (0, s') ∧
    tm_wf (tm s') ∧ profile_switch_inv s' lp ∧ suspend_inv s' ls ∧
    conn_watch_inv s' lw' ∧
    (∀ x, x ∈ timers (tm s') ↔
          x ∈ timers (tm s) ∧
          ¬ (cb x = conn_watch_cb_fn ∧
             cw_device <$> dl_mem (conn_watch_policies s) !! cb_data x
             = Some device)) ∧
    (∀ q, cw_device <$> dl_mem (conn_watch_policies s') !! q =
          if decide (cw_device <$> dl_mem (conn_watch_policies s) !! q
                     = Some device)
          then None
          else cw_device <$> dl_mem (conn_watch_policies s) !! q) ∧
    profile_switch_policies s' = profile_switch_policies s ∧
    suspend_policies s' = suspend_policies s ∧
    bt_devices s' = bt_devices s ∧
    hfp_ag_start_rc s' = hfp_ag_start_rc s ∧
    trace s' = trace s ∧ tm_now (tm s') = tm_now (tm s) ∧
    ((∀ p n, dl_mem (conn_watch_policies s) !! p = Some n →
             cw_device n ≠ device) → s' = s).
Proof.
  intros Htm Hps Hsp Hcw. pose proof Hcw as [Hwf Hu Ho Hf Hb].
  destruct (region_lookup_device cw_device _ _ _ device Hwf)
    as [(p & n & Hm & Hd)|Hno].
  - destruct (stop_connection_watch_some _ _ _ _ _ _ Htm Hsp Hcw Hm Hd)
      as (d' & l' & Hrun & Hpay & Hsp' & Hcw').
    match type of Hrun with _ = Ok (_, ?st) => set (s' := st) in * end.
    assert (HT : ∀ x, x ∈ timers (tm s') ↔
              x ∈ timers (tm s) ∧
              ¬ (cb x = conn_watch_cb_fn ∧
                 cw_device <$> dl_mem (conn_watch_policies s) !! cb_data x
                 = Some device)).
    { intros x. cbn [tm s' set_tm set_conn_watch_policies].
      rewrite elem_of_cancel_timer.
      split; intros [Hx Hne]; (split; [done|]).
      - intros [Hc Hdev]. apply Hne.
        destruct (Ho _ Hx Hc) as (n' & Hm' & Hid'). rewrite Hm' in Hdev.
        injection Hdev as Hdev.
        assert (cb_data x = p) as Hp by (eapply Hu; [done..|congruence]).
        rewrite Hp, Hm in Hm'. by injection Hm' as <-.
      - intros Hid. apply Hne. destruct (Hf _ _ _ Hm Hx Hid) as [Hc Hcd].
        split; [done|]. by rewrite Hcd, Hm; simpl; rewrite Hd. }
    exists s', l'. split; [done|]. split; [by apply tm_wf_cancel|]. split.
    { apply (profile_switch_inv_frame s); [done|done| |done].
      intros x Hx. rewrite HT. split; [tauto|]. intros Hin'.
      split; [done|]. intros [Hc _]. congruence. }
    do 2 (split; [done|]). split; [exact HT|]. split.
    { exact (payload_delete_dev_lookup cw_payload cw_device
               cw_payload_device _ _ _ _ _ Hu Hm Hd Hpay). }
    do 6 (split; [done|]). intros Hno. by destruct (Hno _ _ Hm).
  - exists s, lw. split.
    { unfold cras_bt_policy_stop_connection_watch.
      mstep by (by eapply region_search_none). by rewrite decide_True. }
    do 4 (split; [done|]). split; [by apply no_timer_of_device|].
    split; [by apply no_device_lookup|]. done.
Qed.

(** The devices with a record on a list from which the record of [device]
    has been freed. *)
Lemma cleared_devices {T : Type} (dev : T → ptr) (m m' : gmap N T) device :
  (∀ q, dev <$> m' !! q =
        if decide (dev <$> m !! q = Some device) then None
        else dev <$> m !! q) →
  ∀ device',
    (∃ p n, m' !! p = Some n ∧ dev n = device') ↔
    (∃ p n, m !! p = Some n ∧ dev n = device') ∧ device' ≠ device.
Proof.
  intros HD device'. split.
  - intros (p & n & Hm & Hd). specialize (HD p). rewrite Hm in HD.
    case_decide as Hq; [done|].
    destruct (m !! p) as [n0|] eqn:Hn0; [|done]. injection HD as HD.
    split; [exists p, n0; split; [done|congruence]|].
    intros ->. apply Hq. simpl. congruence.
  - intros [(p & n & Hm & Hd) Hne]. specialize (HD p). rewrite Hm in HD.
    rewrite decide_False in HD by (simpl; congruence).
    destruct (m' !! p) as [n'|] eqn:Hn'; [|done]. injection HD as HD.
    exists p, n'. split; [done|congruence].
Qed.

(** [cras_bt_policy_remove_device] returns on every state that satisfies
    the invariant of the engine, and keeps the invariant.  Afterwards the
    device has no record on any of the three lists, and the pending timers
    are exactly those that were pending and did not act on the device: no
    profile switch, suspend or connection watch fires for a removed
    device.  Whatever was pending for other devices still is, and every
    remaining timer acts on the same device as before.  No collaborator is
    called (a pending profile switch is dropped without resuming the output
    iodev), the device structs and the clock are untouched, and the state is
    unchanged when nothing was pending for the device. *)
Theorem remove_device_clears s device :
  engine_inv s →
  ∃ s',
    cras_bt_policy_remove_device device s = Ok (tt, s') ∧
    engine_inv s' ∧
    ¬ device_pending s' device ∧
    (∀ device', device' ≠ device →
       device_pending s' device' ↔ device_pending s device') ∧
    (∀ x, x ∈ timers (tm s') ↔
          x ∈ timers (tm s) ∧ timer_device s x ≠ Some device) ∧
    (∀ x, x ∈ timers (tm s') → timer_device s' x = timer_device s x) ∧
    bt_devices s' = bt_devices s ∧ trace s' = trace s ∧
    tm_now (tm s') = tm_now (tm s) ∧
    (¬ device_pending s device → s' = s).
Proof.
  intros [(Htm & (ls & Hsp) & (lw & Hcw)) (lp & Hps)].
  destruct (remove_profile_switch_stage s lp ls lw device Htm Hps Hsp Hcw)
    as (p1 & s1 & lp1 & Hfind1 & Hrun1 & Htm1 & Hps1 & Hsp1 & Hcw1 & HT1 & HD1 & Hsps1
        & Hcws1 & Hdev1 & Hrc1 & Htr1 & Hnow1 & Hid1).
  destruct (cancel_suspend_stage s1 lp1 ls lw device Htm1 Hps1 Hsp1 Hcw1)
    as (s2 & ls2 & Hrun2 & Htm2 & Hps2 & Hsp2 & Hcw2 & HT2 & HD2 & Hpss2
        & Hcws2 & Hdev2 & Hrc2 & Htr2 & Hnow2 & Hid2).
  destruct (stop_connection_watch_stage s2 lp1 ls2 lw device Htm2 Hps2 Hsp2
              Hcw2)
    as (s3 & lw3 & Hrun3 & Htm3 & Hps3 & Hsp3 & Hcw3 & HT3 & HD3 & Hpss3
        & Hsps3 & Hdev3 & Hrc3 & Htr3 & Hnow3 & Hid3).
  rewrite Hsps1 in HD2, HT2, Hid2. rewrite Hcws2, Hcws1 in HD3, HT3, Hid3.
  assert (HP : ∀ device',
    device_pending s3 device' ↔ device_pending s device' ∧ device' ≠ device).
  { intros device'. unfold device_pending.
    rewrite Hpss3, Hpss2, Hsps3.
    rewrite (cleared_devices psp_device _ _ _ HD1 device'),
      (cleared_devices sp_device _ _ _ HD2 device'),
      (cleared_devices cw_device _ _ _ HD3 device').
    tauto. }
  assert (HT : ∀ x, x ∈ timers (tm s3) ↔
            x ∈ timers (tm s) ∧ timer_device s x ≠ Some device).
  { intros x. rewrite HT3, HT2, HT1. unfold timer_device.
    destruct (cb x); naive_solver. }
  exists s3. split.
  { unfold cras_bt_policy_remove_device. mstep by exact Hfind1.
    mstep by exact Hrun1.
    mstep by exact Hrun2. mstep by exact Hrun3. reflexivity. }
  split.
  { split; [|by exists lp1]. split; [done|]. split; [by exists ls2|].
    by exists lw3. }
  split; [intros Hp%HP; tauto|].
  split; [intros device' Hne; rewrite HP; tauto|].
  split; [exact HT|]. split.
  { intros x [Hx Hdev]%HT. unfold timer_device in *.
    rewrite Hpss3, Hpss2, Hsps3.
    destruct (cb x); [rewrite HD1|rewrite HD2|rewrite HD3];
      by rewrite decide_False. }
  split; [congruence|]. split; [congruence|]. split; [congruence|].
  intros Hno.
  assert (s1 = s) as ->.
  { apply Hid1. intros p n Hm Hd. apply Hno. left. eauto. }
  assert (s2 = s) as ->.
  { apply Hid2. intros p n Hm Hd. apply Hno. right. left. eauto. }
  apply Hid3. intros p n Hm Hd. apply Hno. right. right. eauto.
Qed.

(** ** The invariant of the whole engine *)

(** The profile-switch list after a record has been allocated for a device
    that had none. *)
Lemma profile_switch_inv_new s s' l device :
  tm_wf (tm s) → profile_switch_inv s l →
  (∀ p n, dl_mem (profile_switch_policies s) !! p = Some n →
          psp_device n ≠ device) →
  region_wf (brk s') (profile_switch_policies s') (l ++ [brk s]) →
  psp_payload <$> dl_mem (profile_switch_policies s') =
    <[brk s := (device, tm_next_id (tm s))]>
      (psp_payload <$> dl_mem (profile_switch_policies s)) →
  tm s' = (cras_tm_create_timer (tm s) PROFILE_SWITCH_DELAY_MS
             profile_switch_delay_cb_fn (brk s)).1 →
  profile_switch_inv s' (l ++ [brk s]).
Proof.
  intros Htm [Hwf Hu Ht Ho] Hno Hwf' Hpay Htm'. split; rewrite ?Htm'.
  - done.
  - intros p q n n' Hp Hq Hd.
    destruct (payload_insert_inv _ _ _ _ _ _ _ Hpay Hp)
      as [[-> Hx]|[Hne (m & Hm & Hx)]],
      (payload_insert_inv _ _ _ _ _ _ _ Hpay Hq)
      as [[-> Hy]|[Hne' (m' & Hm' & Hy)]]; try done.
    + unfold psp_payload in Hx, Hy. destruct (Hno _ _ Hm'). congruence.
    + unfold psp_payload in Hx, Hy. destruct (Hno _ _ Hm). congruence.
    + eapply Hu; [done..|]. unfold psp_payload in Hx, Hy. congruence.
  - intros p n Hp.
    destruct (payload_insert_inv _ _ _ _ _ _ _ Hpay Hp)
      as [[-> Hx]|[Hne (m & Hm & Hx)]].
    + eexists. split; [apply elem_of_create_timer; by right|].
      unfold psp_payload in Hx. simpl. split; [congruence|done].
    + destruct (Ht _ _ Hm) as (t & Hin & Hid & Hc & Hdata).
      exists t. split; [apply elem_of_create_timer; by left|].
      unfold psp_payload in Hx. split; [congruence|done].
  - intros t [Hin| ->]%elem_of_create_timer Hc.
    + destruct (Ho _ Hin Hc) as (n & Hm & Hid).
      assert (cb_data t ≠ brk s) as Hne.
      { intros Heq. rewrite Heq, (region_wf_fresh _ _ _ Hwf) in Hm. done. }
      destruct (payload_insert_old _ _ _ _ _ _ _ Hpay Hm Hne)
        as (n' & Hm' & Hx).
      exists n'. split; [done|]. unfold psp_payload in Hx. congruence.
    + simpl. destruct (payload_insert_new _ _ _ _ _ Hpay) as (n' & Hm' & Hx).
      exists n'. split; [done|]. unfold psp_payload in Hx. congruence.
Qed.

(** [switch_profile_with_delay] for a device without a pending profile
    switch. *)
Lemma switch_profile_with_delay_engine s device :
  engine_inv s →
  (∀ p n, dl_mem (profile_switch_policies s) !! p = Some n →
          psp_device n ≠ device) →
  ∃ s' n,
    switch_profile_with_delay device s = Ok (tt, s') ∧
    engine_inv s' ∧
    dl_mem (profile_switch_policies s') !! brk s = Some n ∧
    psp_payload n = (device, tm_next_id (tm s)) ∧
    (∀ q, q ≠ brk s →
       psp_device <$> dl_mem (profile_switch_policies s') !! q =
       psp_device <$> dl_mem (profile_switch_policies s) !! q) ∧
    dl_mem (profile_switch_policies s) !! brk s = None ∧
    tm s' = (cras_tm_create_timer (tm s) PROFILE_SWITCH_DELAY_MS
               profile_switch_delay_cb_fn (brk s)).1 ∧
    suspend_policies s' = suspend_policies s ∧
    conn_watch_policies s' = conn_watch_policies s ∧
    bt_devices s' = bt_devices s ∧
    hfp_ag_start_rc s' = hfp_ag_start_rc s ∧
    trace s' = trace s.
Proof.
  intros [Hpol (l & Hps)] Hno. pose proof Hps as [Hwf Hu Ht Ho].
  pose proof Hpol as (Htm & _).
  destruct (switch_profile_with_delay_new s l device Hwf)
    as (s' & Hrun & Hwf' & Hpay & Htm' & Hbrk & Hsps & Hcws & Hdev & Hrc
        & Htr).
  { by apply (dl_find_NULL_mem _ _ psp_device device _ Hwf). }
  destruct (payload_insert_new _ _ _ _ _ Hpay) as (n & Hn & Hpn).
  exists s', n. split; [done|]. split.
  { split; [|exists (l ++ [brk s]); by eapply profile_switch_inv_new].
    apply (policy_inv_switch s); [done| | done | done | | | |].
    - rewrite Htm'. by apply tm_wf_create.
    - lia.
    - rewrite Htm'. simpl. lia.
    - intros x Hc. rewrite Htm', elem_of_create_timer.
      split; [|tauto]. intros [?| ->]; [done|]. by destruct Hc.
    - intros x Hx _. rewrite Htm' in Hx.
      apply elem_of_create_timer in Hx as [?| ->]; [by left|right].
      simpl. lia. }
  do 2 (split; [done|]). split.
  { intros q Hq.
    exact (payload_insert_device psp_payload psp_device psp_payload_device
             _ _ _ _ _ Hpay Hq). }
  split; [by eapply region_wf_fresh|]. done.
Qed.

Lemma engine_inv_trace s v : engine_inv s → engine_inv (set_trace v s).
Proof.
  intros [Hpol (l & Hps)]. split; [by apply policy_inv_trace|].
  exists l. by apply (profile_switch_inv_frame s).
Qed.

(** [switch_profile] for a device without a pending profile switch. *)
Lemma switch_profile_engine s device bt_iodev :
  engine_inv s →
  (∀ p n, dl_mem (profile_switch_policies s) !! p = Some n →
          psp_device n ≠ device) →
  ∃ s',
    switch_profile device bt_iodev s = Ok (tt, s') ∧
    engine_inv s' ∧
    suspend_policies s' = suspend_policies s ∧
    conn_watch_policies s' = conn_watch_policies s ∧
    bt_devices s' = bt_devices s ∧
    hfp_ag_start_rc s' = hfp_ag_start_rc s ∧
    match bt_iodevs (bt_devices s device) CRAS_STREAM_OUTPUT with
    | None =>
        tm s' = tm s ∧ profile_switch_policies s' = profile_switch_policies s
    | Some _ =>
        ∃ n,
          dl_mem (profile_switch_policies s') !! brk s = Some n ∧
          psp_payload n = (device, tm_next_id (tm s)) ∧
          (∀ q, q ≠ brk s →
             psp_device <$> dl_mem (profile_switch_policies s') !! q =
             psp_device <$> dl_mem (profile_switch_policies s) !! q) ∧
          dl_mem (profile_switch_policies s) !! brk s = None ∧
          tm s' = (cras_tm_create_timer (tm s) PROFILE_SWITCH_DELAY_MS
                     profile_switch_delay_cb_fn (brk s)).1
    end.
Proof.
  intros Hinv Hno. unfold switch_profile. cbn [for_each CRAS_NUM_DIRECTIONS].
  destruct (bt_iodevs (bt_devices s device) CRAS_STREAM_OUTPUT)
    as [out|] eqn:Hout;
    destruct (bt_iodevs (bt_devices s device) CRAS_STREAM_INPUT)
      as [inp|] eqn:Hinp.
  - set (s1 := set_trace
                 ((trace s ++
                   [E_cras_iodev_list_suspend_dev (idx (info out))]) ++
                  [E_cras_iodev_list_suspend_dev (idx (info inp))]) s).
    destruct (switch_profile_with_delay_engine s1 device)
      as (s2 & n & Hrun & Hinv2 & Hn & Hpn & Hq & Hfresh & Htm2 & Hsps & Hcws
          & Hdev & Hrc & Htr); [by apply engine_inv_trace|done|].
    eexists. split.
    { mstep by ((mstep by (mrun; rewrite Hout; reflexivity));
                (mstep by (mrun; cbn [bt_devices set_trace]; rewrite Hinp;
                           reflexivity));
                reflexivity).
      mstep by (mrun; cbn [bt_devices set_trace]; rewrite Hout; exact Hrun).
      mstep by (mrun; rewrite Hdev; cbn [bt_devices s1 set_trace];
                rewrite Hinp; reflexivity).
      reflexivity. }
    split; [by repeat apply engine_inv_trace|].
    cbn [suspend_policies conn_watch_policies bt_devices hfp_ag_start_rc tm
         profile_switch_policies set_trace].
    do 4 (split; [done|]). by exists n.
  - set (s1 := set_trace
                 (trace s ++
                   [E_cras_iodev_list_suspend_dev (idx (info out))]) s).
    destruct (switch_profile_with_delay_engine s1 device)
      as (s2 & n & Hrun & Hinv2 & Hn & Hpn & Hq & Hfresh & Htm2 & Hsps & Hcws
          & Hdev & Hrc & Htr); [by apply engine_inv_trace|done|].
    eexists. split.
    { mstep by ((mstep by (mrun; rewrite Hout; reflexivity));
                (mstep by (mrun; cbn [bt_devices set_trace]; rewrite Hinp;
                           reflexivity));
                reflexivity).
      mstep by (mrun; cbn [bt_devices set_trace]; rewrite Hout; exact Hrun).
      mstep by (mrun; rewrite Hdev; cbn [bt_devices s1 set_trace];
                rewrite Hinp; reflexivity).
      reflexivity. }
    split; [done|]. do 4 (split; [done|]). by exists n.
  - eexists. split.
    { mstep by ((mstep by (mrun; rewrite Hout; reflexivity));
                (mstep by (mrun; cbn [bt_devices set_trace]; rewrite Hinp;
                           reflexivity));
                reflexivity).
      mstep by (mrun; cbn [bt_devices set_trace]; rewrite Hout; reflexivity).
      mstep by (mrun; cbn [bt_devices set_trace];
                rewrite Hinp; reflexivity).
      reflexivity. }
    split; [by repeat apply engine_inv_trace|]. done.
  - eexists. split.
    { mstep by ((mstep by (mrun; rewrite Hout; reflexivity));
                (mstep by (mrun; cbn [bt_devices set_trace]; rewrite Hinp;
                           reflexivity));
                reflexivity).
      mstep by (mrun; cbn [bt_devices set_trace]; rewrite Hout; reflexivity).
      mstep by (mrun; cbn [bt_devices set_trace];
                rewrite Hinp; reflexivity).
      reflexivity. }
    split; [exact Hinv|]. done.
Qed.

Lemma schedule_suspend_engine s device msec r :
  engine_inv s →
  ∃ s', schedule_suspend device msec r s = Ok (tt, s') ∧ engine_inv s' ∧
        suspend_frame s s'.
Proof.
  intros [(Htm & (ls & Hsp) & (lw & Hcw)) (lp & Hps)].
  destruct (schedule_suspend_spec s ls device msec r Htm Hsp)
    as (s1 & l1 & p & n & t & Hrun & Htm1 & Hsp1 & _).
  pose proof (schedule_suspend_frame s ls device msec r s1 Htm Hsp Hrun)
    as Hf.
  pose proof Hf as [Hfps Hfcw Hfdev Hfrc Hftr Hfnow Hfbrk Hfnext Hfold Hfnew].
  exists s1. split; [done|]. split; [|done].
  split; [split; [done|split; [by exists l1|exists lw]]|exists lp].
  - apply (conn_watch_inv_frame s); [done..| |done].
    intros x Hx. destruct (Hfnew _ Hx) as [?|[Hc ?]]; [by left|right].
    split; [congruence|done].
  - apply (profile_switch_inv_frame s); [done..| |done].
    intros x Hc. split; [|by apply Hfold].
    intros Hx. destruct (Hfnew _ Hx) as [?|[Hc' ?]]; [done|congruence].
Qed.

Lemma cancel_suspend_engine s device :
  engine_inv s →
  ∃ s', cancel_suspend device s = Ok (tt, s') ∧ engine_inv s'.
Proof.
  intros [(Htm & (ls & Hsp) & (lw & Hcw)) (lp & Hps)].
  destruct (cancel_suspend_stage s lp ls lw device Htm Hps Hsp Hcw)
    as (s' & ls' & Hrun & Htm' & Hps' & Hsp' & Hcw' & _).
  exists s'. split; [done|].
  split; [split; [done|split; [by exists ls'|by exists lw]]|by exists lp].
Qed.

Lemma start_connection_watch_engine s device :
  engine_inv s →
  ∃ s', cras_bt_policy_start_connection_watch device s = Ok (0, s') ∧
        engine_inv s' ∧
        profile_switch_policies s' = profile_switch_policies s.
Proof.
  intros [(Htm & (ls & Hsp) & (lw & Hcw)) (lp & Hps)].
  destruct (start_connection_watch_spec s lw device Htm Hcw)
    as (s1 & l1 & p & n & Hrun & Htm1 & Hcw1 & _ & _ & _ & _ & _ & Hpss
        & Hsps & _ & _ & _ & Hbrk & Hother & _).
  exists s1. split; [done|]. split; [|done].
  split; [split; [done|split; [exists ls|by exists l1]]|exists lp].
  - apply (suspend_inv_frame s); [done..| |done].
    intros x Hx. apply Hother. congruence.
  - apply (profile_switch_inv_frame s); [done..| |done].
    intros x Hx. apply Hother. congruence.
Qed.

(** Any pending timer can fire: its callback finds its record, returns,
    and leaves the invariant in place. *)
Lemma fire_engine s t :
  engine_inv s → t ∈ timers (tm s) →
  ∃ s',
    cras_tm_fire t s = Ok (tt, s') ∧ engine_inv s' ∧
    tm_now (tm s') = Z.max (tm_now (tm s)) (ts t) ∧
    bt_devices s' = bt_devices s.
Proof.
  intros [Hpol (lp & Hps)] Hin.
  destruct (decide (cb t = profile_switch_delay_cb_fn)) as [Hc|Hc].
  - pose proof Hps as [Hwf Hu Ht Ho]. pose proof Hpol as (Htm & _).
    destruct (Ho _ Hin Hc) as (n & Hm & Hid).
    destruct (profile_switch_fire s lp t n Hwf Hc Hm)
      as (s' & l' & Hrun & _ & Hwf' & _ & Hpay & Htm' & Hbrk & Hsps & Hcws
          & Hdev & _).
    assert (Hother : ∀ x, cb x ≠ profile_switch_delay_cb_fn →
              x ∈ timers (tm s') ↔ x ∈ timers (tm s)).
    { intros x Hx. rewrite Htm', elem_of_expire. split; [tauto|].
      intros Hxin. split; [done|]. intros Heq. apply Hx.
      by rewrite (timer_id_inj _ _ _ Htm Hxin Hin Heq). }
    exists s'. split; [done|]. split; [split|].
    + apply (policy_inv_switch s); [done| |done|done| | |done|].
      * rewrite Htm'. by apply tm_wf_expire.
      * lia.
      * by rewrite Htm'.
      * intros x Hx _. left. rewrite Htm' in Hx.
        by apply elem_of_expire in Hx as [? _].
    + exists l'. apply (profile_switch_inv_remove s s' lp l' (cb_data t) n);
        [done..|by rewrite <- Hbrk| done |].
      intros x. rewrite Htm', Hid. apply elem_of_expire.
    + by rewrite Htm', Hdev.
  - destruct (fire_other s t Hpol Hin Hc)
      as (s' & Hrun & Hpol' & Hnow & Hpss & Hdev & Hbrk & Htf).
    exists s'. split; [done|]. split; [|done]. split; [done|].
    exists lp. apply (profile_switch_inv_frame s); [done..| |done].
    intros x Hx.
    pose proof (timers_for_elem profile_switch_delay_cb_fn (tm s') x) as H1.
    pose proof (timers_for_elem profile_switch_delay_cb_fn (tm s) x) as H2.
    rewrite Htf in H1. tauto.
Qed.

(** The main loop can run from every state that satisfies the invariant of
    the engine, for any number of iterations and whatever the device structs
    hold: each timer it fires carries a record that is still allocated, each
    callback ([profile_switch_delay_cb], [suspend_cb], [conn_watch_cb])
    returns, and the invariant holds again when the loop stops.  The clock
    does not go back. *)
Theorem main_loop_keeps_engine_inv limits :
  ∀ s, engine_inv s →
  ∃ fired s',
    main_loop limits s = Ok (fired, s') ∧ engine_inv s' ∧
    tm_now (tm s) ≤ tm_now (tm s') ∧ bt_devices s' = bt_devices s.
Proof.
  induction limits as [|limit limits IH]; intros s Hinv.
  { exists [], s. split; [done|]. split; [done|]. split; [lia|done]. }
  assert (Hstep : ∃ o s1,
    main_loop_step limit s = Ok (o, s1) ∧ engine_inv s1 ∧
    tm_now (tm s) ≤ tm_now (tm s1) ∧ bt_devices s1 = bt_devices s).
  { assert (Hsleep : ∀ now,
      engine_inv (set_tm {| tm_now := now; tm_next_id := tm_next_id (tm s);
                            timers := timers (tm s) |} s)).
    { intros now. destruct Hinv as [Hpol (lp & Hps)].
      split; [by apply policy_inv_sleep|]. exists lp.
      by apply (profile_switch_inv_frame s). }
    unfold main_loop_step. mrun. unfold cras_tm_next.
    destruct (earliest (timers (tm s))) as [x|] eqn:Hx.
    - destruct (earliest_Some _ _ Hx) as [Hxin _].
      destruct (Z.leb_spec (ts x) limit) as [Hle|Hgt].
      + destruct (fire_engine s x Hinv Hxin)
          as (s1 & Hrun & Hinv1 & Hnow & Hdev).
        exists (Some x), s1. split; [by mstep by exact Hrun|].
        split; [done|]. split; [lia|done].
      + eexists None, _. split; [by mrun|]. split; [apply Hsleep|].
        split; [simpl; lia|done].
    - eexists None, _. split; [by mrun|]. split; [apply Hsleep|].
      split; [simpl; lia|done]. }
  destruct Hstep as (o & s1 & Hstep & Hinv1 & Hnow1 & Hdev1).
  destruct (IH s1 Hinv1) as (fired & s2 & Hrest & Hinv2 & Hnow2 & Hdev2).
  eexists _, s2. split; [exact (main_loop_cons _ _ _ _ _ _ _ Hstep Hrest)|].
  split; [done|]. split; [lia|congruence].
Qed.

(** The message handler [process_bt_policy_msg] returns and keeps the
    invariant of the engine for every schedule-suspend and cancel-suspend
    message, and for every switch-profile message whose device has no
    profile switch pending. *)
Theorem process_bt_policy_msg_keeps_engine_inv s policy_msg :
  engine_inv s →
  (cmd policy_msg = BT_POLICY_SWITCH_PROFILE →
   ∀ p n, dl_mem (profile_switch_policies s) !! p = Some n →
          psp_device n ≠ msg_device policy_msg) →
  ∃ s',
    process_bt_policy_msg policy_msg s = Ok (tt, s') ∧ engine_inv s' ∧
    bt_devices s' = bt_devices s ∧
    conn_watch_policies s' = conn_watch_policies s ∧
    tm_now (tm s') = tm_now (tm s).
Proof.
  intros Hinv Hno. unfold process_bt_policy_msg.
  destruct (cmd policy_msg).
  - destruct (switch_profile_engine s (msg_device policy_msg)
                (msg_dev policy_msg) Hinv (Hno eq_refl))
      as (s' & Hrun & Hinv' & _ & Hcws & Hdev & _ & Hout).
    exists s'. do 4 (split; [done|]).
    destruct (bt_iodevs _ _); [|by destruct Hout as [-> _]].
    destruct Hout as (n & _ & _ & _ & _ & ->). done.
  - destruct (schedule_suspend_engine s (msg_device policy_msg)
                (arg1 policy_msg) (arg2 policy_msg) Hinv)
      as (s' & Hrun & Hinv' & [? ? ? ? ? ? ? ? ? ?]).
    by exists s'.
  - destruct Hinv as [(Htm & (ls & Hsp) & (lw & Hcw)) (lp & Hps)].
    destruct (cancel_suspend_stage s lp ls lw (msg_device policy_msg)
                Htm Hps Hsp Hcw)
      as (s' & ls' & Hrun & Htm' & Hps' & Hsp' & Hcw' & _ & _ & _ & Hcws
          & Hdev & _ & _ & Hnow & _).
    exists s'. split; [done|]. split; [|done].
    split; [split; [done|split; [by exists ls'|by exists lw]]|by exists lp].
Qed.

(** [switch_profile] for a device that has an output iodev and no profile
    switch pending, on a state with any number of profile switches, suspends
    and connection watches pending for other devices: the call returns and
    keeps the invariant of the engine; the device gets its one record and
    its one timer, due 500 ms from now; every timer that was pending still
    is, and acts on the same device as before; the suspend and connection
    watch lists are untouched. *)
Theorem switch_profile_arms_new_device s device bt_iodev out :
  engine_inv s →
  (∀ p n, dl_mem (profile_switch_policies s) !! p = Some n →
          psp_device n ≠ device) →
  bt_iodevs (bt_devices s device) CRAS_STREAM_OUTPUT = Some out →
  ∃ s' p n t,
    switch_profile device bt_iodev s = Ok (tt, s') ∧ engine_inv s' ∧
    records_of psp_device device (profile_switch_policies s') = [p] ∧
    dl_mem (profile_switch_policies s') !! p = Some n ∧
    timers_of profile_switch_delay_cb_fn p (tm s') = [t] ∧
    timer_id t = psp_timer n ∧
    ts t = tm_now (tm s) + PROFILE_SWITCH_DELAY_MS ∧
    timer_device s' t = Some device ∧
    (∀ x, x ∈ timers (tm s') ↔ x ∈ timers (tm s) ∨ x = t) ∧
    (∀ x, x ∈ timers (tm s) → timer_device s' x = timer_device s x) ∧
    suspend_policies s' = suspend_policies s ∧
    conn_watch_policies s' = conn_watch_policies s ∧
    bt_devices s' = bt_devices s.
Proof.
  intros Hinv Hno Hout.
  destruct (switch_profile_engine s device bt_iodev Hinv Hno)
    as (s' & Hrun & Hinv' & Hsps & Hcws & Hdev & _ & Hnew).
  rewrite Hout in Hnew.
  destruct Hnew as (n & Hn & Hpn & Hq & Hfresh & Htm').
  unfold psp_payload in Hpn. injection Hpn as Hd Ht.
  destruct Hinv as [(Htm & _) (lp & [Hwf Hu Hti Ho])].
  pose proof Hinv' as [(Htm1 & _) (lp' & [Hwf' Hu' _ _])].
  set (t := {| timer_id := tm_next_id (tm s);
               ts := tm_now (tm s) + PROFILE_SWITCH_DELAY_MS;
               cb := profile_switch_delay_cb_fn; cb_data := brk s |}).
  assert (Hold : ∀ x, x ∈ timers (tm s) →
            cb x = profile_switch_delay_cb_fn → cb_data x ≠ brk s).
  { intros x Hx Hc Hcd. destruct (Ho _ Hx Hc) as (m & Hm & _). congruence. }
  assert (HT : ∀ x, x ∈ timers (tm s') ↔ x ∈ timers (tm s) ∨ x = t).
  { intros x. rewrite Htm'. apply elem_of_create_timer. }
  exists s', (brk s), n, t. do 2 (split; [done|]). split.
  { eapply records_of_one; [by eapply region_wf_dl_list|done| |done..].
    destruct Hwf' as (_ & _ & Hdom & _). apply Hdom. eauto. }
  split; [done|]. split.
  { apply timers_of_one; [done|apply HT; by right|done..|].
    intros y [Hy| ->]%HT Hc Hcd; [|done]. by destruct (Hold _ Hy Hc). }
  split; [done|]. split; [done|]. split.
  { unfold timer_device. cbn [cb cb_data t]. by rewrite Hn; simpl; rewrite Hd. }
  split; [exact HT|]. split; [|done].
  intros x Hx. unfold timer_device. rewrite Hsps, Hcws.
  destruct (cb x) eqn:Hc; [|done..]. apply Hq. by apply Hold.
Qed.

(** *** Sample states *)

Lemma sample_init_engine_inv : engine_inv sample_init.
Proof.
  split; [exact sample_init_policy_inv|]. exists []. split.
  - apply region_wf_empty.
  - by intros p q n n' Hp.
  - by intros p n Hp.
  - by intros t Ht%elem_of_nil.
Qed.

Lemma sample_busy_inv : engine_inv sample_busy.
Proof.
  destruct (start_connection_watch_engine sample_init 10%N
              sample_init_engine_inv) as (s1 & H1 & I1 & P1).
  destruct (schedule_suspend_engine s1 10%N 100 A2DP_LONG_TX_FAILURE I1)
    as (s2 & H2 & I2 & F2).
  destruct (switch_profile_engine s2 10%N None I2) as (s3 & H3 & I3 & _).
  { intros p n. by rewrite (sf_ps _ _ F2), P1. }
  destruct (schedule_suspend_engine s3 11%N 200 A2DP_TX_FATAL_ERROR I3)
    as (s4 & H4 & I4 & _).
  assert (s4 = sample_busy) as <-; [|exact I4].
  unfold sample_busy. mstep by exact H1. mstep by exact H2.
  mstep by exact H3. by rewrite H4.
Qed.

Lemma remove_device_clears_witness :
  let s := sample_busy in
  let device := 10%N in
  engine_inv s ∧
  ∃ s',
    cras_bt_policy_remove_device device s = Ok (tt, s') ∧
    engine_inv s' ∧
    ¬ device_pending s' device ∧
    (∀ device', device' ≠ device →
       device_pending s' device' ↔ device_pending s device') ∧
    (∀ x, x ∈ timers (tm s') ↔
          x ∈ timers (tm s) ∧ timer_device s x ≠ Some device) ∧
    (∀ x, x ∈ timers (tm s') → timer_device s' x = timer_device s x) ∧
    bt_devices s' = bt_devices s ∧ trace s' = trace s ∧
    tm_now (tm s') = tm_now (tm s) ∧
    (¬ device_pending s device → s' = s).
Proof.
  intros s device. split; [exact sample_busy_inv|].
  apply (remove_device_clears s device). exact sample_busy_inv.
Defined.

Lemma main_loop_keeps_engine_inv_witness :
  let s := sample_busy in
  let limits := [100; 500; 2000] in
  engine_inv s ∧
  ∃ fired s',
    main_loop limits s = Ok (fired, s') ∧ engine_inv s' ∧
    tm_now (tm s) ≤ tm_now (tm s') ∧ bt_devices s' = bt_devices s.
Proof.
  intros s limits. split; [exact sample_busy_inv|].
  apply (main_loop_keeps_engine_inv limits s). exact sample_busy_inv.
Defined.

Lemma process_bt_policy_msg_keeps_engine_inv_witness :
  let s := sample_busy in
  let policy_msg := {| cmd := BT_POLICY_SWITCH_PROFILE; msg_device := 11%N;
                       msg_dev := None; arg1 := 0;
                       arg2 := A2DP_LONG_TX_FAILURE |} in
  (engine_inv s ∧
   (cmd policy_msg = BT_POLICY_SWITCH_PROFILE →
    ∀ p n, dl_mem (profile_switch_policies s) !! p = Some n →
           psp_device n ≠ msg_device policy_msg)) ∧
  ∃ s',
    process_bt_policy_msg policy_msg s = Ok (tt, s') ∧ engine_inv s' ∧
    bt_devices s' = bt_devices s ∧
    conn_watch_policies s' = conn_watch_policies s ∧
    tm_now (tm s') = tm_now (tm s).
Proof.
  intros s policy_msg.
  assert (Hno : cmd policy_msg = BT_POLICY_SWITCH_PROFILE →
            ∀ p n, dl_mem (profile_switch_policies s) !! p = Some n →
                   psp_device n ≠ msg_device policy_msg).
  { intros _.
    apply (proj1 (map_Forall_lookup (λ _ n, psp_device n ≠ 11%N) _)).
    apply (bool_decide_unpack _). vm_compute. exact I. }
  split; [split; [exact sample_busy_inv|exact Hno]|].
  apply (process_bt_policy_msg_keeps_engine_inv s policy_msg).
  - exact sample_busy_inv.
  - exact Hno.
Defined.

Lemma switch_profile_arms_new_device_witness :
  let s := sample_busy in
  let device := 11%N in
  let out := sample_iodev 11 in
  (engine_inv s ∧
   (∀ p n, dl_mem (profile_switch_policies s) !! p = Some n →
           psp_device n ≠ device) ∧
   bt_iodevs (bt_devices s device) CRAS_STREAM_OUTPUT = Some out) ∧
  ∃ s' p n t,
    switch_profile device None s = Ok (tt, s') ∧ engine_inv s' ∧
    records_of psp_device device (profile_switch_policies s') = [p] ∧
    dl_mem (profile_switch_policies s') !! p = Some n ∧
    timers_of profile_switch_delay_cb_fn p (tm s') = [t] ∧
    timer_id t = psp_timer n ∧
    ts t = tm_now (tm s) + PROFILE_SWITCH_DELAY_MS ∧
    timer_device s' t = Some device ∧
    (∀ x, x ∈ timers (tm s') ↔ x ∈ timers (tm s) ∨ x = t) ∧
    (∀ x, x ∈ timers (tm s) → timer_device s' x = timer_device s x) ∧
    suspend_policies s' = suspend_policies s ∧
    conn_watch_policies s' = conn_watch_policies s ∧
    bt_devices s' = bt_devices s.
Proof.
  intros s device out.
  assert (Hno : ∀ p n, dl_mem (profile_switch_policies s) !! p = Some n →
                       psp_device n ≠ device).
  { apply (proj1 (map_Forall_lookup (λ _ n, psp_device n ≠ 11%N) _)).
    apply (bool_decide_unpack _). vm_compute. exact I. }
  assert (Hout : bt_iodevs (bt_devices s device) CRAS_STREAM_OUTPUT
                 = Some out) by (vm_compute; reflexivity).
  split; [split; [exact sample_busy_inv|split; [exact Hno|exact Hout]]|].
  apply (switch_profile_arms_new_device s device None out).
  - exact sample_busy_inv.
  - exact Hno.
  - exact Hout.
Defined.

(** ** The delayed callback of a profile switch *)


